(** * Dragon Seats optimization service: the planning core, embedded in Rocq

    The Python sources under [optimization-service/solver] are embedded
    function by function.  Conventions of the embedding:

    - [str] is [string]; [str | None] is [option string]; Python truthiness
      of a string ([if s:]) is [truthy];
    - [int] is [Z]; list lengths and indices are [nat];
    - a [float] that the code obtains from its inputs by arithmetic is an
      exact rational [Q]; a [float] that goes through [math.sin], [math.cos],
      [math.asin] or [math.sqrt] is a real number [R] (the inputs are
      injected with [Q2R]); [round(x, n)] is round-half-to-even at [n]
      decimals and lands in [Q] again;
    - where the code orders or averages by a sum of floats (the key of
      [nearest_hub], the demand weight of a cluster, the run average of
      [score_run]) the arithmetic is that of binary64: [Py.b64 x] is the
      double nearest to [x], and [Py.fadd], [Py.fsub], [Py.fmul], [Py.fdiv]
      round their operands and their result to it;
    - [set[str]] is [gset string], [dict[str, V]] is [gmap string V];
    - a dataclass is a record in a module of its own ([Hub.t], [Hub.id]);
      the functions of a source file live in a module named after the file;
    - an in-place update of an object is an explicit new value that is
      threaded through the caller. *)

From Stdlib Require Import String Ascii List ZArith QArith Qround Qabs Qpower Reals Lia Lqa Lra Bool.
From Stdlib Require Import DecimalString.
From stdpp Require Import gmap strings.
Import ListNotations.

Local Open Scope string_scope.
Local Open Scope Z_scope.
Local Open Scope list_scope.

(** ** Python primitives *)

Module Py.

(** [if s:] on a [str | None]. *)
Definition truthy (s : option string) : bool :=
  match s with
  | Some s => negb (String.eqb s "")
  | None => false
  end.

(** [a == b] on [str | None]. *)
Definition opt_str_eqb (a b : option string) : bool :=
  match a, b with
  | Some a, Some b => String.eqb a b
  | None, None => true
  | _, _ => false
  end.

(** [x in s] on a [set[str]]. *)
Definition mem (x : string) (s : gset string) : bool := bool_decide (x ∈ s).

(** [x in s] on a set of pairs of strings. *)
Definition mem2 (x : string * string) (s : gset (string * string)) : bool :=
  bool_decide (x ∈ s).

(** [str(n)] for an [int]. *)
Definition str_of_Z (n : Z) : string := NilZero.string_of_int (Z.to_int n).

(** An f-string: the pieces, joined. *)
Definition f (parts : list string) : string := String.concat "" parts.

(** [str(n)] for a length. *)
Definition str_of_nat (n : nat) : string := str_of_Z (Z.of_nat n).

(** [s.lower()], on the ASCII letters. *)
Definition lower_ascii (c : ascii) : ascii :=
  let n := nat_of_ascii c in
  if (Nat.leb 65 n && Nat.leb n 90)%bool then ascii_of_nat (n + 32) else c.

Fixpoint lower (s : string) : string :=
  match s with
  | EmptyString => EmptyString
  | String c s' => String (lower_ascii c) (lower s')
  end.

(** [needle in hay] on strings. *)
Definition contains (needle hay : string) : bool :=
  match String.index 0 needle hay with
  | Some _ => true
  | None => false
  end.

(** Comparisons of floats that are rationals. *)
Definition Qltb (x y : Q) : bool := negb (Qle_bool y x).
Definition Qleb (x y : Q) : bool := Qle_bool x y.

(** [max(a, b)] and [min(a, b)]: the first argument wins a tie. *)
Definition max (a b : Q) : Q := if Qltb a b then b else a.
Definition min (a b : Q) : Q := if Qltb b a then b else a.

(** Round half to even, to an integer. *)
Definition round_half_even (x : Q) : Z :=
  let f := Qfloor x in
  match Qcompare (x - inject_Z f) (1 # 2) with
  | Lt => f
  | Gt => f + 1
  | Eq => if Z.even f then f else f + 1
  end.

(** [round(x, nd)]. *)
Definition round (x : Q) (nd : nat) : Q :=
  Qmake (round_half_even (x * inject_Z (10 ^ Z.of_nat nd)))
        (Z.to_pos (10 ^ Z.of_nat nd)).

(** [int(x)] on a float: truncation toward zero. *)
Definition int (x : Q) : Z := if Qle_bool 0 x then Qfloor x else Qceiling x.

(** [f"{x:.0f}"]. *)
Definition fmt0 (x : Q) : string := str_of_Z (round_half_even x).

(** [sum(...)] over floats and over ints. *)
Definition Qsum (l : list Q) : Q := fold_left Qplus l 0%Q.
Definition Zsum (l : list Z) : Z := fold_left Z.add l 0.

(** *** Binary64 arithmetic

    A double is denoted by the rational that it holds; a rational that is
    not a double (the decimal [81.7]) stands for the double nearest to it.
    Overflow to [inf] is left out: the sums and quotients below stay far
    under [2^1024]. *)

(** [floor(log2 |x|)], for [x] other than zero. *)
Definition ilog2 (x : Q) : Z :=
  let k := Z.log2 (Z.abs (Qnum x)) - Z.log2 (Zpos (Qden x)) in
  if Qle_bool (2 ^ k) (Qabs x) then k else k - 1.

(** The double nearest to [x], ties to even: 53 bits of precision, and
    [2^-1074] is the least positive double. *)
Definition b64 (x : Q) : Q :=
  if Qeq_bool x 0 then 0%Q
  else
    let q := Z.max (ilog2 x - 52) (-1074) in
    Qred (inject_Z (round_half_even (x / 2 ^ q)) * 2 ^ q).

(** [x + y], [x - y], [x * y] and [x / y] on floats. *)
Definition fadd (x y : Q) : Q := b64 (b64 x + b64 y).
Definition fsub (x y : Q) : Q := b64 (b64 x - b64 y).
Definition fmul (x y : Q) : Q := b64 (b64 x * b64 y).
Definition fdiv (x y : Q) : Q := b64 (b64 x / b64 y).

(** A float that may be [float("inf")]. *)
Inductive ext (A : Type) : Type :=
| Fin (x : A)
| Inf.
Arguments Fin {A} x.
Arguments Inf {A}.

(** Floats that are real numbers: comparisons. *)
Definition Rltb (x y : R) : bool := if Rlt_dec x y then true else false.
Definition Rleb (x y : R) : bool := if Rle_dec x y then true else false.

(** [a < b] where either side may be infinite. *)
Definition ext_Rltb (a b : ext R) : bool :=
  match a, b with
  | Fin x, Fin y => Rltb x y
  | Fin _, Inf => true
  | Inf, _ => false
  end.

Definition Rmax (a b : R) : R := if Rltb a b then b else a.
Definition Rmin (a b : R) : R := if Rltb b a then b else a.

(** Round half to even on a real number. *)
Definition Rround_half_even (x : R) : Z :=
  let f := Int_part x in
  if Rlt_dec (x - IZR f) (1 / 2) then f
  else if Rlt_dec (1 / 2) (x - IZR f) then f + 1
  else if Z.even f then f else f + 1.

(** [round(x, nd)] of a float that is a real number. *)
Definition Rround (x : R) (nd : nat) : Q :=
  Qmake (Rround_half_even (x * IZR (10 ^ Z.of_nat nd)))
        (Z.to_pos (10 ^ Z.of_nat nd)).

(** [math.radians]. *)
Definition radians (x : R) : R := (x * PI / 180)%R.

(** [min(l, key=f)]: the first element with the least key; [None] stands for
    the [ValueError] on an empty sequence. *)
Fixpoint min_by {A : Type} (ltb : A -> A -> bool) (l : list A) : option A :=
  match l with
  | [] => None
  | x :: l' =>
      match min_by ltb l' with
      | None => Some x
      | Some y => if ltb y x then Some y else Some x
      end
  end.

(** [l.sort(key=f, reverse=True)]: stable, greatest key first.  [ltb a b]
    tells that the key of [a] is below the key of [b]. *)
Fixpoint insert_desc {A : Type} (ltb : A -> A -> bool) (x : A) (l : list A) : list A :=
  match l with
  | [] => [x]
  | y :: l' => if ltb y x then x :: y :: l' else y :: insert_desc ltb x l'
  end.

Definition sort_desc {A : Type} (ltb : A -> A -> bool) (l : list A) : list A :=
  fold_left (fun acc x => insert_desc ltb x acc) l [].

End Py.

(** ** solver/data_loader.py: the dataclasses *)

Module LatLng.
Record t : Type := mk {
  lat : Q;
  lng : Q;
  label : string (* hub name or venue name *)
}.

(** The key that both [__hash__] and [__eq__] build:
    [(round(self.lat, 6), round(self.lng, 6))]. *)
Definition key (self : t) : Q * Q := (Py.round (lat self) 6, Py.round (lng self) 6).

Section Hash.
(** Python's [hash] on a pair of floats. *)
Variable hash : Q * Q -> Z.

Definition __hash__ (self : t) : Z := hash (key self).
End Hash.

Definition __eq__ (self other : t) : bool :=
  Qeq_bool (Py.round (lat self) 6) (Py.round (lat other) 6)
  && Qeq_bool (Py.round (lng self) 6) (Py.round (lng other) 6).
End LatLng.

Module Hub.
Record t : Type := mk {
  id : string;
  name : string;
  city : string;
  state : string;
  address : string;
  lat : Q;
  lng : Q
}.

Definition location (self : t) : LatLng.t :=
  LatLng.mk (lat self) (lng self) (name self).
End Hub.

Module Venue.
Record t : Type := mk {
  id : string;
  customer_id : option string;
  name : string;
  address : option string;
  city : option string;
  state : option string;
  lat : option Q;
  lng : option Q;
  is_primary : bool
}.

Definition location (self : t) : option LatLng.t :=
  match lat self, lng self with
  | Some la, Some lo => Some (LatLng.mk la lo (name self))
  | _, _ => None
  end.
End Venue.

Module Game.
Record t : Type := mk {
  id : string;
  customer_id : string;
  customer_name : string;
  venue_id : option string;
  venue : option Venue.t;
  season_year : Z;
  week_number : Z;
  game_date : string;
  game_time : option string;
  opponent : option string;
  is_home_game : bool;
  sidelines_served : string;
  season_phase : string
}.
End Game.

Module ContractItem.
Record t : Type := mk {
  id : string;
  contract_id : string;
  customer_id : string;
  customer_name : string;
  asset_type : string;
  model_version : option string;
  quantity : Z;
  branding_spec : option string
}.
End ContractItem.

Module Asset.
Record t : Type := mk {
  id : string;
  serial_number : string;
  asset_type : string;
  model_version : option string;
  condition : string;
  status : string;
  home_hub_id : string;
  current_hub : option string;
  current_venue_id : option string;
  current_trip_id : option string;
  weight_lbs : option Q;
  current_branding : option string
}.
End Asset.

Module Vehicle.
Record t : Type := mk {
  id : string;
  name : string;
  type : option string;
  home_hub_id : string;
  capacity_lbs : option Z;
  capacity_cuft : option Z;
  status : string
}.
End Vehicle.

Module Person.
Record t : Type := mk {
  id : string;
  name : string;
  role : string;
  home_hub_id : string;
  skills : option (list string);
  max_drive_hrs : Z
}.
End Person.

Module BrandingTask.
Record t : Type := mk {
  id : string;
  asset_id : string;
  from_branding : option string;
  to_branding : option string;
  hub_id : string;
  needed_by_date : option string;
  status : string
}.
End BrandingTask.

Module AssetAssignment.
Record t : Type := mk {
  id : string;
  asset_id : string;
  customer_id : string;
  season_year : Z;
  is_permanent : bool
}.
End AssetAssignment.

Module WeekData.
Record t : Type := mk {
  season_year : Z;
  week_number : Z;
  games : list Game.t;
  contract_items : list ContractItem.t;
  assets : list Asset.t;
  vehicles : list Vehicle.t;
  personnel : list Person.t;
  hubs : list Hub.t;
  branding_tasks : list BrandingTask.t;
  asset_assignments : list AssetAssignment.t
}.

(** The loop of [game_venues]: [seen] is the set of venue ids met so far. *)
Fixpoint game_venues_loop (gs : list Game.t) (seen : gset string) : list Venue.t :=
  match gs with
  | [] => []
  | game :: gs' =>
      match Game.venue game, Game.venue_id game with
      | Some venue, Some vid =>
          if negb (String.eqb vid "") && negb (Py.mem vid seen)
          then venue :: game_venues_loop gs' ({[vid]} ∪ seen)
          else game_venues_loop gs' seen
      | _, _ => game_venues_loop gs' seen
      end
  end.

(** Unique venues that have games this week. *)
Definition game_venues (self : t) : list Venue.t :=
  game_venues_loop (games self) ∅.

Definition hub_locations (self : t) : list LatLng.t :=
  List.map Hub.location (hubs self).

(** The two loops of [get_all_locations]; [seen] holds the rounded keys. *)
Definition seen_key (k : Q * Q) (seen : list (Q * Q)) : bool :=
  existsb (fun k' => Qeq_bool (fst k) (fst k') && Qeq_bool (snd k) (snd k')) seen.

Fixpoint all_locations_loop (locs : list LatLng.t) (seen : list (Q * Q))
  : list LatLng.t * list (Q * Q) :=
  match locs with
  | [] => ([], seen)
  | loc :: locs' =>
      let key := LatLng.key loc in
      if seen_key key seen
      then all_locations_loop locs' seen
      else let '(out, seen') := all_locations_loop locs' (key :: seen) in
           (loc :: out, seen')
  end.

Definition venue_locations (vs : list Venue.t) : list LatLng.t :=
  flat_map (fun v => match Venue.location v with Some l => [l] | None => [] end) vs.

Definition get_all_locations (self : t) : list LatLng.t :=
  fst (all_locations_loop
         (List.map Hub.location (hubs self) ++ venue_locations (game_venues self)) []).

Definition demands_for_game (self : t) (game : Game.t) : list ContractItem.t :=
  List.filter
    (fun ci => String.eqb (ContractItem.customer_id ci) (Game.customer_id game))
    (contract_items self).

Definition assets_at_hub (self : t) (hub_id : string) : list Asset.t :=
  List.filter
    (fun a => String.eqb (Asset.status a) "at_hub"
              && Py.opt_str_eqb (Asset.current_hub a) (Some hub_id))
    (assets self).

Definition assets_at_venue (self : t) (venue_id : string) : list Asset.t :=
  List.filter
    (fun a => String.eqb (Asset.status a) "on_site"
              && Py.opt_str_eqb (Asset.current_venue_id a) (Some venue_id))
    (assets self).

Definition available_vehicles_at_hub (self : t) (hub_id : string) : list Vehicle.t :=
  List.filter
    (fun v => String.eqb (Vehicle.home_hub_id v) hub_id
              && String.eqb (Vehicle.status v) "active")
    (vehicles self).

Definition available_personnel_at_hub (self : t) (hub_id : string) : list Person.t :=
  List.filter
    (fun p => String.eqb (Person.home_hub_id p) hub_id)
    (personnel self).

(** The key of [nearest_hub]: squared distance in degrees, as the doubles
    give it ([x ** 2] is the square of [x], rounded). *)
Definition hub_sqdist (loc : LatLng.t) (h : Hub.t) : Q :=
  let dlat := Py.fsub (Hub.lat h) (LatLng.lat loc) in
  let dlng := Py.fsub (Hub.lng h) (LatLng.lng loc) in
  Py.fadd (Py.fmul dlat dlat) (Py.fmul dlng dlng).

Definition nearest_hub (self : t) (venue : Venue.t) : option Hub.t :=
  match Venue.location venue with
  | None => None
  | Some loc =>
      Py.min_by (fun a b => Py.Qltb (hub_sqdist loc a) (hub_sqdist loc b)) (hubs self)
  end.
End WeekData.

(** ** config.py: the defaults of the solver parameters *)

Module config.
Definition SOLVER_TIMEOUT_MS : Z := 30000.
Definition MAX_CLUSTER_RADIUS_MILES : R := 150%R.
Definition MAX_STOPS_PER_TRIP : nat := 4.
Definition SETUP_BUFFER_HOURS : Q := 4.
Definition TEARDOWN_BUFFER_HOURS : Q := 3.
End config.

(** ** What the planner takes from outside Python code of the repository *)

Class Externals : Type := {
  (** [datetime.strptime(text, format)] as hours since the epoch; [None] is
      the [ValueError]. *)
  strptime : string -> string -> option Q;
  (** The routing solver of [_ortools_reorder_stops]: from the local distance
      matrix and the time limit to the extracted [new_order]; [None] when
      [SolveWithParameters] finds no solution. *)
  ortools_tsp : list (list Z) -> Z -> option (list nat);
  (** [int((time.time() - start_time) * 1000)] at the end of [optimize_week]. *)
  week_elapsed_ms : Z;
  (** [int((time.time() - start) * 1000)] in [optimize_week0]: at the top of
      pass [k] for [k >= 1], and at the end of the run for [k = 0]. *)
  week0_elapsed_ms : nat -> Z
}.

(** ** solver/constraints.py *)

Module TimeWindow.
Record t : Type := mk {
  earliest_arrival : Q;
  latest_arrival : Q;
  service_time_minutes : Z
}.
End TimeWindow.

Module Demand.
Record t : Type := mk {
  game : Game.t;
  venue_id : string;
  customer_id : string;
  customer_name : string;
  items : list ContractItem.t;
  total_quantity : Z;
  total_weight_lbs : Q;
  time_window : option TimeWindow.t
}.
End Demand.

Module Constraints.
Record t : Type := mk {
  (* Hard constraints *)
  demands : list Demand.t;
  time_windows : gmap string TimeWindow.t;
  max_drive_hrs : Z;
  setup_buffer_hours : Q;
  teardown_buffer_hours : Q;
  (* Soft constraint weights (higher = more important) *)
  weight_minimize_miles : Q;
  weight_minimize_vehicles : Q;
  weight_prefer_closest_hub : Q;
  weight_minimize_rebranding : Q;
  weight_geographic_clustering : Q;
  (* Assets with pending branding tasks (cannot be assigned) *)
  blocked_asset_ids : gset string;
  (* Hub capacity info *)
  hub_vehicle_counts : gmap string nat;
  hub_personnel_counts : gmap string nat
}.

(** The dataclass defaults, with the two buffers that [build_constraints]
    passes. *)
Definition default (setup teardown : Q) : t :=
  mk [] ∅ 11 setup teardown 1.0 0.8 0.6 0.7 0.5 ∅ ∅ ∅.

(** Check if any soft constraints have been relaxed. *)
Definition is_relaxed (self : t) : bool :=
  Py.Qltb (weight_minimize_miles self) 1.0
  || Py.Qltb (weight_minimize_vehicles self) 0.8
  || Py.Qltb (weight_prefer_closest_hub self) 0.6
  || Py.Qltb (weight_minimize_rebranding self) 0.7.

Definition set_weights (self : t) (miles vehicles hub rebranding clustering : Q) : t :=
  mk (demands self) (time_windows self) (max_drive_hrs self)
     (setup_buffer_hours self) (teardown_buffer_hours self)
     miles vehicles hub rebranding clustering
     (blocked_asset_ids self) (hub_vehicle_counts self) (hub_personnel_counts self).

Definition set_blocked_asset_ids (self : t) (blocked : gset string) : t :=
  mk (demands self) (time_windows self) (max_drive_hrs self)
     (setup_buffer_hours self) (teardown_buffer_hours self)
     (weight_minimize_miles self) (weight_minimize_vehicles self)
     (weight_prefer_closest_hub self) (weight_minimize_rebranding self)
     (weight_geographic_clustering self)
     blocked (hub_vehicle_counts self) (hub_personnel_counts self).
End Constraints.

Module constraints.

(** [weight_estimates.get(asset_type, 100)]. *)
Definition weight_estimate (asset_type : string) : Z :=
  if String.eqb asset_type "heated_bench" then 150
  else if String.eqb asset_type "cooling_bench" then 150
  else if String.eqb asset_type "hybrid_bench" then 150
  else if String.eqb asset_type "dragon_shader" then 200
  else if String.eqb asset_type "heated_foot_deck" then 50
  else 100.

Section BuildConstraints.
Context `{Externals}.

(** The two [strptime] attempts on ["{game_date} {game_time}"]. *)
Definition parse_game_dt (game_date game_time : string) : option Q :=
  let text := Py.f [game_date; " "; game_time] in
  match strptime text "%Y-%m-%d %H:%M:%S" with
  | Some dt => Some dt
  | None => strptime text "%Y-%m-%d %H:%M"
  end.

(** The time window of one game, when the week is not week 0 and the game
    has a date and a time that parse. *)
Definition game_time_window (week_data : WeekData.t) (setup_buffer_hours : Q)
    (game : Game.t) : option TimeWindow.t :=
  let is_week0 := Z.eqb (WeekData.week_number week_data) 0 in
  if negb is_week0 && negb (String.eqb (Game.game_date game) "")
     && Py.truthy (Game.game_time game)
  then
    match Game.game_time game with
    | Some game_time =>
        match parse_game_dt (Game.game_date game) game_time with
        | Some game_dt =>
            Some (TimeWindow.mk (game_dt - 24) (game_dt - setup_buffer_hours) 60)
        | None => None
        end
    | None => None
    end
  else None.

(** The first loop of [build_constraints]: demands and time windows. *)
Fixpoint build_demands (week_data : WeekData.t) (setup_buffer_hours : Q)
    (games : list Game.t) (demands : list Demand.t)
    (time_windows : gmap string TimeWindow.t)
  : list Demand.t * gmap string TimeWindow.t :=
  match games with
  | [] => (demands, time_windows)
  | game :: games' =>
      let items := WeekData.demands_for_game week_data game in
      match items, Game.venue_id game with
      | _ :: _, Some venue_id =>
          if String.eqb venue_id "" then
            build_demands week_data setup_buffer_hours games' demands time_windows
          else
            let total_qty := Py.Zsum (List.map ContractItem.quantity items) in
            let total_weight :=
              Py.Zsum (List.map
                         (fun item => ContractItem.quantity item
                                      * weight_estimate (ContractItem.asset_type item))
                         items) in
            let tw := game_time_window week_data setup_buffer_hours game in
            let time_windows' :=
              match tw with
              | Some w => <[venue_id := w]> time_windows
              | None => time_windows
              end in
            let demand :=
              Demand.mk game venue_id (Game.customer_id game)
                        (Game.customer_name game) items total_qty
                        (inject_Z total_weight) tw in
            build_demands week_data setup_buffer_hours games'
                          (demands ++ [demand]) time_windows'
      | _, _ =>
          build_demands week_data setup_buffer_hours games' demands time_windows
      end
  end.

(** The second loop: assets of a pending or in-progress branding task. *)
Definition blocked_of_tasks (tasks : list BrandingTask.t) (blocked : gset string)
  : gset string :=
  fold_left
    (fun acc bt =>
       if String.eqb (BrandingTask.status bt) "pending"
          || String.eqb (BrandingTask.status bt) "in_progress"
       then {[BrandingTask.asset_id bt]} ∪ acc
       else acc)
    tasks blocked.

(** The third loop: vehicles and personnel per hub. *)
Definition hub_counts (week_data : WeekData.t)
  : gmap string nat * gmap string nat :=
  fold_left
    (fun acc hub =>
       (<[Hub.id hub :=
            length (WeekData.available_vehicles_at_hub week_data (Hub.id hub))]> (fst acc),
        <[Hub.id hub :=
            length (WeekData.available_personnel_at_hub week_data (Hub.id hub))]> (snd acc)))
    (WeekData.hubs week_data) (∅, ∅).

Definition build_constraints (week_data : WeekData.t) : Constraints.t :=
  let c := Constraints.default config.SETUP_BUFFER_HOURS config.TEARDOWN_BUFFER_HOURS in
  let '(demands, time_windows) :=
    build_demands week_data (Constraints.setup_buffer_hours c)
                  (WeekData.games week_data) [] ∅ in
  let blocked := blocked_of_tasks (WeekData.branding_tasks week_data) ∅ in
  let '(vehicle_counts, personnel_counts) := hub_counts week_data in
  Constraints.mk demands time_windows (Constraints.max_drive_hrs c)
    (Constraints.setup_buffer_hours c) (Constraints.teardown_buffer_hours c)
    (Constraints.weight_minimize_miles c) (Constraints.weight_minimize_vehicles c)
    (Constraints.weight_prefer_closest_hub c) (Constraints.weight_minimize_rebranding c)
    (Constraints.weight_geographic_clustering c)
    blocked vehicle_counts personnel_counts.
End BuildConstraints.

(** Check if a vehicle can carry the given weight. *)
Definition check_capacity_weight (vehicle : Vehicle.t) (total_weight : Q) : bool :=
  match Vehicle.capacity_lbs vehicle with
  | None => true
  | Some cap => if Z.eqb cap 0 then true else Py.Qleb total_weight (inject_Z cap)
  end.

(** Check if a vehicle can carry the given assets (weight check). *)
Definition check_capacity (vehicle : Vehicle.t) (assets : list Asset.t) : bool :=
  match Vehicle.capacity_lbs vehicle with
  | None => true
  | Some cap =>
      if Z.eqb cap 0 then true
      else
        let total_weight :=
          Py.Qsum (List.map
                     (fun a => match Asset.weight_lbs a with
                               | Some w => if Qeq_bool w 0 then 0%Q else w
                               | None => 0%Q
                               end)
                     assets) in
        Py.Qleb total_weight (inject_Z cap)
  end.

(** The loop at the end of [check_branding]: a completed branding task on
    this asset whose [to_branding] is the spec. *)
Fixpoint branding_task_completed (asset : Asset.t) (branding_spec : option string)
    (branding_tasks : list BrandingTask.t) : bool :=
  match branding_tasks with
  | [] => false
  | bt :: rest =>
      if String.eqb (BrandingTask.asset_id bt) (Asset.id asset)
         && Py.opt_str_eqb (BrandingTask.to_branding bt) branding_spec
         && String.eqb (BrandingTask.status bt) "completed"
      then true
      else branding_task_completed asset branding_spec rest
  end.

(** Check if an asset's branding matches the customer's requirement. *)
Definition check_branding (asset : Asset.t) (customer_name : string)
    (branding_spec : option string) (branding_tasks : list BrandingTask.t) : bool :=
  if negb (Py.truthy branding_spec) then true
  else if negb (Py.truthy (Asset.current_branding asset)) then true
  else if Py.opt_str_eqb (Asset.current_branding asset) branding_spec then true
  else branding_task_completed asset branding_spec branding_tasks.

(** Check if drive time is within DOT limits. *)
Definition check_drive_time (duration_minutes : Q) (max_drive_hrs : Z) : bool :=
  Py.Qleb duration_minutes (inject_Z (max_drive_hrs * 60)).

(** Check if arrival time falls within the allowed window. *)
Definition check_time_window (arrival_time : Q) (time_window : option TimeWindow.t) : bool :=
  match time_window with
  | None => true
  | Some tw =>
      Py.Qleb (TimeWindow.earliest_arrival tw) arrival_time
      && Py.Qleb arrival_time (TimeWindow.latest_arrival tw)
  end.

(** Check if an asset can fulfill a specific demand item:
    not blocked, usable condition, type match, model match, branding match. *)
Definition match_asset_to_demand (asset : Asset.t) (demand_item : ContractItem.t)
    (blocked_ids : gset string) (branding_tasks : list BrandingTask.t) : bool :=
  if Py.mem (Asset.id asset) blocked_ids then false
  else if String.eqb (Asset.condition asset) "out_of_service"
          || String.eqb (Asset.condition asset) "needs_repair" then false
  else if negb (String.eqb (Asset.asset_type asset) (ContractItem.asset_type demand_item))
  then false
  else if Py.truthy (ContractItem.model_version demand_item)
          && negb (Py.opt_str_eqb (Asset.model_version asset)
                                  (ContractItem.model_version demand_item))
  then false
  else if negb (check_branding asset (ContractItem.customer_name demand_item)
                               (ContractItem.branding_spec demand_item) branding_tasks)
  then false
  else true.

End constraints.

(** ** solver/distance_matrix.py *)

Module DistanceEntry.
Record t : Type := mk {
  distance_miles : Q;
  duration_minutes : Q
}.
End DistanceEntry.

Module DistanceMatrix.
(** [_data[i][j]] is read as [_data i j]; the [n] by [n] shape that
    [__init__] sets up is kept by [_n], and an index outside of it is the
    [IndexError] of [get]. *)
Record t : Type := mk {
  locations : list LatLng.t;
  _data : nat -> nat -> option DistanceEntry.t
}.

Definition _n (self : t) : nat := length (locations self).

(** Zeros on the diagonal, [None] elsewhere. *)
Definition __init__ (locations : list LatLng.t) : t :=
  mk locations
     (fun i j => if Nat.eqb i j then Some (DistanceEntry.mk 0.0 0.0) else None).

(** Estimate distance/duration using the haversine formula. *)
Definition _haversine_estimate (a b : LatLng.t) : DistanceEntry.t :=
  let R_ := 3959%R in (* Earth radius in miles *)
  let lat1 := Py.radians (Q2R (LatLng.lat a)) in
  let lat2 := Py.radians (Q2R (LatLng.lat b)) in
  let dlat := Py.radians (Q2R (LatLng.lat b) - Q2R (LatLng.lat a)) in
  let dlng := Py.radians (Q2R (LatLng.lng b) - Q2R (LatLng.lng a)) in
  let h := (sin (dlat / 2) ^ 2 + cos lat1 * cos lat2 * sin (dlng / 2) ^ 2)%R in
  let distance := (2 * R_ * asin (sqrt h))%R in
  (* road distance ~1.3x straight line, 50 mph average *)
  let road_distance := (distance * 1.3)%R in
  let duration := (road_distance / 50 * 60)%R in
  DistanceEntry.mk (Py.Rround road_distance 1) (Py.Rround duration 1).

(** Get distance/duration between locations [i] and [j]; [None] is the
    [IndexError] of an index that is not below [_n]. *)
Definition get (self : t) (i j : nat) : option DistanceEntry.t :=
  match locations self !! i, locations self !! j with
  | Some a, Some b =>
      match _data self i j with
      | None => Some (_haversine_estimate a b)
      | Some entry => Some entry
      end
  | _, _ => None
  end.

Definition set (self : t) (i j : nat) (entry : DistanceEntry.t) : t :=
  mk (locations self)
     (fun i' j' => if Nat.eqb i i' && Nat.eqb j j' then Some entry else _data self i' j').

Definition size (self : t) : nat := _n self.

Definition distance_miles (self : t) (i j : nat) : option Q :=
  DistanceEntry.distance_miles <$> get self i j.

Definition duration_minutes (self : t) (i j : nat) : option Q :=
  DistanceEntry.duration_minutes <$> get self i j.

(** The same two reads at indices that [location_index] returned: those are
    below [_n], so that the [IndexError] cannot occur and the value after
    [default] is never used. *)
Definition miles_at (self : t) (i j : nat) : Q := default 0%Q (distance_miles self i j).
Definition minutes_at (self : t) (i j : nat) : Q := default 0%Q (duration_minutes self i j).

(** The scan of [location_index], [i] being the index of the head of [locs]. *)
Fixpoint location_index_from (locs : list LatLng.t) (i : nat) (location : LatLng.t)
  : option nat :=
  match locs with
  | [] => None
  | loc :: locs' =>
      if LatLng.__eq__ loc location then Some i
      else location_index_from locs' (S i) location
  end.

(** Find the index of a location in the matrix. *)
Definition location_index (self : t) (location : LatLng.t) : option nat :=
  location_index_from (locations self) 0 location.
End DistanceMatrix.

Module distance_matrix.

Section GetDistanceMatrix.
(** The two network calls: the rows of the cache table matched against the
    locations, and the provider's answers for the missing origins and
    destinations.  A provider without API key answers [[]]. *)
Variable _check_cache : list LatLng.t -> list (nat * nat * DistanceEntry.t).
Variable _fetch_from_google_maps :
  list LatLng.t -> list LatLng.t -> list (LatLng.t * LatLng.t * DistanceEntry.t).

(** [[(i, j) for i in range(n) for j in range(n) if i != j and
    matrix._data[i][j] is None]]. *)
Definition missing_pairs (matrix : DistanceMatrix.t) (n : nat) : list (nat * nat) :=
  flat_map
    (fun i =>
       flat_map
         (fun j =>
            if negb (Nat.eqb i j)
               && match DistanceMatrix._data matrix i j with None => true | Some _ => false end
            then [(i, j)] else [])
         (seq 0 n))
    (seq 0 n).

(** [sorted({p[k] for p in missing_pairs})]. *)
Definition sorted_indices (n : nat) (idx : list nat) : list nat :=
  List.filter (fun i => existsb (Nat.eqb i) idx) (seq 0 n).

Definition locations_at (locations : list LatLng.t) (idx : list nat) : list LatLng.t :=
  flat_map (fun i => match locations !! i with Some l => [l] | None => [] end) idx.

(** Step 4: the provider's answers go into the matrix. *)
Definition store_api_results (matrix : DistanceMatrix.t)
    (api_results : list (LatLng.t * LatLng.t * DistanceEntry.t)) : DistanceMatrix.t :=
  fold_left
    (fun m result =>
       let '(origin_loc, dest_loc, entry) := result in
       match DistanceMatrix.location_index m origin_loc,
             DistanceMatrix.location_index m dest_loc with
       | Some i, Some j => DistanceMatrix.set m i j entry
       | _, _ => m
       end)
    api_results matrix.

(** Step 5: the remaining gaps get haversine estimates. *)
Definition fill_estimates (locations : list LatLng.t) (matrix : DistanceMatrix.t)
    (n : nat) : DistanceMatrix.t :=
  fold_left
    (fun m p =>
       match DistanceMatrix._data m (fst p) (snd p),
             locations !! (fst p), locations !! (snd p) with
       | None, Some a, Some b =>
           DistanceMatrix.set m (fst p) (snd p) (DistanceMatrix._haversine_estimate a b)
       | _, _, _ => m
       end)
    (flat_map
       (fun i => flat_map (fun j => if negb (Nat.eqb i j) then [(i, j)] else []) (seq 0 n))
       (seq 0 n))
    matrix.

(** Build a complete NxN distance matrix for the given locations. *)
Definition get_distance_matrix (locations : list LatLng.t) : DistanceMatrix.t :=
  let matrix := DistanceMatrix.__init__ locations in
  let n := length locations in
  if Nat.leb n 1 then matrix
  else
    (* Step 1: check cache *)
    let cached := _check_cache locations in
    let matrix :=
      fold_left (fun m c => let '(i, j, entry) := c in DistanceMatrix.set m i j entry)
                cached matrix in
    (* Step 2: identify missing pairs *)
    let missing := missing_pairs matrix n in
    match missing with
    | [] => matrix
    | _ :: _ =>
        (* Step 3: fetch from the provider for the missing origins/dests *)
        let missing_origins :=
          locations_at locations (sorted_indices n (List.map fst missing)) in
        let missing_dests :=
          locations_at locations (sorted_indices n (List.map snd missing)) in
        let api_results := _fetch_from_google_maps missing_origins missing_dests in
        (* Step 4: store in the matrix (the cache write is fire-and-forget) *)
        let matrix := store_api_results matrix api_results in
        (* Step 5: fill remaining with haversine estimates *)
        fill_estimates locations matrix n
    end.
End GetDistanceMatrix.

End distance_matrix.

(** ** solver/clustering.py *)

Module VenueCluster.
Record t : Type := mk {
  venues : list Venue.t;
  nearest_hub : option Hub.t;
  total_demand_weight : Q;
  total_demand_quantity : Z;
  ordered_venue_ids : list string
}.

(** [VenueCluster(venues=vs)]. *)
Definition of_venues (vs : list Venue.t) : t := mk vs None 0.0 0 [].

Definition is_multi_stop (self : t) : bool := Nat.ltb 1 (length (venues self)).

Definition venue_ids (self : t) : gset string :=
  list_to_set (List.map Venue.id (venues self)).

Definition set_total_demand_weight (self : t) (w : Q) : t :=
  mk (venues self) (nearest_hub self) w (total_demand_quantity self)
     (ordered_venue_ids self).
End VenueCluster.

Module clustering.

(** Haversine distance in miles between two points. *)
Definition _haversine_miles (a b : LatLng.t) : R :=
  let R_ := 3959%R in
  let lat1 := Py.radians (Q2R (LatLng.lat a)) in
  let lat2 := Py.radians (Q2R (LatLng.lat b)) in
  let dlat := Py.radians (Q2R (LatLng.lat b) - Q2R (LatLng.lat a)) in
  let dlng := Py.radians (Q2R (LatLng.lng b) - Q2R (LatLng.lng a)) in
  let h := (sin (dlat / 2) ^ 2 + cos lat1 * cos lat2 * sin (dlng / 2) ^ 2)%R in
  (2 * R_ * asin (sqrt h))%R.

(** Distance from a venue to its nearest hub. *)
Definition _nearest_hub_distance (venue : Venue.t) (hubs : list LatLng.t) : Py.ext R :=
  match Venue.location venue, hubs with
  | Some loc, h0 :: hs =>
      Py.Fin (fold_left (fun m h => Py.Rmin m (_haversine_miles loc h)) hs
                        (_haversine_miles loc h0))
  | _, _ => Py.Inf
  end.

(** The [for i, venue in enumerate(remaining)] loop of [_order_stops_nn]:
    the state is [(best_idx, best_dist)]. *)
Fixpoint nn_scan (dist_matrix : DistanceMatrix.t) (current : LatLng.t)
    (remaining : list Venue.t) (i : nat) (best : nat * Py.ext R) : nat * Py.ext R :=
  match remaining with
  | [] => best
  | venue :: rest =>
      match Venue.location venue with
      | None => nn_scan dist_matrix current rest (S i) best
      | Some loc =>
          let d :=
            match DistanceMatrix.location_index dist_matrix current,
                  DistanceMatrix.location_index dist_matrix loc with
            | Some ci, Some vi => Q2R (DistanceMatrix.miles_at dist_matrix ci vi)
            | _, _ => _haversine_miles current loc
            end in
          if Py.ext_Rltb (Py.Fin d) (snd best)
          then nn_scan dist_matrix current rest (S i) (i, Py.Fin d)
          else nn_scan dist_matrix current rest (S i) best
      end
  end.

(** [remaining.pop(idx)]: the popped element and what is left. *)
Fixpoint pop {A : Type} (l : list A) (idx : nat) : option (A * list A) :=
  match l, idx with
  | [], _ => None
  | x :: l', O => Some (x, l')
  | x :: l', S k =>
      match pop l' k with
      | Some (y, rest) => Some (y, x :: rest)
      | None => None
      end
  end.

(** The [while remaining] loop; [fuel] is the length of [remaining], which
    every turn shortens by one. *)
Fixpoint nn_loop (dist_matrix : DistanceMatrix.t) (fuel : nat)
    (remaining ordered : list Venue.t) (current : LatLng.t) : list Venue.t :=
  match fuel with
  | O => ordered
  | S fuel' =>
      match remaining with
      | [] => ordered
      | _ :: _ =>
          let best_idx := fst (nn_scan dist_matrix current remaining 0 (0%nat, Py.Inf)) in
          match pop remaining best_idx with
          | None => ordered
          | Some (next_venue, remaining') =>
              let current' :=
                match Venue.location next_venue with
                | Some loc => loc
                | None => current
                end in
              nn_loop dist_matrix fuel' remaining' (ordered ++ [next_venue]) current'
          end
      end
  end.

(** Order stops by nearest neighbour, starting from a hub location. *)
Definition _order_stops_nn (venues : list Venue.t) (start : LatLng.t)
    (dist_matrix : DistanceMatrix.t) : list Venue.t :=
  if Nat.leb (length venues) 1 then venues
  else nn_loop dist_matrix (length venues) venues [] start.

(** The inner loop of [cluster_venues]: candidates near the seed location
    [loc] join the cluster until it has [max_stops] venues. *)
Fixpoint extend_cluster (loc : LatLng.t) (max_radius_miles : R) (max_stops : nat)
    (candidates : list Venue.t) (cluster_venues_list : list Venue.t)
    (assigned : gset string) : list Venue.t * gset string :=
  match candidates with
  | [] => (cluster_venues_list, assigned)
  | candidate :: rest =>
      if Py.mem (Venue.id candidate) assigned
      then extend_cluster loc max_radius_miles max_stops rest cluster_venues_list assigned
      else if Nat.leb max_stops (length cluster_venues_list)
      then (cluster_venues_list, assigned)
      else
        match Venue.location candidate with
        | None =>
            extend_cluster loc max_radius_miles max_stops rest cluster_venues_list assigned
        | Some cloc =>
            if Py.Rleb (_haversine_miles loc cloc) max_radius_miles
            then extend_cluster loc max_radius_miles max_stops rest
                   (cluster_venues_list ++ [candidate])
                   ({[Venue.id candidate]} ∪ assigned)
            else extend_cluster loc max_radius_miles max_stops rest
                   cluster_venues_list assigned
        end
  end.

(** The outer loop of [cluster_venues] over the sorted valid venues. *)
Fixpoint seed_clusters (valid_venues : list Venue.t) (hub_locations : list LatLng.t)
    (dist_matrix : DistanceMatrix.t) (max_radius_miles : R) (max_stops : nat)
    (todo : list Venue.t) (assigned : gset string) (clusters : list VenueCluster.t)
  : list VenueCluster.t * gset string :=
  match todo with
  | [] => (clusters, assigned)
  | venue :: todo' =>
      if Py.mem (Venue.id venue) assigned
      then seed_clusters valid_venues hub_locations dist_matrix max_radius_miles
             max_stops todo' assigned clusters
      else
        match Venue.location venue with
        | None =>
            seed_clusters valid_venues hub_locations dist_matrix max_radius_miles
              max_stops todo' assigned clusters
        | Some loc =>
            let '(cluster_venues_list, assigned') :=
              extend_cluster loc max_radius_miles max_stops valid_venues
                [venue] ({[Venue.id venue]} ∪ assigned) in
            let cluster_center :=
              match cluster_venues_list with
              | v0 :: _ => Venue.location v0
              | [] => None
              end in
            let ordered :=
              match cluster_center with
              | Some center =>
                  match Py.min_by
                          (fun a b => Py.Rltb (_haversine_miles center a)
                                              (_haversine_miles center b))
                          hub_locations with
                  | Some nearest_hub_loc =>
                      _order_stops_nn cluster_venues_list nearest_hub_loc dist_matrix
                  | None => cluster_venues_list
                  end
              | None => cluster_venues_list
              end in
            let cluster :=
              VenueCluster.mk ordered None 0.0 0 (List.map Venue.id ordered) in
            seed_clusters valid_venues hub_locations dist_matrix max_radius_miles
              max_stops todo' assigned' (clusters ++ [cluster])
        end
  end.

(** Group venues into clusters for multi-stop trips. *)
Definition cluster_venues (venues : list Venue.t) (hub_locations : list LatLng.t)
    (dist_matrix : DistanceMatrix.t) (max_radius_miles : R) (max_stops : nat)
  : list VenueCluster.t :=
  match venues with
  | [] => []
  | _ :: _ =>
      let valid_venues :=
        List.filter (fun v => match Venue.location v with Some _ => true | None => false end)
                    venues in
      match valid_venues with
      | [] => List.map (fun v => VenueCluster.of_venues [v]) venues
      | _ :: _ =>
          let valid_venues :=
            Py.sort_desc
              (fun a b => Py.ext_Rltb (_nearest_hub_distance a hub_locations)
                                      (_nearest_hub_distance b hub_locations))
              valid_venues in
          let '(clusters, assigned) :=
            seed_clusters valid_venues hub_locations dist_matrix max_radius_miles
              max_stops valid_venues ∅ [] in
          clusters
          ++ List.map (fun v => VenueCluster.of_venues [v])
               (List.filter (fun v => negb (Py.mem (Venue.id v) assigned)) venues)
      end
  end.

End clustering.

(** ** solver/optimizer.py: the dataclasses *)

Module TripStop.
Record t : Type := mk {
  venue_id : string;
  venue_name : string;
  stop_order : Z;
  arrival_time : option string;
  depart_time : option string;
  action : string; (* deliver, pickup, both *)
  requires_hub_return : bool;
  hub_return_reason : option string;
  demand : option Demand.t
}.

Definition set_stop_order (self : t) (order : Z) : t :=
  mk (venue_id self) (venue_name self) order (arrival_time self) (depart_time self)
     (action self) (requires_hub_return self) (hub_return_reason self) (demand self).

Definition set_hub_return (self : t) (requires : bool) (reason : option string) : t :=
  mk (venue_id self) (venue_name self) (stop_order self) (arrival_time self)
     (depart_time self) (action self) requires reason (demand self).
End TripStop.

Module TripAsset.
Record t : Type := mk {
  asset_id : string;
  serial_number : string;
  asset_type : string;
  stop_id : option string
}.
End TripAsset.

Module TripPerson.
Record t : Type := mk {
  person_id : string;
  person_name : string;
  role_on_trip : string
}.
End TripPerson.

Module Trip.
Record t : Type := mk {
  vehicle_id : string;
  vehicle_name : string;
  origin_hub_id : string;
  origin_hub_name : string;
  stops : list TripStop.t;
  assets : list TripAsset.t;
  personnel : list TripPerson.t;
  total_miles : Q;
  total_drive_hrs : Q;
  optimizer_score : Q;
  depart_time : option string;
  return_time : option string
}.

Definition set_stops (self : t) (new_stops : list TripStop.t) : t :=
  mk (vehicle_id self) (vehicle_name self) (origin_hub_id self) (origin_hub_name self)
     new_stops (assets self) (personnel self) (total_miles self) (total_drive_hrs self)
     (optimizer_score self) (depart_time self) (return_time self).

Definition set_optimizer_score (self : t) (score : Q) : t :=
  mk (vehicle_id self) (vehicle_name self) (origin_hub_id self) (origin_hub_name self)
     (stops self) (assets self) (personnel self) (total_miles self) (total_drive_hrs self)
     score (depart_time self) (return_time self).
End Trip.

Module UnassignedDemand.
Record t : Type := mk {
  customer_name : string;
  venue_name : string;
  asset_type : string;
  quantity : Z;
  reason : string
}.

Definition set_reason (self : t) (r : string) : t :=
  mk (customer_name self) (venue_name self) (asset_type self) (quantity self) r.
End UnassignedDemand.

(** An entry of [constraint_relaxations]: the dict with the keys
    ["step"], ["action"] and ["detail"]. *)
Module Relaxation.
Record t : Type := mk {
  step : Z;
  action : string;
  detail : string
}.
End Relaxation.

Module OptimizationResult.
Record t : Type := mk {
  trips : list Trip.t;
  unassigned_demands : list UnassignedDemand.t;
  warnings : list string;
  errors : list string;
  constraint_relaxations : list Relaxation.t;
  solve_time_ms : Z;
  status : string; (* completed, partial, failed *)
  average_score : Q
}.

(** [OptimizationResult()]. *)
Definition empty : t := mk [] [] [] [] [] 0 "completed" 0.0.

Definition has_unassigned (self : t) : bool :=
  Nat.ltb 0 (length (unassigned_demands self)).

Definition set_trips (self : t) (ts : list Trip.t) : t :=
  mk ts (unassigned_demands self) (warnings self) (errors self)
     (constraint_relaxations self) (solve_time_ms self) (status self) (average_score self).

Definition set_unassigned_demands (self : t) (u : list UnassignedDemand.t) : t :=
  mk (trips self) u (warnings self) (errors self)
     (constraint_relaxations self) (solve_time_ms self) (status self) (average_score self).

Definition set_warnings (self : t) (w : list string) : t :=
  mk (trips self) (unassigned_demands self) w (errors self)
     (constraint_relaxations self) (solve_time_ms self) (status self) (average_score self).

Definition set_constraint_relaxations (self : t) (r : list Relaxation.t) : t :=
  mk (trips self) (unassigned_demands self) (warnings self) (errors self)
     r (solve_time_ms self) (status self) (average_score self).

Definition set_solve_time_ms (self : t) (ms : Z) : t :=
  mk (trips self) (unassigned_demands self) (warnings self) (errors self)
     (constraint_relaxations self) ms (status self) (average_score self).

Definition set_status (self : t) (s : string) : t :=
  mk (trips self) (unassigned_demands self) (warnings self) (errors self)
     (constraint_relaxations self) (solve_time_ms self) s (average_score self).

Definition set_average_score (self : t) (a : Q) : t :=
  mk (trips self) (unassigned_demands self) (warnings self) (errors self)
     (constraint_relaxations self) (solve_time_ms self) (status self) a.
End OptimizationResult.

(** ** solver/optimizer.py: the functions *)

Module optimizer.

(** The inner loop of [_assign_assets_to_demand] for one contract item: the
    state is [(assigned, used_asset_ids, matched_count)]. *)
Fixpoint match_item (item : ContractItem.t) (blocked : gset string)
    (branding_tasks : list BrandingTask.t) (available_assets : list Asset.t)
    (assigned : list Asset.t) (used_asset_ids : gset string) (matched_count : Z)
  : list Asset.t * gset string * Z :=
  match available_assets with
  | [] => (assigned, used_asset_ids, matched_count)
  | asset :: rest =>
      if Py.mem (Asset.id asset) used_asset_ids
      then match_item item blocked branding_tasks rest assigned used_asset_ids matched_count
      else if Z.leb (ContractItem.quantity item) matched_count
      then (assigned, used_asset_ids, matched_count)
      else if constraints.match_asset_to_demand asset item blocked branding_tasks
      then match_item item blocked branding_tasks rest
             (assigned ++ [asset]) ({[Asset.id asset]} ∪ used_asset_ids)
             (matched_count + 1)
      else match_item item blocked branding_tasks rest assigned used_asset_ids matched_count
  end.

(** The outer loop over [demand.items]. *)
Fixpoint match_items (demand : Demand.t) (blocked : gset string)
    (branding_tasks : list BrandingTask.t) (available_assets : list Asset.t)
    (items : list ContractItem.t)
    (assigned : list Asset.t) (unassigned : list UnassignedDemand.t)
    (used_asset_ids : gset string)
  : list Asset.t * list UnassignedDemand.t :=
  match items with
  | [] => (assigned, unassigned)
  | item :: items' =>
      let '(assigned', used', matched_count) :=
        match_item item blocked branding_tasks available_assets assigned used_asset_ids 0 in
      let unassigned' :=
        if Z.ltb matched_count (ContractItem.quantity item)
        then unassigned
             ++ [UnassignedDemand.mk
                   (Demand.customer_name demand)
                   (match Game.venue (Demand.game demand) with
                    | Some v => Venue.name v
                    | None => "Unknown"
                    end)
                   (ContractItem.asset_type item)
                   (ContractItem.quantity item - matched_count)
                   (Py.f ["Only "; Py.str_of_Z matched_count; " of ";
                          Py.str_of_Z (ContractItem.quantity item); " ";
                          ContractItem.asset_type item; " available"])]
        else unassigned in
      match_items demand blocked branding_tasks available_assets items'
                  assigned' unassigned' used'
  end.

(** Match available assets to a demand's requirements.
    Returns [(assigned_assets, unassigned_demands)]. *)
Definition _assign_assets_to_demand (demand : Demand.t) (available_assets : list Asset.t)
    (constraints : Constraints.t) (week_data : WeekData.t)
  : list Asset.t * list UnassignedDemand.t :=
  match_items demand (Constraints.blocked_asset_ids constraints)
              (WeekData.branding_tasks week_data) available_assets
              (Demand.items demand) [] [] ∅.

(** First loop of [_assign_personnel]: the first driver that is not used. *)
Fixpoint pick_driver (available : list Person.t) (used_person_ids : gset string)
  : option Person.t :=
  match available with
  | [] => None
  | person :: rest =>
      if Py.mem (Person.id person) used_person_ids && String.eqb (Person.role person) "driver"
      then pick_driver rest used_person_ids
      else if String.eqb (Person.role person) "driver"
              && negb (Py.mem (Person.id person) used_person_ids)
      then Some person
      else pick_driver rest used_person_ids
  end.

(** Second and third loop: the first person that is not used and whose role
    is lead_tech or service_tech. *)
Fixpoint pick_tech (available : list Person.t) (used_person_ids : gset string)
  : option Person.t :=
  match available with
  | [] => None
  | person :: rest =>
      if Py.mem (Person.id person) used_person_ids
      then pick_tech rest used_person_ids
      else if String.eqb (Person.role person) "lead_tech"
              || String.eqb (Person.role person) "service_tech"
      then Some person
      else pick_tech rest used_person_ids
  end.

Definition as_trip_person (person : Person.t) (role_on_trip : string) : TripPerson.t :=
  TripPerson.mk (Person.id person) (Person.name person) role_on_trip.

(** Assign a driver (and optionally a service tech) from the hub.  Returns
    the personnel and [used_person_ids] as the call leaves it. *)
Definition _assign_personnel (hub : Hub.t) (week_data : WeekData.t)
    (used_person_ids : gset string) : list TripPerson.t * gset string :=
  let available := WeekData.available_personnel_at_hub week_data (Hub.id hub) in
  (* Assign driver first *)
  let '(personnel, used_person_ids) :=
    match pick_driver available used_person_ids with
    | Some person =>
        ([as_trip_person person "driver"], {[Person.id person]} ∪ used_person_ids)
    | None => ([], used_person_ids)
    end in
  (* If no dedicated driver, use lead_tech or service_tech *)
  let '(personnel, used_person_ids) :=
    match personnel with
    | [] =>
        match pick_tech available used_person_ids with
        | Some person =>
            ([as_trip_person person "driver"], {[Person.id person]} ∪ used_person_ids)
        | None => (personnel, used_person_ids)
        end
    | _ :: _ => (personnel, used_person_ids)
    end in
  (* Assign service tech if available *)
  match pick_tech available used_person_ids with
  | Some person =>
      (personnel ++ [as_trip_person person "service_tech"],
       {[Person.id person]} ∪ used_person_ids)
  | None => (personnel, used_person_ids)
  end.

(** The first vehicle of the list that is not used. *)
Fixpoint first_free_vehicle (vehicles : list Vehicle.t) (used_vehicle_ids : gset string)
  : option Vehicle.t :=
  match vehicles with
  | [] => None
  | v :: rest =>
      if negb (Py.mem (Vehicle.id v) used_vehicle_ids) then Some v
      else first_free_vehicle rest used_vehicle_ids
  end.

(** The cross-hub scan: the first other hub that has a free vehicle. *)
Fixpoint cross_hub_vehicle (week_data : WeekData.t) (hub : Hub.t)
    (other_hubs : list Hub.t) (used_vehicle_ids : gset string)
  : option (Vehicle.t * Hub.t) :=
  match other_hubs with
  | [] => None
  | other_hub :: rest =>
      if String.eqb (Hub.id other_hub) (Hub.id hub)
      then cross_hub_vehicle week_data hub rest used_vehicle_ids
      else
        match first_free_vehicle
                (WeekData.available_vehicles_at_hub week_data (Hub.id other_hub))
                used_vehicle_ids with
        | Some v => Some (v, other_hub)
        | None => cross_hub_vehicle week_data hub rest used_vehicle_ids
        end
  end.

(** No vehicle: every item of every demand at the cluster's venues is
    unassigned. *)
Definition no_vehicle_unassigned (cluster : VenueCluster.t) (constraints : Constraints.t)
  : list UnassignedDemand.t :=
  flat_map
    (fun venue =>
       flat_map
         (fun demand =>
            if String.eqb (Demand.venue_id demand) (Venue.id venue)
            then List.map
                   (fun item =>
                      UnassignedDemand.mk (Demand.customer_name demand) (Venue.name venue)
                        (ContractItem.asset_type item) (ContractItem.quantity item)
                        "No vehicle with sufficient capacity available")
                   (Demand.items demand)
            else [])
         (Constraints.demands constraints))
    (VenueCluster.venues cluster).

(** What the loop over the cluster's venues carries along. *)
Record gather : Type := mk_gather {
  trip_assets : list TripAsset.t;
  trip_stops : list TripStop.t;
  total_weight : Q;
  hub_assets : list Asset.t;
  used_asset_ids : gset string;
  all_unassigned : list UnassignedDemand.t
}.

(** [for asset in assigned]: the asset goes on the trip and leaves the pool. *)
Definition take_asset (g : gather) (asset : Asset.t) : gather :=
  mk_gather
    (trip_assets g
     ++ [TripAsset.mk (Asset.id asset) (Asset.serial_number asset)
                      (Asset.asset_type asset) None])
    (trip_stops g)
    (total_weight g
     + match Asset.weight_lbs asset with
       | Some w => if Qeq_bool w 0 then 0 else w
       | None => 0
       end)%Q
    (List.filter (fun a => negb (String.eqb (Asset.id a) (Asset.id asset))) (hub_assets g))
    ({[Asset.id asset]} ∪ used_asset_ids g)
    (all_unassigned g).

(** [for demand in venue_demands]. *)
Definition serve_demand (week_data : WeekData.t) (constraints : Constraints.t)
    (venue : Venue.t) (g : gather) (demand : Demand.t) : gather :=
  (* First check if assets are already on-site *)
  let on_site :=
    List.filter (fun a => negb (Py.mem (Asset.id a) (used_asset_ids g)))
                (WeekData.assets_at_venue week_data (Venue.id venue)) in
  (* Combine on-site + hub assets for matching *)
  let available := on_site ++ hub_assets g in
  let '(assigned, unassigned) :=
    _assign_assets_to_demand demand available constraints week_data in
  let g1 :=
    mk_gather (trip_assets g) (trip_stops g) (total_weight g) (hub_assets g)
              (used_asset_ids g) (all_unassigned g ++ unassigned) in
  fold_left take_asset assigned g1.

(** [for stop_order, venue in enumerate(cluster.venues)]; [stop_order] is
    the index of the head of [venues]. *)
Fixpoint gather_stops (week_data : WeekData.t) (constraints : Constraints.t)
    (venues : list Venue.t) (stop_order : nat) (g : gather) : gather :=
  match venues with
  | [] => g
  | venue :: rest =>
      (* Find demand for this venue *)
      let venue_demands :=
        List.filter (fun d => String.eqb (Demand.venue_id d) (Venue.id venue))
                    (Constraints.demands constraints) in
      match venue_demands with
      | [] => gather_stops week_data constraints rest (S stop_order) g
      | first_demand :: _ =>
          let g1 := fold_left (serve_demand week_data constraints venue) venue_demands g in
          let stop :=
            TripStop.mk (Venue.id venue) (Venue.name venue) (Z.of_nat stop_order + 1)
                        None None "deliver" false None (Some first_demand) in
          let g2 :=
            mk_gather (trip_assets g1) (trip_stops g1 ++ [stop]) (total_weight g1)
                      (hub_assets g1) (used_asset_ids g1) (all_unassigned g1) in
          gather_stops week_data constraints rest (S stop_order) g2
      end
  end.

(** [for stop in trip_stops] of the distance computation: the state is
    [(total_miles, total_drive_minutes, prev_idx)]. *)
Fixpoint route_legs (cluster : VenueCluster.t) (dist_matrix : DistanceMatrix.t)
    (stops : list TripStop.t) (total_miles total_drive_minutes : Q)
    (prev_idx : option nat) : Q * Q * option nat :=
  match stops with
  | [] => (total_miles, total_drive_minutes, prev_idx)
  | stop :: rest =>
      let venue :=
        List.find (fun v => String.eqb (Venue.id v) (TripStop.venue_id stop))
                  (VenueCluster.venues cluster) in
      match venue with
      | Some v =>
          match Venue.location v with
          | Some loc =>
              let venue_idx := DistanceMatrix.location_index dist_matrix loc in
              match prev_idx, venue_idx with
              | Some p, Some vi =>
                  route_legs cluster dist_matrix rest
                    (total_miles + DistanceMatrix.miles_at dist_matrix p vi)%Q
                    (total_drive_minutes + DistanceMatrix.minutes_at dist_matrix p vi)%Q
                    venue_idx
              | _, _ =>
                  route_legs cluster dist_matrix rest total_miles total_drive_minutes
                             venue_idx
              end
          | None =>
              route_legs cluster dist_matrix rest total_miles total_drive_minutes prev_idx
          end
      | None =>
          route_legs cluster dist_matrix rest total_miles total_drive_minutes prev_idx
      end
  end.

(** The three sets that [_build_trip_for_cluster] updates in place. *)
Record used : Type := mk_used {
  used_vehicle_ids : gset string;
  used_assets : gset string;
  used_person_ids : gset string
}.

(** Build a trip for a venue cluster.
    Returns [(trip, unassigned_demands, warnings)] and the used sets. *)
Definition _build_trip_for_cluster (cluster : VenueCluster.t) (week_data : WeekData.t)
    (dist_matrix : DistanceMatrix.t) (constraints : Constraints.t) (u : used)
  : option Trip.t * list UnassignedDemand.t * list string * used :=
  match VenueCluster.venues cluster with
  | [] => (None, [], [], u)
  | first_venue :: _ =>
      (* Find the nearest hub *)
      match WeekData.nearest_hub week_data first_venue with
      | None =>
          (None, [], [Py.f ["No hub found for venue "; Venue.name first_venue]], u)
      | Some hub =>
          (* Find available vehicle at this hub, else try other hubs *)
          let choice :=
            match first_free_vehicle
                    (WeekData.available_vehicles_at_hub week_data (Hub.id hub))
                    (used_vehicle_ids u) with
            | Some v => Some (v, hub, [])
            | None =>
                match cross_hub_vehicle week_data hub (WeekData.hubs week_data)
                                        (used_vehicle_ids u) with
                | Some (v, other_hub) =>
                    Some (v, other_hub,
                          [Py.f ["Cross-hub: Using "; Vehicle.name v; " from ";
                                 Hub.name other_hub; " for venue ";
                                 Venue.name first_venue]])
                | None => None
                end
            end in
          match choice with
          | None => (None, no_vehicle_unassigned cluster constraints, [], u)
          | Some (vehicle, hub, warnings) =>
              let used_vehicle_ids' := {[Vehicle.id vehicle]} ∪ used_vehicle_ids u in
              (* Assets available at the hub *)
              let hub_assets0 :=
                List.filter (fun a => negb (Py.mem (Asset.id a) (used_assets u)))
                            (WeekData.assets_at_hub week_data (Hub.id hub)) in
              let g :=
                gather_stops week_data constraints (VenueCluster.venues cluster) 0
                             (mk_gather [] [] 0.0 hub_assets0 (used_assets u) []) in
              match trip_stops g with
              | [] =>
                  (None, all_unassigned g, warnings,
                   mk_used used_vehicle_ids' (used_asset_ids g) (used_person_ids u))
              | _ :: _ =>
                  (* Check vehicle capacity *)
                  let warnings :=
                    if negb (constraints.check_capacity_weight vehicle (total_weight g))
                    then warnings
                         ++ [Py.f ["Vehicle "; Vehicle.name vehicle;
                                   " may be overloaded: "; Py.fmt0 (total_weight g);
                                   " lbs vs ";
                                   match Vehicle.capacity_lbs vehicle with
                                   | Some c => Py.str_of_Z c
                                   | None => "None"
                                   end;
                                   " lbs capacity"]]
                    else warnings in
                  (* Calculate total distance *)
                  let hub_idx :=
                    DistanceMatrix.location_index dist_matrix (Hub.location hub) in
                  let '(total_miles, total_drive_minutes, prev_idx) :=
                    route_legs cluster dist_matrix (trip_stops g) 0.0 0.0 hub_idx in
                  (* Return trip to hub *)
                  let '(total_miles, total_drive_minutes) :=
                    match prev_idx, hub_idx with
                    | Some p, Some h =>
                        ((total_miles + DistanceMatrix.miles_at dist_matrix p h)%Q,
                         (total_drive_minutes + DistanceMatrix.minutes_at dist_matrix p h)%Q)
                    | _, _ => (total_miles, total_drive_minutes)
                    end in
                  let total_drive_hrs := (total_drive_minutes / 60)%Q in
                  (* Assign personnel *)
                  let '(personnel, used_person_ids') :=
                    _assign_personnel hub week_data (used_person_ids u) in
                  let warnings :=
                    match personnel with
                    | [] =>
                        warnings
                        ++ [Py.f ["No personnel available at "; Hub.name hub;
                                  " for trip to "; Venue.name first_venue]]
                    | _ :: _ => warnings
                    end in
                  let trip :=
                    Trip.mk (Vehicle.id vehicle) (Vehicle.name vehicle)
                            (Hub.id hub) (Hub.name hub)
                            (trip_stops g) (trip_assets g) personnel
                            (Py.round total_miles 1) (Py.round total_drive_hrs 2)
                            0.0 None None in
                  (Some trip, all_unassigned g, warnings,
                   mk_used used_vehicle_ids' (used_asset_ids g) used_person_ids')
              end
          end
      end
  end.

Section OptimizeWeek.
Context `{Externals}.

(** The location of the matrix that carries a given label, if any. *)
Definition location_labelled (dist_matrix : DistanceMatrix.t) (name : string)
  : option LatLng.t :=
  List.find (fun loc => String.eqb (LatLng.label loc) name)
            (DistanceMatrix.locations dist_matrix).

(** [local_dist[i][j]]: miles times ten as an integer, 10000 for an
    unknown location. *)
Definition local_dist_cell (dist_matrix : DistanceMatrix.t)
    (stop_locations : list (option LatLng.t)) (i j : nat) : Z :=
  if Nat.eqb i j then 0
  else
    match stop_locations !! i, stop_locations !! j with
    | Some (Some loc_i), Some (Some loc_j) =>
        match DistanceMatrix.location_index dist_matrix loc_i,
              DistanceMatrix.location_index dist_matrix loc_j with
        | Some idx_i, Some idx_j =>
            Py.int (DistanceMatrix.miles_at dist_matrix idx_i idx_j * 10)
        | _, _ => 10000 (* large penalty for unknown *)
        end
    | _, _ => 10000
    end.

(** [for order, stop in enumerate(reordered): stop.stop_order = order + 1];
    [order] is the index of the head of [reordered]. *)
Fixpoint renumber (reordered : list TripStop.t) (order : nat) : list TripStop.t :=
  match reordered with
  | [] => []
  | stop :: rest =>
      TripStop.set_stop_order stop (Z.of_nat order + 1) :: renumber rest (S order)
  end.

(** [[stops[i] for i in new_order]]; [None] when an index is not below
    [len(stops)]. *)
Definition pick_stops (stops : list TripStop.t) (new_order : list nat)
  : option (list TripStop.t) :=
  mapM (fun i => stops !! i) new_order.

(** Use the routing solver to find the stop ordering of a multi-stop trip;
    the hub is the depot (node 0), stop [k] is node [k + 1].  The solver
    visits every node once and [IndexToNode] yields nodes of the model, so
    that [new_order] holds distinct indices below [len(stops)]: no stop is
    numbered twice, and the [IndexError] of [stops[i]] (the last [None]
    branch) does not occur. *)
Definition _ortools_reorder_stops (trip : Trip.t) (dist_matrix : DistanceMatrix.t)
    (timeout_ms : Z) : list TripStop.t :=
  let stops := Trip.stops trip in
  let n := S (length stops) in (* +1 for depot (hub) *)
  if Nat.leb n 3 then stops (* not worth optimizing for 2 stops *)
  else
    let hub_loc :=
      match location_labelled dist_matrix (Trip.origin_hub_name trip) with
      | Some loc => loc
      | None => LatLng.mk 0 0 "hub" (* placeholder *)
      end in
    let stop_locations :=
      Some hub_loc
      :: List.map (fun stop => location_labelled dist_matrix (TripStop.venue_name stop))
                  stops in
    let local_dist :=
      List.map (fun i => List.map (local_dist_cell dist_matrix stop_locations i) (seq 0 n))
               (seq 0 n) in
    match ortools_tsp local_dist (Z.min timeout_ms 5000) with
    | None => stops (* keep original order if solver fails *)
    | Some new_order =>
        if Nat.eqb (length new_order) (length stops)
        then
          match pick_stops stops new_order with
          | Some reordered => renumber reordered 0
          | None => stops
          end
        else stops
    end.

(** [cluster.total_demand_weight] as the first loop of [optimize_week]
    computes it. *)
Definition cluster_demand_weight (constraints : Constraints.t) (cluster : VenueCluster.t)
  : Q :=
  fold_left
    (fun total venue =>
       fold_left
         (fun total demand =>
            if String.eqb (Demand.venue_id demand) (Venue.id venue)
            then Py.fadd total (Demand.total_weight_lbs demand)
            else total)
         (Constraints.demands constraints) total)
    (VenueCluster.venues cluster) 0.0%Q.

(** One turn of [for cluster in clusters]: the state is the result so far
    and the used sets. *)
Definition process_cluster (week_data : WeekData.t) (dist_matrix : DistanceMatrix.t)
    (constraints : Constraints.t) (st : OptimizationResult.t * used)
    (cluster : VenueCluster.t) : OptimizationResult.t * used :=
  let '(result, u) := st in
  let '(trip, unassigned, warnings, u') :=
    _build_trip_for_cluster cluster week_data dist_matrix constraints u in
  let result :=
    match trip with
    | Some t => OptimizationResult.set_trips result (OptimizationResult.trips result ++ [t])
    | None => result
    end in
  let result :=
    OptimizationResult.set_unassigned_demands result
      (OptimizationResult.unassigned_demands result ++ unassigned) in
  let result :=
    OptimizationResult.set_warnings result
      (OptimizationResult.warnings result ++ warnings) in
  (result, u').

(** Run the weekly optimization solver.  [pre_used_asset_ids] is the set of
    assets already consumed (for multi-pass week 0), empty by default. *)
Definition optimize_week (week_data : WeekData.t) (dist_matrix : DistanceMatrix.t)
    (constraints : Constraints.t) (clusters : list VenueCluster.t)
    (timeout_ms : Z) (pre_used_asset_ids : gset string) : OptimizationResult.t :=
  let result := OptimizationResult.empty in
  let u := mk_used ∅ pre_used_asset_ids ∅ in
  (* Sort clusters by total demand weight (heaviest first) *)
  let clusters :=
    List.map (fun c => VenueCluster.set_total_demand_weight c
                         (cluster_demand_weight constraints c))
             clusters in
  let clusters :=
    Py.sort_desc (fun a b => Py.Qltb (VenueCluster.total_demand_weight a)
                                     (VenueCluster.total_demand_weight b))
                 clusters in
  (* Process each cluster *)
  let '(result, _) :=
    fold_left (process_cluster week_data dist_matrix constraints) clusters (result, u) in
  (* For clusters with 3+ stops, use the routing solver for the ordering *)
  let result :=
    OptimizationResult.set_trips result
      (List.map (fun trip =>
                   if Nat.leb 3 (length (Trip.stops trip))
                   then Trip.set_stops trip
                          (_ortools_reorder_stops trip dist_matrix timeout_ms)
                   else trip)
                (OptimizationResult.trips result)) in
  let result := OptimizationResult.set_solve_time_ms result week_elapsed_ms in
  (* Set status *)
  match OptimizationResult.unassigned_demands result with
  | _ :: _ => OptimizationResult.set_status result "partial"
  | [] => OptimizationResult.set_status result "completed"
  end.
End OptimizeWeek.

End optimizer.

(** ** solver/infeasibility.py *)

Module infeasibility.

(** A function body that may [return] before its last statement. *)
Inductive flow : Type :=
| Return (result : OptimizationResult.t)
| Continue (best_result : OptimizationResult.t).

(** Check if new result is better (fewer unassigned demands). *)
Definition _is_better (new old : OptimizationResult.t) : bool :=
  Nat.ltb (length (OptimizationResult.unassigned_demands new))
          (length (OptimizationResult.unassigned_demands old)).

(** [r.constraint_relaxations.append({...})]. *)
Definition log_relaxation (r : OptimizationResult.t) (step : Z) (action detail : string)
  : OptimizationResult.t :=
  OptimizationResult.set_constraint_relaxations r
    (OptimizationResult.constraint_relaxations r ++ [Relaxation.mk step action detail]).

(** One block [if result and _is_better(result, best_result): ...] of
    [handle_infeasibility]; [annotate] is what the block appends to the
    adopted result.  [result] is [None] when the step raised. *)
Definition adopt (result : option OptimizationResult.t)
    (best_result : OptimizationResult.t)
    (annotate : OptimizationResult.t -> OptimizationResult.t) : flow :=
  match result with
  | Some result =>
      if _is_better result best_result then
        let best_result := annotate result in
        if negb (OptimizationResult.has_unassigned result)
        then Return best_result
        else Continue best_result
      else Continue best_result
  | None => Continue best_result
  end.

Definition annotate1 (r : OptimizationResult.t) : OptimizationResult.t :=
  log_relaxation r 1 "relaxed_soft_constraints"
    "Allowed more miles, more vehicles, relaxed hub preference".

Definition annotate2 (r : OptimizationResult.t) : OptimizationResult.t :=
  let r := log_relaxation r 2 "relaxed_branding"
             "Allowed unbranded or mismatched branding assets" in
  OptimizationResult.set_warnings r
    (OptimizationResult.warnings r
     ++ ["Some assets may need rebranding before deployment"]).

Definition annotate3 (r : OptimizationResult.t) : OptimizationResult.t :=
  log_relaxation r 3 "split_multi_stop"
    "Split multi-stop trips into individual routes".

Definition annotate4 (r : OptimizationResult.t) : OptimizationResult.t :=
  log_relaxation r 4 "cross_hub_assignments"
    "Allowed vehicles from distant hubs to cover nearby games".

(** The diagnosis of one unassigned demand in step 5. *)
Definition classify (week_data : WeekData.t) (demand : UnassignedDemand.t)
  : UnassignedDemand.t :=
  let reason := UnassignedDemand.reason demand in
  if Py.contains "available" (Py.lower reason) then demand
  else
    let matching_assets :=
      List.filter
        (fun a => String.eqb (Asset.asset_type a) (UnassignedDemand.asset_type demand)
                  && negb (String.eqb (Asset.condition a) "out_of_service"
                           || String.eqb (Asset.condition a) "needs_repair"))
        (WeekData.assets week_data) in
    match matching_assets with
    | [] =>
        UnassignedDemand.set_reason demand "Asset type/model not available in inventory"
    | _ :: _ =>
        if forallb (fun a => negb (String.eqb (Asset.status a) "at_hub")) matching_assets
        then UnassignedDemand.set_reason demand
               (Py.f ["All "; UnassignedDemand.asset_type demand;
                      " assets are deployed — none at hub"])
        else
          let total_vehicles := length (WeekData.vehicles week_data) in
          let total_personnel :=
            length (List.filter
                      (fun p => String.eqb (Person.role p) "driver"
                                || String.eqb (Person.role p) "lead_tech")
                      (WeekData.personnel week_data)) in
          if Nat.eqb total_vehicles 0
          then UnassignedDemand.set_reason demand
                 "No vehicle with sufficient capacity available"
          else if Nat.eqb total_personnel 0
          then UnassignedDemand.set_reason demand "No personnel available at nearest hub"
          else UnassignedDemand.set_reason demand
                 "Insufficient resources to cover all demands this week"
    end.

(** Classify remaining unassigned demands with specific explanations. *)
Definition _step5_classify_unassigned (result : OptimizationResult.t)
    (week_data : WeekData.t) : OptimizationResult.t :=
  OptimizationResult.set_unassigned_demands result
    (List.map (classify week_data) (OptimizationResult.unassigned_demands result)).

Section Cascade.
Context `{Externals}.

(** [VenueCluster(venues=[venue]) for venue in week_data.game_venues]. *)
Definition single_stop_clusters (week_data : WeekData.t) : list VenueCluster.t :=
  List.map (fun venue => VenueCluster.of_venues [venue]) (WeekData.game_venues week_data).

(** [cluster_venues(week_data.game_venues, week_data.hub_locations,
    dist_matrix)] with the defaults of its last two arguments. *)
Definition default_clusters (week_data : WeekData.t) (dist_matrix : DistanceMatrix.t)
  : list VenueCluster.t :=
  clustering.cluster_venues (WeekData.game_venues week_data)
    (WeekData.hub_locations week_data) dist_matrix 150%R 4.

(** Relax soft constraints and re-run the optimizer. *)
Definition _step1_relax_soft_constraints (week_data : WeekData.t)
    (dist_matrix : DistanceMatrix.t) : option OptimizationResult.t :=
  let constraints := constraints.build_constraints week_data in
  let constraints := Constraints.set_weights constraints 0.1 0.1 0.1 0.1 0.1 in
  let clusters := default_clusters week_data dist_matrix in
  Some (optimizer.optimize_week week_data dist_matrix constraints clusters 30000 ∅).

(** Relax branding constraints: allow unbranded or mismatched assets. *)
Definition _step2_relax_branding (week_data : WeekData.t)
    (dist_matrix : DistanceMatrix.t) : option OptimizationResult.t :=
  let constraints := constraints.build_constraints week_data in
  let constraints := Constraints.set_blocked_asset_ids constraints ∅ in
  let constraints :=
    Constraints.set_weights constraints
      (Constraints.weight_minimize_miles constraints)
      (Constraints.weight_minimize_vehicles constraints)
      (Constraints.weight_prefer_closest_hub constraints)
      0.0
      (Constraints.weight_geographic_clustering constraints) in
  let clusters := default_clusters week_data dist_matrix in
  Some (optimizer.optimize_week week_data dist_matrix constraints clusters 30000 ∅).

(** Split all multi-stop clusters into single-stop trips. *)
Definition _step3_split_multi_stop (week_data : WeekData.t)
    (dist_matrix : DistanceMatrix.t) : option OptimizationResult.t :=
  let constraints := constraints.build_constraints week_data in
  let constraints := Constraints.set_blocked_asset_ids constraints ∅ in
  let clusters := single_stop_clusters week_data in
  Some (optimizer.optimize_week week_data dist_matrix constraints clusters 30000 ∅).

(** Allow cross-hub assignments: any vehicle can serve any venue. *)
Definition _step4_cross_hub (week_data : WeekData.t)
    (dist_matrix : DistanceMatrix.t) : option OptimizationResult.t :=
  let constraints := constraints.build_constraints week_data in
  let constraints := Constraints.set_blocked_asset_ids constraints ∅ in
  let constraints :=
    Constraints.set_weights constraints
      (Constraints.weight_minimize_miles constraints)
      (Constraints.weight_minimize_vehicles constraints)
      0.0
      (Constraints.weight_minimize_rebranding constraints)
      (Constraints.weight_geographic_clustering constraints) in
  let clusters := single_stop_clusters week_data in
  Some (optimizer.optimize_week week_data dist_matrix constraints clusters 30000 ∅).
End Cascade.

(** Steps 5 and 6: the diagnosis, then status partial when demands remain. *)
Definition finish (best_result : OptimizationResult.t) (week_data : WeekData.t)
  : OptimizationResult.t :=
  let best_result := _step5_classify_unassigned best_result week_data in
  if OptimizationResult.has_unassigned best_result then
    let best_result := OptimizationResult.set_status best_result "partial" in
    log_relaxation best_result 6 "partial_solution"
      (Py.f [Py.str_of_nat (length (OptimizationResult.unassigned_demands best_result));
             " demands could not be fulfilled"])
  else best_result.

(** The body of [handle_infeasibility] after the four step results are
    known ([None] for a step that raised). *)
Definition cascade (week_data : WeekData.t) (initial_result : OptimizationResult.t)
    (result1 result2 result3 result4 : option OptimizationResult.t)
  : OptimizationResult.t :=
  let best_result := initial_result in
  match OptimizationResult.unassigned_demands initial_result with
  | [] => best_result
  | _ :: _ =>
      (* Step 1: relax soft constraints *)
      match adopt result1 best_result annotate1 with
      | Return r => r
      | Continue best_result =>
          (* Step 2: relax branding constraints *)
          match adopt result2 best_result annotate2 with
          | Return r => r
          | Continue best_result =>
              (* Step 3: split multi-stop trips into single-stop *)
              match adopt result3 best_result annotate3 with
              | Return r => r
              | Continue best_result =>
                  (* Step 4: allow cross-hub assignments *)
                  match adopt result4 best_result annotate4 with
                  | Return r => r
                  | Continue best_result => finish best_result week_data
                  end
              end
          end
      end
  end.

(** Apply the 6-step constraint relaxation cascade to resolve infeasibility. *)
Definition handle_infeasibility `{Externals} (week_data : WeekData.t)
    (dist_matrix : DistanceMatrix.t) (initial_result : OptimizationResult.t)
  : OptimizationResult.t :=
  cascade week_data initial_result
    (_step1_relax_soft_constraints week_data dist_matrix)
    (_step2_relax_branding week_data dist_matrix)
    (_step3_split_multi_stop week_data dist_matrix)
    (_step4_cross_hub week_data dist_matrix).

End infeasibility.

(** ** solver/week0.py *)

Module week0.

Definition MAX_PASSES : nat := 10. (* safety limit to prevent infinite loops *)

(** The variables of [optimize_week0] that its loop updates. *)
Record state : Type := mk_state {
  combined : OptimizationResult.t;
  global_used_asset_ids : gset string;
  served_set : gset (string * string)
}.

(** How one turn of the [for pass_num in range(1, MAX_PASSES + 1)] loop
    ends: with [break], or at the end of its body. *)
Inductive outcome : Type :=
| Break (st : state)
| Next (st : state).

Definition add_warning (r : OptimizationResult.t) (w : string) : OptimizationResult.t :=
  OptimizationResult.set_warnings r (OptimizationResult.warnings r ++ [w]).

Definition extend_unassigned (r : OptimizationResult.t) (u : list UnassignedDemand.t)
  : OptimizationResult.t :=
  OptimizationResult.set_unassigned_demands r
    (OptimizationResult.unassigned_demands r ++ u).

(** [[d for d in all_demands if (d.venue_id, d.customer_id) not in served_set]]. *)
Definition remaining_demands (all_demands : list Demand.t)
    (served : gset (string * string)) : list Demand.t :=
  List.filter
    (fun d => negb (Py.mem2 (Demand.venue_id d, Demand.customer_id d) served))
    all_demands.

(** The pass-specific constraints (no time windows for week 0). *)
Definition pass_constraints (constraints : Constraints.t) (remaining : list Demand.t)
  : Constraints.t :=
  Constraints.mk remaining ∅ (Constraints.max_drive_hrs constraints) 0 0
    1.0 0.8 0.6 0.7 0.5
    (Constraints.blocked_asset_ids constraints)
    (Constraints.hub_vehicle_counts constraints)
    (Constraints.hub_personnel_counts constraints).

(** [for trip in result.trips: for asset in trip.assets:
    global_used_asset_ids.add(asset.asset_id)]. *)
Definition consume_assets (trips : list Trip.t) (used : gset string) : gset string :=
  fold_left
    (fun used trip =>
       fold_left (fun used asset => {[TripAsset.asset_id asset]} ∪ used)
                 (Trip.assets trip) used)
    trips used.

(** [for trip in result.trips: for stop in trip.stops: if stop.demand:
    served_set.add((stop.demand.venue_id, stop.demand.customer_id))]. *)
Definition mark_served (trips : list Trip.t) (served : gset (string * string))
  : gset (string * string) :=
  fold_left
    (fun served trip =>
       fold_left
         (fun served stop =>
            match TripStop.demand stop with
            | Some d => {[(Demand.venue_id d, Demand.customer_id d)]} ∪ served
            | None => served
            end)
         (Trip.stops trip) served)
    trips served.

Section Week0.
Context `{Externals}.

(** The planner run of one pass, on the demands that remain. *)
Definition run_pass (week_data : WeekData.t) (dist_matrix : DistanceMatrix.t)
    (constraints : Constraints.t) (timeout_ms total_budget_ms elapsed_ms : Z)
    (remaining : list Demand.t) (st : state)
  : option OptimizationResult.t :=
  (* Re-cluster only remaining venues *)
  let remaining_venue_ids : gset string :=
    list_to_set (List.map Demand.venue_id remaining) in
  let remaining_venues :=
    List.filter (fun v => Py.mem (Venue.id v) remaining_venue_ids)
                (WeekData.game_venues week_data) in
  let pass_clusters :=
    clustering.cluster_venues remaining_venues (WeekData.hub_locations week_data)
      dist_matrix 150%R 4 in
  match pass_clusters with
  | [] => None
  | _ :: _ =>
      (* Reduce per-pass timeout for subsequent passes *)
      let remaining_budget := total_budget_ms - elapsed_ms in
      let pass_timeout := Z.min timeout_ms remaining_budget in
      (* vehicles and personnel are fresh, only assets accumulate *)
      Some (optimizer.optimize_week week_data dist_matrix
              (pass_constraints constraints remaining) pass_clusters
              pass_timeout (global_used_asset_ids st))
  end.

(** The body of the loop for pass [pass_num]. *)
Definition pass (week_data : WeekData.t) (dist_matrix : DistanceMatrix.t)
    (constraints : Constraints.t) (timeout_ms : Z) (all_demands : list Demand.t)
    (pass_num : nat) (st : state) : outcome :=
  let total_budget_ms := timeout_ms * 3 in
  let elapsed_ms := week0_elapsed_ms pass_num in
  if Z.leb total_budget_ms elapsed_ms then
    Break (mk_state
             (add_warning (combined st)
                (Py.f ["Time budget exceeded after "; Py.str_of_nat (pass_num - 1);
                       " passes"]))
             (global_used_asset_ids st) (served_set st))
  else
    (* Filter to only unmet demands *)
    let remaining := remaining_demands all_demands (served_set st) in
    match remaining with
    | [] => Break st
    | _ :: _ =>
        match run_pass week_data dist_matrix constraints timeout_ms total_budget_ms
                       elapsed_ms remaining st with
        | None => Break st
        | Some result =>
            let prev_asset_count := size (global_used_asset_ids st) in
            let new_trip_count := length (OptimizationResult.trips result) in
            if Nat.eqb new_trip_count 0 then
              (* No trips generated this pass: stuck *)
              let c := extend_unassigned (combined st)
                         (OptimizationResult.unassigned_demands result) in
              let c := add_warning c
                         (Py.f ["Pass "; Py.str_of_nat pass_num;
                                ": No trips generated, ";
                                Py.str_of_nat (length remaining); " demands remain"]) in
              Break (mk_state c (global_used_asset_ids st) (served_set st))
            else
              (* Accumulate trips and warnings *)
              let c := OptimizationResult.set_trips (combined st)
                         (OptimizationResult.trips (combined st)
                          ++ OptimizationResult.trips result) in
              let c := OptimizationResult.set_warnings c
                         (OptimizationResult.warnings c
                          ++ OptimizationResult.warnings result) in
              let c := add_warning c
                         (Py.f ["Pass "; Py.str_of_nat pass_num; ": ";
                                Py.str_of_nat new_trip_count; " trips generated"]) in
              (* Track consumed assets *)
              let used' :=
                consume_assets (OptimizationResult.trips result)
                               (global_used_asset_ids st) in
              let new_assets_consumed := (size used' - prev_asset_count)%nat in
              if Nat.eqb new_assets_consumed 0 then
                let c := add_warning c
                           (Py.f ["Pass "; Py.str_of_nat pass_num;
                                  ": No new assets consumed, stopping"]) in
                let c := extend_unassigned c
                           (OptimizationResult.unassigned_demands result) in
                Break (mk_state c used' (served_set st))
              else
                (* Mark fully served demands *)
                let served' :=
                  mark_served (OptimizationResult.trips result) (served_set st) in
                (* Check if all demands are met *)
                if negb (OptimizationResult.has_unassigned result)
                then Break (mk_state c used' served')
                else Next (mk_state c used' served')
        end
    end.

(** The loop over the pass numbers. *)
Fixpoint passes (week_data : WeekData.t) (dist_matrix : DistanceMatrix.t)
    (constraints : Constraints.t) (timeout_ms : Z) (all_demands : list Demand.t)
    (pass_nums : list nat) (st : state) : state :=
  match pass_nums with
  | [] => st
  | pass_num :: rest =>
      match pass week_data dist_matrix constraints timeout_ms all_demands pass_num st with
      | Break st' => st'
      | Next st' =>
          passes week_data dist_matrix constraints timeout_ms all_demands rest st'
      end
  end.

(** Multi-pass optimizer for week 0 pre-season deployment. *)
Definition optimize_week0 (week_data : WeekData.t) (dist_matrix : DistanceMatrix.t)
    (constraints : Constraints.t) (clusters : list VenueCluster.t) (timeout_ms : Z)
  : OptimizationResult.t :=
  let all_demands := Constraints.demands constraints in
  let st :=
    passes week_data dist_matrix constraints timeout_ms all_demands
           (seq 1 MAX_PASSES) (mk_state OptimizationResult.empty ∅ ∅) in
  let c := OptimizationResult.set_solve_time_ms (combined st) (week0_elapsed_ms 0) in
  OptimizationResult.set_status c
    (match OptimizationResult.unassigned_demands c with
     | [] => "completed"
     | _ :: _ => "partial"
     end).
End Week0.

End week0.

(** ** solver/lookahead.py *)

Module Disposition.
Record t : Type := mk {
  action : string; (* leave_on_site, reroute_to_next_venue, return_to_hub *)
  requires_hub_return : bool;
  hub_return_reason : option string;
  next_venue_id : option string;
  next_venue_name : option string
}.
End Disposition.

Module lookahead.

(** Haversine distance in miles. *)
Definition _haversine_miles (a b : LatLng.t) : R :=
  let R_ := 3959%R in
  let lat1 := Py.radians (Q2R (LatLng.lat a)) in
  let lat2 := Py.radians (Q2R (LatLng.lat b)) in
  let dlat := Py.radians (Q2R (LatLng.lat b) - Q2R (LatLng.lat a)) in
  let dlng := Py.radians (Q2R (LatLng.lng b) - Q2R (LatLng.lng a)) in
  let h := (sin (dlat / 2) ^ 2 + cos lat1 * cos lat2 * sin (dlng / 2) ^ 2)%R in
  (2 * R_ * asin (sqrt h))%R.

(** Find if this customer has a game next week. *)
Definition _find_next_week_game_for_customer (customer_id : string)
    (next_week_games : list Game.t) : option Game.t :=
  List.find (fun game => String.eqb (Game.customer_id game) customer_id) next_week_games.

(** The loop of [_find_nearby_game_next_week]: the state is
    [(best_game, best_distance)], and [miles_to gloc] is what
    [_haversine_miles(venue.location, gloc)] returns. *)
Fixpoint nearby_scan (miles_to : LatLng.t -> R) (max_distance_miles : R)
    (games : list Game.t) (best_game : option Game.t) (best_distance : Py.ext R)
  : option Game.t :=
  match games with
  | [] => best_game
  | game :: rest =>
      match Game.venue game with
      | Some gv =>
          match Venue.location gv with
          | Some gloc =>
              let distance := miles_to gloc in
              if Py.Rltb distance max_distance_miles
                 && Py.ext_Rltb (Py.Fin distance) best_distance
              then nearby_scan miles_to max_distance_miles rest (Some game) (Py.Fin distance)
              else nearby_scan miles_to max_distance_miles rest best_game best_distance
          | None => nearby_scan miles_to max_distance_miles rest best_game best_distance
          end
      | None => nearby_scan miles_to max_distance_miles rest best_game best_distance
      end
  end.

(** Find a nearby game next week that could reuse these assets. *)
Definition _find_nearby_game_next_week (venue : Venue.t) (next_week_games : list Game.t)
    (max_distance_miles : R) : option Game.t :=
  match Venue.location venue with
  | None => None
  | Some loc =>
      nearby_scan (_haversine_miles loc) max_distance_miles next_week_games None Py.Inf
  end.

Definition leave_on_site : Disposition.t :=
  Disposition.mk "leave_on_site" false None None None.

Definition venue_name_of (game : Game.t) : option string :=
  match Game.venue game with
  | Some v => Some (Venue.name v)
  | None => None
  end.

(** The last two rules of [determine_disposition]: a nearby game of another
    customer, else leave on site. *)
Definition nearby_or_leave (next_week_games : list Game.t) (venue : option Venue.t)
  : Disposition.t :=
  match venue with
  | Some v =>
      match _find_nearby_game_next_week v next_week_games 200%R with
      | Some nearby_game =>
          match Game.venue nearby_game with
          | Some _ =>
              Disposition.mk "reroute_to_next_venue" false None
                (Game.venue_id nearby_game) (venue_name_of nearby_game)
          | None => leave_on_site
          end
      | None => leave_on_site
      end
  | None => leave_on_site
  end.

(** Determine the post-game disposition for a single trip stop. *)
Definition determine_disposition (stop : TripStop.t) (trip : Trip.t)
    (next_week_games : list Game.t) (season_year week_number : Z)
    (venue : option Venue.t) (customer_id : option string) : Disposition.t :=
  (* Week 0 pre-season: always leave on site *)
  if Z.eqb week_number 0 then leave_on_site
  (* End of season (week 18) *)
  else if Z.leb 18 week_number then
    Disposition.mk "return_to_hub" true
      (Some "End of season — all assets return to hub") None None
  else
    match next_week_games with
    | [] => leave_on_site (* no next week games at all *)
    | _ :: _ =>
        (* Check if same customer has a game next week *)
        let demand := TripStop.demand stop in
        let cust_id :=
          if Py.truthy customer_id then customer_id
          else match demand with
               | Some d => Some (Demand.customer_id d)
               | None => None
               end in
        match cust_id with
        | Some cid =>
            if negb (String.eqb cid "") then
              match _find_next_week_game_for_customer cid next_week_games with
              | Some next_game =>
                  if Py.opt_str_eqb (Game.venue_id next_game)
                                    (Some (TripStop.venue_id stop))
                  then leave_on_site (* same venue *)
                  else
                    match Game.venue next_game, venue with
                    | Some ngv, Some v =>
                        match Venue.location ngv, Venue.location v with
                        | Some ngloc, Some vloc =>
                            (* Different venue: reroute *)
                            let distance := _haversine_miles vloc ngloc in
                            if Py.Rltb distance 500
                            then Disposition.mk "reroute_to_next_venue" false None
                                   (Game.venue_id next_game) (venue_name_of next_game)
                            else
                              (* Too far: return to hub for redistribution *)
                              Disposition.mk "return_to_hub" true
                                (Some (Py.f ["Next venue too far (";
                                             Py.str_of_Z (Py.Rround_half_even distance);
                                             " mi) — return to hub"]))
                                None None
                        | _, _ => nearby_or_leave next_week_games venue
                        end
                    | _, _ => nearby_or_leave next_week_games venue
                    end
              | None => leave_on_site (* bye week *)
              end
            else nearby_or_leave next_week_games venue
        | None => nearby_or_leave next_week_games venue
        end
    end.

(** What [determine_post_game_disposition] does at one stop: the updated
    stop and the warning it appends, if any. *)
Definition dispose_stop (trip : Trip.t) (next_week_games : list Game.t)
    (season_year week_number : Z) (stop : TripStop.t) : TripStop.t * list string :=
  let demand := TripStop.demand stop in
  let customer_id :=
    match demand with
    | Some d => Some (Demand.customer_id d)
    | None => None
    end in
  let venue :=
    match demand with
    | Some d => Game.venue (Demand.game d)
    | None => None
    end in
  let disposition :=
    determine_disposition stop trip next_week_games season_year week_number
                          venue customer_id in
  let stop' :=
    TripStop.set_hub_return stop (Disposition.requires_hub_return disposition)
                            (Disposition.hub_return_reason disposition) in
  let warnings :=
    if String.eqb (Disposition.action disposition) "reroute_to_next_venue"
    then [Py.f [TripStop.venue_name stop; ": Reroute assets to ";
                (if Py.truthy (Disposition.next_venue_name disposition)
                 then default "" (Disposition.next_venue_name disposition)
                 else "next venue");
                " for next week"]]
    else [] in
  (stop', warnings).

Definition dispose_trip (next_week_games : list Game.t) (season_year week_number : Z)
    (trip : Trip.t) : Trip.t * list string :=
  let r := List.map (dispose_stop trip next_week_games season_year week_number)
                    (Trip.stops trip) in
  (Trip.set_stops trip (List.map fst r), concat (List.map snd r)).

(** Apply post-game disposition logic to all trip stops. *)
Definition determine_post_game_disposition (result : OptimizationResult.t)
    (next_week_games : list Game.t) (season_year week_number : Z)
  : OptimizationResult.t :=
  let r := List.map (dispose_trip next_week_games season_year week_number)
                    (OptimizationResult.trips result) in
  let result := OptimizationResult.set_trips result (List.map fst r) in
  OptimizationResult.set_warnings result
    (OptimizationResult.warnings result ++ concat (List.map snd r)).

End lookahead.

(** ** solver/scoring.py *)

Module scoring.

(* Weight factors for scoring components *)
Definition WEIGHT_DISTANCE : R := 0.40%R.
Definition WEIGHT_CAPACITY : R := 0.20%R.
Definition WEIGHT_TIME : R := 0.15%R.
Definition WEIGHT_CONSTRAINTS : R := 0.15%R.
Definition WEIGHT_MULTI_STOP : R := 0.10%R.

(** Straight-line distance in miles. *)
Definition _haversine_miles (lat1 lng1 lat2 lng2 : Q) : R :=
  let R_ := 3959%R in
  let rlat1 := Py.radians (Q2R lat1) in
  let rlat2 := Py.radians (Q2R lat2) in
  let dlat := Py.radians (Q2R lat2 - Q2R lat1) in
  let dlng := Py.radians (Q2R lng2 - Q2R lng1) in
  let h := (sin (dlat / 2) ^ 2 + cos rlat1 * cos rlat2 * sin (dlng / 2) ^ 2)%R in
  (2 * R_ * asin (sqrt h))%R.

(** The loop over the stops of [_score_distance_efficiency]: the furthest
    venue stop from the hub, in a straight line. *)
Definition furthest_stop (hub_loc : LatLng.t) (locations : list LatLng.t)
    (stops : list TripStop.t) : R :=
  fold_left
    (fun max_straight_line stop =>
       match List.find (fun loc => String.eqb (LatLng.label loc) (TripStop.venue_name stop))
                       locations with
       | Some loc =>
           Py.Rmax max_straight_line
             (_haversine_miles (LatLng.lat hub_loc) (LatLng.lng hub_loc)
                               (LatLng.lat loc) (LatLng.lng loc))
       | None => max_straight_line
       end)
    stops 0%R.

(** Score distance efficiency: how close is actual distance to optimal?
    100 = perfect, 0 = 5x+ the minimum. *)
Definition _score_distance_efficiency (trip : Trip.t) (dist_matrix : DistanceMatrix.t) : R :=
  if Py.Qleb (Trip.total_miles trip) 0 then 100%R
  else
    match List.find (fun loc => String.eqb (LatLng.label loc) (Trip.origin_hub_name trip))
                    (DistanceMatrix.locations dist_matrix) with
    | None => 50%R (* unknown hub, neutral score *)
    | Some hub_loc =>
        let max_straight_line :=
          furthest_stop hub_loc (DistanceMatrix.locations dist_matrix) (Trip.stops trip) in
        if Py.Rleb max_straight_line 0 then 50%R
        else
          (* Minimum round trip = 2 * straight-line distance to furthest venue *)
          let min_distance := (2 * max_straight_line)%R in
          let ratio :=
            if Py.Qltb 0 (Trip.total_miles trip)
            then (min_distance / Q2R (Trip.total_miles trip))%R
            else 0%R in
          (* Road factor: expect ~1.3x straight line, so 0.77 is perfect *)
          let adjusted_ratio := Py.Rmin (ratio / 0.77)%R 1%R in
          Py.Rmax 0%R (Py.Rmin 100%R (adjusted_ratio * 100)%R)
    end.

Definition weight_estimate (asset_type : string) : Z :=
  if String.eqb asset_type "heated_bench" then 150
  else if String.eqb asset_type "cooling_bench" then 150
  else if String.eqb asset_type "hybrid_bench" then 150
  else if String.eqb asset_type "dragon_shader" then 200
  else if String.eqb asset_type "heated_foot_deck" then 50
  else 100.

(** Score capacity utilization: how well is the vehicle filled? *)
Definition _score_capacity_utilization (trip : Trip.t) : Q :=
  match Trip.assets trip with
  | [] => 0.0
  | _ :: _ =>
      let total_weight :=
        Py.Zsum (List.map (fun a => weight_estimate (TripAsset.asset_type a))
                          (Trip.assets trip)) in
      let estimated_capacity := 10000%Z in
      let utilization := (inject_Z total_weight / inject_Z estimated_capacity)%Q in
      if Py.Qleb 0.5 utilization && Py.Qleb utilization 0.9 then 100.0
      else if Py.Qltb 0.9 utilization
      then Py.max 60 (100 - (utilization - 0.9) * 200)
      else Py.max 20 (utilization / 0.5 * 100)
  end.

(** Score time efficiency: drive time vs DOT limits. *)
Definition _score_time_efficiency (trip : Trip.t) : Q :=
  if Py.Qleb (Trip.total_drive_hrs trip) 0 then 100.0
  else
    let max_drive_hrs := 11%Q in (* DOT limit *)
    let ratio := (Trip.total_drive_hrs trip / max_drive_hrs)%Q in
    if Py.Qleb ratio 0.7 then 100.0 (* comfortable margin *)
    else if Py.Qleb ratio 0.9 then (80.0 + (0.9 - ratio) / 0.2 * 20)%Q (* 80-100 *)
    else if Py.Qleb ratio 1.0 then (50.0 + (1.0 - ratio) / 0.1 * 30)%Q (* 50-80 *)
    else Py.max 0 (50 - (ratio - 1.0) * 100) (* over DOT limit *).

(** [penalties.get(action, 10)]. *)
Definition penalty (action : string) : Z :=
  if String.eqb action "relaxed_soft_constraints" then 10
  else if String.eqb action "relaxed_branding" then 20
  else if String.eqb action "split_multi_stop" then 15
  else if String.eqb action "cross_hub_assignments" then 25
  else if String.eqb action "partial_solution" then 30
  else 10.

(** Score based on constraint relaxations. *)
Definition _score_constraint_satisfaction (result : OptimizationResult.t) : Q :=
  match OptimizationResult.constraint_relaxations result with
  | [] => 100.0
  | _ :: _ =>
      let total_penalty :=
        fold_left (fun total relaxation => total + penalty (Relaxation.action relaxation))
                  (OptimizationResult.constraint_relaxations result) 0 in
      inject_Z (Z.max 0 (100 - total_penalty))
  end.

(** Bonus score for multi-stop trips. *)
Definition _score_multi_stop_bonus (trip : Trip.t) : Q :=
  let num_stops := length (Trip.stops trip) in
  if Nat.leb num_stops 1 then 50.0
  else if Nat.eqb num_stops 2 then 75.0
  else if Nat.eqb num_stops 3 then 90.0
  else 100.0.

(** Calculate a quality score (0-100) for a single trip. *)
Definition score_trip (trip : Trip.t) (dist_matrix : DistanceMatrix.t)
    (result : OptimizationResult.t) : Q :=
  let distance_score := _score_distance_efficiency trip dist_matrix in
  let capacity_score := Q2R (_score_capacity_utilization trip) in
  let time_score := Q2R (_score_time_efficiency trip) in
  let constraint_score := Q2R (_score_constraint_satisfaction result) in
  let multi_stop_score := Q2R (_score_multi_stop_bonus trip) in
  let total :=
    (distance_score * WEIGHT_DISTANCE
     + capacity_score * WEIGHT_CAPACITY
     + time_score * WEIGHT_TIME
     + constraint_score * WEIGHT_CONSTRAINTS
     + multi_stop_score * WEIGHT_MULTI_STOP)%R in
  Py.Rround (Py.Rmax 0%R (Py.Rmin 100%R total)) 1.

(** The loop of [score_run]: every trip gets its score, and the scores are
    summed. *)
Fixpoint score_trips (dist_matrix : DistanceMatrix.t) (result : OptimizationResult.t)
    (trips : list Trip.t) (total_score : Q) : list Trip.t * Q :=
  match trips with
  | [] => ([], total_score)
  | trip :: rest =>
      let s := score_trip trip dist_matrix result in
      let '(rest', total) := score_trips dist_matrix result rest (Py.fadd total_score s) in
      (Trip.set_optimizer_score trip s :: rest', total)
  end.

(** Score all trips in an optimization result and compute the average. *)
Definition score_run (result : OptimizationResult.t) (dist_matrix : DistanceMatrix.t)
  : OptimizationResult.t :=
  match OptimizationResult.trips result with
  | [] =>
      OptimizationResult.set_average_score result
        (if OptimizationResult.has_unassigned result then 0.0 else 100.0)
  | _ :: _ =>
      let '(trips, total_score) :=
        score_trips dist_matrix result (OptimizationResult.trips result) 0.0 in
      let result := OptimizationResult.set_trips result trips in
      let average :=
        Py.round
          (Py.fdiv total_score
                   (inject_Z (Z.of_nat (length (OptimizationResult.trips result)))))
          1 in
      (* Penalty for unassigned demands *)
      match OptimizationResult.unassigned_demands result with
      | [] => OptimizationResult.set_average_score result average
      | _ :: _ =>
          let penalty :=
            Z.min 30 (Z.of_nat (length (OptimizationResult.unassigned_demands result)) * 5) in
          OptimizationResult.set_average_score result
            (Py.max 0 (Py.fsub average (inject_Z penalty)))
      end
  end.

End scoring.

(** * Inputs and reference definitions used by the theorems *)

(** ** A run without routing solver and with a clock that stands still *)

Definition quiet_externals : Externals :=
  {| strptime := fun _ _ => None;
     ortools_tsp := fun _ _ => None;
     week_elapsed_ms := 0;
     week0_elapsed_ms := fun _ => 0 |}.

(** ** Rounding *)

(** The integer that [round_half_even] picks: the nearest one, and the even
    one of two that are equally near. *)
Definition nearest_even (x : Q) (m : Z) : Prop :=
  (- (1 # 2) < x - inject_Z m < 1 # 2)%Q
  \/ ((x - inject_Z m == 1 # 2)%Q \/ (x - inject_Z m == - (1 # 2))%Q) /\ Z.even m = true.

(** The exponent of the last bit of the double nearest to [x]. *)
Definition ulp_exponent (x : Q) : Z := Z.max (Py.ilog2 x - 52) (-1074).

(** ** Coordinates *)

(** Two latitudes that are binary fractions: 2^-21 and 2^-20 degrees. *)
Definition coord_a : LatLng.t := LatLng.mk (1 # 2097152) 0 "A".
Definition coord_b : LatLng.t := LatLng.mk (1 # 1048576) 0 "B".

(** ** Constraints whose only lowered weight is the clustering weight *)

Definition clustering_relaxed : Constraints.t :=
  Constraints.set_weights
    (Constraints.default config.SETUP_BUFFER_HOURS config.TEARDOWN_BUFFER_HOURS)
    1.0 0.8 0.6 0.7 0.1.

(** ** Personnel: a service tech listed before a lead tech, and no driver *)

Definition hub_cle : Hub.t :=
  Hub.mk "hub-cle" "Cleveland Hub" "Cleveland" "OH" "1 Lakeside Ave"
         (414993 # 10000) (-816944 # 10000).

Definition sam : Person.t := Person.mk "p-1" "Sam" "service_tech" "hub-cle" None 11.
Definition lee : Person.t := Person.mk "p-2" "Lee" "lead_tech" "hub-cle" None 11.

Definition crew_week : WeekData.t :=
  WeekData.mk 2025 3 [] [] [] [] [sam; lee] [hub_cle] [] [].

(** ** The reference reading of [_assign_personnel] *)

(** A person that is not used and has one of the roles. *)
Definition free_with_role (roles : list string) (used_person_ids : gset string)
    (p : Person.t) : bool :=
  negb (Py.mem (Person.id p) used_person_ids)
  && existsb (String.eqb (Person.role p)) roles.

(** The driver is the first free driver in availability order, else the
    first free person who is a lead tech or a service tech; the second
    person is the first still free lead tech or service tech. *)
Definition personnel_in_availability_order (available : list Person.t)
    (used_person_ids : gset string) : list TripPerson.t * gset string :=
  let driver :=
    match List.find (free_with_role ["driver"] used_person_ids) available with
    | Some p => Some p
    | None => List.find (free_with_role ["lead_tech"; "service_tech"] used_person_ids)
                        available
    end in
  let used1 :=
    match driver with
    | Some p => {[Person.id p]} ∪ used_person_ids
    | None => used_person_ids
    end in
  let tech := List.find (free_with_role ["lead_tech"; "service_tech"] used1) available in
  let used2 :=
    match tech with
    | Some p => {[Person.id p]} ∪ used1
    | None => used1
    end in
  (match driver with
   | Some p => [optimizer.as_trip_person p "driver"]
   | None => []
   end
   ++ match tech with
      | Some p => [optimizer.as_trip_person p "service_tech"]
      | None => []
      end,
   used2).

(** ** Dispositions *)

(** The flag and the reason go with the action return_to_hub, and only
    with it. *)
Definition hub_return_consistent (d : Disposition.t) : Prop :=
  (Disposition.requires_hub_return d = true <-> Disposition.action d = "return_to_hub")
  /\ (Disposition.hub_return_reason d <> None <-> Disposition.action d = "return_to_hub").

(** The disposition that [determine_post_game_disposition] computes for a
    stop of a trip. *)
Definition disposition_of (trip : Trip.t) (next_week_games : list Game.t)
    (season_year week_number : Z) (stop : TripStop.t) : Disposition.t :=
  lookahead.determine_disposition stop trip next_week_games season_year week_number
    (match TripStop.demand stop with
     | Some d => Game.venue (Demand.game d)
     | None => None
     end)
    (match TripStop.demand stop with
     | Some d => Some (Demand.customer_id d)
     | None => None
     end).

(** ** The cascade *)

Definition unassigned_count (r : OptimizationResult.t) : nat :=
  length (OptimizationResult.unassigned_demands r).

(** The first relaxation step whose result has no unassigned demand, with
    the annotation of that step. *)
Fixpoint first_feasible
    (steps : list (option OptimizationResult.t
                   * (OptimizationResult.t -> OptimizationResult.t)))
  : option OptimizationResult.t :=
  match steps with
  | [] => None
  | (Some r, annotate) :: rest =>
      match OptimizationResult.unassigned_demands r with
      | [] => Some (annotate r)
      | _ :: _ => first_feasible rest
      end
  | (None, _) :: rest => first_feasible rest
  end.

(** The four blocks of the cascade, one after the other: each step result
    with the annotation of its block. *)
Fixpoint run_blocks
    (steps : list (option OptimizationResult.t
                   * (OptimizationResult.t -> OptimizationResult.t)))
    (best_result : OptimizationResult.t) : infeasibility.flow :=
  match steps with
  | [] => infeasibility.Continue best_result
  | (result, annotate) :: rest =>
      match infeasibility.adopt result best_result annotate with
      | infeasibility.Return r => infeasibility.Return r
      | infeasibility.Continue best_result => run_blocks rest best_result
      end
  end.

(** An annotation leaves the unassigned demands as they are. *)
Definition keeps_unassigned (annotate : OptimizationResult.t -> OptimizationResult.t)
  : Prop :=
  forall r, OptimizationResult.unassigned_demands (annotate r)
            = OptimizationResult.unassigned_demands r.

(** ** Scores *)

(** The mean of the scores as the floating-point arithmetic gives it: the
    scores are added up one by one from 0.0, and the sum is divided by their
    number. *)
Definition mean (scores : list Q) : Q :=
  Py.fdiv (fold_left Py.fadd scores 0.0%Q) (inject_Z (Z.of_nat (length scores))).

(** The run average in the words of the specification: the mean of the trip
    scores, rounded to one decimal; minus min(30, 5 x count) when there are
    unassigned demands, floored at 0; and 100 for no trips and nothing
    unassigned. *)
Definition run_average_spec (scores : list Q) (unassigned : nat) : Q :=
  match scores, unassigned with
  | [], _ => 100%Q
  | _ :: _, O => Py.round (mean scores) 1
  | _ :: _, S _ =>
      Py.max 0 (Py.fsub (Py.round (mean scores) 1)
                        (inject_Z (Z.min 30 (5 * Z.of_nat unassigned))))
  end.

(** The scores that a scored result carries on its trips. *)
Definition trip_scores (result : OptimizationResult.t) : list Q :=
  List.map Trip.optimizer_score (OptimizationResult.trips result).

(** A result with two trips, for the run average. *)
Definition short_trip : Trip.t :=
  Trip.mk "veh-1" "Truck 1" "hub-cle" "Cleveland Hub" [] [] [] 0 0 0.0 None None.

Definition two_trips : OptimizationResult.t :=
  OptimizationResult.set_trips OptimizationResult.empty [short_trip; short_trip].

(** ** The distance matrix without cache and without provider *)

(** No cache row applies, and the provider has no API key. *)
Definition no_cache (locations : list LatLng.t) : list (nat * nat * DistanceEntry.t) := [].
Definition no_provider (origins destinations : list LatLng.t)
  : list (LatLng.t * LatLng.t * DistanceEntry.t) := [].

(** What the statements about the haversine estimate leave for its
    floating-point error: a hundredth of a mile (or of a minute).  The
    estimate is modelled over the real numbers; the doubles of the code
    differ from it by far less, also between antipodes, where the arcsine
    is steepest. *)
Definition float_allowance : R := (1 / 100)%R.

(** The estimated road miles of the fallback: great-circle miles times 1.3. *)
Definition road_miles (a b : LatLng.t) : R :=
  (clustering._haversine_miles a b * 1.3)%R.

(** Two locations on the equator, 0.0001 degrees of longitude apart (about
    11 metres). *)
Definition near_a : LatLng.t := LatLng.mk 0 0 "Gate A".
Definition near_b : LatLng.t := LatLng.mk 0 (1 # 10000) "Gate B".

(** What [fill_estimates] keeps: zeros on the diagonal, and off the
    diagonal nothing but the estimate of the two locations. *)
Definition fallback_shaped (locs : list LatLng.t) (m : DistanceMatrix.t) : Prop :=
  DistanceMatrix.locations m = locs
  /\ (forall i a, locs !! i = Some a ->
                  DistanceMatrix._data m i i = Some (DistanceEntry.mk 0.0 0.0))
  /\ (forall i j a b, locs !! i = Some a -> locs !! j = Some b -> i <> j ->
                      DistanceMatrix._data m i j = None
                      \/ DistanceMatrix._data m i j
                         = Some (DistanceMatrix._haversine_estimate a b)).

(** ** Blocked assets *)

(** No asset of the trip is in the blocked set. *)
Definition trip_avoids (blocked : gset string) (trip : Trip.t) : Prop :=
  Forall (fun ta => TripAsset.asset_id ta ∉ blocked) (Trip.assets trip).

(** ** A week with two venues in one cluster, and a game without contract *)

Definition venue_1 : Venue.t :=
  Venue.mk "ven-1" (Some "cust-a") "Lakefront Field" None (Some "Cleveland") (Some "OH")
           (Some (415061 # 10000)) (Some (-816995 # 10000)) true.

Definition venue_2 : Venue.t :=
  Venue.mk "ven-2" (Some "cust-b") "Akron Stadium" None (Some "Akron") (Some "OH")
           (Some (410753 # 10000)) (Some (-815097 # 10000)) true.

Definition game_at (id customer_id customer_name : string) (venue : Venue.t) (week : Z)
  : Game.t :=
  Game.mk id customer_id customer_name (Some (Venue.id venue)) (Some venue) 2025 week
          "2025-09-14" (Some "13:00") None true "both" "regular".

Definition bench_item (id customer_id customer_name : string) (quantity : Z)
  : ContractItem.t :=
  ContractItem.mk id "contract-1" customer_id customer_name "heated_bench" None
                  quantity None.

Definition bench_at_hub (id serial : string) : Asset.t :=
  Asset.mk id serial "heated_bench" None "good" "at_hub" "hub-cle" (Some "hub-cle")
           None None (Some 150%Q) None.

Definition truck_1 : Vehicle.t :=
  Vehicle.mk "veh-1" "Truck-CLE-01" (Some "box_truck") "hub-cle" (Some 10000) None "active".

Definition dana : Person.t := Person.mk "p-3" "Dana" "driver" "hub-cle" None 11.

(** Week 3: customer A plays at venue 1 and has no contract item; customer B
    plays at venue 2 and needs one heated bench. *)
Definition gap_week : WeekData.t :=
  WeekData.mk 2025 3
    [game_at "g-1" "cust-a" "Team A" venue_1 3; game_at "g-2" "cust-b" "Team B" venue_2 3]
    [bench_item "ci-1" "cust-b" "Team B" 1]
    [bench_at_hub "as-1" "HB-001"]
    [truck_1] [dana] [hub_cle] [] [].

Definition gap_matrix : DistanceMatrix.t :=
  distance_matrix.get_distance_matrix no_cache no_provider
    (WeekData.get_all_locations gap_week).

(** Both venues in one cluster, venue 1 first. *)
Definition gap_cluster : VenueCluster.t := VenueCluster.of_venues [venue_1; venue_2].

(** The venue and the order index of every stop of every trip. *)
Definition stop_orders (result : OptimizationResult.t) : list (list (string * Z)) :=
  List.map
    (fun trip =>
       List.map (fun stop => (TripStop.venue_id stop, TripStop.stop_order stop))
                (Trip.stops trip))
    (OptimizationResult.trips result).

(** ** A preseason week where the hub has one bench and the contract asks two *)

Definition short_week0 : WeekData.t :=
  WeekData.mk 2025 0
    [game_at "g-2" "cust-b" "Team B" venue_2 1]
    [bench_item "ci-1" "cust-b" "Team B" 2]
    [bench_at_hub "as-1" "HB-001"]
    [truck_1] [dana] [hub_cle] [] [].

Definition short_matrix : DistanceMatrix.t :=
  distance_matrix.get_distance_matrix no_cache no_provider
    (WeekData.get_all_locations short_week0).

Definition short_constraints : Constraints.t :=
  @constraints.build_constraints quiet_externals short_week0.

Definition short_clusters : list VenueCluster.t :=
  clustering.cluster_venues (WeekData.game_venues short_week0)
    (WeekData.hub_locations short_week0) short_matrix
    config.MAX_CLUSTER_RADIUS_MILES config.MAX_STOPS_PER_TRIP.

(** The state in which a turn of the loop ends, and whether the loop goes on. *)
Definition outcome_state (o : week0.outcome) : week0.state :=
  match o with
  | week0.Break st => st
  | week0.Next st => st
  end.

Definition goes_on (o : week0.outcome) : bool :=
  match o with
  | week0.Break _ => false
  | week0.Next _ => true
  end.

(** The first pass of the preseason run on [short_week0]. *)
Definition short_pass_1 : week0.outcome :=
  @week0.pass quiet_externals short_week0 short_matrix short_constraints
    config.SOLVER_TIMEOUT_MS (Constraints.demands short_constraints) 1
    (week0.mk_state OptimizationResult.empty ∅ ∅).

(** The planner run inside that first pass. *)
Definition short_run_1 : option OptimizationResult.t :=
  @week0.run_pass quiet_externals short_week0 short_matrix short_constraints
    config.SOLVER_TIMEOUT_MS (config.SOLVER_TIMEOUT_MS * 3) 0
    (week0.remaining_demands (Constraints.demands short_constraints) ∅)
    (week0.mk_state OptimizationResult.empty ∅ ∅).

(** What a result says about its demands: the assets it ships per trip and
    the demands it reports as unassigned. *)
Definition shipped (result : OptimizationResult.t) : list (list string) :=
  List.map (fun trip => List.map TripAsset.asset_id (Trip.assets trip))
           (OptimizationResult.trips result).

(** * Further reference definitions *)

(** ** What the trips of a run use *)

(** The asset ids on the trips, trip after trip. *)
Definition asset_ids_of (trips : list Trip.t) : list string :=
  flat_map (fun t => List.map TripAsset.asset_id (Trip.assets t)) trips.

(** The vehicle of every trip. *)
Definition vehicle_ids_of (trips : list Trip.t) : list string :=
  List.map Trip.vehicle_id trips.

(** The persons on the trips, trip after trip. *)
Definition person_ids_of (trips : list Trip.t) : list string :=
  flat_map (fun t => List.map TripPerson.person_id (Trip.personnel t)) trips.

(** The ids placed so far are pairwise distinct, recorded in [used], and
    none of them was in [pre]; [pre] itself is recorded in [used]. *)
Definition placed_once (pre : gset string) (placed : list string) (used : gset string)
  : Prop :=
  NoDup placed
  /\ (forall x, In x placed -> x ∈ used /\ x ∉ pre)
  /\ pre ⊆ used.

(** What the loop over the venues keeps about the assets. *)
Definition gather_ok (pre : gset string) (prior : list string) (g : optimizer.gather)
  : Prop :=
  placed_once pre (prior ++ List.map TripAsset.asset_id (optimizer.trip_assets g))
              (optimizer.used_asset_ids g)
  /\ Forall (fun a => Asset.id a ∉ optimizer.used_asset_ids g) (optimizer.hub_assets g).

(** The state in which [_build_trip_for_cluster] starts to gather the
    assets of a cluster at a hub. *)
Definition gather_start (week_data : WeekData.t) (hub : Hub.t) (u : optimizer.used)
  : optimizer.gather :=
  optimizer.mk_gather [] [] 0.0
    (List.filter (fun a => negb (Py.mem (Asset.id a) (optimizer.used_assets u)))
                 (WeekData.assets_at_hub week_data (Hub.id hub)))
    (optimizer.used_assets u) [].

(** How a call of [_build_trip_for_cluster] ends. *)
Definition build_outcome (cluster : VenueCluster.t) (week_data : WeekData.t)
    (constraints : Constraints.t) (u : optimizer.used)
    (trip : option Trip.t) (u' : optimizer.used) : Prop :=
  (trip = None /\ u' = u)
  \/ exists vehicle hub,
       In hub (WeekData.hubs week_data)
       /\ In vehicle (WeekData.vehicles week_data)
       /\ Vehicle.status vehicle = "active"
       /\ Vehicle.home_hub_id vehicle = Hub.id hub
       /\ (Vehicle.id vehicle ∉ optimizer.used_vehicle_ids u)
       /\ let g := optimizer.gather_stops week_data constraints
                     (VenueCluster.venues cluster) 0 (gather_start week_data hub u) in
          let staff := optimizer._assign_personnel hub week_data
                         (optimizer.used_person_ids u) in
          match trip with
          | None =>
              optimizer.trip_stops g = []
              /\ u' = optimizer.mk_used
                        ({[Vehicle.id vehicle]} ∪ optimizer.used_vehicle_ids u)
                        (optimizer.used_asset_ids g) (optimizer.used_person_ids u)
          | Some t =>
              optimizer.trip_stops g <> []
              /\ Trip.vehicle_id t = Vehicle.id vehicle
              /\ Trip.origin_hub_id t = Hub.id hub
              /\ Trip.stops t = optimizer.trip_stops g
              /\ Trip.assets t = optimizer.trip_assets g
              /\ Trip.personnel t = fst staff
              /\ u' = optimizer.mk_used
                        ({[Vehicle.id vehicle]} ∪ optimizer.used_vehicle_ids u)
                        (optimizer.used_asset_ids g) (snd staff)
          end.

(** The clusters in the order in which [optimize_week] processes them. *)
Definition processing_order (constraints : Constraints.t) (clusters : list VenueCluster.t)
  : list VenueCluster.t :=
  Py.sort_desc (fun a b => Py.Qltb (VenueCluster.total_demand_weight a)
                                   (VenueCluster.total_demand_weight b))
    (List.map (fun c => VenueCluster.set_total_demand_weight c
                          (optimizer.cluster_demand_weight constraints c))
              clusters).

(** The result and the used sets after the loop over the clusters. *)
Definition after_clusters (week_data : WeekData.t) (dist_matrix : DistanceMatrix.t)
    (constraints : Constraints.t) (clusters : list VenueCluster.t)
    (pre_used_asset_ids : gset string) : OptimizationResult.t * optimizer.used :=
  fold_left (optimizer.process_cluster week_data dist_matrix constraints)
            (processing_order constraints clusters)
            (OptimizationResult.empty, optimizer.mk_used ∅ pre_used_asset_ids ∅).

(** The routing pass on one trip. *)
Definition reorder_trip `{Externals} (dist_matrix : DistanceMatrix.t) (timeout_ms : Z)
    (trip : Trip.t) : Trip.t :=
  if Nat.leb 3 (length (Trip.stops trip))
  then Trip.set_stops trip (optimizer._ortools_reorder_stops trip dist_matrix timeout_ms)
  else trip.

(** A trip's vehicle is an active vehicle of the week, based at the hub the
    trip starts from. *)
Definition vehicle_of_origin_hub (week_data : WeekData.t) (trip : Trip.t) : Prop :=
  exists v, In v (WeekData.vehicles week_data)
            /\ Vehicle.id v = Trip.vehicle_id trip
            /\ Vehicle.status v = "active"
            /\ Vehicle.home_hub_id v = Trip.origin_hub_id trip.

(** A crew of a hub: at most two persons of that hub; the first one drives
    (a driver, a lead tech or a service tech), the second one is a lead tech
    or a service tech riding as service tech. *)
Definition crew_member (week_data : WeekData.t) (hub_id : string) (roles : list string)
    (role_on_trip : string) (tp : TripPerson.t) : Prop :=
  TripPerson.role_on_trip tp = role_on_trip
  /\ exists p, In p (WeekData.personnel week_data)
               /\ Person.id p = TripPerson.person_id tp
               /\ Person.name p = TripPerson.person_name tp
               /\ Person.home_hub_id p = hub_id
               /\ In (Person.role p) roles.

Definition crew_shape (week_data : WeekData.t) (hub_id : string)
    (staff : list TripPerson.t) : Prop :=
  match staff with
  | [] => True
  | [d] =>
      crew_member week_data hub_id ["driver"; "lead_tech"; "service_tech"] "driver" d
  | [d; s] =>
      crew_member week_data hub_id ["driver"; "lead_tech"; "service_tech"] "driver" d
      /\ crew_member week_data hub_id ["lead_tech"; "service_tech"] "service_tech" s
  | _ => False
  end.

(** ** Where the assets of a trip come from *)

(** An asset in usable condition of the type (and, where the item names
    one, the model) that a contract item asks for. *)
Definition fits_item (a : Asset.t) (item : ContractItem.t) : Prop :=
  Asset.condition a <> "out_of_service"
  /\ Asset.condition a <> "needs_repair"
  /\ Asset.asset_type a = ContractItem.asset_type item
  /\ (forall m, ContractItem.model_version item = Some m -> m <> "" ->
                Asset.model_version a = Some m).

(** An asset of the inventory that stands at the hub [hub_id], or is on
    site at the venue of a demand of the week, and that fits an item of a
    demand of the week. *)
Definition asset_from (week_data : WeekData.t) (constraints : Constraints.t)
    (hub_id : string) (a : Asset.t) : Prop :=
  In a (WeekData.assets week_data)
  /\ ((Asset.status a = "at_hub" /\ Asset.current_hub a = Some hub_id)
      \/ (Asset.status a = "on_site"
          /\ exists d, In d (Constraints.demands constraints)
                       /\ Asset.current_venue_id a = Some (Demand.venue_id d)))
  /\ exists d item,
       In d (Constraints.demands constraints)
       /\ In item (Demand.items d)
       /\ fits_item a item.

(** A trip asset that is the record of such an asset. *)
Definition asset_source (week_data : WeekData.t) (constraints : Constraints.t)
    (hub_id : string) (ta : TripAsset.t) : Prop :=
  exists a, asset_from week_data constraints hub_id a
            /\ TripAsset.asset_id ta = Asset.id a
            /\ TripAsset.serial_number ta = Asset.serial_number a
            /\ TripAsset.asset_type ta = Asset.asset_type a.

(** ** The stops of a trip *)

(** A stop that delivers for a demand of the week at the stop's venue. *)
Definition delivery_stop (constraints : Constraints.t) (stop : TripStop.t) : Prop :=
  TripStop.action stop = "deliver"
  /\ TripStop.requires_hub_return stop = false
  /\ exists d, TripStop.demand stop = Some d
               /\ In d (Constraints.demands constraints)
               /\ Demand.venue_id d = TripStop.venue_id stop.

(** A stop without its order index. *)
Definition unnumbered (stop : TripStop.t) : TripStop.t := TripStop.set_stop_order stop 0.

(** What the routing solver is relied on for: the nodes of a route are
    pairwise distinct nodes of the model. *)
Definition routes_are_tours (E : Externals) : Prop :=
  forall local_dist timeout_ms new_order,
    ortools_tsp local_dist timeout_ms = Some new_order ->
    NoDup new_order /\ Forall (fun i => (i < length local_dist - 1)%nat) new_order.

(** A solver that visits the stops in reverse order. *)
Definition reversing_externals : Externals :=
  {| strptime := fun _ _ => None;
     ortools_tsp := fun local_dist _ => Some (rev (seq 0 (length local_dist - 1)%nat));
     week_elapsed_ms := 0;
     week0_elapsed_ms := fun _ => 0 |}.

(** A trip with three stops, numbered as [_build_trip_for_cluster] numbers
    them. *)
Definition stop_at (venue_id venue_name : string) (order : Z) : TripStop.t :=
  TripStop.mk venue_id venue_name order None None "deliver" false None None.

Definition three_stop_trip : Trip.t :=
  Trip.mk "veh-1" "Truck 1" "hub-cle" "Cleveland"
          [stop_at "ven-1" "Canton Stadium" 1; stop_at "ven-2" "Akron Stadium" 2;
           stop_at "ven-3" "Toledo Stadium" 3]
          [] [] 0 0 0.0 None None.

(** ** A demand of two benches against a pool of one *)

Definition two_bench_demand : Demand.t :=
  Demand.mk (game_at "g-2" "cust-b" "Team B" venue_2 1) "ven-2" "cust-b" "Team B"
            [bench_item "ci-1" "cust-b" "Team B" 2] 2 300 None.

(** ** A matrix without gaps *)

(** Every cell at indices below the size holds an entry. *)
Definition complete (m : DistanceMatrix.t) : Prop :=
  forall i j, (i < DistanceMatrix.size m)%nat -> (j < DistanceMatrix.size m)%nat ->
              is_Some (DistanceMatrix._data m i j).

(** ** Clusters *)

(** The venues of the clusters, cluster after cluster. *)
Definition clustered_venues (clusters : list VenueCluster.t) : list Venue.t :=
  flat_map VenueCluster.venues clusters.

(** A cluster with at least one venue and at most [max_stops] of them (one
    when [max_stops] is 0). *)
Definition sized (max_stops : nat) (cluster : VenueCluster.t) : Prop :=
  VenueCluster.venues cluster <> []
  /\ (length (VenueCluster.venues cluster) <= Nat.max 1 max_stops)%nat.

(** What the loop over the sorted valid venues keeps: the clusters so far
    hold venues of [valid_venues] with pairwise distinct ids, [assigned] is
    the set of those ids, and every cluster is sized. *)
Definition seeded (valid_venues : list Venue.t) (max_stops : nat)
    (assigned : gset string) (clusters : list VenueCluster.t) : Prop :=
  NoDup (List.map Venue.id (clustered_venues clusters))
  /\ incl (clustered_venues clusters) valid_venues
  /\ (forall x, x ∈ assigned <-> In x (List.map Venue.id (clustered_venues clusters)))
  /\ Forall (sized max_stops) clusters.

(** A venue without coordinates. *)
Definition venue_3 : Venue.t :=
  Venue.mk "ven-3" (Some "cust-c") "Toledo Stadium" None (Some "Toledo") (Some "OH")
           None None true.

(** ** What the lookahead leaves alone *)

(** [s'] is [s] but for the two hub-return fields. *)
Definition same_but_hub_return (s s' : TripStop.t) : Prop :=
  TripStop.set_hub_return s' (TripStop.requires_hub_return s)
                          (TripStop.hub_return_reason s) = s.

(** [t'] is [t] but for the hub-return fields of its stops. *)
Definition same_but_dispositions (t t' : Trip.t) : Prop :=
  Trip.set_stops t' (Trip.stops t) = t
  /\ Forall2 same_but_hub_return (Trip.stops t) (Trip.stops t').

(** All stops of all trips. *)
Definition all_stops (result : OptimizationResult.t) : list TripStop.t :=
  flat_map Trip.stops (OptimizationResult.trips result).

(** ** Demands *)

(** The pounds that [build_constraints] estimates for contract items. *)
Definition estimated_weight (items : list ContractItem.t) : Z :=
  Py.Zsum (List.map (fun item => ContractItem.quantity item
                                 * constraints.weight_estimate (ContractItem.asset_type item))
                    items).

(** A demand that stands for a game of the week: the game's venue and
    customer, and all contract items of that customer, at least one, with
    their total quantity and their estimated weight. *)
Definition demand_of_game (week_data : WeekData.t) (d : Demand.t) : Prop :=
  In (Demand.game d) (WeekData.games week_data)
  /\ Game.venue_id (Demand.game d) = Some (Demand.venue_id d)
  /\ Demand.venue_id d <> ""
  /\ Demand.customer_id d = Game.customer_id (Demand.game d)
  /\ Demand.customer_name d = Game.customer_name (Demand.game d)
  /\ Demand.items d = WeekData.demands_for_game week_data (Demand.game d)
  /\ Demand.items d <> []
  /\ Demand.total_quantity d = Py.Zsum (List.map ContractItem.quantity (Demand.items d))
  /\ Demand.total_weight_lbs d = inject_Z (estimated_weight (Demand.items d))
  /\ Forall (fun item => ContractItem.customer_id item = Demand.customer_id d)
            (Demand.items d).

(** A game that asks for equipment at a venue: its customer has contract
    items, and it has a venue id that is not empty. *)
Definition game_with_demand (week_data : WeekData.t) (game : Game.t) : Prop :=
  WeekData.demands_for_game week_data game <> []
  /\ exists venue_id, Game.venue_id game = Some venue_id /\ venue_id <> "".

(** The same as a test. *)
Definition asks_for_equipment (week_data : WeekData.t) (game : Game.t) : bool :=
  match WeekData.demands_for_game week_data game, Game.venue_id game with
  | _ :: _, Some venue_id => negb (String.eqb venue_id "")
  | _, _ => false
  end.

(** ** The log of the cascade *)

(** The last entry of [constraint_relaxations], if any. *)
Definition last_relaxation (r : OptimizationResult.t) : option Relaxation.t :=
  last (OptimizationResult.constraint_relaxations r).

(** [d'] is [d] but for the reason. *)
Definition same_but_reason (d d' : UnassignedDemand.t) : Prop :=
  UnassignedDemand.set_reason d' (UnassignedDemand.reason d) = d.

(** The reasons that step 5 writes. *)
Definition diagnoses (asset_type : string) : list string :=
  ["Asset type/model not available in inventory";
   Py.f ["All "; asset_type; " assets are deployed — none at hub"];
   "No vehicle with sufficient capacity available";
   "No personnel available at nearest hub";
   "Insufficient resources to cover all demands this week"].

(** ** A trip as the planner builds it *)

Definition well_built (week_data : WeekData.t) (constraints : Constraints.t)
    (trip : Trip.t) : Prop :=
  vehicle_of_origin_hub week_data trip
  /\ crew_shape week_data (Trip.origin_hub_id trip) (Trip.personnel trip)
  /\ Forall (asset_source week_data constraints (Trip.origin_hub_id trip))
            (Trip.assets trip)
  /\ Trip.stops trip <> []
  /\ Forall (delivery_stop constraints) (Trip.stops trip).

(** ** The venues of a week *)

(** [venue] is the venue of a game of the week that is played under the
    venue id [key]. *)
Definition venue_of_game (week_data : WeekData.t) (venue : Venue.t) (key : string)
  : Prop :=
  key <> ""
  /\ exists game, In game (WeekData.games week_data)
                  /\ Game.venue game = Some venue
                  /\ Game.venue_id game = Some key.

(** ** Two hubs at the same distance in doubles *)

Definition origin : LatLng.t := LatLng.mk 0 0 "Origin Field".

Definition origin_venue : Venue.t :=
  Venue.mk "ven-0" (Some "cust-a") "Origin Field" None None None (Some 0%Q) (Some 0%Q) true.

(** Latitude [1 + 2^-52], the double next above 1, and latitude 1. *)
Definition tie_hub_1 : Hub.t :=
  Hub.mk "hub-1" "Hub 1" "Northtown" "OH" "1 First St"
         (4503599627370497 # 4503599627370496) 4.
Definition tie_hub_2 : Hub.t :=
  Hub.mk "hub-2" "Hub 2" "Southtown" "OH" "2 Second St" 1 4.

Definition tie_week : WeekData.t :=
  WeekData.mk 2025 1 [] [] [] [] [] [tie_hub_1; tie_hub_2] [] [].

(** ** Heaviest first *)

(** The weights of the demands at the venues of a cluster: venue after
    venue, and for each venue in the order of the demands (a demand counts
    once for every venue of the cluster that carries its venue id). *)
Definition demand_weights_at (constraints : Constraints.t) (cluster : VenueCluster.t)
  : list Q :=
  flat_map
    (fun venue =>
       List.map Demand.total_weight_lbs
         (List.filter (fun demand => String.eqb (Demand.venue_id demand) (Venue.id venue))
                      (Constraints.demands constraints)))
    (VenueCluster.venues cluster).

(** The sum of floats, added up one by one from 0.0. *)
Definition float_sum (l : list Q) : Q := fold_left Py.fadd l 0.0%Q.

(** No cluster of the list comes before a heavier one. *)
Definition heaviest_first (clusters : list VenueCluster.t) : Prop :=
  forall i j a b,
    (i < j)%nat -> clusters !! i = Some a -> clusters !! j = Some b ->
    (VenueCluster.total_demand_weight b <= VenueCluster.total_demand_weight a)%Q.

(** ** Games nearby *)

(** The miles to the venue of a game, when the game has a venue with
    coordinates; [miles_to] gives the miles to a location. *)
Definition game_miles (miles_to : LatLng.t -> R) (game : Game.t) : option R :=
  match Game.venue game with
  | Some gv =>
      match Venue.location gv with
      | Some gloc => Some (miles_to gloc)
      | None => None
      end
  | None => None
  end.

(** [found] is the nearest of the games and the first of those that are
    equally near, and it is less than [max_distance_miles] away; or no game
    is that near. *)
Definition first_nearest_within (miles_to : LatLng.t -> R) (max_distance_miles : R)
    (games : list Game.t) (found : option Game.t) : Prop :=
  match found with
  | Some game =>
      exists before after d,
        games = before ++ game :: after
        /\ game_miles miles_to game = Some d
        /\ (d < max_distance_miles)%R
        /\ (forall game' d', In game' before -> game_miles miles_to game' = Some d' ->
                              (d < d')%R)
        /\ (forall game' d', In game' after -> game_miles miles_to game' = Some d' ->
                              (d <= d')%R)
  | None =>
      forall game d, In game games -> game_miles miles_to game = Some d ->
                     (max_distance_miles <= d)%R
  end.

(** * Theorems *)

(** ** Rounding *)

Lemma round_half_even_close (y : Q) :
  (Qabs (y - inject_Z (Py.round_half_even y)) <= 1 # 2)%Q.
Proof.
  unfold Py.round_half_even.
  pose proof (Qfloor_le y) as Hlo.
  pose proof (Qlt_floor y) as Hhi.
  assert (Hinj : (inject_Z (Qfloor y + 1) == inject_Z (Qfloor y) + 1)%Q)
    by (rewrite inject_Z_plus; reflexivity).
  rewrite Hinj in Hhi.
  apply Qabs_Qle_condition.
  destruct (Qcompare (y - inject_Z (Qfloor y)) (1 # 2)) eqn:Hc.
  - apply Qeq_alt in Hc.
    destruct (Z.even (Qfloor y)); [| rewrite Hinj]; clear Hinj;
      generalize dependent (inject_Z (Qfloor y)); intros f **; split; Lqa.lra.
  - apply Qlt_alt in Hc. clear Hinj.
    generalize dependent (inject_Z (Qfloor y)); intros f **; split; Lqa.lra.
  - apply Qgt_alt in Hc. rewrite Hinj. clear Hinj.
    generalize dependent (inject_Z (Qfloor y)); intros f **; split; Lqa.lra.
Qed.

Lemma round6_close (x : Q) : (Qabs (x - Py.round x 6) <= 1 # 2000000)%Q.
Proof.
  unfold Py.round.
  change (Z.to_pos (10 ^ Z.of_nat 6)) with 1000000%positive.
  change (inject_Z (10 ^ Z.of_nat 6)) with (inject_Z 1000000).
  pose proof (round_half_even_close (x * inject_Z 1000000)) as H.
  set (z := Py.round_half_even (x * inject_Z 1000000)) in *.
  apply Qabs_Qle_condition in H.
  apply Qabs_Qle_condition.
  assert (Hz : (z # 1000000 == inject_Z z * (1 # 1000000))%Q).
  { unfold Qeq. simpl. lia. }
  rewrite Hz.
  assert (Hk : (inject_Z 1000000 == 1000000)%Q) by reflexivity.
  rewrite Hk in H.
  generalize dependent (inject_Z z). intros q Hz H.
  split; Lqa.lra.
Qed.

(** [round(x, 6)] keeps one denominator, so that equal roundings are the
    same value. *)
Lemma round_Qeq_eq (x y : Q) (nd : nat) :
  (Py.round x nd == Py.round y nd)%Q -> Py.round x nd = Py.round y nd.
Proof.
  unfold Py.round, Qeq. simpl. intros H.
  f_equal. nia.
Qed.

(** ** C5: [is_relaxed] and the clustering weight *)

Lemma is_relaxed_ignores_clustering (c : Constraints.t) (w : Q) :
  Constraints.is_relaxed
    (Constraints.set_weights c
       (Constraints.weight_minimize_miles c) (Constraints.weight_minimize_vehicles c)
       (Constraints.weight_prefer_closest_hub c) (Constraints.weight_minimize_rebranding c)
       w)
  = Constraints.is_relaxed c.
Proof. reflexivity. Qed.

(** C5 (code does otherwise): with the four other weights at their defaults
    and the cluster-compactness weight lowered from 0.5 to 0.1, [is_relaxed]
    answers false, although a soft-constraint weight is strictly below its
    default. *)
Theorem is_relaxed_misses_clustering_weight :
  Py.Qltb (Constraints.weight_geographic_clustering clustering_relaxed) 0.5 = true
  /\ Constraints.is_relaxed clustering_relaxed = false.
Proof. split; reflexivity. Qed.

(** ** C8: equality and hashing of coordinates *)

(** C8, counterexample: the latitudes 2^-21 and 2^-20 differ by less than
    1e-6 and the longitudes are the same, yet the two coordinates are not
    equal: one latitude rounds to 0.0 and the other to 0.000001. *)
Lemma LatLng_within_tolerance_not_equal :
  (Qabs (LatLng.lat coord_a - LatLng.lat coord_b) <= 1 # 1000000)%Q
  /\ (Qabs (LatLng.lng coord_a - LatLng.lng coord_b) <= 1 # 1000000)%Q
  /\ LatLng.__eq__ coord_a coord_b = false.
Proof.
  split; [| split].
  - vm_compute. discriminate.
  - vm_compute. discriminate.
  - vm_compute. reflexivity.
Qed.

(** C8, as amended: two coordinates are equal exactly when their latitudes
    round to the same 6 decimals and their longitudes do, whatever the
    labels; equal coordinates have equal hashes; and equal coordinates
    differ by at most 1e-6 in each axis. *)
Theorem LatLng_eq_rounds_to_6_decimals :
  forall (hash : Q * Q -> Z) (a b : LatLng.t),
    (LatLng.__eq__ a b = true
     <-> (Py.round (LatLng.lat a) 6 == Py.round (LatLng.lat b) 6)%Q
         /\ (Py.round (LatLng.lng a) 6 == Py.round (LatLng.lng b) 6)%Q)
    /\ (LatLng.__eq__ a b = true ->
        LatLng.__hash__ hash a = LatLng.__hash__ hash b
        /\ (Qabs (LatLng.lat a - LatLng.lat b) <= 1 # 1000000)%Q
        /\ (Qabs (LatLng.lng a - LatLng.lng b) <= 1 # 1000000)%Q).
Proof.
  intros hash a b.
  assert (Hiff : LatLng.__eq__ a b = true
     <-> (Py.round (LatLng.lat a) 6 == Py.round (LatLng.lat b) 6)%Q
         /\ (Py.round (LatLng.lng a) 6 == Py.round (LatLng.lng b) 6)%Q).
  { unfold LatLng.__eq__. rewrite andb_true_iff, !Qeq_bool_iff. reflexivity. }
  split; [exact Hiff |].
  intros Heq. apply Hiff in Heq. destruct Heq as [Hlat Hlng].
  split; [| split].
  - unfold LatLng.__hash__, LatLng.key.
    rewrite (round_Qeq_eq _ _ _ Hlat), (round_Qeq_eq _ _ _ Hlng). reflexivity.
  - pose proof (round6_close (LatLng.lat a)) as Ha.
    pose proof (round6_close (LatLng.lat b)) as Hb.
    apply Qabs_Qle_condition in Ha. apply Qabs_Qle_condition in Hb.
    apply Qabs_Qle_condition. split; Lqa.lra.
  - pose proof (round6_close (LatLng.lng a)) as Ha.
    pose proof (round6_close (LatLng.lng b)) as Hb.
    apply Qabs_Qle_condition in Ha. apply Qabs_Qle_condition in Hb.
    apply Qabs_Qle_condition. split; Lqa.lra.
Qed.

(** ** C6: personnel *)

Lemma pick_driver_find (available : list Person.t) (used : gset string) :
  optimizer.pick_driver available used = List.find (free_with_role ["driver"] used) available.
Proof.
  induction available as [| p rest IH]; [reflexivity |].
  simpl. unfold free_with_role at 1. simpl.
  rewrite orb_false_r.
  destruct (Py.mem (Person.id p) used), (String.eqb (Person.role p) "driver");
    simpl; auto.
Qed.

Lemma pick_tech_find (available : list Person.t) (used : gset string) :
  optimizer.pick_tech available used
  = List.find (free_with_role ["lead_tech"; "service_tech"] used) available.
Proof.
  induction available as [| p rest IH]; [reflexivity |].
  simpl. unfold free_with_role at 1. simpl.
  rewrite orb_false_r.
  destruct (Py.mem (Person.id p) used); simpl; auto.
  destruct (String.eqb (Person.role p) "lead_tech" || String.eqb (Person.role p) "service_tech");
    auto.
Qed.

(** C6, counterexample: the hub has a service tech and a lead tech, in this
    order, and no driver; both are free.  The service tech becomes the
    driver and the lead tech the service tech of the trip. *)
Lemma assign_personnel_service_tech_drives :
  WeekData.available_personnel_at_hub crew_week (Hub.id hub_cle) = [sam; lee]
  /\ List.map Person.role [sam; lee] = ["service_tech"; "lead_tech"]
  /\ fst (optimizer._assign_personnel hub_cle crew_week ∅)
     = [TripPerson.mk "p-1" "Sam" "driver"; TripPerson.mk "p-2" "Lee" "service_tech"].
Proof. repeat split; vm_compute; reflexivity. Qed.

(** C6, as amended: the driver is the first free person with role driver in
    availability order; when there is none, it is the first free person in
    availability order whose role is lead_tech or service_tech; afterwards
    the first person still free with role service_tech or lead_tech is
    reserved as service tech. *)
Theorem assign_personnel_in_availability_order :
  forall (hub : Hub.t) (week_data : WeekData.t) (used_person_ids : gset string),
    optimizer._assign_personnel hub week_data used_person_ids
    = personnel_in_availability_order
        (WeekData.available_personnel_at_hub week_data (Hub.id hub)) used_person_ids.
Proof.
  intros hub week_data used.
  unfold optimizer._assign_personnel, personnel_in_availability_order.
  generalize (WeekData.available_personnel_at_hub week_data (Hub.id hub)) as available.
  intros available.
  rewrite pick_driver_find.
  destruct (find (free_with_role ["driver"] used) available) as [d |].
  - rewrite pick_tech_find.
    destruct (find _ available); reflexivity.
  - rewrite pick_tech_find.
    destruct (find (free_with_role ["lead_tech"; "service_tech"] used) available) as [t |].
    + rewrite pick_tech_find. destruct (find _ available); reflexivity.
    + rewrite pick_tech_find.
      destruct (find (free_with_role ["lead_tech"; "service_tech"] used) available);
        reflexivity.
Qed.

(** ** C10: dispositions *)

Lemma leave_on_site_consistent : hub_return_consistent lookahead.leave_on_site.
Proof.
  unfold hub_return_consistent, lookahead.leave_on_site. simpl.
  repeat split; intros; try discriminate; try congruence.
Qed.

Lemma nearby_or_leave_consistent games venue :
  hub_return_consistent (lookahead.nearby_or_leave games venue).
Proof.
  unfold lookahead.nearby_or_leave.
  repeat match goal with
         | |- context [match ?x with _ => _ end] => destruct x
         end;
    try apply leave_on_site_consistent;
    unfold hub_return_consistent; simpl;
    repeat split; intros; try discriminate; try congruence.
Qed.

Lemma determine_disposition_consistent stop trip games year week venue customer_id :
  hub_return_consistent
    (lookahead.determine_disposition stop trip games year week venue customer_id).
Proof.
  unfold lookahead.determine_disposition.
  repeat match goal with
         | |- context [match ?x with _ => _ end] => destruct x
         end;
    try apply leave_on_site_consistent;
    try apply nearby_or_leave_consistent;
    unfold hub_return_consistent; simpl;
    repeat split; intros; try discriminate; try congruence.
Qed.

Lemma Forall2_map_self {A B : Type} (P : A -> B -> Prop) (f : A -> B) (l : list A) :
  (forall x, P x (f x)) -> Forall2 P l (List.map f l).
Proof. intros H. induction l; simpl; constructor; auto. Qed.

(** C10: every disposition that [determine_disposition] returns has
    [requires_hub_return] true exactly when its action is return_to_hub,
    and a reason exactly when its action is return_to_hub; after
    [determine_post_game_disposition], stop by stop and in the same order,
    a stop has [requires_hub_return] set exactly when its disposition was
    return_to_hub. *)
Theorem disposition_hub_return_iff_return_to_hub :
  forall (stop : TripStop.t) (trip : Trip.t) (next_week_games : list Game.t)
         (season_year week_number : Z) (venue : option Venue.t)
         (customer_id : option string) (result : OptimizationResult.t),
    hub_return_consistent
      (lookahead.determine_disposition stop trip next_week_games season_year
         week_number venue customer_id)
    /\ Forall2
         (fun t t' =>
            Forall2
              (fun s s' =>
                 TripStop.requires_hub_return s' = true
                 <-> Disposition.action
                       (disposition_of t next_week_games season_year week_number s)
                     = "return_to_hub")
              (Trip.stops t) (Trip.stops t'))
         (OptimizationResult.trips result)
         (OptimizationResult.trips
            (lookahead.determine_post_game_disposition result next_week_games
               season_year week_number)).
Proof.
  intros stop trip games year week venue customer_id result.
  split; [apply determine_disposition_consistent |].
  unfold lookahead.determine_post_game_disposition. simpl.
  rewrite List.map_map.
  apply Forall2_map_self. intros t.
  unfold lookahead.dispose_trip. simpl.
  rewrite List.map_map.
  apply Forall2_map_self. intros s.
  unfold lookahead.dispose_stop. simpl.
  apply (determine_disposition_consistent s t games year week).
Qed.

(** ** C1: the cascade *)

Lemma classify_length wd r :
  unassigned_count (infeasibility._step5_classify_unassigned r wd) = unassigned_count r.
Proof.
  unfold unassigned_count, infeasibility._step5_classify_unassigned. simpl.
  apply List.length_map.
Qed.

Lemma finish_length wd r :
  unassigned_count (infeasibility.finish r wd) = unassigned_count r.
Proof.
  unfold infeasibility.finish.
  destruct (OptimizationResult.has_unassigned _);
    [change (unassigned_count (infeasibility._step5_classify_unassigned r wd)
             = unassigned_count r) |];
    apply classify_length.
Qed.

(** What one block of the cascade does to the best result. *)
Lemma adopt_cases (result : option OptimizationResult.t) (best : OptimizationResult.t)
    (annotate : OptimizationResult.t -> OptimizationResult.t) :
  match infeasibility.adopt result best annotate with
  | infeasibility.Return r' =>
      exists r, result = Some r /\ r' = annotate r
                /\ OptimizationResult.unassigned_demands r = []
                /\ (unassigned_count r < unassigned_count best)%nat
  | infeasibility.Continue b' =>
      (b' = best
       /\ forall r, result = Some r -> (unassigned_count best <= unassigned_count r)%nat)
      \/ (exists r, result = Some r /\ b' = annotate r
                    /\ OptimizationResult.unassigned_demands r <> []
                    /\ (unassigned_count r < unassigned_count best)%nat)
  end.
Proof.
  unfold infeasibility.adopt, infeasibility._is_better, OptimizationResult.has_unassigned,
    unassigned_count.
  destruct result as [r |]; [| left; split; [reflexivity | discriminate]].
  destruct (Nat.ltb_spec (length (OptimizationResult.unassigned_demands r))
                         (length (OptimizationResult.unassigned_demands best))) as [Hlt | Hge].
  - destruct (OptimizationResult.unassigned_demands r) as [| d ds] eqn:Hu; simpl.
    + exists r. rewrite Hu. auto.
    + right. exists r. rewrite Hu. repeat split; auto; discriminate.
  - left. split; [reflexivity |]. intros r' [= <-]. exact Hge.
Qed.

Lemma run_blocks_facts steps :
  Forall (fun s => keeps_unassigned (snd s)) steps ->
  forall best, (0 < unassigned_count best)%nat ->
  match run_blocks steps best with
  | infeasibility.Return r' =>
      unassigned_count r' = 0%nat
      /\ first_feasible steps = Some r'
  | infeasibility.Continue b' =>
      first_feasible steps = None
      /\ (0 < unassigned_count b')%nat
      /\ (unassigned_count b' <= unassigned_count best)%nat
      /\ (forall r, In (Some r) (List.map fst steps) ->
                    (unassigned_count b' <= unassigned_count r)%nat)
      /\ (unassigned_count b' = unassigned_count best
          \/ exists r, In (Some r) (List.map fst steps)
                       /\ unassigned_count b' = unassigned_count r
                       /\ (unassigned_count r < unassigned_count best)%nat)
  end.
Proof.
  induction 1 as [| [result annotate] rest Hann _ IH]; intros best Hpos.
  - simpl. repeat split; auto. intros r [].
  - simpl in Hann. simpl run_blocks.
    pose proof (adopt_cases result best annotate) as Hadopt.
    destruct (infeasibility.adopt result best annotate) as [r' | b'].
    + destruct Hadopt as (r & -> & -> & Hu & Hlt).
      unfold unassigned_count at 1. rewrite Hann, Hu. simpl. rewrite Hu. auto.
    + specialize (IH b').
      destruct Hadopt as [[-> Hle] | (r & -> & -> & Hu & Hlt)].
      * specialize (IH Hpos).
        assert (Hff : first_feasible ((result, annotate) :: rest) = first_feasible rest).
        { simpl. destruct result as [r |]; [| reflexivity].
          specialize (Hle r eq_refl). unfold unassigned_count in Hle, Hpos.
          destruct (OptimizationResult.unassigned_demands r); [simpl in Hle; lia | reflexivity]. }
        rewrite Hff.
        destruct (run_blocks rest best) as [r' | b'']; [exact IH |].
        destruct IH as (Hnone & Hpos' & Hle' & Hall & Hsome).
        repeat split; auto.
        -- intros r [Hr | Hr]; simpl in Hr; [subst result; specialize (Hle r eq_refl); lia | auto].
        -- destruct Hsome as [Heq | (r & Hin & Heq & Hlt)]; [left; exact Heq |].
           right. exists r. repeat split; auto. right. exact Hin.
      * assert (Hcount : unassigned_count (annotate r) = unassigned_count r)
          by (unfold unassigned_count; rewrite Hann; reflexivity).
        assert (Hpos' : (0 < unassigned_count (annotate r))%nat).
        { rewrite Hcount. unfold unassigned_count.
          destruct (OptimizationResult.unassigned_demands r); [congruence | simpl; lia]. }
        specialize (IH Hpos').
        assert (Hff : first_feasible ((Some r, annotate) :: rest) = first_feasible rest).
        { simpl. destruct (OptimizationResult.unassigned_demands r); [congruence | reflexivity]. }
        rewrite Hff.
        destruct (run_blocks rest (annotate r)) as [r' | b'']; [exact IH |].
        destruct IH as (Hnone & Hpos'' & Hle' & Hall & Hsome).
        rewrite Hcount in Hle', Hsome.
        repeat split; auto; try lia.
        -- intros r0 [Hr | Hr]; simpl in Hr; [injection Hr as <-; lia | auto].
        -- right. destruct Hsome as [Heq | (r0 & Hin & Heq & Hlt0)].
           ++ exists r. repeat split; auto. left. reflexivity.
           ++ exists r0. repeat split; auto; [right; exact Hin | lia].
Qed.

Lemma first_feasible_In steps r' :
  Forall (fun s => keeps_unassigned (snd s)) steps ->
  first_feasible steps = Some r' ->
  exists r, In (Some r) (List.map fst steps) /\ unassigned_count r' = unassigned_count r
            /\ unassigned_count r = 0%nat.
Proof.
  induction 1 as [| [result annotate] rest Hann _ IH]; simpl; [discriminate |].
  destruct result as [r |].
  - destruct (OptimizationResult.unassigned_demands r) eqn:Hu.
    + intros [= <-]. exists r. unfold unassigned_count.
      simpl in Hann. rewrite (Hann r), Hu. auto.
    + intros Hff. destruct (IH Hff) as (r0 & Hin & Heq); eauto.
  - intros Hff. destruct (IH Hff) as (r0 & Hin & Heq); eauto.
Qed.

(** The body of the cascade, for any four step results. *)
Lemma cascade_facts (wd : WeekData.t) (initial : OptimizationResult.t)
    (r1 r2 r3 r4 : option OptimizationResult.t) :
  let final := infeasibility.cascade wd initial r1 r2 r3 r4 in
  (unassigned_count final <= unassigned_count initial)%nat
  /\ (forall r, In (Some r) [r1; r2; r3; r4] ->
                (unassigned_count final <= unassigned_count r)%nat)
  /\ (unassigned_count final = unassigned_count initial
      \/ exists r, In (Some r) [r1; r2; r3; r4]
                   /\ unassigned_count final = unassigned_count r
                   /\ (unassigned_count r < unassigned_count initial)%nat)
  /\ (forall r,
        OptimizationResult.unassigned_demands initial <> [] ->
        first_feasible [(r1, infeasibility.annotate1); (r2, infeasibility.annotate2);
                        (r3, infeasibility.annotate3); (r4, infeasibility.annotate4)]
        = Some r ->
        final = r).
Proof.
  set (steps := [(r1, infeasibility.annotate1); (r2, infeasibility.annotate2);
                 (r3, infeasibility.annotate3); (r4, infeasibility.annotate4)]).
  assert (Hcascade :
            infeasibility.cascade wd initial r1 r2 r3 r4
            = match OptimizationResult.unassigned_demands initial with
              | [] => initial
              | _ :: _ =>
                  match run_blocks steps initial with
                  | infeasibility.Return r => r
                  | infeasibility.Continue b => infeasibility.finish b wd
                  end
              end).
  { unfold infeasibility.cascade, steps. simpl.
    destruct (OptimizationResult.unassigned_demands initial); [reflexivity |].
    repeat match goal with
           | |- context [infeasibility.adopt ?a ?b ?c] =>
               destruct (infeasibility.adopt a b c)
           end; reflexivity. }
  cbn zeta. rewrite Hcascade. clear Hcascade.
  destruct (OptimizationResult.unassigned_demands initial) as [| d0 ds0] eqn:Hinit.
  { assert (H0 : unassigned_count initial = 0%nat)
      by (unfold unassigned_count; rewrite Hinit; reflexivity).
    repeat split; try lia; auto. congruence. }
  assert (Hpos : (0 < unassigned_count initial)%nat)
    by (unfold unassigned_count; rewrite Hinit; simpl; lia).
  assert (Hkeep : Forall (fun s => keeps_unassigned (snd s)) steps)
    by (repeat constructor).
  pose proof (run_blocks_facts steps Hkeep initial Hpos) as Hrun.
  change (List.map fst steps) with [r1; r2; r3; r4] in Hrun.
  destruct (run_blocks steps initial) as [r' | b'].
  - destruct Hrun as (Hzero & Hff).
    destruct (first_feasible_In steps r' Hkeep Hff) as (r & Hin & Heq & Hr0).
    change (List.map fst steps) with [r1; r2; r3; r4] in Hin.
    repeat split; try lia.
    + right. exists r. repeat split; auto. lia.
    + intros r0 _ Hr. congruence.
  - destruct Hrun as (Hnone & Hpos' & Hle & Hall & Hsome).
    rewrite finish_length.
    repeat split; auto.
    intros r _ Hr. congruence.
Qed.

(** C1: the cascade never returns more unassigned demands than the initial
    result has; the count it returns is at most that of every relaxation
    step; it differs from the initial count only when it is the count of a
    step with strictly fewer unassigned demands, and a block adopts a
    candidate only when the candidate is strictly better; and when the
    initial result has unassigned demands and a step reaches zero, the
    cascade returns the first such step's result, with that step's log
    entry. *)
Theorem handle_infeasibility_never_worse :
  forall (E : Externals) (week_data : WeekData.t) (dist_matrix : DistanceMatrix.t)
         (initial_result : OptimizationResult.t),
    let r1 := infeasibility._step1_relax_soft_constraints week_data dist_matrix in
    let r2 := infeasibility._step2_relax_branding week_data dist_matrix in
    let r3 := infeasibility._step3_split_multi_stop week_data dist_matrix in
    let r4 := infeasibility._step4_cross_hub week_data dist_matrix in
    let final := infeasibility.handle_infeasibility week_data dist_matrix initial_result in
    (unassigned_count final <= unassigned_count initial_result)%nat
    /\ (forall r, In (Some r) [r1; r2; r3; r4] ->
                  (unassigned_count final <= unassigned_count r)%nat)
    /\ (unassigned_count final = unassigned_count initial_result
        \/ exists r, In (Some r) [r1; r2; r3; r4]
                     /\ unassigned_count final = unassigned_count r
                     /\ (unassigned_count r < unassigned_count initial_result)%nat)
    /\ (forall result best annotate,
          infeasibility.adopt result best annotate = infeasibility.Continue best
          \/ exists r, result = Some r
                       /\ (unassigned_count r < unassigned_count best)%nat)
    /\ (forall r,
          OptimizationResult.unassigned_demands initial_result <> [] ->
          first_feasible [(r1, infeasibility.annotate1); (r2, infeasibility.annotate2);
                          (r3, infeasibility.annotate3); (r4, infeasibility.annotate4)]
          = Some r ->
          final = r).
Proof.
  intros E wd dm initial r1 r2 r3 r4 final.
  destruct (cascade_facts wd initial r1 r2 r3 r4) as (H1 & H2 & H3 & H4).
  repeat split; auto.
  intros result best annotate.
  pose proof (adopt_cases result best annotate) as Ha.
  destruct (infeasibility.adopt result best annotate).
  - destruct Ha as (r & -> & _ & _ & Hlt). right. eauto.
  - destruct Ha as [[-> _] | (r & -> & _ & _ & Hlt)]; [left; reflexivity | right; eauto].
Qed.

(** ** Binary64: rounding to the nearest double *)

Ltac Qcompare_props :=
  repeat match goal with
         | H : Qcompare _ _ = Eq |- _ => apply Qeq_alt in H
         | H : Qcompare _ _ = Lt |- _ => apply Qlt_alt in H
         | H : Qcompare _ _ = Gt |- _ => apply Qgt_alt in H
         end.

Lemma round_half_even_cases (x : Q) :
  Py.round_half_even x = Qfloor x \/ Py.round_half_even x = Qfloor x + 1.
Proof.
  unfold Py.round_half_even.
  destruct (Qcompare _ _); [destruct (Z.even _) | |]; auto.
Qed.

Lemma round_half_even_le (x y : Q) :
  (x <= y)%Q -> Py.round_half_even x <= Py.round_half_even y.
Proof.
  intros Hxy.
  pose proof (Qfloor_resp_le _ _ Hxy) as Hf.
  destruct (Z.eq_dec (Qfloor x) (Qfloor y)) as [He | Hne].
  - unfold Py.round_half_even. rewrite He.
    set (f := inject_Z (Qfloor y)).
    destruct (Qcompare (x - f) (1 # 2)) eqn:Hx;
      destruct (Qcompare (y - f) (1 # 2)) eqn:Hy;
      try destruct (Z.even (Qfloor y)); try lia; exfalso; Qcompare_props; Lqa.lra.
  - destruct (round_half_even_cases x) as [-> | ->];
      destruct (round_half_even_cases y) as [-> | ->]; lia.
Qed.

Lemma round_half_even_Z (z : Z) : Py.round_half_even (inject_Z z) = z.
Proof.
  unfold Py.round_half_even. rewrite Qfloor_Z.
  destruct (Qcompare _ _) eqn:Hc; [| reflexivity |]; exfalso; Qcompare_props; Lqa.lra.
Qed.

Lemma Qfloor_unique (x : Q) (m : Z) :
  (inject_Z m <= x < inject_Z (m + 1))%Q -> Qfloor x = m.
Proof.
  intros [Hlo Hhi].
  pose proof (Qfloor_resp_le _ _ Hlo) as H1. rewrite Qfloor_Z in H1.
  pose proof (Qfloor_le x) as H2.
  assert (H3 : (inject_Z (Qfloor x) < inject_Z (m + 1))%Q)
    by (eapply Qle_lt_trans; eauto).
  rewrite <- Zlt_Qlt in H3. lia.
Qed.

Lemma round_half_even_unique (x : Q) (m : Z) :
  nearest_even x m -> Py.round_half_even x = m.
Proof.
  intros H. unfold Py.round_half_even.
  assert (Hm1 : (inject_Z (m + 1) == inject_Z m + 1)%Q) by (rewrite inject_Z_plus; reflexivity).
  assert (Hm0 : (inject_Z (m - 1 + 1) == inject_Z m)%Q) by (replace (m - 1 + 1) with m by ring; reflexivity).
  assert (Hmm : (inject_Z (m - 1) == inject_Z m - 1)%Q)
    by (unfold Z.sub; rewrite inject_Z_plus; reflexivity).
  destruct H as [[Hlo Hhi] | [[He | He] Hev]].
  - destruct (Qlt_le_dec x (inject_Z m)) as [Hlt | Hge].
    + assert (Hf : Qfloor x = m - 1).
      { apply Qfloor_unique. rewrite Hm0, Hmm. split; Lqa.lra. }
      rewrite Hf.
      assert (Hc : (1 # 2 < x - inject_Z (m - 1))%Q) by (rewrite Hmm; Lqa.lra).
      destruct (Qcompare _ _) eqn:Hc'; [| | ring]; exfalso; Qcompare_props; Lqa.lra.
    + assert (Hf : Qfloor x = m).
      { apply Qfloor_unique. rewrite Hm1. split; Lqa.lra. }
      rewrite Hf.
      destruct (Qcompare _ _) eqn:Hc; [| reflexivity |]; exfalso; Qcompare_props; Lqa.lra.
  - assert (Hf : Qfloor x = m).
    { apply Qfloor_unique. rewrite Hm1. split; Lqa.lra. }
    rewrite Hf.
    destruct (Qcompare _ _) eqn:Hc; [rewrite Hev; reflexivity | |];
      exfalso; Qcompare_props; Lqa.lra.
  - assert (Hf : Qfloor x = m - 1).
    { apply Qfloor_unique. rewrite Hm0, Hmm. split; Lqa.lra. }
    rewrite Hf.
    assert (Hc : (x - inject_Z (m - 1) == 1 # 2)%Q) by (rewrite Hmm; Lqa.lra).
    destruct (Qcompare _ _) eqn:Hc'; [| |]; try (exfalso; Qcompare_props; Lqa.lra).
    replace (m - 1) with (Z.pred m) by reflexivity.
    rewrite Z.even_pred, <- Z.negb_even, Hev. simpl. unfold Z.pred. ring.
Qed.

Lemma round_half_even_nearest (x : Q) : nearest_even x (Py.round_half_even x).
Proof.
  unfold nearest_even, Py.round_half_even.
  pose proof (Qfloor_le x) as Hlo. pose proof (Qlt_floor x) as Hhi.
  rewrite inject_Z_plus in Hhi. change (inject_Z 1) with 1%Q in Hhi.
  set (f := Qfloor x) in *.
  destruct (Qcompare (x - inject_Z f) (1 # 2)) eqn:Hc.
  - apply Qeq_alt in Hc.
    destruct (Z.even f) eqn:Hev.
    + right. split; [left; exact Hc | exact Hev].
    + right. rewrite inject_Z_plus. change (inject_Z 1) with 1%Q.
      split; [right; Lqa.lra |].
      rewrite Z.add_1_r, Z.even_succ, <- Z.negb_even, Hev. reflexivity.
  - apply Qlt_alt in Hc. left. split; Lqa.lra.
  - apply Qgt_alt in Hc. left. rewrite inject_Z_plus.
    change (inject_Z 1) with 1%Q in *. split; Lqa.lra.
Qed.

Lemma round_half_even_opp (x : Q) :
  Py.round_half_even (- x) = - Py.round_half_even x.
Proof.
  apply round_half_even_unique.
  pose proof (round_half_even_nearest x) as H.
  unfold nearest_even in *. rewrite inject_Z_opp, Z.even_opp.
  destruct H as [[Hlo Hhi] | [[He | He] Hev]].
  - left. split; Lqa.lra.
  - right. split; [right; Lqa.lra | exact Hev].
  - right. split; [left; Lqa.lra | exact Hev].
Qed.

Lemma round_half_even_comp (x y : Q) :
  (x == y)%Q -> Py.round_half_even x = Py.round_half_even y.
Proof.
  intros H. apply Z.le_antisymm; apply round_half_even_le; rewrite H; apply Qle_refl.
Qed.

(** Powers of two. *)
Lemma p2_pos (k : Z) : (0 < 2 ^ k)%Q.
Proof. apply Qpower_0_lt. reflexivity. Qed.

Lemma p2_add (a b : Z) : (2 ^ (a + b) == 2 ^ a * 2 ^ b)%Q.
Proof. apply Qpower_plus. discriminate. Qed.

Lemma p2_le (a b : Z) : a <= b -> (2 ^ a <= 2 ^ b)%Q.
Proof. intros H. apply Qpower_le_compat_l; [exact H | discriminate]. Qed.

Lemma p2_lt_inv (a b : Z) : (2 ^ a < 2 ^ b)%Q -> a < b.
Proof. intros H. apply (Qpower_lt_compat_l_inv 2); [exact H | reflexivity]. Qed.

Lemma p2_Z (k : Z) : 0 <= k -> (2 ^ k == inject_Z (2 ^ k))%Q.
Proof. intros H. rewrite Zpower_Qpower by exact H. reflexivity. Qed.

Lemma p2_cancel (q : Z) : (2 ^ (- q) * 2 ^ q == 1)%Q.
Proof. rewrite <- p2_add. replace (- q + q) with 0 by ring. reflexivity. Qed.

Lemma div_p2 (x : Q) (q : Z) : (x / 2 ^ q == x * 2 ^ (- q))%Q.
Proof. unfold Qdiv. rewrite Qpower_opp. reflexivity. Qed.

Lemma div_p2_le (x y : Q) (q : Z) : (x <= y)%Q -> (x / 2 ^ q <= y / 2 ^ q)%Q.
Proof.
  intros H. rewrite !div_p2. apply Qmult_le_compat_r; [exact H |].
  apply Qlt_le_weak, p2_pos.
Qed.

Lemma frac_lt_p2 (n : Z) (d : positive) (u v : Z) :
  0 <= u -> 0 <= v -> n * 2 ^ v < 2 ^ u * Zpos d -> (n # d < 2 ^ (u - v))%Q.
Proof.
  intros Hu Hv H.
  assert (Hp : (2 ^ (u - v) == inject_Z (2 ^ u) / inject_Z (2 ^ v))%Q).
  { unfold Z.sub. rewrite p2_add, Qpower_opp, (p2_Z u Hu), (p2_Z v Hv). reflexivity. }
  rewrite Hp. apply Qlt_shift_div_l.
  - rewrite <- (p2_Z v Hv). apply p2_pos.
  - unfold Qlt, Qmult, inject_Z. simpl. rewrite Pos.mul_1_r, Z.mul_1_r. exact H.
Qed.

Lemma frac_ge_p2 (n : Z) (d : positive) (u v : Z) :
  0 <= u -> 0 <= v -> 2 ^ u * Zpos d <= n * 2 ^ v -> (2 ^ (u - v) <= n # d)%Q.
Proof.
  intros Hu Hv H.
  assert (Hp : (2 ^ (u - v) == inject_Z (2 ^ u) / inject_Z (2 ^ v))%Q).
  { unfold Z.sub. rewrite p2_add, Qpower_opp, (p2_Z u Hu), (p2_Z v Hv). reflexivity. }
  rewrite Hp. apply Qle_shift_div_r.
  - rewrite <- (p2_Z v Hv). apply p2_pos.
  - unfold Qle, Qmult, inject_Z. simpl. rewrite Pos.mul_1_r, Z.mul_1_r. exact H.
Qed.

(** [ilog2 x] is the exponent of the binade of [x]. *)
Lemma ilog2_spec (x : Q) :
  ~ (x == 0)%Q -> (2 ^ Py.ilog2 x <= Qabs x < 2 ^ (Py.ilog2 x + 1))%Q.
Proof.
  intros Hx. destruct x as [n d]. unfold Py.ilog2. cbn [Qnum Qden Qabs].
  assert (Hn : 0 < Z.abs n).
  { unfold Qeq in Hx. simpl in Hx. lia. }
  pose proof (Z.log2_spec (Z.abs n) Hn) as [Ha1 Ha2].
  pose proof (Z.log2_spec (Zpos d) (Pos2Z.is_pos d)) as [Hb1 Hb2].
  pose proof (Z.log2_nonneg (Z.abs n)) as Ha0.
  pose proof (Z.log2_nonneg (Zpos d)) as Hb0.
  set (a := Z.log2 (Z.abs n)) in *. set (b := Z.log2 (Zpos d)) in *.
  assert (Hlow : (2 ^ (a - b - 1) <= Z.abs n # d)%Q).
  { replace (a - b - 1) with (a - (b + 1)) by ring.
    apply frac_ge_p2; [lia | lia |].
    replace (Z.succ b) with (b + 1) in Hb2 by lia.
    assert (0 < 2 ^ a) by (apply Z.pow_pos_nonneg; lia). nia. }
  assert (Hhigh : (Z.abs n # d < 2 ^ (a - b + 1))%Q).
  { replace (a - b + 1) with (a + 1 - b) by ring.
    apply frac_lt_p2; [lia | lia |].
    replace (Z.succ a) with (a + 1) in Ha2 by lia.
    assert (0 < 2 ^ b) by (apply Z.pow_pos_nonneg; lia). nia. }
  destruct (Qle_bool (2 ^ (a - b)) (Z.abs n # d)) eqn:Hc.
  - apply Qle_bool_iff in Hc. split; assumption.
  - assert (Hlt : (Z.abs n # d < 2 ^ (a - b))%Q).
    { apply Qnot_le_lt. intros Hle. apply Qle_bool_iff in Hle. congruence. }
    replace (a - b - 1 + 1) with (a - b) by ring. split; assumption.
Qed.

Lemma ilog2_le (x y : Q) :
  (0 < x)%Q -> (x <= y)%Q -> Py.ilog2 x <= Py.ilog2 y.
Proof.
  intros Hx Hxy.
  assert (Hy : (0 < y)%Q) by Lqa.lra.
  destruct (ilog2_spec x) as [Hx1 _]; [intros H; rewrite H in Hx; discriminate |].
  destruct (ilog2_spec y) as [_ Hy2]; [intros H; rewrite H in Hy; discriminate |].
  rewrite Qabs_pos in Hx1 by Lqa.lra. rewrite Qabs_pos in Hy2 by Lqa.lra.
  assert (H : (2 ^ Py.ilog2 x < 2 ^ (Py.ilog2 y + 1))%Q) by Lqa.lra.
  apply p2_lt_inv in H. lia.
Qed.

Lemma b64_eq (x : Q) :
  ~ (x == 0)%Q ->
  (Py.b64 x == inject_Z (Py.round_half_even (x / 2 ^ ulp_exponent x)) * 2 ^ ulp_exponent x)%Q.
Proof.
  intros Hx. unfold Py.b64.
  destruct (Qeq_bool x 0) eqn:Hc; [apply Qeq_bool_iff in Hc; contradiction |].
  cbv zeta. rewrite Qred_correct. reflexivity.
Qed.

Lemma b64_zero (x : Q) : (x == 0)%Q -> Py.b64 x = 0%Q.
Proof.
  intros Hx. unfold Py.b64. apply Qeq_bool_iff in Hx. rewrite Hx. reflexivity.
Qed.

Lemma b64_nonneg (x : Q) : (0 <= x)%Q -> (0 <= Py.b64 x)%Q.
Proof.
  intros Hx. destruct (Qeq_dec x 0) as [H0 | Hne].
  - rewrite (b64_zero x H0). apply Qle_refl.
  - rewrite (b64_eq x Hne). apply Qmult_le_0_compat; [| apply Qlt_le_weak, p2_pos].
    change 0%Q with (inject_Z 0). rewrite <- Zle_Qle.
    rewrite <- (round_half_even_Z 0). apply round_half_even_le.
    change (inject_Z 0) with 0%Q. rewrite div_p2.
    apply Qmult_le_0_compat; [exact Hx | apply Qlt_le_weak, p2_pos].
Qed.

Lemma ilog2_opp (x : Q) : Py.ilog2 (- x) = Py.ilog2 x.
Proof.
  unfold Py.ilog2. destruct x as [n d]. cbn [Qnum Qden Qopp].
  rewrite Z.abs_opp.
  change (- n # d)%Q with (- (n # d))%Q. rewrite Qabs_opp. reflexivity.
Qed.

Lemma b64_opp (x : Q) : (Py.b64 (- x) == - Py.b64 x)%Q.
Proof.
  destruct (Qeq_dec x 0) as [H0 | Hne].
  - rewrite (b64_zero x H0), (b64_zero (- x)); [reflexivity | rewrite H0; reflexivity].
  - assert (Hne' : ~ (- x == 0)%Q) by (intros H; apply Hne; Lqa.lra).
    rewrite (b64_eq x Hne), (b64_eq (- x) Hne').
    unfold ulp_exponent. rewrite ilog2_opp.
    set (q := Z.max (Py.ilog2 x - 52) (-1074)).
    rewrite (round_half_even_comp (- x / 2 ^ q) (- (x / 2 ^ q))) by (unfold Qdiv; ring).
    rewrite round_half_even_opp, inject_Z_opp. ring.
Qed.

Lemma b64_le_pos (x y : Q) : (0 < x)%Q -> (x <= y)%Q -> (Py.b64 x <= Py.b64 y)%Q.
Proof.
  intros Hx Hxy.
  assert (Hy : (0 < y)%Q) by Lqa.lra.
  assert (Hxne : ~ (x == 0)%Q) by (intros H; rewrite H in Hx; discriminate).
  assert (Hyne : ~ (y == 0)%Q) by (intros H; rewrite H in Hy; discriminate).
  rewrite (b64_eq x Hxne), (b64_eq y Hyne).
  pose proof (ilog2_le x y Hx Hxy) as He.
  destruct (ilog2_spec x Hxne) as [_ Hx2]. destruct (ilog2_spec y Hyne) as [Hy1 _].
  rewrite Qabs_pos in Hx2 by Lqa.lra. rewrite Qabs_pos in Hy1 by Lqa.lra.
  unfold ulp_exponent.
  set (ex := Py.ilog2 x) in *. set (ey := Py.ilog2 y) in *.
  set (qx := Z.max (ex - 52) (-1074)). set (qy := Z.max (ey - 52) (-1074)).
  destruct (Z.eq_dec qx qy) as [Hq | Hq].
  - rewrite Hq. apply Qmult_le_compat_r; [| apply Qlt_le_weak, p2_pos].
    rewrite <- Zle_Qle. apply round_half_even_le, div_p2_le, Hxy.
  - assert (Hqy : qy = ey - 52) by lia.
    assert (Hex : ex + 1 <= ey) by lia.
    apply (Qle_trans _ (2 ^ ey)).
    + assert (Hb : (x / 2 ^ qx <= inject_Z (2 ^ (ey - qx)))%Q).
      { rewrite <- p2_Z by lia. unfold Z.sub. rewrite p2_add, <- div_p2.
        apply div_p2_le. pose proof (p2_le (ex + 1) ey Hex). Lqa.lra. }
      apply round_half_even_le in Hb. rewrite round_half_even_Z in Hb.
      rewrite Zle_Qle in Hb. rewrite <- p2_Z in Hb by lia.
      assert (Hs : (2 ^ ey == 2 ^ (ey - qx) * 2 ^ qx)%Q)
        by (rewrite <- p2_add; replace (ey - qx + qx) with ey by ring; reflexivity).
      rewrite Hs.
      apply Qmult_le_compat_r; [exact Hb | apply Qlt_le_weak, p2_pos].
    + assert (Hb : (inject_Z (2 ^ 52) <= y / 2 ^ qy)%Q).
      { rewrite <- p2_Z by lia. replace 52 with (ey + - qy) by lia.
        rewrite p2_add, <- div_p2. apply div_p2_le, Hy1. }
      apply round_half_even_le in Hb. rewrite round_half_even_Z in Hb.
      rewrite Zle_Qle in Hb. rewrite <- p2_Z in Hb by lia.
      assert (Hs : (2 ^ ey == 2 ^ 52 * 2 ^ qy)%Q)
        by (rewrite <- p2_add; replace (52 + qy) with ey by lia; reflexivity).
      rewrite Hs.
      apply Qmult_le_compat_r; [exact Hb | apply Qlt_le_weak, p2_pos].
Qed.

(** Rounding to the nearest double is monotone. *)
Lemma b64_le (x y : Q) : (x <= y)%Q -> (Py.b64 x <= Py.b64 y)%Q.
Proof.
  intros Hxy.
  destruct (Qlt_le_dec 0 x) as [Hx | Hx]; [apply b64_le_pos; assumption |].
  destruct (Qlt_le_dec y 0) as [Hy | Hy].
  - assert (H : (Py.b64 (- y) <= Py.b64 (- x))%Q) by (apply b64_le_pos; Lqa.lra).
    rewrite !b64_opp in H. Lqa.lra.
  - apply (Qle_trans _ 0); [| apply b64_nonneg, Hy].
    assert (H : (0 <= Py.b64 (- x))%Q) by (apply b64_nonneg; Lqa.lra).
    rewrite b64_opp in H. Lqa.lra.
Qed.

Lemma b64_comp (x y : Q) : (x == y)%Q -> (Py.b64 x == Py.b64 y)%Q.
Proof.
  intros H. apply Qle_antisym; apply b64_le; rewrite H; apply Qle_refl.
Qed.

(** An integer below [2^53] is a double. *)
Lemma b64_Z (z : Z) : Z.abs z < 2 ^ 53 -> (Py.b64 (inject_Z z) == inject_Z z)%Q.
Proof.
  assert (Hpos : forall z, 0 < z < 2 ^ 53 -> (Py.b64 (inject_Z z) == inject_Z z)%Q).
  { clear z. intros z [H0 Hz].
    assert (Hne : ~ (inject_Z z == 0)%Q).
    { change 0%Q with (inject_Z 0). rewrite inject_Z_injective. lia. }
    rewrite (b64_eq _ Hne).
    destruct (ilog2_spec _ Hne) as [He _].
    rewrite Qabs_pos in He by (change 0%Q with (inject_Z 0); rewrite <- Zle_Qle; lia).
    assert (Hlt : (2 ^ Py.ilog2 (inject_Z z) < 2 ^ 53)%Q).
    { apply (Qle_lt_trans _ _ _ He). rewrite (p2_Z 53) by lia. rewrite <- Zlt_Qlt. exact Hz. }
    apply p2_lt_inv in Hlt.
    unfold ulp_exponent. set (q := Z.max (Py.ilog2 (inject_Z z) - 52) (-1074)).
    assert (Hq : q <= 0) by lia.
    rewrite (round_half_even_comp _ (inject_Z (z * 2 ^ (- q)))).
    - rewrite round_half_even_Z, inject_Z_mult, <- p2_Z by lia.
      rewrite <- Qmult_assoc, p2_cancel. ring.
    - rewrite div_p2, inject_Z_mult, <- p2_Z by lia. reflexivity. }
  intros Hz. destruct (Z.lt_trichotomy z 0) as [Hneg | [-> | Hp]].
  - assert (H : (Py.b64 (inject_Z (- z)) == inject_Z (- z))%Q) by (apply Hpos; lia).
    rewrite inject_Z_opp, b64_opp in H. Lqa.lra.
  - reflexivity.
  - apply Hpos. lia.
Qed.

(** ** C7: scores *)

Lemma Rround_half_even_between (a b : Z) (y : R) :
  (IZR a <= y <= IZR b)%R -> a <= Py.Rround_half_even y <= b.
Proof.
  intros [Ha Hb].
  unfold Py.Rround_half_even.
  destruct (base_Int_part y) as [Hf1 Hf2].
  set (f := Int_part y) in *.
  assert (Haf : a <= f).
  { assert (IZR a < IZR (f + 1))%R by (rewrite plus_IZR; lra).
    apply lt_IZR in H. lia. }
  assert (Hfb : f <= b) by (apply le_IZR; lra).
  destruct (Rlt_dec (y - IZR f) (1 / 2)); [lia |].
  assert (Hlt : f < b) by (apply lt_IZR; lra).
  destruct (Rlt_dec (1 / 2) (y - IZR f)); [lia |].
  destruct (Z.even f); lia.
Qed.

Lemma Rround1_between_0_100 (x : R) :
  (0 <= x <= 100)%R -> (0 <= Py.Rround x 1 <= 100)%Q.
Proof.
  intros Hx. unfold Py.Rround.
  change (Z.to_pos (10 ^ Z.of_nat 1)) with 10%positive.
  change (IZR (10 ^ Z.of_nat 1)) with 10%R.
  assert (H : 0 <= Py.Rround_half_even (x * 10) <= 1000)
    by (apply Rround_half_even_between; lra).
  unfold Qle. simpl. lia.
Qed.

Lemma Rclamp_between (t : R) : (0 <= Py.Rmax 0 (Py.Rmin 100 t) <= 100)%R.
Proof.
  unfold Py.Rmax, Py.Rmin, Py.Rltb.
  repeat match goal with |- context [Rlt_dec ?a ?b] => destruct (Rlt_dec a b) end; lra.
Qed.

Lemma score_trip_between trip dm result :
  (0 <= scoring.score_trip trip dm result <= 100)%Q.
Proof. unfold scoring.score_trip. apply Rround1_between_0_100, Rclamp_between. Qed.

Lemma round_half_even_between (a b : Z) (y : Q) :
  (inject_Z a <= y <= inject_Z b)%Q -> a <= Py.round_half_even y <= b.
Proof.
  intros [Ha Hb].
  unfold Py.round_half_even.
  pose proof (Qfloor_le y) as Hlo.
  pose proof (Qlt_floor y) as Hhi.
  set (f := Qfloor y) in *.
  assert (Haf : a <= f).
  { assert (H : (inject_Z a < inject_Z (f + 1))%Q) by (eapply Qle_lt_trans; eauto).
    rewrite <- Zlt_Qlt in H. lia. }
  assert (Hfb : f <= b) by (rewrite Zle_Qle; eapply Qle_trans; eauto).
  destruct (Qcompare (y - inject_Z f) (1 # 2)) eqn:Hc; [| lia |].
  - apply Qeq_alt in Hc.
    assert (Hlt : f < b).
    { rewrite Zlt_Qlt. generalize dependent (inject_Z f). intros q **. Lqa.lra. }
    destruct (Z.even f); lia.
  - apply Qgt_alt in Hc.
    assert (Hlt : f < b).
    { rewrite Zlt_Qlt. generalize dependent (inject_Z f). intros q **. Lqa.lra. }
    lia.
Qed.

Lemma round1_between_0_100 (x : Q) :
  (0 <= x <= 100)%Q -> (0 <= Py.round x 1 <= 100)%Q.
Proof.
  intros Hx. unfold Py.round.
  change (Z.to_pos (10 ^ Z.of_nat 1)) with 10%positive.
  change (inject_Z (10 ^ Z.of_nat 1)) with (inject_Z 10).
  assert (H : 0 <= Py.round_half_even (x * inject_Z 10) <= 1000).
  { apply round_half_even_between.
    change (inject_Z 0) with 0%Q. change (inject_Z 1000) with 1000%Q.
    change (inject_Z 10) with 10%Q. Lqa.lra. }
  unfold Qle. simpl. lia.
Qed.

Lemma score_trips_eq dm result trips total :
  scoring.score_trips dm result trips total
  = (List.map (fun t => Trip.set_optimizer_score t (scoring.score_trip t dm result)) trips,
     fold_left Py.fadd (List.map (fun t => scoring.score_trip t dm result) trips) total).
Proof.
  revert total. induction trips as [| t rest IH]; intros total; simpl; [reflexivity |].
  rewrite IH. reflexivity.
Qed.

Lemma scored_trip_scores dm result trips :
  List.map Trip.optimizer_score
    (List.map (fun t => Trip.set_optimizer_score t (scoring.score_trip t dm result)) trips)
  = List.map (fun t => scoring.score_trip t dm result) trips.
Proof. rewrite List.map_map. reflexivity. Qed.

Lemma b64_between (a b : Z) (x : Q) :
  Z.abs a < 2 ^ 53 -> Z.abs b < 2 ^ 53 ->
  (inject_Z a <= x <= inject_Z b)%Q -> (inject_Z a <= Py.b64 x <= inject_Z b)%Q.
Proof.
  intros Ha Hb [H1 H2]. split.
  - rewrite <- (b64_Z a Ha). apply b64_le, H1.
  - rewrite <- (b64_Z b Hb). apply b64_le, H2.
Qed.

(** Adding up [n] scores between 0 and 100 in binary64 stays between 0 and
    [100 n], as long as [100 n] is below [2^53]. *)
Lemma fold_fadd_between (l : list Q) :
  Forall (fun s => 0 <= s <= 100)%Q l ->
  forall (acc : Q) (k : Z),
    0 <= k -> k + Z.of_nat (length l) <= 2 ^ 46 ->
    (0 <= acc <= inject_Z (100 * k))%Q ->
    (0 <= fold_left Py.fadd l acc <= inject_Z (100 * (k + Z.of_nat (length l))))%Q.
Proof.
  induction 1 as [| s rest Hs Hrest IH]; intros acc k Hk Hlen Hacc; simpl fold_left.
  - simpl length. rewrite Z.add_0_r. exact Hacc.
  - simpl length in *. rewrite Nat2Z.inj_succ in *.
    replace (k + Z.succ (Z.of_nat (length rest))) with (k + 1 + Z.of_nat (length rest)) by lia.
    apply IH; [lia | lia |].
    unfold Py.fadd.
    assert (Ha : (inject_Z 0 <= Py.b64 acc <= inject_Z (100 * k))%Q)
      by (apply b64_between; [simpl; lia | lia | exact Hacc]).
    assert (Hb : (inject_Z 0 <= Py.b64 s <= inject_Z 100)%Q)
      by (apply b64_between; [simpl; lia | simpl; lia | exact Hs]).
    change 0%Q with (inject_Z 0).
    apply b64_between; [simpl; lia | lia |].
    rewrite Z.mul_add_distr_l, inject_Z_plus.
    change (inject_Z (100 * 1)) with 100%Q. change (inject_Z 100) with 100%Q in Hb.
    change (inject_Z 0) with 0%Q in *.
    split; Lqa.lra.
Qed.

Lemma mean_between (l : list Q) :
  l <> [] ->
  Z.of_nat (length l) <= 2 ^ 46 ->
  Forall (fun s => 0 <= s <= 100)%Q l ->
  (0 <= mean l <= 100)%Q.
Proof.
  intros Hne Hlen Hall.
  pose proof (fold_fadd_between l Hall 0.0%Q 0 ltac:(lia) ltac:(lia)
                ltac:(split; unfold Qle; simpl; lia)) as Hsum.
  rewrite Z.add_0_l in Hsum.
  assert (Hpos : 0 < Z.of_nat (length l)) by (destruct l; [congruence | simpl length; lia]).
  set (n := Z.of_nat (length l)) in *.
  unfold mean, Py.fdiv. fold n.
  assert (Hn : (Py.b64 (inject_Z n) == inject_Z n)%Q) by (apply b64_Z; lia).
  assert (Ht : (inject_Z 0 <= Py.b64 (fold_left Py.fadd l 0.0%Q) <= inject_Z (100 * n))%Q)
    by (apply b64_between; [simpl; lia | lia | exact Hsum]).
  change 0%Q with (inject_Z 0). change 100%Q with (inject_Z 100).
  apply b64_between; [simpl; lia | simpl; lia |].
  rewrite Hn.
  assert (Hn0 : (0 < inject_Z n)%Q) by (change 0%Q with (inject_Z 0); rewrite <- Zlt_Qlt; lia).
  rewrite inject_Z_mult in Ht.
  change (inject_Z 0) with 0%Q in *. change (inject_Z 100) with 100%Q in *.
  split.
  - apply Qle_shift_div_l; [exact Hn0 |]. Lqa.lra.
  - apply Qle_shift_div_r; [exact Hn0 |]. Lqa.lra.
Qed.

Lemma pymax0_fsub_between (m : Q) (p : Z) :
  (0 <= m <= 100)%Q -> 0 <= p <= 30 ->
  (0 <= Py.max 0 (Py.fsub m (inject_Z p)) <= 100)%Q.
Proof.
  intros Hm Hp.
  assert (Hd : (Py.fsub m (inject_Z p) <= 100)%Q).
  { unfold Py.fsub.
    assert (Ha : (inject_Z 0 <= Py.b64 m <= inject_Z 100)%Q)
      by (apply b64_between; [simpl; lia | simpl; lia | exact Hm]).
    assert (Hb : (Py.b64 (inject_Z p) == inject_Z p)%Q) by (apply b64_Z; lia).
    assert (Hp0 : (0 <= inject_Z p)%Q)
      by (change 0%Q with (inject_Z 0); rewrite <- Zle_Qle; lia).
    change 100%Q with (inject_Z 100). rewrite <- (b64_Z 100) by (simpl; lia).
    apply b64_le. rewrite Hb.
    change (inject_Z 0) with 0%Q in *. change (inject_Z 100) with 100%Q in *.
    Lqa.lra. }
  unfold Py.max, Py.Qltb.
  destruct (Qle_bool (Py.fsub m (inject_Z p)) 0) eqn:Hc; simpl.
  - split; Lqa.lra.
  - assert (~ (Py.fsub m (inject_Z p) <= 0)%Q) by (rewrite <- Qle_bool_iff; congruence).
    split; Lqa.lra.
Qed.

Lemma run_average_spec_between (scores : list Q) (n : nat) :
  Z.of_nat (length scores) <= 2 ^ 46 ->
  Forall (fun s => 0 <= s <= 100)%Q scores ->
  (0 <= run_average_spec scores n <= 100)%Q.
Proof.
  intros Hlen Hall. unfold run_average_spec.
  destruct scores as [| s rest]; [split; Lqa.lra |].
  assert (Hm : (0 <= Py.round (mean (s :: rest)) 1 <= 100)%Q)
    by (apply round1_between_0_100, mean_between; [discriminate | exact Hlen | exact Hall]).
  destruct n as [| n]; [exact Hm |].
  apply pymax0_fsub_between; [exact Hm | lia].
Qed.

Lemma score_run_trip_scores (result : OptimizationResult.t) (dm : DistanceMatrix.t) :
  OptimizationResult.trips result <> [] ->
  trip_scores (scoring.score_run result dm)
  = List.map (fun t => scoring.score_trip t dm result) (OptimizationResult.trips result).
Proof.
  intros Hne. unfold trip_scores, scoring.score_run.
  destruct (OptimizationResult.trips result) as [| t rest] eqn:Ht; [congruence |].
  rewrite score_trips_eq.
  destruct (OptimizationResult.unassigned_demands _);
    cbn [OptimizationResult.set_trips OptimizationResult.trips
         OptimizationResult.set_average_score];
    apply scored_trip_scores.
Qed.

Lemma score_run_average (result : OptimizationResult.t) (dm : DistanceMatrix.t) :
  OptimizationResult.trips result <> []
  \/ OptimizationResult.unassigned_demands result = [] ->
  (OptimizationResult.average_score (scoring.score_run result dm)
   == run_average_spec (trip_scores (scoring.score_run result dm))
        (length (OptimizationResult.unassigned_demands result)))%Q.
Proof.
  intros Hcase.
  destruct (OptimizationResult.trips result) as [| t rest] eqn:Ht.
  - destruct Hcase as [Hne | Hu]; [congruence |].
    unfold trip_scores, scoring.score_run. rewrite Ht.
    unfold OptimizationResult.has_unassigned. rewrite Hu. simpl. rewrite Ht.
    reflexivity.
  - rewrite score_run_trip_scores by congruence.
    unfold scoring.score_run. rewrite Ht, score_trips_eq.
    cbn [OptimizationResult.set_trips OptimizationResult.trips
         OptimizationResult.unassigned_demands].
    rewrite !List.length_map.
    destruct (OptimizationResult.unassigned_demands result) as [| d ds] eqn:Hu.
    + cbn [OptimizationResult.set_average_score OptimizationResult.average_score].
      unfold run_average_spec, mean. cbn [List.map length].
      rewrite ?List.length_map. reflexivity.
    + cbn [OptimizationResult.set_average_score OptimizationResult.average_score].
      unfold run_average_spec, mean. cbn [List.map length].
      rewrite ?List.length_map.
      rewrite (Z.mul_comm 5). reflexivity.
Qed.

Lemma score_run_between (result : OptimizationResult.t) (dm : DistanceMatrix.t) :
  Z.of_nat (length (OptimizationResult.trips result)) <= 2 ^ 46 ->
  (0 <= OptimizationResult.average_score (scoring.score_run result dm) <= 100)%Q.
Proof.
  intros Hlen.
  destruct (OptimizationResult.trips result) as [| t rest] eqn:Ht.
  - unfold scoring.score_run. rewrite Ht.
    destruct (OptimizationResult.has_unassigned result); simpl; split; Lqa.lra.
  - assert (Hne : OptimizationResult.trips result <> []) by congruence.
    rewrite (score_run_average result dm (or_introl Hne)).
    rewrite (score_run_trip_scores result dm Hne), Ht.
    apply run_average_spec_between.
    + rewrite List.length_map. exact Hlen.
    + apply List.Forall_forall. intros s Hs.
      apply in_map_iff in Hs. destruct Hs as (t' & <- & _).
      apply score_trip_between.
Qed.

(** The mean is the one of the doubles: 75.0 and 81.7 add up to the double
    below 156.7, half of it is below 78.35 and rounds to 78.3. *)
Lemma run_average_of_75_and_81_7 :
  run_average_spec [75.0; 81.7]%Q 0 = 78.3%Q
  /\ (Py.round ((75.0 + 81.7) / 2) 1 == 78.4)%Q.
Proof. split; vm_compute; reflexivity. Qed.



(** ** C9: the haversine fallback of the distance matrix *)

Lemma Rround_half_even_zero (y : R) :
  (0 <= y < 1 / 2)%R -> Py.Rround_half_even y = 0.
Proof.
  intros [H0 H1]. unfold Py.Rround_half_even.
  assert (Hf : Int_part y = 0) by (symmetry; apply Int_part_spec; simpl; lra).
  rewrite Hf. simpl.
  destruct (Rlt_dec (y - 0) (1 / 2)); [reflexivity | lra].
Qed.

Lemma Rround_half_even_nonneg (y : R) :
  (0 <= y)%R -> 0 <= Py.Rround_half_even y.
Proof.
  intros H0. unfold Py.Rround_half_even.
  destruct (base_Int_part y) as [Hf1 Hf2].
  set (f := Int_part y) in *.
  assert (Hf : 0 <= f).
  { assert (IZR 0 < IZR (f + 1))%R by (rewrite plus_IZR; lra).
    apply lt_IZR in H. lia. }
  repeat match goal with |- context [Rlt_dec ?a ?b] => destruct (Rlt_dec a b) end;
    try destruct (Z.even f); lia.
Qed.

Lemma Rround_half_even_pos (y : R) :
  (1 / 2 < y)%R -> 1 <= Py.Rround_half_even y.
Proof.
  intros H0. unfold Py.Rround_half_even.
  destruct (base_Int_part y) as [Hf1 Hf2].
  set (f := Int_part y) in *.
  assert (Hf : 0 <= f).
  { assert (IZR 0 < IZR (f + 1))%R by (rewrite plus_IZR; lra).
    apply lt_IZR in H. lia. }
  destruct (Rlt_dec (y - IZR f) (1 / 2)) as [Hlt | Hnlt].
  - assert (IZR 0 < IZR f)%R by lra. apply lt_IZR in H. lia.
  - destruct (Rlt_dec (1 / 2) (y - IZR f)) as [Hgt | Hngt]; [lia |].
    assert (Heq : (y - IZR f = 1 / 2)%R) by lra.
    assert (IZR 0 < IZR f)%R by lra. apply lt_IZR in H. 
    destruct (Z.even f); lia.
Qed.

Lemma Rround1_nonneg (x : R) : (0 <= x)%R -> (0 <= Py.Rround x 1)%Q.
Proof.
  intros Hx. unfold Py.Rround.
  change (IZR (10 ^ Z.of_nat 1)) with 10%R.
  assert (H : 0 <= Py.Rround_half_even (x * 10))
    by (apply Rround_half_even_nonneg; lra).
  unfold Qle. simpl. lia.
Qed.

Lemma Rround1_pos (x : R) : (5 / 100 < x)%R -> (0 < Py.Rround x 1)%Q.
Proof.
  intros Hx. unfold Py.Rround.
  change (IZR (10 ^ Z.of_nat 1)) with 10%R.
  assert (H : 1 <= Py.Rround_half_even (x * 10))
    by (apply Rround_half_even_pos; lra).
  unfold Qlt. simpl. lia.
Qed.

Lemma asin_nonneg (x : R) : (0 <= x)%R -> (0 <= asin x)%R.
Proof.
  intros Hx. unfold asin.
  destruct (Rle_dec x (-1)); [lra |].
  destruct (Rle_dec 1 x); [pose proof PI_RGT_0; lra |].
  assert (Hs : (0 < sqrt (1 - x²))%R).
  { apply sqrt_lt_R0. unfold Rsqr. nra. }
  assert (Hq : (0 <= x / sqrt (1 - x²))%R).
  { unfold Rdiv. apply Rmult_le_pos; [exact Hx |]. left. apply Rinv_0_lt_compat, Hs. }
  destruct Hq as [Hq | <-]; [| rewrite atan_0; lra].
  pose proof (atan_increasing _ _ Hq) as Hinc. rewrite atan_0 in Hinc. lra.
Qed.

Lemma haversine_miles_nonneg (a b : LatLng.t) : (0 <= clustering._haversine_miles a b)%R.
Proof.
  unfold clustering._haversine_miles. cbv zeta.
  match goal with |- (0 <= 2 * 3959 * asin (sqrt ?h))%R =>
    pose proof (asin_nonneg (sqrt h) (sqrt_pos h)) end.
  lra.
Qed.

Lemma haversine_estimate_eq (a b : LatLng.t) :
  DistanceMatrix._haversine_estimate a b
  = DistanceEntry.mk (Py.Rround (road_miles a b) 1)
                     (Py.Rround (road_miles a b / 50 * 60) 1).
Proof. reflexivity. Qed.

Lemma init_fallback_shaped locs : fallback_shaped locs (DistanceMatrix.__init__ locs).
Proof.
  unfold fallback_shaped, DistanceMatrix.__init__. simpl.
  split; [reflexivity | split].
  - intros i a _. rewrite Nat.eqb_refl. reflexivity.
  - intros i j a b _ _ Hne. left.
    destruct (Nat.eqb_spec i j); [contradiction | reflexivity].
Qed.

Lemma fill_step_fallback_shaped locs m (p : nat * nat) :
  fallback_shaped locs m ->
  fallback_shaped locs
    match DistanceMatrix._data m (fst p) (snd p), locs !! (fst p), locs !! (snd p) with
    | None, Some a, Some b =>
        DistanceMatrix.set m (fst p) (snd p) (DistanceMatrix._haversine_estimate a b)
    | _, _, _ => m
    end.
Proof.
  intros (Hloc & Hdiag & Hoff).
  destruct p as [p1 p2]. simpl.
  destruct (DistanceMatrix._data m p1 p2) eqn:Hcell; [repeat split; auto |].
  destruct (locs !! p1) as [a |] eqn:Ha; [| repeat split; auto].
  destruct (locs !! p2) as [b |] eqn:Hb; [| repeat split; auto].
  unfold fallback_shaped, DistanceMatrix.set. simpl.
  split; [exact Hloc | split].
  - intros i a' Hi.
    destruct (Nat.eqb_spec p1 i) as [-> | _]; simpl; [| eauto].
    destruct (Nat.eqb_spec p2 i) as [Heq | _]; [| eauto].
    rewrite Heq in Hcell. rewrite (Hdiag i a' Hi) in Hcell. discriminate.
  - intros i j a' b' Hi Hj Hne.
    destruct (Nat.eqb_spec p1 i) as [<- | _]; simpl; [| eauto].
    destruct (Nat.eqb_spec p2 j) as [<- | _]; [| eauto].
    right. congruence.
Qed.

Lemma fill_estimates_fallback_shaped locs m n :
  fallback_shaped locs m ->
  fallback_shaped locs (distance_matrix.fill_estimates locs m n).
Proof.
  unfold distance_matrix.fill_estimates.
  generalize (flat_map
       (fun i => flat_map (fun j => if negb (Nat.eqb i j) then [(i, j)] else []) (seq 0 n))
       (seq 0 n)) as pairs.
  intros pairs. revert m.
  induction pairs as [| p rest IH]; intros m Hm; simpl; [exact Hm |].
  apply IH. apply (fill_step_fallback_shaped locs m p Hm).
Qed.

Lemma get_distance_matrix_fallback_shaped locs :
  fallback_shaped locs (distance_matrix.get_distance_matrix no_cache no_provider locs).
Proof.
  unfold distance_matrix.get_distance_matrix, no_cache, no_provider. simpl.
  destruct (Nat.leb (length locs) 1); [apply init_fallback_shaped |].
  destruct (distance_matrix.missing_pairs _ _); [apply init_fallback_shaped |].
  apply fill_estimates_fallback_shaped, init_fallback_shaped.
Qed.

Lemma get_fallback_shaped locs m i j a b :
  fallback_shaped locs m ->
  locs !! i = Some a -> locs !! j = Some b ->
  DistanceMatrix.get m i j
  = Some (if Nat.eqb i j then DistanceEntry.mk 0.0 0.0
          else DistanceMatrix._haversine_estimate a b).
Proof.
  intros (Hloc & Hdiag & Hoff) Hi Hj.
  unfold DistanceMatrix.get. rewrite Hloc, Hi, Hj.
  destruct (Nat.eqb_spec i j) as [-> | Hne].
  - rewrite (Hdiag j a Hi). reflexivity.
  - destruct (Hoff i j a b Hi Hj Hne) as [-> | ->]; reflexivity.
Qed.

Lemma Rround_half_even_close (y : R) :
  (Rabs (IZR (Py.Rround_half_even y) - y) <= 1 / 2)%R.
Proof.
  unfold Py.Rround_half_even.
  destruct (base_Int_part y) as [Hf1 Hf2].
  set (f := Int_part y) in *.
  destruct (Rlt_dec (y - IZR f) (1 / 2)) as [Hlt | Hnlt].
  - apply Rabs_le. lra.
  - destruct (Rlt_dec (1 / 2) (y - IZR f)) as [Hgt | Hngt].
    + rewrite plus_IZR. apply Rabs_le. lra.
    + destruct (Z.even f); [| rewrite plus_IZR]; apply Rabs_le; lra.
Qed.

Lemma Rabs_le_bounds (a b : R) : (Rabs a <= b)%R -> (- b <= a <= b)%R.
Proof. unfold Rabs. destruct (Rcase_abs a); lra. Qed.

(** A float rounded to one decimal is a number of tenths, at most 0.05 away. *)
Lemma Rround1_close (x : R) :
  (Rabs (IZR (Py.Rround_half_even (x * 10)) / 10 - x) <= 5 / 100)%R.
Proof.
  pose proof (Rround_half_even_close (x * 10)) as H.
  apply Rabs_le_bounds in H. apply Rabs_le. lra.
Qed.


Lemma near_road_miles : road_miles near_a near_b = (3959 * 13 / 10 * PI / 1800000)%R.
Proof.
  unfold road_miles, clustering._haversine_miles, near_a, near_b, Py.radians. cbv zeta.
  simpl LatLng.lat. simpl LatLng.lng.
  assert (H0 : Q2R 0 = 0%R) by (unfold Q2R; simpl; lra).
  assert (H1 : Q2R (1 # 10000) = (1 / 10000)%R) by (unfold Q2R; simpl; lra).
  rewrite H0, H1.
  replace ((0 - 0) * PI / 180 / 2)%R with 0%R by lra.
  replace (0 * PI / 180)%R with 0%R by lra.
  rewrite sin_0, cos_0.
  set (x := ((1 / 10000 - 0) * PI / 180 / 2)%R).
  pose proof PI_RGT_0 as Hpi0. pose proof PI_4 as Hpi4.
  assert (Hx : (0 <= x <= PI / 2)%R) by (unfold x; split; lra).
  replace (0 ^ 2 + 1 * 1 * sin x ^ 2)%R with (sin x ^ 2)%R by lra.
  assert (Hs : (0 <= sin x)%R) by (apply sin_ge_0; lra).
  rewrite (sqrt_pow2 _ Hs).
  rewrite asin_sin by lra.
  unfold x. lra.
Qed.



(** ** C3: blocked assets *)

Lemma match_asset_not_blocked asset item blocked tasks :
  constraints.match_asset_to_demand asset item blocked tasks = true ->
  Asset.id asset ∉ blocked.
Proof.
  unfold constraints.match_asset_to_demand, Py.mem.
  destruct (bool_decide (Asset.id asset ∈ blocked)) eqn:Hmem; [discriminate |].
  intros _. apply bool_decide_eq_false in Hmem. exact Hmem.
Qed.

Lemma match_item_not_blocked item blocked tasks available :
  forall assigned used count,
    Forall (fun a => Asset.id a ∉ blocked) assigned ->
    Forall (fun a => Asset.id a ∉ blocked)
           (fst (fst (optimizer.match_item item blocked tasks available assigned used count))).
Proof.
  induction available as [| asset rest IH]; intros assigned used count Hall; simpl;
    [exact Hall |].
  destruct (Py.mem (Asset.id asset) used); [apply IH, Hall |].
  destruct (Z.leb (ContractItem.quantity item) count); [exact Hall |].
  destruct (constraints.match_asset_to_demand asset item blocked tasks) eqn:Hm;
    [| apply IH, Hall].
  apply IH. apply Forall_app. split; [exact Hall |].
  constructor; [| constructor]. eapply match_asset_not_blocked, Hm.
Qed.

Lemma match_items_not_blocked demand blocked tasks available items :
  forall assigned unassigned used,
    Forall (fun a => Asset.id a ∉ blocked) assigned ->
    Forall (fun a => Asset.id a ∉ blocked)
           (fst (optimizer.match_items demand blocked tasks available items
                   assigned unassigned used)).
Proof.
  induction items as [| item rest IH]; intros assigned unassigned used Hall; simpl;
    [exact Hall |].
  pose proof (match_item_not_blocked item blocked tasks available assigned used 0 Hall)
    as Hstep.
  destruct (optimizer.match_item item blocked tasks available assigned used 0)
    as [[assigned' used'] count]. simpl in Hstep.
  apply IH, Hstep.
Qed.

Lemma assign_assets_not_blocked demand available constraints week_data :
  Forall (fun a => Asset.id a ∉ Constraints.blocked_asset_ids constraints)
         (fst (optimizer._assign_assets_to_demand demand available constraints week_data)).
Proof.
  unfold optimizer._assign_assets_to_demand.
  apply match_items_not_blocked. constructor.
Qed.

Lemma take_assets_not_blocked (blocked : gset string) assigned :
  forall g,
    Forall (fun a => Asset.id a ∉ blocked) assigned ->
    Forall (fun ta => TripAsset.asset_id ta ∉ blocked) (optimizer.trip_assets g) ->
    Forall (fun ta => TripAsset.asset_id ta ∉ blocked)
           (optimizer.trip_assets (fold_left optimizer.take_asset assigned g)).
Proof.
  induction assigned as [| asset rest IH]; intros g Hassigned Hg; simpl; [exact Hg |].
  inversion Hassigned as [| ? ? Ha Hrest]; subst.
  apply IH; [exact Hrest |].
  unfold optimizer.take_asset. simpl.
  apply Forall_app. split; [exact Hg |].
  constructor; [exact Ha | constructor].
Qed.

Lemma serve_demand_not_blocked week_data constraints venue g demand :
  Forall (fun ta => TripAsset.asset_id ta ∉ Constraints.blocked_asset_ids constraints)
         (optimizer.trip_assets g) ->
  Forall (fun ta => TripAsset.asset_id ta ∉ Constraints.blocked_asset_ids constraints)
         (optimizer.trip_assets (optimizer.serve_demand week_data constraints venue g demand)).
Proof.
  intros Hg. unfold optimizer.serve_demand.
  match goal with
  | |- context [optimizer._assign_assets_to_demand ?d ?av ?c ?w] =>
      pose proof (assign_assets_not_blocked d av c w) as Hassigned;
      destruct (optimizer._assign_assets_to_demand d av c w) as [assigned unassigned]
  end.
  simpl in Hassigned.
  apply take_assets_not_blocked; [exact Hassigned | exact Hg].
Qed.

Lemma serve_demands_not_blocked week_data constraints venue demands :
  forall g,
    Forall (fun ta => TripAsset.asset_id ta ∉ Constraints.blocked_asset_ids constraints)
           (optimizer.trip_assets g) ->
    Forall (fun ta => TripAsset.asset_id ta ∉ Constraints.blocked_asset_ids constraints)
           (optimizer.trip_assets
              (fold_left (optimizer.serve_demand week_data constraints venue) demands g)).
Proof.
  induction demands as [| d rest IH]; intros g Hg; simpl; [exact Hg |].
  apply IH, serve_demand_not_blocked, Hg.
Qed.

Lemma gather_stops_not_blocked week_data constraints venues :
  forall stop_order g,
    Forall (fun ta => TripAsset.asset_id ta ∉ Constraints.blocked_asset_ids constraints)
           (optimizer.trip_assets g) ->
    Forall (fun ta => TripAsset.asset_id ta ∉ Constraints.blocked_asset_ids constraints)
           (optimizer.trip_assets
              (optimizer.gather_stops week_data constraints venues stop_order g)).
Proof.
  induction venues as [| venue rest IH]; intros stop_order g Hg; simpl; [exact Hg |].
  destruct (List.filter _ (Constraints.demands constraints)) as [| d ds] eqn:Hd;
    [apply IH, Hg |].
  apply IH. simpl.
  apply (serve_demands_not_blocked week_data constraints venue (d :: ds) g Hg).
Qed.

Lemma build_trip_not_blocked cluster week_data dist_matrix constraints u :
  match fst (fst (fst (optimizer._build_trip_for_cluster cluster week_data dist_matrix
                         constraints u))) with
  | Some trip => trip_avoids (Constraints.blocked_asset_ids constraints) trip
  | None => True
  end.
Proof.
  unfold optimizer._build_trip_for_cluster.
  destruct (VenueCluster.venues cluster) as [| first_venue others] eqn:Hv; [exact I |].
  destruct (WeekData.nearest_hub week_data first_venue) as [hub |]; [| exact I].
  match goal with
  | |- context [match ?choice with Some _ => _ | None => _ end] =>
      destruct choice as [[[vehicle hub'] warnings] |] eqn:Hchoice
  end; [| exact I].
  match goal with
  | |- context [optimizer.gather_stops ?w ?c ?vs ?n ?g0] =>
      pose proof (gather_stops_not_blocked w c vs n g0) as Hg;
      set (g := optimizer.gather_stops w c vs n g0) in *
  end.
  specialize (Hg ltac:(constructor)).
  destruct (optimizer.trip_stops g) as [| s ss]; [exact I |].
  repeat match goal with
         | |- context [let '(_, _) := ?x in _] => destruct x
         end.
  simpl. exact Hg.
Qed.

Lemma process_cluster_not_blocked week_data dist_matrix constraints st cluster :
  Forall (trip_avoids (Constraints.blocked_asset_ids constraints))
         (OptimizationResult.trips (fst st)) ->
  Forall (trip_avoids (Constraints.blocked_asset_ids constraints))
         (OptimizationResult.trips
            (fst (optimizer.process_cluster week_data dist_matrix constraints st cluster))).
Proof.
  intros Hst. unfold optimizer.process_cluster.
  destruct st as [result u]. simpl in Hst.
  pose proof (build_trip_not_blocked cluster week_data dist_matrix constraints u) as Hb.
  destruct (optimizer._build_trip_for_cluster cluster week_data dist_matrix constraints u)
    as [[[trip unassigned] warnings] u'].
  simpl in Hb. simpl.
  destruct trip as [t |]; simpl; [| exact Hst].
  apply Forall_app. split; [exact Hst |].
  constructor; [exact Hb | constructor].
Qed.

Lemma process_clusters_not_blocked week_data dist_matrix constraints clusters :
  forall st,
    Forall (trip_avoids (Constraints.blocked_asset_ids constraints))
           (OptimizationResult.trips (fst st)) ->
    Forall (trip_avoids (Constraints.blocked_asset_ids constraints))
           (OptimizationResult.trips
              (fst (fold_left (optimizer.process_cluster week_data dist_matrix constraints)
                              clusters st))).
Proof.
  induction clusters as [| c rest IH]; intros st Hst; simpl; [exact Hst |].
  apply IH, process_cluster_not_blocked, Hst.
Qed.

(** Whatever the constraints and the clusters: a planner run puts no asset
    of the blocked set on a trip. *)
Lemma optimize_week_not_blocked (E : Externals) week_data dist_matrix constraints
    clusters timeout_ms pre_used :
  Forall (trip_avoids (Constraints.blocked_asset_ids constraints))
         (OptimizationResult.trips
            (optimizer.optimize_week week_data dist_matrix constraints clusters
                                     timeout_ms pre_used)).
Proof.
  unfold optimizer.optimize_week.
  match goal with
  | |- context [fold_left ?f ?cs ?st0] =>
      pose proof (process_clusters_not_blocked week_data dist_matrix constraints cs st0)
        as Hfold;
      destruct (fold_left f cs st0) as [result u]
  end.
  specialize (Hfold ltac:(constructor)). simpl in Hfold.
  assert (Hmap :
    Forall (trip_avoids (Constraints.blocked_asset_ids constraints))
      (List.map
         (fun trip =>
            if Nat.leb 3 (length (Trip.stops trip))
            then Trip.set_stops trip
                   (optimizer._ortools_reorder_stops trip dist_matrix timeout_ms)
            else trip)
         (OptimizationResult.trips result))).
  { apply List.Forall_forall. intros t Hin.
    apply in_map_iff in Hin. destruct Hin as (t0 & <- & Hin0).
    rewrite List.Forall_forall in Hfold. specialize (Hfold t0 Hin0).
    destruct (Nat.leb 3 (length (Trip.stops t0))); exact Hfold. }
  destruct (OptimizationResult.unassigned_demands _); exact Hmap.
Qed.

Lemma blocked_of_tasks_mono tasks :
  forall (acc : gset string) x, x ∈ acc -> x ∈ constraints.blocked_of_tasks tasks acc.
Proof.
  unfold constraints.blocked_of_tasks.
  induction tasks as [| bt rest IH]; intros acc x Hx; simpl; [exact Hx |].
  apply IH. destruct (_ || _); set_solver.
Qed.

Lemma blocked_of_tasks_pending tasks :
  forall (acc : gset string) bt,
    In bt tasks ->
    BrandingTask.status bt = "pending" \/ BrandingTask.status bt = "in_progress" ->
    BrandingTask.asset_id bt ∈ constraints.blocked_of_tasks tasks acc.
Proof.
  induction tasks as [| bt0 rest IH]; intros acc bt Hin Hstatus; [contradiction |].
  destruct Hin as [-> | Hin].
  - unfold constraints.blocked_of_tasks. simpl.
    fold (constraints.blocked_of_tasks rest).
    apply blocked_of_tasks_mono.
    destruct Hstatus as [-> | ->]; simpl; set_solver.
  - unfold constraints.blocked_of_tasks. simpl.
    apply (IH _ bt Hin Hstatus).
Qed.

Lemma pass_not_blocked (E : Externals) week_data dist_matrix constraints timeout_ms
    all_demands pass_num st :
  Forall (trip_avoids (Constraints.blocked_asset_ids constraints))
         (OptimizationResult.trips (week0.combined st)) ->
  Forall (trip_avoids (Constraints.blocked_asset_ids constraints))
         (OptimizationResult.trips
            (week0.combined
               (outcome_state
                  (week0.pass week_data dist_matrix constraints timeout_ms all_demands
                              pass_num st)))).
Proof.
  intros Hst. unfold week0.pass.
  destruct (Z.leb _ _); [exact Hst |].
  destruct (week0.remaining_demands all_demands (week0.served_set st)) as [| d ds];
    [exact Hst |].
  unfold week0.run_pass.
  destruct (clustering.cluster_venues _ _ _ _ _) as [| c cs]; [exact Hst |].
  match goal with
  | |- context [optimizer.optimize_week ?w ?m ?pc ?cl ?t ?pre] =>
      pose proof (optimize_week_not_blocked E w m pc cl t pre) as Hrun;
      set (result := optimizer.optimize_week w m pc cl t pre) in *
  end.
  change (Constraints.blocked_asset_ids (week0.pass_constraints constraints (d :: ds)))
    with (Constraints.blocked_asset_ids constraints) in Hrun.
  destruct (Nat.eqb (length (OptimizationResult.trips result)) 0); [exact Hst |].
  assert (Hboth : Forall (trip_avoids (Constraints.blocked_asset_ids constraints))
                    (OptimizationResult.trips (week0.combined st)
                     ++ OptimizationResult.trips result))
    by (apply Forall_app; split; assumption).
  destruct (Nat.eqb _ 0); [exact Hboth |].
  destruct (negb (OptimizationResult.has_unassigned result)); exact Hboth.
Qed.

Lemma passes_not_blocked (E : Externals) week_data dist_matrix constraints timeout_ms
    all_demands pass_nums :
  forall st,
    Forall (trip_avoids (Constraints.blocked_asset_ids constraints))
           (OptimizationResult.trips (week0.combined st)) ->
    Forall (trip_avoids (Constraints.blocked_asset_ids constraints))
           (OptimizationResult.trips
              (week0.combined
                 (week0.passes week_data dist_matrix constraints timeout_ms all_demands
                               pass_nums st))).
Proof.
  induction pass_nums as [| k rest IH]; intros st Hst; simpl; [exact Hst |].
  pose proof (pass_not_blocked E week_data dist_matrix constraints timeout_ms
                all_demands k st Hst) as Hpass.
  destruct (week0.pass week_data dist_matrix constraints timeout_ms all_demands k st)
    as [st' | st']; simpl in Hpass; [exact Hpass | apply IH, Hpass].
Qed.

(** The preseason run keeps the blocked set of its constraints in every
    pass, so that its trips carry no blocked asset either. *)
Lemma optimize_week0_not_blocked (E : Externals) week_data dist_matrix constraints
    clusters timeout_ms :
  Forall (trip_avoids (Constraints.blocked_asset_ids constraints))
         (OptimizationResult.trips
            (week0.optimize_week0 week_data dist_matrix constraints clusters timeout_ms)).
Proof.
  unfold week0.optimize_week0.
  cbn [OptimizationResult.set_status OptimizationResult.set_solve_time_ms
       OptimizationResult.trips].
  apply passes_not_blocked. constructor.
Qed.

(** C3: in the initial run (the constraints are those that
    [build_constraints] derives from the week's data) the asset of every
    pending or in-progress branding task is in the blocked set, and no trip
    of the result carries an asset of the blocked set, in the weekly run
    and in the preseason run alike. *)
Theorem blocked_assets_on_no_trip :
  forall (E : Externals) (week_data : WeekData.t) (dist_matrix : DistanceMatrix.t)
         (clusters : list VenueCluster.t) (timeout_ms : Z),
    let constraints := constraints.build_constraints week_data in
    let result :=
      optimizer.optimize_week week_data dist_matrix constraints clusters timeout_ms ∅ in
    let result0 :=
      week0.optimize_week0 week_data dist_matrix constraints clusters timeout_ms in
    (forall bt, In bt (WeekData.branding_tasks week_data) ->
                BrandingTask.status bt = "pending"
                \/ BrandingTask.status bt = "in_progress" ->
                BrandingTask.asset_id bt ∈ Constraints.blocked_asset_ids constraints)
    /\ (forall trip asset,
          In trip (OptimizationResult.trips result)
          \/ In trip (OptimizationResult.trips result0) ->
          In asset (Trip.assets trip) ->
          TripAsset.asset_id asset ∉ Constraints.blocked_asset_ids constraints)
    /\ (forall bt trip asset,
          In bt (WeekData.branding_tasks week_data) ->
          BrandingTask.status bt = "pending"
          \/ BrandingTask.status bt = "in_progress" ->
          In trip (OptimizationResult.trips result)
          \/ In trip (OptimizationResult.trips result0) ->
          In asset (Trip.assets trip) ->
          TripAsset.asset_id asset <> BrandingTask.asset_id bt).
Proof.
  intros E wd dm clusters timeout constraints result result0.
  assert (Hblocked : forall bt, In bt (WeekData.branding_tasks wd) ->
                BrandingTask.status bt = "pending"
                \/ BrandingTask.status bt = "in_progress" ->
                BrandingTask.asset_id bt ∈ Constraints.blocked_asset_ids constraints).
  { intros bt Hin Hstatus. unfold constraints, constraints.build_constraints.
    destruct (constraints.build_demands _ _ _ _ _) as [demands tws].
    destruct (constraints.hub_counts wd) as [vc pc]. simpl.
    apply blocked_of_tasks_pending; assumption. }
  assert (Htrips : forall trip asset,
          In trip (OptimizationResult.trips result)
          \/ In trip (OptimizationResult.trips result0) ->
          In asset (Trip.assets trip) ->
          TripAsset.asset_id asset ∉ Constraints.blocked_asset_ids constraints).
  { intros trip asset Htrip Hasset.
    pose proof (optimize_week_not_blocked E wd dm constraints clusters timeout ∅) as Hall.
    pose proof (optimize_week0_not_blocked E wd dm constraints clusters timeout) as Hall0.
    rewrite List.Forall_forall in Hall, Hall0.
    assert (Havoid : trip_avoids (Constraints.blocked_asset_ids constraints) trip)
      by (destruct Htrip as [Htrip | Htrip]; [apply Hall | apply Hall0]; exact Htrip).
    unfold trip_avoids in Havoid. rewrite List.Forall_forall in Havoid.
    apply Havoid, Hasset. }
  split; [exact Hblocked | split; [exact Htrips |]].
  intros bt trip asset Hbt Hstatus Htrip Hasset Heq.
  apply (Htrips trip asset Htrip Hasset). rewrite Heq. apply Hblocked; assumption.
Qed.

(** ** C4: the order indices of the stops *)

(** The routing pass numbers the stops it returns 1, 2, 3, ... *)
Lemma renumber_dense (reordered : list TripStop.t) (order : nat) :
  List.map TripStop.stop_order (optimizer.renumber reordered order)
  = List.map (fun k => Z.of_nat k + 1) (seq order (length reordered)).
Proof.
  revert order. induction reordered as [| stop rest IH]; intros order; simpl;
    [reflexivity |].
  rewrite IH. reflexivity.
Qed.

Lemma take_assets_stops (assigned : list Asset.t) :
  forall g, optimizer.trip_stops (fold_left optimizer.take_asset assigned g)
            = optimizer.trip_stops g.
Proof.
  induction assigned as [| a rest IH]; intros g; simpl; [reflexivity |].
  rewrite IH. reflexivity.
Qed.

Lemma serve_demands_stops week_data constraints venue demands :
  forall g,
    optimizer.trip_stops
      (fold_left (optimizer.serve_demand week_data constraints venue) demands g)
    = optimizer.trip_stops g.
Proof.
  induction demands as [| d rest IH]; intros g; simpl; [reflexivity |].
  rewrite IH. unfold optimizer.serve_demand.
  destruct (optimizer._assign_assets_to_demand _ _ _ _) as [assigned unassigned].
  rewrite take_assets_stops. reflexivity.
Qed.

(** Before the routing pass a stop carries the index of its venue in the
    cluster, plus one: the venues without demand are skipped, their indices
    are not reused. *)
Lemma gather_stops_orders week_data constraints venues :
  forall (stop_order : nat) g,
    List.map TripStop.stop_order
      (optimizer.trip_stops
         (optimizer.gather_stops week_data constraints venues stop_order g))
    = List.map TripStop.stop_order (optimizer.trip_stops g)
      ++ List.map (fun k => Z.of_nat k + 1)
           (List.filter
              (fun k =>
                 match venues !! (k - stop_order)%nat with
                 | Some venue =>
                     existsb (fun d => String.eqb (Demand.venue_id d) (Venue.id venue))
                             (Constraints.demands constraints)
                 | None => false
                 end)
              (seq stop_order (length venues))).
Proof.
  induction venues as [| venue rest IH]; intros k g; simpl.
  - rewrite app_nil_r. reflexivity.
  - assert (Hrest :
      List.filter
        (fun k0 =>
           match (venue :: rest) !! (k0 - k)%nat with
           | Some v =>
               existsb (fun d => String.eqb (Demand.venue_id d) (Venue.id v))
                       (Constraints.demands constraints)
           | None => false
           end)
        (seq (S k) (length rest))
      = List.filter
          (fun k0 =>
             match rest !! (k0 - S k)%nat with
             | Some v =>
                 existsb (fun d => String.eqb (Demand.venue_id d) (Venue.id v))
                         (Constraints.demands constraints)
             | None => false
             end)
          (seq (S k) (length rest))).
    { apply List.filter_ext_in. intros k0 Hin. apply in_seq in Hin.
      replace (k0 - k)%nat with (S (k0 - S k)) by lia. reflexivity. }
    rewrite Nat.sub_diag. simpl.
    destruct (List.filter
                (fun d => String.eqb (Demand.venue_id d) (Venue.id venue))
                (Constraints.demands constraints)) as [| d ds] eqn:Hd.
    + assert (He : existsb (fun d => String.eqb (Demand.venue_id d) (Venue.id venue))
                           (Constraints.demands constraints) = false).
      { destruct (existsb _ _) eqn:He; [| reflexivity].
        apply existsb_exists in He. destruct He as (d & Hin & Hm).
        assert (Hf : In d []) by (rewrite <- Hd; apply filter_In; auto).
        destruct Hf. }
      rewrite He, IH, Hrest. reflexivity.
    + assert (He : existsb (fun d => String.eqb (Demand.venue_id d) (Venue.id venue))
                           (Constraints.demands constraints) = true).
      { apply existsb_exists. exists d.
        assert (Hf : In d (d :: ds)) by (left; reflexivity).
        rewrite <- Hd in Hf. apply filter_In in Hf. exact Hf. }
      rewrite He, IH, Hrest. simpl.
      change (fold_left (optimizer.serve_demand week_data constraints venue) ds
                (optimizer.serve_demand week_data constraints venue g d))
        with (fold_left (optimizer.serve_demand week_data constraints venue) (d :: ds) g).
      rewrite serve_demands_stops, List.map_app, <- app_assoc. reflexivity.
Qed.

(** C4 (code does otherwise): customer A plays at venue 1 and has no
    contract item, customer B at venue 2 needs a bench, and both venues are
    in one cluster.  The planner builds one trip with the single stop venue
    2, and that stop has order index 2: the first stop of the trip is not
    numbered 1. *)
Theorem stop_order_skips_venue_without_demand :
  WeekData.game_venues gap_week = VenueCluster.venues gap_cluster
  /\ stop_orders
       (@optimizer.optimize_week quiet_externals gap_week gap_matrix
          (@constraints.build_constraints quiet_externals gap_week) [gap_cluster]
          config.SOLVER_TIMEOUT_MS ∅)
     = [[("ven-2", 2)]].
Proof. split; vm_compute; reflexivity. Qed.

(** ** C2: the served set of the preseason passes *)

(** C2 (code does otherwise): the contract asks two benches and the hub has
    one.  The planner run of pass 1 ships that bench and reports the other
    one as unassigned; the pass still adds (venue, customer) to the served
    set and goes on; pass 2 finds no demand left; the run ends with one
    bench shipped, no unassigned demand and status completed. *)
Theorem week0_excludes_partially_served_demand :
  (List.map (fun d => (Demand.venue_id d, Demand.customer_id d, Demand.total_quantity d))
            (Constraints.demands short_constraints)
   = [("ven-2", "cust-b", 2)])
  /\ option_map shipped short_run_1 = Some [["as-1"]]
  /\ option_map OptimizationResult.unassigned_demands short_run_1
     = Some [UnassignedDemand.mk "Team B" "Akron Stadium" "heated_bench" 1
               "Only 1 of 2 heated_bench available"]
  /\ goes_on short_pass_1 = true
  /\ Py.mem2 ("ven-2", "cust-b") (week0.served_set (outcome_state short_pass_1)) = true
  /\ week0.remaining_demands (Constraints.demands short_constraints)
       (week0.served_set (outcome_state short_pass_1)) = []
  /\ (let final :=
        @week0.optimize_week0 quiet_externals short_week0 short_matrix short_constraints
          short_clusters config.SOLVER_TIMEOUT_MS in
      shipped final = [["as-1"]]
      /\ OptimizationResult.unassigned_demands final = []
      /\ OptimizationResult.status final = "completed").
Proof. repeat split; vm_compute; reflexivity. Qed.

(** * Further properties of the planner *)

(** ** No asset is shipped twice *)

Lemma mem_true (x : string) (s : gset string) : Py.mem x s = true <-> x ∈ s.
Proof. unfold Py.mem. apply bool_decide_eq_true. Qed.

Lemma mem_false (x : string) (s : gset string) : Py.mem x s = false <-> x ∉ s.
Proof. unfold Py.mem. apply bool_decide_eq_false. Qed.

Lemma match_item_distinct item blocked tasks all_available available :
  forall assigned used count,
    (forall a, In a available -> In a all_available) ->
    NoDup (List.map Asset.id assigned) ->
    (forall a, In a assigned -> Asset.id a ∈ used) ->
    Forall (fun a => In a all_available) assigned ->
    let r := optimizer.match_item item blocked tasks available assigned used count in
    NoDup (List.map Asset.id (fst (fst r)))
    /\ (forall a, In a (fst (fst r)) -> Asset.id a ∈ snd (fst r))
    /\ Forall (fun a => In a all_available) (fst (fst r)).
Proof.
  induction available as [| asset rest IH]; intros assigned used count Hsub Hnd Hused Hin;
    simpl; [auto |].
  assert (Hsub' : forall a, In a rest -> In a all_available)
    by (intros a Ha; apply Hsub; right; exact Ha).
  destruct (Py.mem (Asset.id asset) used) eqn:Hmem; [apply IH; auto |].
  destruct (Z.leb (ContractItem.quantity item) count); [simpl; auto |].
  destruct (constraints.match_asset_to_demand asset item blocked tasks);
    [| apply IH; auto].
  apply mem_false in Hmem.
  apply IH; auto.
  - rewrite List.map_app. simpl. apply NoDup_app. split; [exact Hnd | split].
    + intros x Hx Hx'. apply list_elem_of_In in Hx, Hx'.
      destruct Hx' as [<- | []].
      apply in_map_iff in Hx. destruct Hx as (a & Heq & Ha).
      apply Hmem. rewrite <- Heq. apply Hused, Ha.
    + apply NoDup_singleton.
  - intros a Ha. apply in_app_iff in Ha. destruct Ha as [Ha | [<- | []]].
    + apply elem_of_union_r, Hused, Ha.
    + apply elem_of_union_l, elem_of_singleton. reflexivity.
  - apply Forall_app. split; [exact Hin |].
    constructor; [apply Hsub; left; reflexivity | constructor].
Qed.

Lemma match_items_distinct demand blocked tasks available items :
  forall assigned unassigned used,
    NoDup (List.map Asset.id assigned) ->
    (forall a, In a assigned -> Asset.id a ∈ used) ->
    Forall (fun a => In a available) assigned ->
    let r := optimizer.match_items demand blocked tasks available items
               assigned unassigned used in
    NoDup (List.map Asset.id (fst r)) /\ Forall (fun a => In a available) (fst r).
Proof.
  induction items as [| item rest IH]; intros assigned unassigned used Hnd Hused Hin;
    simpl; [auto |].
  pose proof (match_item_distinct item blocked tasks available available assigned used 0
                (fun a Ha => Ha) Hnd Hused Hin) as Hstep.
  destruct (optimizer.match_item item blocked tasks available assigned used 0)
    as [[assigned' used'] count]. simpl in Hstep.
  destruct Hstep as (Hnd' & Hused' & Hin').
  apply IH; assumption.
Qed.

(** The assets matched to one demand are distinct members of the candidate
    list. *)
Lemma assign_assets_distinct demand available constraints week_data :
  let r := optimizer._assign_assets_to_demand demand available constraints week_data in
  NoDup (List.map Asset.id (fst r)) /\ Forall (fun a => In a available) (fst r).
Proof.
  unfold optimizer._assign_assets_to_demand.
  apply match_items_distinct; [constructor | intros a [] | constructor].
Qed.

Lemma take_assets_ok pre prior assigned :
  forall g,
    gather_ok pre prior g ->
    NoDup (List.map Asset.id assigned) ->
    Forall (fun a => Asset.id a ∉ optimizer.used_asset_ids g) assigned ->
    gather_ok pre prior (fold_left optimizer.take_asset assigned g).
Proof.
  induction assigned as [| asset rest IH]; intros g Hg Hnd Hfree; simpl; [exact Hg |].
  inversion Hnd as [| ? ? Hnotin Hnd']; subst.
  inversion Hfree as [| ? ? Hasset Hrest]; subst.
  destruct Hg as ((Hplaced & Hrec & Hpre) & Hhub).
  apply IH; [| exact Hnd' |].
  - unfold gather_ok, placed_once, optimizer.take_asset. simpl.
    rewrite List.map_app, app_assoc. simpl.
    repeat split.
    + apply NoDup_app. split; [exact Hplaced | split; [| apply NoDup_singleton]].
      intros x Hx Hx'. apply list_elem_of_In in Hx, Hx'. destruct Hx' as [<- | []].
      apply Hasset. apply (Hrec _ Hx).
    + apply in_app_iff in H. destruct H as [Hx | [<- | []]].
      * apply elem_of_union_r. apply (Hrec _ Hx).
      * apply elem_of_union_l, elem_of_singleton. reflexivity.
    + apply in_app_iff in H. destruct H as [Hx | [<- | []]].
      * apply (Hrec _ Hx).
      * intros Hin. apply Hasset. apply Hpre, Hin.
    + intros x Hx. apply elem_of_union_r, Hpre, Hx.
    + apply List.Forall_forall. intros a Ha. apply filter_In in Ha.
      destruct Ha as [Ha Hne]. rewrite List.Forall_forall in Hhub.
      intros Hin. apply elem_of_union in Hin. destruct Hin as [Hin | Hin].
      * apply elem_of_singleton in Hin. rewrite Hin, String.eqb_refl in Hne.
        discriminate.
      * apply (Hhub a Ha Hin).
  - unfold optimizer.take_asset. simpl.
    rewrite List.Forall_forall in Hrest. apply List.Forall_forall. intros a Ha Hin.
    apply elem_of_union in Hin. destruct Hin as [Hin | Hin].
    + apply elem_of_singleton in Hin. apply Hnotin. rewrite <- Hin.
      apply list_elem_of_In, in_map, Ha.
    + apply (Hrest a Ha Hin).
Qed.

Lemma serve_demand_ok pre prior week_data constraints venue g demand :
  gather_ok pre prior g ->
  gather_ok pre prior (optimizer.serve_demand week_data constraints venue g demand).
Proof.
  intros Hg. unfold optimizer.serve_demand.
  match goal with
  | |- context [optimizer._assign_assets_to_demand ?d ?av ?c ?w] =>
      pose proof (assign_assets_distinct d av c w) as Hassigned;
      destruct (optimizer._assign_assets_to_demand d av c w) as [assigned unassigned]
  end.
  simpl in Hassigned. destruct Hassigned as [Hnd Hin].
  apply take_assets_ok; [exact Hg | exact Hnd |].
  simpl. destruct Hg as (_ & Hhub).
  rewrite List.Forall_forall in Hin, Hhub. apply List.Forall_forall.
  intros a Ha. specialize (Hin a Ha). apply in_app_iff in Hin.
  destruct Hin as [Hin | Hin]; [| apply Hhub, Hin].
  apply filter_In in Hin. destruct Hin as [_ Hfree].
  apply negb_true_iff, mem_false in Hfree. exact Hfree.
Qed.

Lemma serve_demands_ok pre prior week_data constraints venue demands :
  forall g,
    gather_ok pre prior g ->
    gather_ok pre prior
      (fold_left (optimizer.serve_demand week_data constraints venue) demands g).
Proof.
  induction demands as [| d rest IH]; intros g Hg; simpl; [exact Hg |].
  apply IH, serve_demand_ok, Hg.
Qed.

Lemma gather_stops_ok pre prior week_data constraints venues :
  forall stop_order g,
    gather_ok pre prior g ->
    gather_ok pre prior (optimizer.gather_stops week_data constraints venues stop_order g).
Proof.
  induction venues as [| venue rest IH]; intros stop_order g Hg; simpl; [exact Hg |].
  destruct (List.filter _ (Constraints.demands constraints)) as [| d ds] eqn:Hd;
    [apply IH, Hg |].
  apply IH.
  pose proof (serve_demands_ok pre prior week_data constraints venue (d :: ds) g Hg) as Hs.
  exact Hs.
Qed.

(** ** How a trip is built *)

Lemma min_by_In {A : Type} (ltb : A -> A -> bool) (l : list A) (x : A) :
  Py.min_by ltb l = Some x -> In x l.
Proof.
  revert x. induction l as [| y rest IH]; intros x; simpl; [discriminate |].
  destruct (Py.min_by ltb rest) as [m |].
  - destruct (ltb m y); intros [= <-]; [right; apply IH; reflexivity | left; reflexivity].
  - intros [= <-]. left. reflexivity.
Qed.

Lemma first_free_vehicle_spec vehicles used v :
  optimizer.first_free_vehicle vehicles used = Some v ->
  In v vehicles /\ Vehicle.id v ∉ used.
Proof.
  induction vehicles as [| w rest IH]; simpl; [discriminate |].
  destruct (Py.mem (Vehicle.id w) used) eqn:Hmem; simpl.
  - intros H. destruct (IH H). auto.
  - intros [= <-]. apply mem_false in Hmem. auto.
Qed.

Lemma available_vehicle_spec week_data hub_id used v :
  optimizer.first_free_vehicle (WeekData.available_vehicles_at_hub week_data hub_id) used
  = Some v ->
  In v (WeekData.vehicles week_data) /\ Vehicle.status v = "active"
  /\ Vehicle.home_hub_id v = hub_id /\ Vehicle.id v ∉ used.
Proof.
  intros H. apply first_free_vehicle_spec in H. destruct H as [Hin Hfree].
  unfold WeekData.available_vehicles_at_hub in Hin. apply filter_In in Hin.
  destruct Hin as [Hin Hc]. apply andb_true_iff in Hc. destruct Hc as [Hh Hs].
  apply String.eqb_eq in Hh, Hs. auto.
Qed.

Lemma cross_hub_vehicle_spec week_data hub others used v h :
  optimizer.cross_hub_vehicle week_data hub others used = Some (v, h) ->
  In h others /\ In v (WeekData.vehicles week_data) /\ Vehicle.status v = "active"
  /\ Vehicle.home_hub_id v = Hub.id h /\ Vehicle.id v ∉ used.
Proof.
  induction others as [| o rest IH]; simpl; [discriminate |].
  destruct (String.eqb (Hub.id o) (Hub.id hub)).
  - intros H. destruct (IH H) as (? & ?). auto.
  - destruct (optimizer.first_free_vehicle _ used) as [w |] eqn:Hw.
    + intros [= <- <-]. apply available_vehicle_spec in Hw. tauto.
    + intros H. destruct (IH H) as (? & ?). auto.
Qed.

Lemma build_trip_outcome cluster week_data dist_matrix constraints u :
  let r := optimizer._build_trip_for_cluster cluster week_data dist_matrix constraints u in
  build_outcome cluster week_data constraints u (fst (fst (fst r))) (snd r).
Proof.
  unfold optimizer._build_trip_for_cluster, build_outcome. cbv zeta.
  destruct (VenueCluster.venues cluster) as [| first_venue others] eqn:Hv;
    [left; auto |].
  destruct (WeekData.nearest_hub week_data first_venue) as [hub |] eqn:Hhub;
    [| left; auto].
  assert (Hhub_in : In hub (WeekData.hubs week_data)).
  { unfold WeekData.nearest_hub in Hhub.
    destruct (Venue.location first_venue); [| discriminate].
    eapply min_by_In, Hhub. }
  match goal with
  | |- context [match ?choice with Some _ => _ | None => _ end] =>
      destruct choice as [[[vehicle hub'] warnings] |] eqn:Hchoice
  end; [| left; auto].
  assert (Hspec : In hub' (WeekData.hubs week_data)
                  /\ In vehicle (WeekData.vehicles week_data)
                  /\ Vehicle.status vehicle = "active"
                  /\ Vehicle.home_hub_id vehicle = Hub.id hub'
                  /\ Vehicle.id vehicle ∉ optimizer.used_vehicle_ids u).
  { destruct (optimizer.first_free_vehicle _ _) as [v |] eqn:Hfree.
    - injection Hchoice as <- <- <-. apply available_vehicle_spec in Hfree. tauto.
    - destruct (optimizer.cross_hub_vehicle _ _ _ _) as [[v oh] |] eqn:Hcross;
        [| discriminate].
      injection Hchoice as <- <- <-. apply cross_hub_vehicle_spec in Hcross. tauto. }
  destruct Hspec as (Hh & Hvin & Hact & Hhome & Hfree).
  right. exists vehicle, hub'. repeat (split; [assumption |]).
  fold (gather_start week_data hub' u).
  set (g := optimizer.gather_stops week_data constraints (first_venue :: others) 0
              (gather_start week_data hub' u)).
  destruct (optimizer.trip_stops g) as [| s ss] eqn:Hstops; [simpl; auto |].
  repeat match goal with
         | |- context [let '(_, _) := ?x in _] => destruct x eqn:?
         end.
  simpl.
  repeat split; try reflexivity; try discriminate.
Qed.

Lemma gather_start_ok pre prior week_data hub u :
  placed_once pre prior (optimizer.used_assets u) ->
  gather_ok pre prior (gather_start week_data hub u).
Proof.
  intros Hu. unfold gather_ok, gather_start. simpl. rewrite app_nil_r.
  split; [exact Hu |].
  apply List.Forall_forall. intros a Ha. apply filter_In in Ha.
  destruct Ha as [_ Hfree]. apply negb_true_iff, mem_false in Hfree. exact Hfree.
Qed.

Lemma gather_stops_empty_assets week_data constraints venues :
  forall stop_order g,
    optimizer.trip_stops
      (optimizer.gather_stops week_data constraints venues stop_order g) = [] ->
    optimizer.trip_assets
      (optimizer.gather_stops week_data constraints venues stop_order g)
    = optimizer.trip_assets g
    /\ optimizer.used_asset_ids
         (optimizer.gather_stops week_data constraints venues stop_order g)
       = optimizer.used_asset_ids g.
Proof.
  induction venues as [| venue rest IH]; intros k g; simpl; [auto |].
  destruct (List.filter _ (Constraints.demands constraints)) as [| d ds] eqn:Hd;
    [apply IH |].
  intros Hempty. exfalso.
  pose proof (gather_stops_orders week_data constraints rest (S k)) as Horders.
  match type of Hempty with
  | optimizer.trip_stops (optimizer.gather_stops _ _ _ _ ?g2) = [] =>
      specialize (Horders g2); rewrite Hempty in Horders; simpl in Horders;
      rewrite List.map_app in Horders; simpl in Horders
  end.
  symmetry in Horders. apply app_eq_nil in Horders. destruct Horders as [Horders _].
  apply app_eq_nil in Horders. destruct Horders as [_ Hcons]. discriminate.
Qed.

(** One cluster more: the assets placed so far stay pairwise distinct. *)
Lemma process_cluster_assets pre week_data dist_matrix constraints st cluster :
  placed_once pre (asset_ids_of (OptimizationResult.trips (fst st)))
              (optimizer.used_assets (snd st)) ->
  let st' := optimizer.process_cluster week_data dist_matrix constraints st cluster in
  placed_once pre (asset_ids_of (OptimizationResult.trips (fst st')))
              (optimizer.used_assets (snd st')).
Proof.
  intros Hst. unfold optimizer.process_cluster.
  destruct st as [result u]. simpl in Hst.
  pose proof (build_trip_outcome cluster week_data dist_matrix constraints u) as Hb.
  destruct (optimizer._build_trip_for_cluster cluster week_data dist_matrix constraints u)
    as [[[trip unassigned] warnings] u'].
  simpl in Hb. cbv zeta.
  destruct Hb as [[-> ->] | (vehicle & hub & _ & _ & _ & _ & _ & Hb)]; [exact Hst |].
  cbv zeta in Hb.
  pose proof (gather_stops_ok pre _ week_data constraints (VenueCluster.venues cluster) 0
                _ (gather_start_ok pre _ week_data hub u Hst)) as Hg.
  set (g := optimizer.gather_stops week_data constraints (VenueCluster.venues cluster) 0
              (gather_start week_data hub u)) in *.
  destruct Hg as [Hplaced _].
  destruct trip as [t |].
  - destruct Hb as (_ & _ & _ & _ & Hassets & _ & ->). simpl.
    unfold asset_ids_of. rewrite flat_map_app. simpl. rewrite app_nil_r, Hassets.
    exact Hplaced.
  - destruct Hb as (Hempty & ->). simpl.
    destruct (gather_stops_empty_assets _ _ _ _ _ Hempty) as [Ha Hu].
    fold g in Ha, Hu. rewrite Ha in Hplaced. simpl in Hplaced.
    rewrite app_nil_r in Hplaced. exact Hplaced.
Qed.

Lemma optimize_week_trips (E : Externals) week_data dist_matrix constraints clusters
    timeout_ms pre :
  OptimizationResult.trips
    (optimizer.optimize_week week_data dist_matrix constraints clusters timeout_ms pre)
  = List.map (reorder_trip dist_matrix timeout_ms)
      (OptimizationResult.trips
         (fst (after_clusters week_data dist_matrix constraints clusters pre))).
Proof.
  unfold optimizer.optimize_week, after_clusters, processing_order.
  destruct (fold_left _ _ _) as [result u]. simpl.
  destruct (OptimizationResult.unassigned_demands result); reflexivity.
Qed.

Lemma optimize_week_unassigned (E : Externals) week_data dist_matrix constraints clusters
    timeout_ms pre :
  OptimizationResult.unassigned_demands
    (optimizer.optimize_week week_data dist_matrix constraints clusters timeout_ms pre)
  = OptimizationResult.unassigned_demands
      (fst (after_clusters week_data dist_matrix constraints clusters pre)).
Proof.
  unfold optimizer.optimize_week, after_clusters, processing_order.
  destruct (fold_left _ _ _) as [result u]. simpl.
  destruct (OptimizationResult.unassigned_demands result) eqn:Hu; simpl; auto.
Qed.

Lemma reorder_trip_fields (E : Externals) dist_matrix timeout_ms trip :
  Trip.assets (reorder_trip dist_matrix timeout_ms trip) = Trip.assets trip
  /\ Trip.vehicle_id (reorder_trip dist_matrix timeout_ms trip) = Trip.vehicle_id trip
  /\ Trip.personnel (reorder_trip dist_matrix timeout_ms trip) = Trip.personnel trip
  /\ Trip.origin_hub_id (reorder_trip dist_matrix timeout_ms trip)
     = Trip.origin_hub_id trip.
Proof. unfold reorder_trip. destruct (Nat.leb _ _); auto. Qed.

Lemma asset_ids_of_reordered (E : Externals) dist_matrix timeout_ms trips :
  asset_ids_of (List.map (reorder_trip dist_matrix timeout_ms) trips) = asset_ids_of trips.
Proof.
  unfold asset_ids_of. induction trips as [| t rest IH]; simpl; [reflexivity |].
  rewrite IH. destruct (reorder_trip_fields E dist_matrix timeout_ms t) as [-> _].
  reflexivity.
Qed.

Lemma process_clusters_assets pre week_data dist_matrix constraints clusters :
  forall st,
    placed_once pre (asset_ids_of (OptimizationResult.trips (fst st)))
                (optimizer.used_assets (snd st)) ->
    let st' := fold_left (optimizer.process_cluster week_data dist_matrix constraints)
                         clusters st in
    placed_once pre (asset_ids_of (OptimizationResult.trips (fst st')))
                (optimizer.used_assets (snd st')).
Proof.
  induction clusters as [| c rest IH]; intros st Hst; simpl; [exact Hst |].
  apply IH, process_cluster_assets, Hst.
Qed.

Lemma optimize_week_placed_once (E : Externals) week_data dist_matrix constraints
    clusters timeout_ms pre :
  placed_once pre
    (asset_ids_of
       (OptimizationResult.trips
          (optimizer.optimize_week week_data dist_matrix constraints clusters timeout_ms
                                   pre)))
    (optimizer.used_assets
       (snd (after_clusters week_data dist_matrix constraints clusters pre))).
Proof.
  rewrite optimize_week_trips, asset_ids_of_reordered.
  apply (process_clusters_assets pre week_data dist_matrix constraints
           (processing_order constraints clusters)
           (OptimizationResult.empty, optimizer.mk_used ∅ pre ∅)).
  split; [apply NoDup_nil_2 | split; [intros x [] | set_solver]].
Qed.

(** X1: over all trips of a planner run every asset id occurs at most once,
    and no asset that was already consumed before the run is shipped. *)
Theorem optimize_week_ships_each_asset_once :
  forall (E : Externals) (week_data : WeekData.t) (dist_matrix : DistanceMatrix.t)
         (constraints : Constraints.t) (clusters : list VenueCluster.t)
         (timeout_ms : Z) (pre_used_asset_ids : gset string),
    let result :=
      optimizer.optimize_week week_data dist_matrix constraints clusters timeout_ms
                              pre_used_asset_ids in
    NoDup (asset_ids_of (OptimizationResult.trips result))
    /\ (forall x, In x (asset_ids_of (OptimizationResult.trips result)) ->
                  x ∉ pre_used_asset_ids).
Proof.
  intros E wd dm c clusters timeout pre result.
  destruct (optimize_week_placed_once E wd dm c clusters timeout pre)
    as (Hnd & Hrec & _).
  split; [exact Hnd |]. intros x Hx. apply (Hrec x Hx).
Qed.

(** ** The preseason passes never ship an asset twice *)

Lemma consume_assets_spec trips :
  forall (used : gset string) x,
    x ∈ week0.consume_assets trips used <-> x ∈ used \/ In x (asset_ids_of trips).
Proof.
  unfold week0.consume_assets, asset_ids_of.
  induction trips as [| t rest IH]; intros used x; simpl; [tauto |].
  rewrite IH, in_app_iff.
  assert (Hinner : forall (assets : list TripAsset.t) (u : gset string),
             x ∈ fold_left (fun u a => {[TripAsset.asset_id a]} ∪ u) assets u
             <-> x ∈ u \/ In x (List.map TripAsset.asset_id assets)).
  { induction assets as [| a more IHa]; intros u; simpl; [tauto |].
    rewrite IHa, elem_of_union, elem_of_singleton. intuition auto. }
  rewrite Hinner. tauto.
Qed.

Lemma asset_ids_of_app a b : asset_ids_of (a ++ b) = asset_ids_of a ++ asset_ids_of b.
Proof. unfold asset_ids_of. apply flat_map_app. Qed.

Lemma pass_ships_once (E : Externals) week_data dist_matrix constraints timeout_ms
    all_demands pass_num st :
  NoDup (asset_ids_of (OptimizationResult.trips (week0.combined st))) ->
  (forall x, In x (asset_ids_of (OptimizationResult.trips (week0.combined st))) ->
             x ∈ week0.global_used_asset_ids st) ->
  let st' := outcome_state (week0.pass week_data dist_matrix constraints timeout_ms
                                       all_demands pass_num st) in
  NoDup (asset_ids_of (OptimizationResult.trips (week0.combined st')))
  /\ (forall x, In x (asset_ids_of (OptimizationResult.trips (week0.combined st'))) ->
                x ∈ week0.global_used_asset_ids st').
Proof.
  intros Hnd Hrec. unfold week0.pass.
  destruct (Z.leb _ _); [simpl; auto |].
  destruct (week0.remaining_demands all_demands (week0.served_set st)) as [| d ds];
    [simpl; auto |].
  unfold week0.run_pass.
  destruct (clustering.cluster_venues _ _ _ _ _) as [| c cs]; [simpl; auto |].
  match goal with
  | |- context [optimizer.optimize_week ?w ?m ?pc ?cl ?t ?pre] =>
      pose proof (optimize_week_placed_once E w m pc cl t pre) as Hrun;
      set (result := optimizer.optimize_week w m pc cl t pre) in *
  end.
  destruct Hrun as (Hnd_run & Hfresh & _).
  destruct (Nat.eqb (length (OptimizationResult.trips result)) 0); [simpl; auto |].
  assert (Hboth :
    NoDup (asset_ids_of (OptimizationResult.trips (week0.combined st)
                         ++ OptimizationResult.trips result))
    /\ (forall x, In x (asset_ids_of (OptimizationResult.trips (week0.combined st)
                                      ++ OptimizationResult.trips result)) ->
                  x ∈ week0.consume_assets (OptimizationResult.trips result)
                        (week0.global_used_asset_ids st))).
  { rewrite asset_ids_of_app. split.
    - apply NoDup_app. split; [exact Hnd | split; [| exact Hnd_run]].
      intros x Hx Hx'. apply list_elem_of_In in Hx, Hx'.
      apply (Hfresh x Hx'). apply Hrec, Hx.
    - intros x Hx. apply consume_assets_spec. apply in_app_iff in Hx.
      destruct Hx as [Hx | Hx]; [left; apply Hrec, Hx | right; exact Hx]. }
  destruct (Nat.eqb _ 0); [simpl; exact Hboth |].
  destruct (negb (OptimizationResult.has_unassigned result)); simpl; exact Hboth.
Qed.

Lemma passes_ship_once (E : Externals) week_data dist_matrix constraints timeout_ms
    all_demands pass_nums :
  forall st,
    NoDup (asset_ids_of (OptimizationResult.trips (week0.combined st))) ->
    (forall x, In x (asset_ids_of (OptimizationResult.trips (week0.combined st))) ->
               x ∈ week0.global_used_asset_ids st) ->
    NoDup (asset_ids_of
             (OptimizationResult.trips
                (week0.combined
                   (week0.passes week_data dist_matrix constraints timeout_ms
                                 all_demands pass_nums st)))).
Proof.
  induction pass_nums as [| k rest IH]; intros st Hnd Hrec; simpl; [exact Hnd |].
  pose proof (pass_ships_once E week_data dist_matrix constraints timeout_ms
                all_demands k st Hnd Hrec) as Hpass.
  destruct (week0.pass week_data dist_matrix constraints timeout_ms all_demands k st)
    as [st' | st']; simpl in Hpass; destruct Hpass as [Hnd' Hrec'];
    [exact Hnd' | apply IH; assumption].
Qed.

(** X2: over all passes of the preseason run every asset id occurs at most
    once on the trips: a vehicle may drive again in a later pass, an asset is
    never shipped again. *)
Theorem optimize_week0_ships_each_asset_once :
  forall (E : Externals) (week_data : WeekData.t) (dist_matrix : DistanceMatrix.t)
         (constraints : Constraints.t) (clusters : list VenueCluster.t)
         (timeout_ms : Z),
    NoDup (asset_ids_of
             (OptimizationResult.trips
                (week0.optimize_week0 week_data dist_matrix constraints clusters
                                      timeout_ms))).
Proof.
  intros E wd dm c clusters timeout.
  unfold week0.optimize_week0.
  cbn [OptimizationResult.set_status OptimizationResult.set_solve_time_ms
       OptimizationResult.trips].
  apply passes_ship_once; [apply NoDup_nil_2 | intros x []].
Qed.

(** ** Vehicles *)

Lemma vehicle_ids_of_reordered (E : Externals) dist_matrix timeout_ms trips :
  vehicle_ids_of (List.map (reorder_trip dist_matrix timeout_ms) trips)
  = vehicle_ids_of trips.
Proof.
  unfold vehicle_ids_of. rewrite List.map_map. apply List.map_ext. intros t.
  apply (reorder_trip_fields E dist_matrix timeout_ms t).
Qed.

Lemma process_cluster_vehicles week_data dist_matrix constraints st cluster :
  NoDup (vehicle_ids_of (OptimizationResult.trips (fst st))) ->
  (forall x, In x (vehicle_ids_of (OptimizationResult.trips (fst st))) ->
             x ∈ optimizer.used_vehicle_ids (snd st)) ->
  Forall (vehicle_of_origin_hub week_data) (OptimizationResult.trips (fst st)) ->
  let st' := optimizer.process_cluster week_data dist_matrix constraints st cluster in
  NoDup (vehicle_ids_of (OptimizationResult.trips (fst st')))
  /\ (forall x, In x (vehicle_ids_of (OptimizationResult.trips (fst st'))) ->
                x ∈ optimizer.used_vehicle_ids (snd st'))
  /\ Forall (vehicle_of_origin_hub week_data) (OptimizationResult.trips (fst st')).
Proof.
  intros Hnd Hrec Hall. unfold optimizer.process_cluster.
  destruct st as [result u]. simpl in Hnd, Hrec, Hall.
  pose proof (build_trip_outcome cluster week_data dist_matrix constraints u) as Hb.
  destruct (optimizer._build_trip_for_cluster cluster week_data dist_matrix constraints u)
    as [[[trip unassigned] warnings] u'].
  simpl in Hb. cbv zeta.
  destruct Hb as [[-> ->] | (vehicle & hub & _ & Hvin & Hact & Hhome & Hfree & Hb)];
    [simpl; auto |].
  cbv zeta in Hb.
  destruct trip as [t |].
  - destruct Hb as (_ & Hvid & Horigin & _ & _ & _ & ->). simpl.
    unfold vehicle_ids_of. rewrite List.map_app. simpl.
    split; [| split].
    + apply NoDup_app. split; [exact Hnd | split; [| apply NoDup_singleton]].
      intros x Hx Hx'. apply list_elem_of_In in Hx, Hx'. destruct Hx' as [<- | []].
      apply Hfree. rewrite <- Hvid. apply Hrec, Hx.
    + intros x Hx. apply in_app_iff in Hx. destruct Hx as [Hx | [<- | []]].
      * apply elem_of_union_r, Hrec, Hx.
      * apply elem_of_union_l, elem_of_singleton. exact Hvid.
    + apply Forall_app. split; [exact Hall |].
      constructor; [| constructor].
      exists vehicle. rewrite Hvid, Horigin. auto.
  - destruct Hb as (_ & ->). simpl.
    split; [exact Hnd | split; [| exact Hall]].
    intros x Hx. apply elem_of_union_r, Hrec, Hx.
Qed.

Lemma process_clusters_vehicles week_data dist_matrix constraints clusters :
  forall st,
    NoDup (vehicle_ids_of (OptimizationResult.trips (fst st))) ->
    (forall x, In x (vehicle_ids_of (OptimizationResult.trips (fst st))) ->
               x ∈ optimizer.used_vehicle_ids (snd st)) ->
    Forall (vehicle_of_origin_hub week_data) (OptimizationResult.trips (fst st)) ->
    let st' := fold_left (optimizer.process_cluster week_data dist_matrix constraints)
                         clusters st in
    NoDup (vehicle_ids_of (OptimizationResult.trips (fst st')))
    /\ Forall (vehicle_of_origin_hub week_data) (OptimizationResult.trips (fst st')).
Proof.
  induction clusters as [| c rest IH]; intros st Hnd Hrec Hall; simpl; [auto |].
  destruct (process_cluster_vehicles week_data dist_matrix constraints st c Hnd Hrec Hall)
    as (Hnd' & Hrec' & Hall').
  apply IH; assumption.
Qed.

Lemma optimize_week_vehicles :
  forall (E : Externals) (week_data : WeekData.t) (dist_matrix : DistanceMatrix.t)
         (constraints : Constraints.t) (clusters : list VenueCluster.t)
         (timeout_ms : Z) (pre_used_asset_ids : gset string),
    let result :=
      optimizer.optimize_week week_data dist_matrix constraints clusters timeout_ms
                              pre_used_asset_ids in
    NoDup (vehicle_ids_of (OptimizationResult.trips result))
    /\ Forall (vehicle_of_origin_hub week_data) (OptimizationResult.trips result).
Proof.
  intros E wd dm c clusters timeout pre result.
  unfold result. rewrite optimize_week_trips, vehicle_ids_of_reordered.
  pose proof (process_clusters_vehicles wd dm c (processing_order c clusters)
                (OptimizationResult.empty, optimizer.mk_used ∅ pre ∅)) as H.
  simpl in H. fold (after_clusters wd dm c clusters pre) in H.
  destruct (H (@NoDup_nil_2 string) ltac:(intros x []) ltac:(constructor)) as [Hnd Hall].
  split; [exact Hnd |].
  apply List.Forall_forall. intros t Ht. apply in_map_iff in Ht.
  destruct Ht as (t0 & <- & Ht0). rewrite List.Forall_forall in Hall.
  destruct (Hall t0 Ht0) as (v & Hv).
  destruct (reorder_trip_fields E dm timeout t0) as (_ & Hvid & _ & Horigin).
  exists v. unfold vehicle_of_origin_hub. rewrite Hvid, Horigin. exact Hv.
Qed.

(** X3: in a planner run no vehicle drives two trips, and the vehicle of
    every trip is an active vehicle of the week's data whose home hub is the
    hub the trip starts from. *)
Theorem optimize_week_uses_each_vehicle_once :
  forall (E : Externals) (week_data : WeekData.t) (dist_matrix : DistanceMatrix.t)
         (constraints : Constraints.t) (clusters : list VenueCluster.t)
         (timeout_ms : Z) (pre_used_asset_ids : gset string),
    let result :=
      optimizer.optimize_week week_data dist_matrix constraints clusters timeout_ms
                              pre_used_asset_ids in
    NoDup (vehicle_ids_of (OptimizationResult.trips result))
    /\ Forall (vehicle_of_origin_hub week_data) (OptimizationResult.trips result).
Proof. exact optimize_week_vehicles. Qed.

(** ** Personnel *)

Lemma pick_driver_spec available used p :
  optimizer.pick_driver available used = Some p ->
  In p available /\ (Person.id p ∉ used) /\ Person.role p = "driver".
Proof.
  induction available as [| q rest IH]; simpl; [discriminate |].
  destruct (Py.mem (Person.id q) used) eqn:Hmem;
    destruct (String.eqb (Person.role q) "driver") eqn:Hrole; simpl;
    try (intros H; destruct (IH H) as (? & ? & ?); auto; fail).
  intros [= <-]. apply mem_false in Hmem. apply String.eqb_eq in Hrole. auto.
Qed.

Lemma pick_tech_spec available used p :
  optimizer.pick_tech available used = Some p ->
  In p available /\ (Person.id p ∉ used)
  /\ In (Person.role p) ["lead_tech"; "service_tech"].
Proof.
  induction available as [| q rest IH]; simpl; [discriminate |].
  destruct (Py.mem (Person.id q) used) eqn:Hmem;
    [intros H; destruct (IH H) as (? & ? & ?); auto |].
  destruct (String.eqb (Person.role q) "lead_tech") eqn:Hlead; simpl.
  - intros [= <-]. apply mem_false in Hmem. apply String.eqb_eq in Hlead.
    repeat split; auto; left; auto.
  - destruct (String.eqb (Person.role q) "service_tech") eqn:Hserv.
    + intros [= <-]. apply mem_false in Hmem. apply String.eqb_eq in Hserv.
      repeat split; auto; right; left; auto.
    + intros H; destruct (IH H) as (? & ? & ?); auto.
Qed.

Lemma available_personnel_spec week_data hub_id p :
  In p (WeekData.available_personnel_at_hub week_data hub_id) ->
  In p (WeekData.personnel week_data) /\ Person.home_hub_id p = hub_id.
Proof.
  unfold WeekData.available_personnel_at_hub. intros H. apply filter_In in H.
  destruct H as [Hin Hh]. apply String.eqb_eq in Hh. auto.
Qed.

Lemma as_trip_person_member week_data hub_id roles role_on_trip p :
  In p (WeekData.available_personnel_at_hub week_data hub_id) ->
  In (Person.role p) roles ->
  crew_member week_data hub_id roles role_on_trip
              (optimizer.as_trip_person p role_on_trip).
Proof.
  intros Hin Hrole. apply available_personnel_spec in Hin. destruct Hin as [Hin Hh].
  split; [reflexivity |]. exists p. simpl. auto.
Qed.

(** What one call of [_assign_personnel] reserves. *)
Lemma assign_personnel_facts hub week_data (used : gset string) :
  let staff := optimizer._assign_personnel hub week_data used in
  let ids := List.map TripPerson.person_id (fst staff) in
  NoDup ids
  /\ (forall x, In x ids -> x ∉ used)
  /\ (forall x, x ∈ snd staff <-> x ∈ used \/ In x ids)
  /\ crew_shape week_data (Hub.id hub) (fst staff).
Proof.
  unfold optimizer._assign_personnel. cbv zeta.
  set (available := WeekData.available_personnel_at_hub week_data (Hub.id hub)).
  assert (Hroles : forall r, In r ["lead_tech"; "service_tech"] ->
                             In r ["driver"; "lead_tech"; "service_tech"])
    by (intros r Hr; right; exact Hr).
  destruct (optimizer.pick_driver available used) as [d |] eqn:Hd.
  - apply pick_driver_spec in Hd. destruct Hd as (Hdin & Hdfree & Hdrole).
    destruct (optimizer.pick_tech available ({[Person.id d]} ∪ used)) as [s |] eqn:Hs.
    + apply pick_tech_spec in Hs. destruct Hs as (Hsin & Hsfree & Hsrole).
      simpl. repeat split.
      * apply NoDup_cons_2; [| apply NoDup_singleton].
        intros Hx. apply list_elem_of_In in Hx. destruct Hx as [Hx | []].
        apply Hsfree. rewrite Hx. set_solver.
      * intros x [<- | [<- | []]]; set_solver.
      * intros Hx. set_solver.
      * intros [Hx | [<- | [<- | []]]]; set_solver.
      * exists d. repeat split; auto.
        -- apply (available_personnel_spec _ _ _ Hdin).
        -- apply (available_personnel_spec _ _ _ Hdin).
        -- left. auto.
      * apply as_trip_person_member; assumption.
    + simpl. repeat split.
      * apply NoDup_singleton.
      * intros x [<- | []]. exact Hdfree.
      * intros Hx. set_solver.
      * intros [Hx | [<- | []]]; set_solver.
      * exists d. repeat split; auto.
        -- apply (available_personnel_spec _ _ _ Hdin).
        -- apply (available_personnel_spec _ _ _ Hdin).
        -- left. auto.
  - destruct (optimizer.pick_tech available used) as [d |] eqn:Hd2.
    + apply pick_tech_spec in Hd2. destruct Hd2 as (Hdin & Hdfree & Hdrole).
      destruct (optimizer.pick_tech available ({[Person.id d]} ∪ used)) as [s |] eqn:Hs.
      * apply pick_tech_spec in Hs. destruct Hs as (Hsin & Hsfree & Hsrole).
        simpl. repeat split.
        -- apply NoDup_cons_2; [| apply NoDup_singleton].
           intros Hx. apply list_elem_of_In in Hx. destruct Hx as [Hx | []].
           apply Hsfree. rewrite Hx. set_solver.
        -- intros x [<- | [<- | []]]; set_solver.
        -- intros Hx. set_solver.
        -- intros [Hx | [<- | [<- | []]]]; set_solver.
        -- apply as_trip_person_member; auto.
        -- apply as_trip_person_member; assumption.
      * simpl. repeat split.
        -- apply NoDup_singleton.
        -- intros x [<- | []]. exact Hdfree.
        -- intros Hx. set_solver.
        -- intros [Hx | [<- | []]]; set_solver.
        -- apply as_trip_person_member; auto.
    + rewrite Hd2. simpl. repeat split.
      * apply NoDup_nil_2.
      * intros x [].
      * auto.
      * intros [Hx | []]. exact Hx.
Qed.

Lemma person_ids_of_reordered (E : Externals) dist_matrix timeout_ms trips :
  person_ids_of (List.map (reorder_trip dist_matrix timeout_ms) trips)
  = person_ids_of trips.
Proof.
  unfold person_ids_of. induction trips as [| t rest IH]; simpl; [reflexivity |].
  rewrite IH. destruct (reorder_trip_fields E dist_matrix timeout_ms t) as (_ & _ & -> & _).
  reflexivity.
Qed.

Lemma process_cluster_persons week_data dist_matrix constraints st cluster :
  NoDup (person_ids_of (OptimizationResult.trips (fst st))) ->
  (forall x, In x (person_ids_of (OptimizationResult.trips (fst st))) ->
             x ∈ optimizer.used_person_ids (snd st)) ->
  Forall (fun t => crew_shape week_data (Trip.origin_hub_id t) (Trip.personnel t))
         (OptimizationResult.trips (fst st)) ->
  let st' := optimizer.process_cluster week_data dist_matrix constraints st cluster in
  NoDup (person_ids_of (OptimizationResult.trips (fst st')))
  /\ (forall x, In x (person_ids_of (OptimizationResult.trips (fst st'))) ->
                x ∈ optimizer.used_person_ids (snd st'))
  /\ Forall (fun t => crew_shape week_data (Trip.origin_hub_id t) (Trip.personnel t))
            (OptimizationResult.trips (fst st')).
Proof.
  intros Hnd Hrec Hall. unfold optimizer.process_cluster.
  destruct st as [result u]. simpl in Hnd, Hrec, Hall.
  pose proof (build_trip_outcome cluster week_data dist_matrix constraints u) as Hb.
  destruct (optimizer._build_trip_for_cluster cluster week_data dist_matrix constraints u)
    as [[[trip unassigned] warnings] u'].
  simpl in Hb. cbv zeta.
  destruct Hb as [[-> ->] | (vehicle & hub & _ & _ & _ & _ & _ & Hb)];
    [simpl; auto |].
  cbv zeta in Hb.
  destruct trip as [t |].
  - destruct Hb as (_ & _ & Horigin & _ & _ & Hstaff & ->). simpl.
    destruct (assign_personnel_facts hub week_data (optimizer.used_person_ids u))
      as (Hids & Hfree & Hused & Hshape).
    unfold person_ids_of. rewrite flat_map_app. simpl. rewrite app_nil_r, Hstaff.
    split; [| split].
    + apply NoDup_app. split; [exact Hnd | split; [| exact Hids]].
      intros x Hx Hx'. apply list_elem_of_In in Hx, Hx'.
      apply (Hfree x Hx'), Hrec, Hx.
    + intros x Hx. apply in_app_iff in Hx. apply Hused.
      destruct Hx as [Hx | Hx]; [left; apply Hrec, Hx | right; exact Hx].
    + apply Forall_app. split; [exact Hall |].
      constructor; [| constructor].
      rewrite Horigin, Hstaff. exact Hshape.
  - destruct Hb as (_ & ->). simpl. auto.
Qed.

Lemma process_clusters_persons week_data dist_matrix constraints clusters :
  forall st,
    NoDup (person_ids_of (OptimizationResult.trips (fst st))) ->
    (forall x, In x (person_ids_of (OptimizationResult.trips (fst st))) ->
               x ∈ optimizer.used_person_ids (snd st)) ->
    Forall (fun t => crew_shape week_data (Trip.origin_hub_id t) (Trip.personnel t))
           (OptimizationResult.trips (fst st)) ->
    let st' := fold_left (optimizer.process_cluster week_data dist_matrix constraints)
                         clusters st in
    NoDup (person_ids_of (OptimizationResult.trips (fst st')))
    /\ Forall (fun t => crew_shape week_data (Trip.origin_hub_id t) (Trip.personnel t))
              (OptimizationResult.trips (fst st')).
Proof.
  induction clusters as [| c rest IH]; intros st Hnd Hrec Hall; simpl; [auto |].
  destruct (process_cluster_persons week_data dist_matrix constraints st c Hnd Hrec Hall)
    as (Hnd' & Hrec' & Hall').
  apply IH; assumption.
Qed.

Lemma optimize_week_crews :
  forall (E : Externals) (week_data : WeekData.t) (dist_matrix : DistanceMatrix.t)
         (constraints : Constraints.t) (clusters : list VenueCluster.t)
         (timeout_ms : Z) (pre_used_asset_ids : gset string),
    let result :=
      optimizer.optimize_week week_data dist_matrix constraints clusters timeout_ms
                              pre_used_asset_ids in
    NoDup (person_ids_of (OptimizationResult.trips result))
    /\ Forall (fun t => crew_shape week_data (Trip.origin_hub_id t) (Trip.personnel t))
              (OptimizationResult.trips result).
Proof.
  intros E wd dm c clusters timeout pre result.
  unfold result. rewrite optimize_week_trips, person_ids_of_reordered.
  pose proof (process_clusters_persons wd dm c (processing_order c clusters)
                (OptimizationResult.empty, optimizer.mk_used ∅ pre ∅)) as H.
  simpl in H. fold (after_clusters wd dm c clusters pre) in H.
  destruct (H (@NoDup_nil_2 string) ltac:(intros x []) ltac:(constructor)) as [Hnd Hall].
  split; [exact Hnd |].
  apply List.Forall_forall. intros t Ht. apply in_map_iff in Ht.
  destruct Ht as (t0 & <- & Ht0). rewrite List.Forall_forall in Hall.
  destruct (reorder_trip_fields E dm timeout t0) as (_ & _ & -> & ->).
  exact (Hall t0 Ht0).
Qed.

(** X4: in a planner run no person rides on two trips or twice on one, and
    every trip's crew has at most two persons, all based at the hub the trip
    starts from: first the one who drives (a driver, else a lead tech or a
    service tech), then at most one lead tech or service tech riding as
    service tech. *)
Theorem optimize_week_staffs_each_person_once :
  forall (E : Externals) (week_data : WeekData.t) (dist_matrix : DistanceMatrix.t)
         (constraints : Constraints.t) (clusters : list VenueCluster.t)
         (timeout_ms : Z) (pre_used_asset_ids : gset string),
    let result :=
      optimizer.optimize_week week_data dist_matrix constraints clusters timeout_ms
                              pre_used_asset_ids in
    NoDup (person_ids_of (OptimizationResult.trips result))
    /\ Forall (fun t => crew_shape week_data (Trip.origin_hub_id t) (Trip.personnel t))
              (OptimizationResult.trips result).
Proof. exact optimize_week_crews. Qed.

(** ** Where the assets of a trip come from *)

Lemma opt_str_eqb_Some (a : option string) (s : string) :
  Py.opt_str_eqb a (Some s) = true -> a = Some s.
Proof.
  destruct a as [x |]; simpl; [| discriminate].
  intros H. apply String.eqb_eq in H. congruence.
Qed.

Lemma match_asset_fits asset item blocked tasks :
  constraints.match_asset_to_demand asset item blocked tasks = true ->
  fits_item asset item.
Proof.
  unfold constraints.match_asset_to_demand, fits_item.
  destruct (Py.mem (Asset.id asset) blocked); [discriminate |].
  destruct (String.eqb (Asset.condition asset) "out_of_service") eqn:Hout;
    [discriminate |].
  destruct (String.eqb (Asset.condition asset) "needs_repair") eqn:Hrep;
    [discriminate |].
  simpl.
  destruct (String.eqb (Asset.asset_type asset) (ContractItem.asset_type item)) eqn:Htype;
    [| discriminate].
  simpl.
  destruct (Py.truthy (ContractItem.model_version item)
            && negb (Py.opt_str_eqb (Asset.model_version asset)
                                     (ContractItem.model_version item))) eqn:Hmodel;
    [discriminate |].
  intros _.
  apply String.eqb_neq in Hout, Hrep. apply String.eqb_eq in Htype.
  repeat split; auto.
  intros m Hm Hne. rewrite Hm in Hmodel. simpl in Hmodel.
  apply String.eqb_neq in Hne. rewrite Hne in Hmodel. simpl in Hmodel.
  apply negb_false_iff in Hmodel. apply opt_str_eqb_Some, Hmodel.
Qed.

Lemma match_item_sat (P : Asset.t -> Prop) item blocked tasks available :
  (forall a, In a available ->
             constraints.match_asset_to_demand a item blocked tasks = true -> P a) ->
  forall assigned used count,
    Forall P assigned ->
    Forall P (fst (fst (optimizer.match_item item blocked tasks available assigned used
                                             count))).
Proof.
  induction available as [| asset rest IH]; intros Hav assigned used count Hall; simpl;
    [exact Hall |].
  assert (Hrest : forall a, In a rest ->
            constraints.match_asset_to_demand a item blocked tasks = true -> P a)
    by (intros a Ha; apply Hav; right; exact Ha).
  destruct (Py.mem (Asset.id asset) used); [apply IH; assumption |].
  destruct (Z.leb (ContractItem.quantity item) count); [exact Hall |].
  destruct (constraints.match_asset_to_demand asset item blocked tasks) eqn:Hm;
    [| apply IH; assumption].
  apply IH; [exact Hrest |]. apply Forall_app. split; [exact Hall |].
  constructor; [| constructor]. apply Hav; [left; reflexivity | exact Hm].
Qed.

Lemma match_items_sat (P : Asset.t -> Prop) demand blocked tasks available all_items :
  (forall a item, In a available -> In item all_items ->
                  constraints.match_asset_to_demand a item blocked tasks = true -> P a) ->
  forall items assigned unassigned used,
    incl items all_items ->
    Forall P assigned ->
    Forall P (fst (optimizer.match_items demand blocked tasks available items
                     assigned unassigned used)).
Proof.
  intros Hav. induction items as [| item rest IH];
    intros assigned unassigned used Hincl Hall; simpl; [exact Hall |].
  pose proof (match_item_sat P item blocked tasks available
                (fun a Ha Hm => Hav a item Ha (Hincl item (or_introl eq_refl)) Hm)
                assigned used 0 Hall) as Hstep.
  destruct (optimizer.match_item item blocked tasks available assigned used 0)
    as [[assigned' used'] count]. simpl in Hstep.
  apply IH; [| exact Hstep]. intros i Hi. apply Hincl. right. exact Hi.
Qed.

Lemma take_assets_source week_data constraints hub_id assigned :
  forall g,
    Forall (asset_from week_data constraints hub_id) assigned ->
    Forall (asset_source week_data constraints hub_id) (optimizer.trip_assets g) ->
    incl (optimizer.hub_assets g) (WeekData.assets_at_hub week_data hub_id) ->
    let g' := fold_left optimizer.take_asset assigned g in
    Forall (asset_source week_data constraints hub_id) (optimizer.trip_assets g')
    /\ incl (optimizer.hub_assets g') (WeekData.assets_at_hub week_data hub_id).
Proof.
  induction assigned as [| asset rest IH]; intros g Hassigned Hg Hhub; simpl; [auto |].
  inversion Hassigned as [| ? ? Ha Hrest]; subst.
  apply IH; [exact Hrest | |].
  - unfold optimizer.take_asset. simpl.
    apply Forall_app. split; [exact Hg |].
    constructor; [| constructor]. exists asset. simpl. auto.
  - unfold optimizer.take_asset. simpl.
    intros a Hin. apply filter_In in Hin. apply Hhub, Hin.
Qed.

Lemma serve_demand_source week_data constraints hub_id venue g demand :
  In demand (Constraints.demands constraints) ->
  Demand.venue_id demand = Venue.id venue ->
  Forall (asset_source week_data constraints hub_id) (optimizer.trip_assets g) ->
  incl (optimizer.hub_assets g) (WeekData.assets_at_hub week_data hub_id) ->
  let g' := optimizer.serve_demand week_data constraints venue g demand in
  Forall (asset_source week_data constraints hub_id) (optimizer.trip_assets g')
  /\ incl (optimizer.hub_assets g') (WeekData.assets_at_hub week_data hub_id).
Proof.
  intros Hd Hvenue Hg Hhub. unfold optimizer.serve_demand. cbv zeta.
  match goal with
  | |- context [optimizer._assign_assets_to_demand ?d ?av ?c ?w] =>
      assert (Hassigned : Forall (asset_from week_data constraints hub_id)
                                 (fst (optimizer._assign_assets_to_demand d av c w)));
      [| destruct (optimizer._assign_assets_to_demand d av c w) as [assigned unassigned]]
  end.
  { unfold optimizer._assign_assets_to_demand.
    apply (match_items_sat _ _ _ _ _ (Demand.items demand));
      [| apply incl_refl | constructor].
    intros a item Ha Hitem Hm. apply in_app_iff in Ha.
    assert (Hfit : exists d item0,
               In d (Constraints.demands constraints)
               /\ In item0 (Demand.items d) /\ fits_item a item0).
    { exists demand, item. repeat split; auto; eapply match_asset_fits, Hm. }
    destruct Ha as [Ha | Ha].
    - apply filter_In in Ha. destruct Ha as [Ha _].
      unfold WeekData.assets_at_venue in Ha. apply filter_In in Ha.
      destruct Ha as [Hin Hc]. apply andb_true_iff in Hc. destruct Hc as [Hs Hv].
      apply String.eqb_eq in Hs. apply opt_str_eqb_Some in Hv.
      split; [exact Hin | split; [| exact Hfit]].
      right. split; [exact Hs |]. exists demand. rewrite Hvenue. auto.
    - apply Hhub in Ha. unfold WeekData.assets_at_hub in Ha. apply filter_In in Ha.
      destruct Ha as [Hin Hc]. apply andb_true_iff in Hc. destruct Hc as [Hs Hh].
      apply String.eqb_eq in Hs. apply opt_str_eqb_Some in Hh.
      split; [exact Hin | split; [| exact Hfit]].
      left. auto. }
  simpl in Hassigned.
  apply take_assets_source; assumption.
Qed.

Lemma serve_demands_source week_data constraints hub_id venue demands :
  forall g,
    Forall (fun d => In d (Constraints.demands constraints)
                     /\ Demand.venue_id d = Venue.id venue) demands ->
    Forall (asset_source week_data constraints hub_id) (optimizer.trip_assets g) ->
    incl (optimizer.hub_assets g) (WeekData.assets_at_hub week_data hub_id) ->
    let g' := fold_left (optimizer.serve_demand week_data constraints venue) demands g in
    Forall (asset_source week_data constraints hub_id) (optimizer.trip_assets g')
    /\ incl (optimizer.hub_assets g') (WeekData.assets_at_hub week_data hub_id).
Proof.
  induction demands as [| d rest IH]; intros g Hds Hg Hhub; simpl; [auto |].
  inversion Hds as [| ? ? [Hd Hv] Hrest]; subst.
  destruct (serve_demand_source week_data constraints hub_id venue g d Hd Hv Hg Hhub)
    as [Hg' Hhub'].
  apply IH; assumption.
Qed.

Lemma gather_stops_source week_data constraints hub_id venues :
  forall stop_order g,
    Forall (asset_source week_data constraints hub_id) (optimizer.trip_assets g) ->
    incl (optimizer.hub_assets g) (WeekData.assets_at_hub week_data hub_id) ->
    Forall (asset_source week_data constraints hub_id)
           (optimizer.trip_assets
              (optimizer.gather_stops week_data constraints venues stop_order g)).
Proof.
  induction venues as [| venue rest IH]; intros stop_order g Hg Hhub; simpl;
    [exact Hg |].
  destruct (List.filter _ (Constraints.demands constraints)) as [| d ds] eqn:Hd;
    [apply IH; assumption |].
  assert (Hds : Forall (fun d => In d (Constraints.demands constraints)
                                 /\ Demand.venue_id d = Venue.id venue) (d :: ds)).
  { rewrite <- Hd. apply List.Forall_forall. intros x Hx. apply filter_In in Hx.
    destruct Hx as [Hx Hv]. apply String.eqb_eq in Hv. auto. }
  destruct (serve_demands_source week_data constraints hub_id venue (d :: ds) g
              Hds Hg Hhub) as [Hg' Hhub'].
  apply IH; simpl; assumption.
Qed.

Lemma process_cluster_source week_data dist_matrix constraints st cluster :
  Forall (fun t => Forall (asset_source week_data constraints (Trip.origin_hub_id t))
                          (Trip.assets t))
         (OptimizationResult.trips (fst st)) ->
  Forall (fun t => Forall (asset_source week_data constraints (Trip.origin_hub_id t))
                          (Trip.assets t))
         (OptimizationResult.trips
            (fst (optimizer.process_cluster week_data dist_matrix constraints st cluster))).
Proof.
  intros Hall. unfold optimizer.process_cluster.
  destruct st as [result u]. simpl in Hall.
  pose proof (build_trip_outcome cluster week_data dist_matrix constraints u) as Hb.
  destruct (optimizer._build_trip_for_cluster cluster week_data dist_matrix constraints u)
    as [[[trip unassigned] warnings] u'].
  simpl in Hb. cbv zeta.
  destruct Hb as [[-> ->] | (vehicle & hub & _ & _ & _ & _ & _ & Hb)];
    [simpl; exact Hall |].
  cbv zeta in Hb.
  destruct trip as [t |]; [| simpl; exact Hall].
  destruct Hb as (_ & _ & Horigin & _ & Hassets & _ & _). simpl.
  apply Forall_app. split; [exact Hall |].
  constructor; [| constructor].
  rewrite Horigin, Hassets.
  apply gather_stops_source; [constructor |].
  unfold gather_start. simpl. intros a Ha. apply filter_In in Ha. apply Ha.
Qed.

Lemma process_clusters_source week_data dist_matrix constraints clusters :
  forall st,
    Forall (fun t => Forall (asset_source week_data constraints (Trip.origin_hub_id t))
                            (Trip.assets t))
           (OptimizationResult.trips (fst st)) ->
    Forall (fun t => Forall (asset_source week_data constraints (Trip.origin_hub_id t))
                            (Trip.assets t))
           (OptimizationResult.trips
              (fst (fold_left (optimizer.process_cluster week_data dist_matrix constraints)
                              clusters st))).
Proof.
  induction clusters as [| c rest IH]; intros st Hst; simpl; [exact Hst |].
  apply IH, process_cluster_source, Hst.
Qed.

Lemma optimize_week_sources :
  forall (E : Externals) (week_data : WeekData.t) (dist_matrix : DistanceMatrix.t)
         (constraints : Constraints.t) (clusters : list VenueCluster.t)
         (timeout_ms : Z) (pre_used_asset_ids : gset string),
    let result :=
      optimizer.optimize_week week_data dist_matrix constraints clusters timeout_ms
                              pre_used_asset_ids in
    Forall (fun t => Forall (asset_source week_data constraints (Trip.origin_hub_id t))
                            (Trip.assets t))
           (OptimizationResult.trips result).
Proof.
  intros E wd dm c clusters timeout pre result.
  unfold result. rewrite optimize_week_trips.
  pose proof (process_clusters_source wd dm c (processing_order c clusters)
                (OptimizationResult.empty, optimizer.mk_used ∅ pre ∅)
                ltac:(constructor)) as Hall.
  fold (after_clusters wd dm c clusters pre) in Hall.
  apply List.Forall_forall. intros t Ht. apply in_map_iff in Ht.
  destruct Ht as (t0 & <- & Ht0). rewrite List.Forall_forall in Hall.
  destruct (reorder_trip_fields E dm timeout t0) as (-> & _ & _ & ->).
  exact (Hall t0 Ht0).
Qed.

(** X5: every asset on a trip of a planner run is the record (id, serial
    number, type) of an asset of the week's inventory that stands at the hub
    the trip starts from, or is on site at the venue of one of the week's
    demands, and that fits an item of one of the week's demands: usable
    condition, the item's asset type and, where the item names one, its
    model version. *)
Theorem optimize_week_ships_inventory_that_fits :
  forall (E : Externals) (week_data : WeekData.t) (dist_matrix : DistanceMatrix.t)
         (constraints : Constraints.t) (clusters : list VenueCluster.t)
         (timeout_ms : Z) (pre_used_asset_ids : gset string),
    let result :=
      optimizer.optimize_week week_data dist_matrix constraints clusters timeout_ms
                              pre_used_asset_ids in
    Forall (fun t => Forall (asset_source week_data constraints (Trip.origin_hub_id t))
                            (Trip.assets t))
           (OptimizationResult.trips result).
Proof. exact optimize_week_sources. Qed.

(** ** The stops of a trip *)

Lemma renumber_length reordered : forall order,
  length (optimizer.renumber reordered order) = length reordered.
Proof. induction reordered as [| s rest IH]; intros order; simpl; auto. Qed.

Lemma renumber_unnumbered reordered : forall order,
  List.map unnumbered (optimizer.renumber reordered order) = List.map unnumbered reordered.
Proof.
  induction reordered as [| s rest IH]; intros order; simpl; [reflexivity |].
  rewrite IH. reflexivity.
Qed.

Lemma pick_stops_In stops new_order reordered :
  optimizer.pick_stops stops new_order = Some reordered ->
  length reordered = length new_order /\ forall s, In s reordered -> In s stops.
Proof.
  unfold optimizer.pick_stops. intros H. split.
  - symmetry. apply (length_mapM _ _ _ H).
  - apply mapM_Some_1 in H.
    induction H as [| i y more_i more_y Hi _ IH]; intros s Hs; [destruct Hs |].
    destruct Hs as [<- | Hs]; [| apply IH, Hs].
    apply list_elem_of_In. eapply list_elem_of_lookup_2, Hi.
Qed.

(** The routing pass returns as many stops as the trip has, and each of them
    is a stop of the trip under a new order index. *)
Lemma reorder_stops_spec (E : Externals) trip dist_matrix timeout_ms :
  let stops' := optimizer._ortools_reorder_stops trip dist_matrix timeout_ms in
  length stops' = length (Trip.stops trip)
  /\ forall s', In s' stops' ->
       exists s, In s (Trip.stops trip) /\ unnumbered s' = unnumbered s.
Proof.
  unfold optimizer._ortools_reorder_stops. cbv zeta.
  assert (Hsame : length (Trip.stops trip) = length (Trip.stops trip)
                  /\ forall s', In s' (Trip.stops trip) ->
                       exists s, In s (Trip.stops trip) /\ unnumbered s' = unnumbered s)
    by (split; [reflexivity | intros s' Hs'; exists s'; auto]).
  destruct (Nat.leb _ 3); [exact Hsame |].
  destruct (ortools_tsp _ _) as [new_order |]; [| exact Hsame].
  destruct (Nat.eqb (length new_order) (length (Trip.stops trip))) eqn:Hlen;
    [| exact Hsame].
  destruct (optimizer.pick_stops (Trip.stops trip) new_order) as [reordered |] eqn:Hpick;
    [| exact Hsame].
  apply pick_stops_In in Hpick. destruct Hpick as [Hl Hin].
  apply Nat.eqb_eq in Hlen. split.
  - rewrite renumber_length. congruence.
  - intros s' Hs'.
    assert (Hu : In (unnumbered s') (List.map unnumbered (optimizer.renumber reordered 0)))
      by (apply in_map, Hs').
    rewrite renumber_unnumbered in Hu. apply in_map_iff in Hu.
    destruct Hu as (s & Heq & Hs). exists s. split; [apply Hin, Hs | congruence].
Qed.

Lemma delivery_stop_unnumbered constraints s s' :
  unnumbered s' = unnumbered s ->
  delivery_stop constraints s -> delivery_stop constraints s'.
Proof.
  unfold delivery_stop, unnumbered, TripStop.set_stop_order.
  intros Heq. injection Heq as Hv _ _ _ Ha Hr _ Hd.
  rewrite Hv, Ha, Hr, Hd. auto.
Qed.

Lemma gather_stops_deliver week_data constraints venues :
  forall stop_order g,
    Forall (delivery_stop constraints) (optimizer.trip_stops g) ->
    Forall (delivery_stop constraints)
           (optimizer.trip_stops
              (optimizer.gather_stops week_data constraints venues stop_order g)).
Proof.
  induction venues as [| venue rest IH]; intros stop_order g Hg; simpl; [exact Hg |].
  destruct (List.filter _ (Constraints.demands constraints)) as [| d ds] eqn:Hd;
    [apply IH, Hg |].
  apply IH. simpl.
  change (fold_left (optimizer.serve_demand week_data constraints venue) ds
            (optimizer.serve_demand week_data constraints venue g d))
    with (fold_left (optimizer.serve_demand week_data constraints venue) (d :: ds) g).
  rewrite serve_demands_stops.
  apply Forall_app. split; [exact Hg |].
  constructor; [| constructor].
  assert (Hin : In d (d :: ds)) by (left; reflexivity).
  rewrite <- Hd in Hin. apply filter_In in Hin. destruct Hin as [Hin Hv].
  apply String.eqb_eq in Hv.
  repeat split. exists d. auto.
Qed.

Lemma process_cluster_stops week_data dist_matrix constraints st cluster :
  Forall (fun t => Trip.stops t <> []
                   /\ Forall (delivery_stop constraints) (Trip.stops t))
         (OptimizationResult.trips (fst st)) ->
  Forall (fun t => Trip.stops t <> []
                   /\ Forall (delivery_stop constraints) (Trip.stops t))
         (OptimizationResult.trips
            (fst (optimizer.process_cluster week_data dist_matrix constraints st cluster))).
Proof.
  intros Hall. unfold optimizer.process_cluster.
  destruct st as [result u]. simpl in Hall.
  pose proof (build_trip_outcome cluster week_data dist_matrix constraints u) as Hb.
  destruct (optimizer._build_trip_for_cluster cluster week_data dist_matrix constraints u)
    as [[[trip unassigned] warnings] u'].
  simpl in Hb. cbv zeta.
  destruct Hb as [[-> ->] | (vehicle & hub & _ & _ & _ & _ & _ & Hb)];
    [simpl; exact Hall |].
  cbv zeta in Hb.
  destruct trip as [t |]; [| simpl; exact Hall].
  destruct Hb as (Hne & _ & _ & Hstops & _). simpl.
  apply Forall_app. split; [exact Hall |].
  constructor; [| constructor].
  rewrite Hstops. split; [exact Hne |].
  apply gather_stops_deliver. constructor.
Qed.

Lemma process_clusters_stops week_data dist_matrix constraints clusters :
  forall st,
    Forall (fun t => Trip.stops t <> []
                     /\ Forall (delivery_stop constraints) (Trip.stops t))
           (OptimizationResult.trips (fst st)) ->
    Forall (fun t => Trip.stops t <> []
                     /\ Forall (delivery_stop constraints) (Trip.stops t))
           (OptimizationResult.trips
              (fst (fold_left (optimizer.process_cluster week_data dist_matrix constraints)
                              clusters st))).
Proof.
  induction clusters as [| c rest IH]; intros st Hst; simpl; [exact Hst |].
  apply IH, process_cluster_stops, Hst.
Qed.

Lemma optimize_week_stops :
  forall (E : Externals) (week_data : WeekData.t) (dist_matrix : DistanceMatrix.t)
         (constraints : Constraints.t) (clusters : list VenueCluster.t)
         (timeout_ms : Z) (pre_used_asset_ids : gset string),
    let result :=
      optimizer.optimize_week week_data dist_matrix constraints clusters timeout_ms
                              pre_used_asset_ids in
    Forall (fun t => Trip.stops t <> []
                     /\ Forall (delivery_stop constraints) (Trip.stops t))
           (OptimizationResult.trips result).
Proof.
  intros E wd dm c clusters timeout pre result.
  unfold result. rewrite optimize_week_trips.
  pose proof (process_clusters_stops wd dm c (processing_order c clusters)
                (OptimizationResult.empty, optimizer.mk_used ∅ pre ∅)
                ltac:(constructor)) as Hall.
  fold (after_clusters wd dm c clusters pre) in Hall.
  apply List.Forall_forall. intros t Ht. apply in_map_iff in Ht.
  destruct Ht as (t0 & <- & Ht0). rewrite List.Forall_forall in Hall.
  destruct (Hall t0 Ht0) as [Hne Hstops].
  unfold reorder_trip. destruct (Nat.leb 3 (length (Trip.stops t0))); [| auto].
  destruct (reorder_stops_spec E t0 dm timeout) as [Hlen Hin].
  simpl. split.
  - intros Hnil. rewrite Hnil in Hlen. simpl in Hlen.
    destruct (Trip.stops t0); [apply Hne; reflexivity | discriminate].
  - apply List.Forall_forall. intros s' Hs'. destruct (Hin s' Hs') as (s & Hs & Heq).
    rewrite List.Forall_forall in Hstops.
    apply (delivery_stop_unnumbered c s s' Heq), Hstops, Hs.
Qed.

(** X6: every trip of a planner run has at least one stop, and every stop is
    a delivery without hub return that carries a demand of the week at the
    stop's own venue. *)
Theorem optimize_week_stops_deliver_demands :
  forall (E : Externals) (week_data : WeekData.t) (dist_matrix : DistanceMatrix.t)
         (constraints : Constraints.t) (clusters : list VenueCluster.t)
         (timeout_ms : Z) (pre_used_asset_ids : gset string),
    let result :=
      optimizer.optimize_week week_data dist_matrix constraints clusters timeout_ms
                              pre_used_asset_ids in
    Forall (fun t => Trip.stops t <> []
                     /\ Forall (delivery_stop constraints) (Trip.stops t))
           (OptimizationResult.trips result).
Proof. exact optimize_week_stops. Qed.

(** ** The routing pass *)

Lemma lookup_seq_all {A : Type} (l : list A) :
  List.map (fun i => l !! i) (seq 0 (length l)) = List.map Some l.
Proof.
  induction l as [| x rest IH]; simpl; [reflexivity |].
  f_equal. rewrite <- seq_shift, List.map_map. simpl. exact IH.
Qed.

Lemma tour_is_permutation (new_order : list nat) (n : nat) :
  NoDup new_order ->
  Forall (fun i => (i < n)%nat) new_order ->
  length new_order = n ->
  Permutation new_order (seq 0 n).
Proof.
  intros Hnd Hlt Hlen.
  apply submseteq_length_Permutation.
  - apply NoDup_submseteq; [exact Hnd |].
    intros i Hi. apply list_elem_of_In, in_seq.
    rewrite List.Forall_forall in Hlt. apply list_elem_of_In in Hi.
    specialize (Hlt i Hi). lia.
  - rewrite length_seq. lia.
Qed.

Lemma pick_stops_permutation (stops reordered : list TripStop.t) new_order :
  Permutation new_order (seq 0 (length stops)) ->
  optimizer.pick_stops stops new_order = Some reordered ->
  Permutation reordered stops.
Proof.
  intros Hperm Hpick. unfold optimizer.pick_stops in Hpick.
  apply mapM_Some_1 in Hpick.
  assert (Hmap : List.map (fun i => stops !! i) new_order = List.map Some reordered).
  { clear Hperm. induction Hpick as [| i y more_i more_y Hi _ IH]; simpl;
      [reflexivity |].
    rewrite Hi. f_equal. apply IH. }
  apply (Permutation_map (fun i => stops !! i)) in Hperm.
  rewrite Hmap, lookup_seq_all in Hperm.
  apply Permutation_map_inv in Hperm. destruct Hperm as (l3 & Heq & Hp).
  assert (Hinj : forall (a b : list TripStop.t),
             List.map Some a = List.map Some b -> a = b).
  { induction a as [| x a IHa]; intros [| y b]; simpl; try discriminate; auto.
    intros [= -> Hab]. f_equal. apply IHa, Hab. }
  apply Hinj in Heq. subst l3. symmetry. exact Hp.
Qed.

Lemma reversing_routes_are_tours : routes_are_tours reversing_externals.
Proof.
  intros local_dist timeout_ms new_order. simpl. intros [= <-]. split.
  - rewrite <- Permutation_rev. apply NoDup_seq.
  - apply Forall_rev, List.Forall_forall. intros i Hi. apply in_seq in Hi. lia.
Qed.

(** X7: with a routing solver whose routes visit pairwise distinct nodes of
    the model, the routing pass neither drops nor repeats a stop: up to the
    order indices its result is a permutation of the trip's stops, and it is
    either the stops as they were or numbered 1, 2, 3, ... *)
Theorem ortools_reorder_stops_permutes :
  forall (E : Externals) (trip : Trip.t) (dist_matrix : DistanceMatrix.t) (timeout_ms : Z),
    routes_are_tours E ->
    let stops' := optimizer._ortools_reorder_stops trip dist_matrix timeout_ms in
    Permutation (List.map unnumbered stops') (List.map unnumbered (Trip.stops trip))
    /\ (stops' = Trip.stops trip
        \/ List.map TripStop.stop_order stops'
           = List.map (fun k => Z.of_nat k + 1) (seq 0 (length (Trip.stops trip)))).
Proof.
  intros E trip dm timeout Htours. unfold optimizer._ortools_reorder_stops. cbv zeta.
  destruct (Nat.leb _ 3); [split; [reflexivity | left; reflexivity] |].
  destruct (ortools_tsp _ _) as [new_order |] eqn:Hsolve;
    [| split; [reflexivity | left; reflexivity]].
  destruct (Nat.eqb (length new_order) (length (Trip.stops trip))) eqn:Hlen;
    [| split; [reflexivity | left; reflexivity]].
  destruct (optimizer.pick_stops (Trip.stops trip) new_order) as [reordered |] eqn:Hpick;
    [| split; [reflexivity | left; reflexivity]].
  apply Nat.eqb_eq in Hlen.
  apply Htours in Hsolve. destruct Hsolve as [Hnd Hlt].
  rewrite List.length_map, length_seq in Hlt. simpl in Hlt.
  rewrite Nat.sub_0_r in Hlt.
  pose proof (tour_is_permutation new_order _ Hnd Hlt Hlen) as Hperm.
  pose proof (pick_stops_permutation _ _ _ Hperm Hpick) as Hstops.
  split.
  - rewrite renumber_unnumbered. apply Permutation_map, Hstops.
  - right. rewrite renumber_dense. f_equal. f_equal.
    apply Permutation_length, Hstops.
Qed.

Lemma ortools_reorder_stops_permutes_witness :
  routes_are_tours reversing_externals
  /\ (let stops' :=
        @optimizer._ortools_reorder_stops reversing_externals three_stop_trip
          (DistanceMatrix.__init__ []) config.SOLVER_TIMEOUT_MS in
      Permutation (List.map unnumbered stops')
                  (List.map unnumbered (Trip.stops three_stop_trip))
      /\ (stops' = Trip.stops three_stop_trip
          \/ List.map TripStop.stop_order stops'
             = List.map (fun k => Z.of_nat k + 1)
                        (seq 0 (length (Trip.stops three_stop_trip))))).
Proof.
  split; [exact reversing_routes_are_tours |].
  exact (ortools_reorder_stops_permutes reversing_externals three_stop_trip
           (DistanceMatrix.__init__ []) config.SOLVER_TIMEOUT_MS
           reversing_routes_are_tours).
Defined.

(** ** Every demanded unit is assigned or reported *)

Lemma Zsum_snoc (l : list Z) (x : Z) : Py.Zsum (l ++ [x]) = Py.Zsum l + x.
Proof. unfold Py.Zsum. rewrite fold_left_app. reflexivity. Qed.

Lemma Zsum_cons (x : Z) (l : list Z) : Py.Zsum (x :: l) = x + Py.Zsum l.
Proof.
  unfold Py.Zsum. simpl.
  assert (H : forall (k : list Z) (a : Z), fold_left Z.add k a = a + fold_left Z.add k 0).
  { induction k as [| y k IH]; intros a; simpl; [lia |].
    rewrite (IH (a + y)), (IH (0 + y)). lia. }
  apply H.
Qed.

Lemma match_item_count item blocked tasks available :
  forall assigned used count,
    count <= ContractItem.quantity item ->
    let r := optimizer.match_item item blocked tasks available assigned used count in
    count <= snd r <= ContractItem.quantity item
    /\ Z.of_nat (length (fst (fst r))) = Z.of_nat (length assigned) + (snd r - count).
Proof.
  induction available as [| asset rest IH]; intros assigned used count Hle; simpl;
    [lia |].
  destruct (Py.mem (Asset.id asset) used); [apply IH, Hle |].
  destruct (Z.leb (ContractItem.quantity item) count) eqn:Hfull; [simpl; lia |].
  apply Z.leb_gt in Hfull.
  destruct (constraints.match_asset_to_demand asset item blocked tasks);
    [| apply IH, Hle].
  specialize (IH (assigned ++ [asset]) ({[Asset.id asset]} ∪ used) (count + 1)
                 ltac:(lia)).
  cbv zeta in IH. rewrite length_app in IH. simpl in IH. lia.
Qed.

Lemma match_items_count demand blocked tasks available items :
  forall assigned unassigned used,
    Forall (fun item => 0 <= ContractItem.quantity item) items ->
    Forall (fun u => 0 < UnassignedDemand.quantity u) unassigned ->
    let r := optimizer.match_items demand blocked tasks available items
               assigned unassigned used in
    Z.of_nat (length (fst r)) + Py.Zsum (List.map UnassignedDemand.quantity (snd r))
    = Z.of_nat (length assigned) + Py.Zsum (List.map UnassignedDemand.quantity unassigned)
      + Py.Zsum (List.map ContractItem.quantity items)
    /\ Forall (fun u => 0 < UnassignedDemand.quantity u) (snd r).
Proof.
  induction items as [| item rest IH]; intros assigned unassigned used Hq Hpos; simpl.
  - split; [unfold Py.Zsum at 3; simpl; lia | exact Hpos].
  - inversion Hq as [| ? ? Hitem Hrest]; subst.
    pose proof (match_item_count item blocked tasks available assigned used 0 Hitem)
      as Hstep.
    destruct (optimizer.match_item item blocked tasks available assigned used 0)
      as [[assigned' used'] count]. simpl in Hstep. destruct Hstep as [Hrange Hlen].
    rewrite Zsum_cons.
    destruct (Z.ltb count (ContractItem.quantity item)) eqn:Hshort.
    + apply Z.ltb_lt in Hshort.
      match goal with
      | |- context [optimizer.match_items _ _ _ _ _ _ (unassigned ++ [?e]) _] =>
          specialize (IH assigned' (unassigned ++ [e]) used' Hrest)
      end.
      cbv zeta in IH.
      rewrite List.map_app in IH. cbn [List.map] in IH. rewrite Zsum_snoc in IH.
      cbn [UnassignedDemand.quantity] in IH.
      destruct IH as [Hsum Hall].
      * apply Forall_app. split; [exact Hpos |].
        constructor; [simpl; lia | constructor].
      * split; [lia | exact Hall].
    + apply Z.ltb_ge in Hshort.
      specialize (IH assigned' unassigned used' Hrest Hpos).
      cbv zeta in IH. destruct IH as [Hsum Hall].
      split; [lia | exact Hall].
Qed.

(** X8: when no contract item asks a negative quantity, [_assign_assets_to_demand]
    accounts for every unit the demand asks: the number of assigned assets
    plus the quantities it reports as unassigned is the sum of the items'
    quantities, and every reported quantity is positive. *)
Theorem assign_assets_accounts_for_every_unit :
  forall (demand : Demand.t) (available_assets : list Asset.t)
         (constraints : Constraints.t) (week_data : WeekData.t),
    Forall (fun item => 0 <= ContractItem.quantity item) (Demand.items demand) ->
    let r := optimizer._assign_assets_to_demand demand available_assets constraints
                                                week_data in
    Z.of_nat (length (fst r)) + Py.Zsum (List.map UnassignedDemand.quantity (snd r))
    = Py.Zsum (List.map ContractItem.quantity (Demand.items demand))
    /\ Forall (fun u => 0 < UnassignedDemand.quantity u) (snd r).
Proof.
  intros demand available c wd Hq. unfold optimizer._assign_assets_to_demand.
  pose proof (match_items_count demand (Constraints.blocked_asset_ids c)
                (WeekData.branding_tasks wd) available (Demand.items demand) [] [] ∅
                Hq ltac:(constructor)) as H.
  cbv zeta in H. simpl length in H. unfold Py.Zsum at 2 in H. simpl in H.
  destruct H as [Hsum Hall]. split; [lia | exact Hall].
Qed.

Lemma assign_assets_accounts_for_every_unit_witness :
  Forall (fun item => 0 <= ContractItem.quantity item) (Demand.items two_bench_demand)
  /\ (let r := optimizer._assign_assets_to_demand two_bench_demand
                 [bench_at_hub "as-1" "HB-001"] short_constraints short_week0 in
      Z.of_nat (length (fst r)) + Py.Zsum (List.map UnassignedDemand.quantity (snd r))
      = Py.Zsum (List.map ContractItem.quantity (Demand.items two_bench_demand))
      /\ Forall (fun u => 0 < UnassignedDemand.quantity u) (snd r)).
Proof.
  assert (Hq : Forall (fun item => 0 <= ContractItem.quantity item)
                      (Demand.items two_bench_demand)).
  { constructor; [simpl; lia | constructor]. }
  split; [exact Hq |].
  exact (assign_assets_accounts_for_every_unit two_bench_demand
           [bench_at_hub "as-1" "HB-001"] short_constraints short_week0 Hq).
Defined.

(** ** Finding a location in the matrix *)

Lemma location_index_from_spec locs location :
  forall i,
    match DistanceMatrix.location_index_from locs i location with
    | Some k =>
        (i <= k)%nat
        /\ (exists a, locs !! (k - i)%nat = Some a /\ LatLng.__eq__ a location = true)
        /\ (forall j b, (j < k - i)%nat -> locs !! j = Some b ->
                        LatLng.__eq__ b location = false)
    | None => Forall (fun a => LatLng.__eq__ a location = false) locs
    end.
Proof.
  induction locs as [| loc rest IH]; intros i; simpl; [constructor |].
  destruct (LatLng.__eq__ loc location) eqn:Heq.
  - rewrite Nat.sub_diag. split; [lia | split].
    + exists loc. auto.
    + intros j b Hj. lia.
  - specialize (IH (S i)).
    destruct (DistanceMatrix.location_index_from rest (S i) location) as [k |].
    + destruct IH as (Hle & (a & Ha & Hm) & Hfirst).
      replace (k - i)%nat with (S (k - S i)) by lia.
      split; [lia | split].
      * exists a. auto.
      * intros [| j] b Hj Hb; simpl in Hb.
        -- injection Hb as <-. exact Heq.
        -- apply (Hfirst j b); [lia | exact Hb].
    + constructor; assumption.
Qed.

(** X10: [location_index] returns the first index whose location equals the
    given one (equality of the coordinates rounded to 6 decimals); that
    index is below the size of the matrix; it returns [None] exactly when no
    location of the matrix equals the given one. *)
Theorem location_index_is_first_match :
  forall (m : DistanceMatrix.t) (location : LatLng.t),
    match DistanceMatrix.location_index m location with
    | Some i =>
        (i < DistanceMatrix.size m)%nat
        /\ (exists a, DistanceMatrix.locations m !! i = Some a
                      /\ LatLng.__eq__ a location = true)
        /\ (forall j b, (j < i)%nat -> DistanceMatrix.locations m !! j = Some b ->
                        LatLng.__eq__ b location = false)
    | None =>
        Forall (fun a => LatLng.__eq__ a location = false) (DistanceMatrix.locations m)
    end.
Proof.
  intros m location. unfold DistanceMatrix.location_index.
  pose proof (location_index_from_spec (DistanceMatrix.locations m) location 0%nat) as H.
  destruct (DistanceMatrix.location_index_from _ 0 location) as [k |]; [| exact H].
  rewrite Nat.sub_0_r in H. destruct H as (_ & (a & Ha & Hm) & Hfirst).
  split; [| split; [exists a; auto | exact Hfirst]].
  unfold DistanceMatrix.size, DistanceMatrix._n. apply (lookup_lt_Some _ _ _ Ha).
Qed.

(** ** The locations of a week *)

Lemma seen_key_cons k k0 seen :
  WeekData.seen_key k (k0 :: seen)
  = (Qeq_bool (fst k) (fst k0) && Qeq_bool (snd k) (snd k0)) || WeekData.seen_key k seen.
Proof. reflexivity. Qed.

Lemma Qeq_bool_comm (x y : Q) : Qeq_bool x y = Qeq_bool y x.
Proof.
  destruct (Qeq_bool x y) eqn:Hxy; symmetry.
  - apply Qeq_bool_iff. symmetry. apply Qeq_bool_iff, Hxy.
  - destruct (Qeq_bool y x) eqn:Hyx; [| reflexivity].
    apply Qeq_bool_iff in Hyx. symmetry in Hyx. apply Qeq_bool_iff in Hyx. congruence.
Qed.

Lemma LatLng_eq_key a b :
  LatLng.__eq__ a b
  = Qeq_bool (fst (LatLng.key a)) (fst (LatLng.key b))
    && Qeq_bool (snd (LatLng.key a)) (snd (LatLng.key b)).
Proof. reflexivity. Qed.

Lemma LatLng_eq_comm a b : LatLng.__eq__ a b = LatLng.__eq__ b a.
Proof.
  unfold LatLng.__eq__.
  rewrite (Qeq_bool_comm (Py.round (LatLng.lat a) 6)),
          (Qeq_bool_comm (Py.round (LatLng.lng a) 6)).
  reflexivity.
Qed.

Lemma all_locations_loop_spec locs :
  forall seen,
    let out := fst (WeekData.all_locations_loop locs seen) in
    (forall a, In a out -> WeekData.seen_key (LatLng.key a) seen = false)
    /\ (forall i j a b, out !! i = Some a -> out !! j = Some b ->
                        LatLng.__eq__ a b = true -> i = j)
    /\ (forall l, In l locs ->
                  WeekData.seen_key (LatLng.key l) seen = true
                  \/ exists a, In a out /\ LatLng.__eq__ a l = true)
    /\ incl out locs.
Proof.
  induction locs as [| loc rest IH]; intros seen; simpl.
  - split; [intros a [] | split; [| split; [intros l [] | intros a []]]].
    intros i j a b Ha. rewrite lookup_nil in Ha. discriminate.
  - destruct (WeekData.seen_key (LatLng.key loc) seen) eqn:Hseen.
    + destruct (IH seen) as (Hnew & Hdist & Hcover & Hincl).
      split; [exact Hnew | split; [exact Hdist | split]].
      * intros l [<- | Hl]; [left; exact Hseen | apply Hcover, Hl].
      * intros a Ha. right. apply Hincl, Ha.
    + specialize (IH (LatLng.key loc :: seen)).
      destruct (WeekData.all_locations_loop rest (LatLng.key loc :: seen))
        as [out seen'] eqn:Hloop.
      cbv zeta in IH. cbn [fst] in IH. destruct IH as (Hnew & Hdist & Hcover & Hincl).
      cbn [fst].
      assert (Hfresh : forall a, In a out -> LatLng.__eq__ a loc = false
                                            /\ WeekData.seen_key (LatLng.key a) seen = false).
      { intros a Ha. specialize (Hnew a Ha). rewrite seen_key_cons in Hnew.
        apply orb_false_iff in Hnew. rewrite LatLng_eq_key. exact Hnew. }
      split; [| split; [| split]].
      * intros a [<- | Ha]; [exact Hseen | apply Hfresh, Ha].
      * intros [| i] [| j] a b Ha Hb Heq; simpl in Ha, Hb.
        -- reflexivity.
        -- injection Ha as <-. exfalso.
           apply list_elem_of_lookup_2, list_elem_of_In in Hb.
           destruct (Hfresh b Hb) as [Hne _].
           rewrite LatLng_eq_comm in Hne. congruence.
        -- injection Hb as <-. exfalso.
           apply list_elem_of_lookup_2, list_elem_of_In in Ha.
           destruct (Hfresh a Ha) as [Hne _]. congruence.
        -- f_equal. apply (Hdist i j a b Ha Hb Heq).
      * intros l [<- | Hl].
        -- right. exists loc. split; [left; reflexivity |].
           unfold LatLng.__eq__.
           rewrite !(proj2 (Qeq_bool_iff _ _) (Qeq_refl _)). reflexivity.
        -- destruct (Hcover l Hl) as [Hs | (a & Ha & Heq)].
           ++ rewrite seen_key_cons in Hs. apply orb_true_iff in Hs.
              destruct Hs as [Hs | Hs]; [| left; exact Hs].
              right. exists loc. split; [left; reflexivity |].
              rewrite LatLng_eq_comm, LatLng_eq_key. exact Hs.
           ++ right. exists a. split; [right; exact Ha | exact Heq].
      * intros a [<- | Ha]; [left; reflexivity | right; apply Hincl, Ha].
Qed.

Lemma located_is_found (m : DistanceMatrix.t) (l : LatLng.t) :
  (exists a, In a (DistanceMatrix.locations m) /\ LatLng.__eq__ a l = true) ->
  is_Some (DistanceMatrix.location_index m l).
Proof.
  intros (a & Ha & Heq). unfold DistanceMatrix.location_index.
  pose proof (location_index_from_spec (DistanceMatrix.locations m) l 0%nat) as H.
  destruct (DistanceMatrix.location_index_from _ 0 l) as [k |]; [eauto |].
  rewrite List.Forall_forall in H. rewrite (H a Ha) in Heq. discriminate.
Qed.

(** ** The matrix that [get_distance_matrix] builds *)

Section Built.
Variable _check_cache : list LatLng.t -> list (nat * nat * DistanceEntry.t).
Variable _fetch_from_google_maps :
  list LatLng.t -> list LatLng.t -> list (LatLng.t * LatLng.t * DistanceEntry.t).

Lemma set_keeps m i j entry :
  DistanceMatrix.locations (DistanceMatrix.set m i j entry) = DistanceMatrix.locations m
  /\ forall i' j', is_Some (DistanceMatrix._data m i' j') ->
                   is_Some (DistanceMatrix._data (DistanceMatrix.set m i j entry) i' j').
Proof.
  split; [reflexivity |]. intros i' j' H. unfold DistanceMatrix.set. simpl.
  destruct (Nat.eqb i i' && Nat.eqb j j'); [eauto | exact H].
Qed.

Lemma cached_keeps cached :
  forall m,
    let m' := fold_left (fun m (c : nat * nat * DistanceEntry.t) =>
                           let '(i, j, entry) := c in DistanceMatrix.set m i j entry)
                        cached m in
    DistanceMatrix.locations m' = DistanceMatrix.locations m
    /\ forall i' j', is_Some (DistanceMatrix._data m i' j') ->
                     is_Some (DistanceMatrix._data m' i' j').
Proof.
  induction cached as [| [[i j] entry] rest IH]; intros m; simpl; [auto |].
  destruct (IH (DistanceMatrix.set m i j entry)) as [Hl Hs].
  destruct (set_keeps m i j entry) as [Hl' Hs'].
  split; [congruence | intros i' j' H; apply Hs, Hs', H].
Qed.

Lemma store_api_results_keeps api_results :
  forall m,
    let m' := distance_matrix.store_api_results m api_results in
    DistanceMatrix.locations m' = DistanceMatrix.locations m
    /\ forall i' j', is_Some (DistanceMatrix._data m i' j') ->
                     is_Some (DistanceMatrix._data m' i' j').
Proof.
  unfold distance_matrix.store_api_results.
  induction api_results as [| [[o d] entry] rest IH]; intros m; simpl; [auto |].
  destruct (DistanceMatrix.location_index m o) as [i |]; [| apply IH].
  destruct (DistanceMatrix.location_index m d) as [j |]; [| apply IH].
  destruct (IH (DistanceMatrix.set m i j entry)) as [Hl Hs].
  destruct (set_keeps m i j entry) as [Hl' Hs'].
  split; [congruence | intros i' j' H; apply Hs, Hs', H].
Qed.

Lemma fill_pairs_keeps (locations : list LatLng.t) (pairs : list (nat * nat)) :
  forall m,
    let m' :=
      fold_left
        (fun m (p : nat * nat) =>
           match DistanceMatrix._data m (fst p) (snd p),
                 locations !! (fst p), locations !! (snd p) with
           | None, Some a, Some b =>
               DistanceMatrix.set m (fst p) (snd p)
                                  (DistanceMatrix._haversine_estimate a b)
           | _, _, _ => m
           end)
        pairs m in
    DistanceMatrix.locations m' = DistanceMatrix.locations m
    /\ (forall i' j', is_Some (DistanceMatrix._data m i' j') ->
                      is_Some (DistanceMatrix._data m' i' j'))
    /\ (forall p, In p pairs -> is_Some (locations !! (fst p)) ->
                  is_Some (locations !! (snd p)) ->
                  is_Some (DistanceMatrix._data m' (fst p) (snd p))).
Proof.
  induction pairs as [| p rest IH]; intros m; simpl;
    [split; [reflexivity | split; [auto | intros p []]] |].
  match goal with
  | |- context [fold_left _ rest ?m1] => set (step := m1)
  end.
  destruct (IH step) as (Hl & Hs & Hp).
  assert (Hstep : DistanceMatrix.locations step = DistanceMatrix.locations m
                  /\ (forall i' j', is_Some (DistanceMatrix._data m i' j') ->
                                    is_Some (DistanceMatrix._data step i' j'))
                  /\ (is_Some (locations !! (fst p)) -> is_Some (locations !! (snd p)) ->
                      is_Some (DistanceMatrix._data step (fst p) (snd p)))).
  { unfold step.
    destruct (DistanceMatrix._data m (fst p) (snd p)) as [e |] eqn:Hcell.
    - split; [reflexivity | split; [auto |]]. intros _ _. rewrite Hcell. eauto.
    - destruct (locations !! (fst p)) as [a |] eqn:Ha.
      + destruct (locations !! (snd p)) as [b |] eqn:Hb.
        * destruct (set_keeps m (fst p) (snd p) (DistanceMatrix._haversine_estimate a b))
            as [Hl' Hs'].
          split; [exact Hl' | split; [exact Hs' |]]. intros _ _.
          unfold DistanceMatrix.set. simpl. rewrite !Nat.eqb_refl. simpl. eauto.
        * split; [reflexivity | split; [auto |]]. intros _ [x Hx]. discriminate.
      + split; [reflexivity | split; [auto |]]. intros [x Hx]. discriminate. }
  destruct Hstep as (Hl' & Hs' & Hp').
  split; [congruence | split].
  - intros i' j' H. apply Hs, Hs', H.
  - intros q [<- | Hq] Hq1 Hq2; [apply Hs, Hp'; assumption | apply Hp; assumption].
Qed.

Lemma in_off_diagonal n i j :
  (i < n)%nat -> (j < n)%nat -> i <> j ->
  In (i, j)
     (flat_map
        (fun i => flat_map (fun j => if negb (Nat.eqb i j) then [(i, j)] else []) (seq 0 n))
        (seq 0 n)).
Proof.
  intros Hi Hj Hne. apply in_flat_map. exists i. split; [apply in_seq; lia |].
  apply in_flat_map. exists j. split; [apply in_seq; lia |].
  destruct (Nat.eqb_spec i j); [contradiction | left; reflexivity].
Qed.

Lemma missing_pairs_nil m n i j :
  distance_matrix.missing_pairs m n = [] ->
  (i < n)%nat -> (j < n)%nat -> i <> j -> is_Some (DistanceMatrix._data m i j).
Proof.
  unfold distance_matrix.missing_pairs. intros Hnil Hi Hj Hne.
  destruct (DistanceMatrix._data m i j) as [e |] eqn:Hcell; [eauto |].
  exfalso.
  assert (Hin : In (i, j) []).
  { rewrite <- Hnil. apply in_flat_map. exists i. split; [apply in_seq; lia |].
    apply in_flat_map. exists j. split; [apply in_seq; lia |].
    rewrite Hcell. destruct (Nat.eqb_spec i j); [contradiction | left; reflexivity]. }
  destruct Hin.
Qed.

Lemma get_distance_matrix_built locations :
  let m := distance_matrix.get_distance_matrix _check_cache _fetch_from_google_maps
             locations in
  DistanceMatrix.locations m = locations /\ complete m.
Proof.
  unfold distance_matrix.get_distance_matrix. cbv zeta.
  assert (Hinit : forall i, is_Some (DistanceMatrix._data (DistanceMatrix.__init__ locations)
                                                          i i)).
  { intros i. simpl. rewrite Nat.eqb_refl. eauto. }
  destruct (Nat.leb (length locations) 1) eqn:Hn.
  - split; [reflexivity |]. intros i j Hi Hj.
    apply Nat.leb_le in Hn. unfold DistanceMatrix.size, DistanceMatrix._n in Hi, Hj.
    simpl in Hi, Hj. replace j with i by lia. apply Hinit.
  - destruct (cached_keeps (_check_cache locations) (DistanceMatrix.__init__ locations))
      as [Hl Hs].
    set (cached := fold_left _ (_check_cache locations) _) in *.
    simpl in Hl.
    destruct (distance_matrix.missing_pairs cached (length locations)) as [| p ps] eqn:Hmiss.
    + split; [exact Hl |]. intros i j Hi Hj.
      unfold DistanceMatrix.size, DistanceMatrix._n in Hi, Hj. rewrite Hl in Hi, Hj.
      destruct (Nat.eq_dec i j) as [-> | Hne]; [apply Hs, Hinit |].
      apply (missing_pairs_nil cached (length locations)); assumption.
    + match goal with
      | |- context [distance_matrix.store_api_results cached ?r] =>
          destruct (store_api_results_keeps r cached) as [Hl2 Hs2];
          set (stored := distance_matrix.store_api_results cached r) in *
      end.
      unfold distance_matrix.fill_estimates.
      match goal with
      | |- context [fold_left ?f ?pairs stored] =>
          destruct (fill_pairs_keeps locations pairs stored) as (Hl3 & Hs3 & Hp3)
      end.
      split; [congruence |]. intros i j Hi Hj.
      unfold DistanceMatrix.size, DistanceMatrix._n in Hi, Hj.
      rewrite Hl3, Hl2, Hl in Hi, Hj.
      destruct (Nat.eq_dec i j) as [-> | Hne]; [apply Hs3, Hs2, Hs, Hinit |].
      apply (Hp3 (i, j)); simpl.
      * apply in_off_diagonal; assumption.
      * apply lookup_lt_is_Some_2, Hi.
      * apply lookup_lt_is_Some_2, Hj.
Qed.


(** X11: in the matrix built for [get_all_locations] of a week, whatever the
    cache and the provider, [location_index] finds the location of every hub
    and of every game venue that has one, and no two entries of the matrix
    are equal locations (coordinates rounded to 6 decimals). *)
Theorem week_locations_are_found :
  forall (week_data : WeekData.t),
    let m := distance_matrix.get_distance_matrix _check_cache _fetch_from_google_maps
               (WeekData.get_all_locations week_data) in
    (forall hub, In hub (WeekData.hubs week_data) ->
                 is_Some (DistanceMatrix.location_index m (Hub.location hub)))
    /\ (forall venue loc, In venue (WeekData.game_venues week_data) ->
                          Venue.location venue = Some loc ->
                          is_Some (DistanceMatrix.location_index m loc))
    /\ (forall i j a b, DistanceMatrix.locations m !! i = Some a ->
                        DistanceMatrix.locations m !! j = Some b ->
                        LatLng.__eq__ a b = true -> i = j).
Proof.
  intros wd m.
  destruct (get_distance_matrix_built (WeekData.get_all_locations wd)) as [Hl _].
  fold m in Hl.
  destruct (all_locations_loop_spec
              (List.map Hub.location (WeekData.hubs wd)
               ++ WeekData.venue_locations (WeekData.game_venues wd)) [])
    as (_ & Hdist & Hcover & _).
  fold (WeekData.get_all_locations wd) in Hdist, Hcover.
  assert (Hfound : forall l,
             In l (List.map Hub.location (WeekData.hubs wd)
                   ++ WeekData.venue_locations (WeekData.game_venues wd)) ->
             is_Some (DistanceMatrix.location_index m l)).
  { intros l Hin. apply located_is_found. rewrite Hl.
    destruct (Hcover l Hin) as [Hs | Hex]; [discriminate | exact Hex]. }
  split; [| split].
  - intros hub Hh. apply Hfound, in_app_iff. left. apply in_map, Hh.
  - intros venue loc Hv Hloc. apply Hfound, in_app_iff. right.
    unfold WeekData.venue_locations. apply in_flat_map. exists venue.
    split; [exact Hv |]. rewrite Hloc. left. reflexivity.
  - rewrite Hl. exact Hdist.
Qed.

End Built.

(** ** Clustering *)

Lemma nn_scan_bound dist_matrix current remaining :
  forall i best,
    (fst best < i + length remaining)%nat ->
    (fst (clustering.nn_scan dist_matrix current remaining i best)
     < i + length remaining)%nat.
Proof.
  induction remaining as [| venue rest IH]; intros i best Hb;
    cbn [clustering.nn_scan length]; [exact Hb |].
  cbn [length] in Hb.
  destruct (Venue.location venue) as [loc |].
  - match goal with
    | |- context [Py.ext_Rltb (Py.Fin ?d) (snd best)] =>
        destruct (Py.ext_Rltb (Py.Fin d) (snd best));
        [specialize (IH (S i) (i, Py.Fin d)); simpl in IH; specialize (IH ltac:(lia))
        | specialize (IH (S i) best ltac:(lia))]
    end; lia.
  - specialize (IH (S i) best ltac:(lia)). lia.
Qed.

Lemma pop_spec {A : Type} (l : list A) :
  forall idx, (idx < length l)%nat ->
    exists x rest, clustering.pop l idx = Some (x, rest) /\ Permutation l (x :: rest).
Proof.
  induction l as [| y l IH]; intros idx Hidx; simpl in *; [lia |].
  destruct idx as [| k].
  - exists y, l. split; reflexivity.
  - destruct (IH k ltac:(lia)) as (x & rest & Hpop & Hperm).
    rewrite Hpop. exists x, (y :: rest). split; [reflexivity |].
    rewrite Hperm. apply perm_swap.
Qed.

Lemma nn_loop_perm dist_matrix :
  forall fuel remaining ordered current,
    (length remaining <= fuel)%nat ->
    Permutation (clustering.nn_loop dist_matrix fuel remaining ordered current)
                (ordered ++ remaining).
Proof.
  induction fuel as [| fuel IH]; intros remaining ordered current Hfuel; simpl.
  - destruct remaining; [rewrite app_nil_r; reflexivity | simpl in Hfuel; lia].
  - destruct remaining as [| v rest] eqn:Hrem; [rewrite app_nil_r; reflexivity |].
    rewrite <- Hrem in *.
    assert (Hlen : (0 < length remaining)%nat) by (rewrite Hrem; simpl; lia).
    pose proof (nn_scan_bound dist_matrix current remaining 0 (0%nat, Py.Inf)
                  ltac:(simpl; lia)) as Hidx.
    simpl in Hidx.
    destruct (pop_spec remaining _ Hidx) as (x & rest' & Hpop & Hperm).
    rewrite Hpop.
    rewrite IH.
    + rewrite <- app_assoc. simpl. rewrite Hperm. reflexivity.
    + apply Permutation_length in Hperm. simpl in Hperm. lia.
Qed.

Lemma order_stops_nn_perm venues start dist_matrix :
  Permutation (clustering._order_stops_nn venues start dist_matrix) venues.
Proof.
  unfold clustering._order_stops_nn.
  destruct (Nat.leb (length venues) 1); [reflexivity |].
  apply (nn_loop_perm dist_matrix (length venues) venues [] start). lia.
Qed.

(** X13: the nearest-neighbour ordering neither drops nor repeats a venue,
    whether or not the venues have a location and the matrix knows them: its
    result is a permutation of the venues, and a list of at most one venue
    comes back as it is. *)
Theorem order_stops_nn_permutes :
  forall (venues : list Venue.t) (start : LatLng.t) (dist_matrix : DistanceMatrix.t),
    Permutation (clustering._order_stops_nn venues start dist_matrix) venues
    /\ length (clustering._order_stops_nn venues start dist_matrix) = length venues
    /\ ((length venues <= 1)%nat ->
        clustering._order_stops_nn venues start dist_matrix = venues).
Proof.
  intros venues start dm. split; [apply order_stops_nn_perm | split].
  - apply Permutation_length, order_stops_nn_perm.
  - intros Hle. unfold clustering._order_stops_nn.
    apply Nat.leb_le in Hle. rewrite Hle. reflexivity.
Qed.

Lemma insert_desc_perm {A : Type} (ltb : A -> A -> bool) (x : A) (l : list A) :
  Permutation (Py.insert_desc ltb x l) (x :: l).
Proof.
  induction l as [| y l IH]; simpl; [reflexivity |].
  destruct (ltb y x); [reflexivity |].
  rewrite IH. apply perm_swap.
Qed.

Lemma sort_desc_perm {A : Type} (ltb : A -> A -> bool) (l : list A) :
  Permutation (Py.sort_desc ltb l) l.
Proof.
  unfold Py.sort_desc.
  assert (H : forall acc, Permutation (fold_left (fun acc x => Py.insert_desc ltb x acc) l acc)
                                      (acc ++ l)).
  { induction l as [| x l IH]; intros acc; simpl; [rewrite app_nil_r; reflexivity |].
    rewrite IH, insert_desc_perm. apply Permutation_middle. }
  apply (H []).
Qed.

Lemma NoDup_ids_inj (l : list Venue.t) (a b : Venue.t) :
  NoDup (List.map Venue.id l) -> In a l -> In b l -> Venue.id a = Venue.id b -> a = b.
Proof.
  induction l as [| v l IH]; simpl; intros Hnd Ha Hb Heq; [destruct Ha |].
  apply NoDup_cons in Hnd. destruct Hnd as [Hv Hnd].
  destruct Ha as [<- | Ha], Hb as [<- | Hb]; auto.
  - exfalso. apply Hv. rewrite Heq. apply list_elem_of_In, in_map, Hb.
  - exfalso. apply Hv. rewrite <- Heq. apply list_elem_of_In, in_map, Ha.
Qed.

Lemma NoDup_of_ids (l : list Venue.t) : NoDup (List.map Venue.id l) -> NoDup l.
Proof.
  induction l as [| v l IH]; simpl; intros Hnd; [apply NoDup_nil_2 |].
  apply NoDup_cons in Hnd. destruct Hnd as [Hv Hnd].
  apply NoDup_cons_2; [| apply IH, Hnd].
  intros Hin. apply Hv. apply list_elem_of_In, in_map, list_elem_of_In, Hin.
Qed.

Lemma extend_cluster_spec loc max_radius_miles max_stops candidates :
  forall cluster_venues_list (assigned : gset string),
    let r := clustering.extend_cluster loc max_radius_miles max_stops candidates
               cluster_venues_list assigned in
    exists added,
      fst r = cluster_venues_list ++ added
      /\ incl added candidates
      /\ NoDup (List.map Venue.id added)
      /\ (forall v, In v added -> Venue.id v ∉ assigned)
      /\ (forall x, x ∈ snd r <-> x ∈ assigned \/ In x (List.map Venue.id added))
      /\ (length (fst r) <= Nat.max (length cluster_venues_list) max_stops)%nat.
Proof.
  induction candidates as [| c rest IH]; intros L A; simpl.
  - exists []. rewrite app_nil_r. repeat split; try (intros ? []); auto.
    + apply NoDup_nil_2.
    + intros [H | []]. exact H.
    + lia.
  - assert (Hskip :
      exists added,
        fst (clustering.extend_cluster loc max_radius_miles max_stops rest L A)
        = L ++ added
        /\ incl added (c :: rest)
        /\ NoDup (List.map Venue.id added)
        /\ (forall v, In v added -> Venue.id v ∉ A)
        /\ (forall x, x ∈ snd (clustering.extend_cluster loc max_radius_miles max_stops
                                 rest L A)
                      <-> x ∈ A \/ In x (List.map Venue.id added))
        /\ (length (fst (clustering.extend_cluster loc max_radius_miles max_stops rest L A))
            <= Nat.max (length L) max_stops)%nat).
    { destruct (IH L A) as (added & H1 & H2 & H3). exists added.
      split; [exact H1 | split; [| exact H3]].
      intros v Hv. right. apply H2, Hv. }
    destruct (Py.mem (Venue.id c) A) eqn:Hmem; [exact Hskip |].
    apply mem_false in Hmem.
    destruct (Nat.leb max_stops (length L)) eqn:Hfull.
    + exists []. simpl. rewrite app_nil_r. repeat split; try (intros ? []); auto.
      * apply NoDup_nil_2.
      * intros [H | []]. exact H.
      * lia.
    + apply Nat.leb_gt in Hfull.
      destruct (Venue.location c) as [cloc |]; [| exact Hskip].
      destruct (Py.Rleb _ max_radius_miles); [| exact Hskip].
      destruct (IH (L ++ [c]) ({[Venue.id c]} ∪ A))
        as (added & H1 & H2 & H3 & H4 & H5 & H6).
      exists (c :: added). split; [| split; [| split; [| split; [| split]]]].
      * rewrite H1, <- app_assoc. reflexivity.
      * intros v [<- | Hv]; [left; reflexivity | right; apply H2, Hv].
      * simpl. apply NoDup_cons_2; [| exact H3].
        intros Hin. apply list_elem_of_In, in_map_iff in Hin.
        destruct Hin as (v & Heq & Hv). apply (H4 v Hv). rewrite Heq. set_solver.
      * intros v [<- | Hv]; [exact Hmem |].
        intros Hin. apply (H4 v Hv). set_solver.
      * intros x. rewrite H5. simpl. rewrite elem_of_union, elem_of_singleton.
        intuition auto.
      * rewrite length_app in H6. simpl in H6. lia.
Qed.

Lemma clustered_venues_app a b :
  clustered_venues (a ++ b) = clustered_venues a ++ clustered_venues b.
Proof. unfold clustered_venues. apply flat_map_app. Qed.

Lemma seed_clusters_seeded valid_venues hub_locations dist_matrix max_radius_miles
    max_stops :
  forall todo assigned clusters,
    incl todo valid_venues ->
    seeded valid_venues max_stops assigned clusters ->
    let r := clustering.seed_clusters valid_venues hub_locations dist_matrix
               max_radius_miles max_stops todo assigned clusters in
    seeded valid_venues max_stops (snd r) (fst r).
Proof.
  induction todo as [| venue todo IH]; intros A C Htodo Hinv; simpl; [exact Hinv |].
  assert (Htodo' : incl todo valid_venues) by (intros v Hv; apply Htodo; right; exact Hv).
  destruct (Py.mem (Venue.id venue) A) eqn:Hmem; [apply IH; assumption |].
  apply mem_false in Hmem.
  destruct (Venue.location venue) as [loc |]; [| apply IH; assumption].
  pose proof (extend_cluster_spec loc max_radius_miles max_stops valid_venues [venue]
                ({[Venue.id venue]} ∪ A)) as Hext.
  destruct (clustering.extend_cluster loc max_radius_miles max_stops valid_venues [venue]
              ({[Venue.id venue]} ∪ A)) as [L A'].
  cbv zeta in Hext. simpl fst in Hext. simpl snd in Hext.
  destruct Hext as (added & HL & Hincl & Hnd & Hfresh & HA' & Hlen).
  match goal with
  | |- context [VenueCluster.mk ?o None _ _ _] => set (ordered := o)
  end.
  assert (Hperm : Permutation ordered L).
  { unfold ordered. destruct L as [| v0 L0]; [reflexivity |].
    destruct (Venue.location v0); [| reflexivity].
    destruct (Py.min_by _ hub_locations); [apply order_stops_nn_perm | reflexivity]. }
  apply IH; [exact Htodo' |].
  destruct Hinv as (Hnd0 & Hincl0 & HA & Hsized).
  assert (Hids : Permutation (List.map Venue.id ordered)
                             (Venue.id venue :: List.map Venue.id added)).
  { rewrite Hperm, HL. reflexivity. }
  unfold seeded. rewrite clustered_venues_app. unfold clustered_venues at 2 4 6.
  simpl. rewrite app_nil_r.
  split; [| split; [| split]].
  - rewrite List.map_app. apply NoDup_app. split; [exact Hnd0 | split].
    + intros x Hx Hx'. rewrite Hids in Hx'.
      apply list_elem_of_In, HA in Hx.
      apply list_elem_of_In in Hx'. destruct Hx' as [<- | Hx']; [exact (Hmem Hx) |].
      apply in_map_iff in Hx'. destruct Hx' as (v & <- & Hv).
      apply (Hfresh v Hv). set_solver.
    + rewrite Hids. apply NoDup_cons_2; [| exact Hnd].
      intros Hin. apply list_elem_of_In, in_map_iff in Hin.
      destruct Hin as (v & Heq & Hv). apply (Hfresh v Hv). rewrite Heq. set_solver.
  - intros v Hv. apply in_app_iff in Hv. destruct Hv as [Hv | Hv]; [apply Hincl0, Hv |].
    apply (Permutation_in _ Hperm) in Hv. rewrite HL in Hv.
    destruct Hv as [<- | Hv]; [apply Htodo; left; reflexivity | apply Hincl, Hv].
  - intros x. rewrite HA', List.map_app, in_app_iff, elem_of_union, elem_of_singleton, HA.
    split.
    + intros [[-> | Hx] | Hx]; auto.
      * right. apply (Permutation_in _ (Permutation_sym Hids)). left. reflexivity.
      * right. apply (Permutation_in _ (Permutation_sym Hids)). right. exact Hx.
    + intros [Hx | Hx]; auto.
      apply (Permutation_in _ Hids) in Hx. destruct Hx as [<- | Hx]; auto.
  - apply Forall_app. split; [exact Hsized |].
    constructor; [| constructor]. unfold sized. simpl.
    pose proof (Permutation_length Hperm) as Hsame. rewrite HL in Hsame, Hlen.
    simpl in Hsame, Hlen.
    split; [intros Hnil; rewrite Hnil in Hsame; discriminate | lia].
Qed.

Lemma clustered_singles (vs : list Venue.t) :
  clustered_venues (List.map (fun v => VenueCluster.of_venues [v]) vs) = vs.
Proof.
  unfold clustered_venues. induction vs as [| v vs IH]; simpl; [reflexivity |].
  rewrite IH. reflexivity.
Qed.

Lemma sized_singles max_stops (vs : list Venue.t) :
  Forall (sized max_stops) (List.map (fun v => VenueCluster.of_venues [v]) vs).
Proof.
  apply List.Forall_forall. intros c Hc. apply in_map_iff in Hc.
  destruct Hc as (v & <- & _). unfold sized. simpl. split; [discriminate | lia].
Qed.

(** X14: on venues with pairwise distinct ids [cluster_venues] is a
    partition: every venue, with or without coordinates, is in exactly one
    cluster; no cluster is empty, and none has more than [max_stops] venues
    (one venue when [max_stops] is 0). *)
Theorem cluster_venues_partitions :
  forall (venues : list Venue.t) (hub_locations : list LatLng.t)
         (dist_matrix : DistanceMatrix.t) (max_radius_miles : R) (max_stops : nat),
    NoDup (List.map Venue.id venues) ->
    let clusters := clustering.cluster_venues venues hub_locations dist_matrix
                      max_radius_miles max_stops in
    Permutation (clustered_venues clusters) venues
    /\ Forall (sized max_stops) clusters.
Proof.
  intros venues hubs dm radius ms Hnd. unfold clustering.cluster_venues.
  destruct venues as [| v0 vs] eqn:Hvenues; [split; [reflexivity | constructor] |].
  rewrite <- Hvenues in *. clear Hvenues v0 vs.
  destruct (List.filter _ venues) as [| w ws] eqn:Hvalid.
  { cbv zeta. rewrite clustered_singles. split; [reflexivity | apply sized_singles]. }
  rewrite <- Hvalid. clear Hvalid w ws. cbv zeta.
  set (valid := Py.sort_desc _ _).
  assert (Hvalid_in : incl valid venues).
  { intros v Hv. unfold valid in Hv.
    apply (Permutation_in _ (sort_desc_perm _ _)) in Hv.
    apply filter_In in Hv. apply Hv. }
  pose proof (seed_clusters_seeded valid hubs dm radius ms valid ∅ []
                (incl_refl _)) as Hseed.
  destruct (clustering.seed_clusters valid hubs dm radius ms valid ∅ [])
    as [clusters assigned].
  cbv zeta in Hseed. simpl fst in Hseed. simpl snd in Hseed.
  destruct Hseed as (Hnd_c & Hincl_c & HA & Hsized).
  { unfold seeded, clustered_venues. simpl.
    split; [apply NoDup_nil_2 | split; [intros ? [] | split; [| constructor]]].
    intros x. split; [set_solver | intros []]. }
  split.
  - rewrite clustered_venues_app, clustered_singles.
    apply NoDup_Permutation.
    + apply NoDup_app. split; [apply NoDup_of_ids, Hnd_c | split].
      * intros v Hv Hv'. apply list_elem_of_In in Hv, Hv'.
        apply filter_In in Hv'. destruct Hv' as [_ Hfree].
        apply negb_true_iff, mem_false in Hfree.
        apply Hfree, HA, in_map, Hv.
      * apply NoDup_of_ids in Hnd. clear -Hnd.
        induction Hnd as [| v l Hv Hl IH]; simpl; [apply NoDup_nil_2 |].
        destruct (negb _); [| exact IH].
        apply NoDup_cons_2; [| exact IH].
        intros Hin. apply Hv. apply list_elem_of_In in Hin. apply filter_In in Hin.
        apply list_elem_of_In, Hin.
    + apply NoDup_of_ids, Hnd.
    + intros v. rewrite !list_elem_of_In, in_app_iff, filter_In. split.
      * intros [Hv | [Hv _]]; [apply Hvalid_in, Hincl_c, Hv | exact Hv].
      * intros Hv. destruct (Py.mem (Venue.id v) assigned) eqn:Hmem.
        -- left. apply mem_true, HA, in_map_iff in Hmem.
           destruct Hmem as (v' & Heq & Hv').
           rewrite <- (NoDup_ids_inj venues v' v Hnd
                         (Hvalid_in _ (Hincl_c _ Hv')) Hv Heq).
           exact Hv'.
        -- right. split; [exact Hv | reflexivity].
  - apply Forall_app. split; [exact Hsized | apply sized_singles].
Qed.

Lemma cluster_venues_partitions_witness :
  NoDup (List.map Venue.id [venue_1; venue_2; venue_3])
  /\ (let clusters :=
        clustering.cluster_venues [venue_1; venue_2; venue_3] [Hub.location hub_cle]
          (DistanceMatrix.__init__ []) 150%R 4 in
      Permutation (clustered_venues clusters) [venue_1; venue_2; venue_3]
      /\ Forall (sized 4) clusters).
Proof.
  assert (Hnd : NoDup (List.map Venue.id [venue_1; venue_2; venue_3])).
  { simpl. repeat (apply NoDup_cons_2; [set_solver |]). apply NoDup_nil_2. }
  split; [exact Hnd |].
  exact (cluster_venues_partitions [venue_1; venue_2; venue_3] [Hub.location hub_cle]
           (DistanceMatrix.__init__ []) 150%R 4 Hnd).
Defined.

(** ** The lookahead *)

Lemma post_game_trips result games year week :
  OptimizationResult.trips
    (lookahead.determine_post_game_disposition result games year week)
  = List.map (fun t => fst (lookahead.dispose_trip games year week t))
             (OptimizationResult.trips result).
Proof.
  unfold lookahead.determine_post_game_disposition. simpl.
  rewrite List.map_map. reflexivity.
Qed.

(** X15: the lookahead changes nothing but the two hub-return fields of the
    stops and the warnings: trips, stops, assets, crew, miles, unassigned
    demands, status and score stay as they are, stop by stop and in the same
    order, and the warnings only grow at the end. *)
Theorem post_game_disposition_keeps_the_plan :
  forall (result : OptimizationResult.t) (next_week_games : list Game.t)
         (season_year week_number : Z),
    let result' := lookahead.determine_post_game_disposition result next_week_games
                     season_year week_number in
    Forall2 same_but_dispositions (OptimizationResult.trips result)
            (OptimizationResult.trips result')
    /\ OptimizationResult.set_warnings
         (OptimizationResult.set_trips result' (OptimizationResult.trips result))
         (OptimizationResult.warnings result) = result
    /\ exists added, OptimizationResult.warnings result'
                     = OptimizationResult.warnings result ++ added.
Proof.
  intros result games year week result'. unfold result'.
  split; [| split].
  - rewrite post_game_trips. apply Forall2_map_self. intros t.
    unfold same_but_dispositions, lookahead.dispose_trip. simpl.
    split; [destruct t; reflexivity |].
    rewrite List.map_map. apply Forall2_map_self. intros s.
    unfold same_but_hub_return, lookahead.dispose_stop. simpl.
    destruct s; reflexivity.
  - unfold lookahead.determine_post_game_disposition. destruct result; reflexivity.
  - unfold lookahead.determine_post_game_disposition. simpl. eauto.
Qed.

Lemma post_game_stops result games year week :
  all_stops (lookahead.determine_post_game_disposition result games year week)
  = flat_map (fun t => List.map (fun s => fst (lookahead.dispose_stop t games year week s))
                                (Trip.stops t))
             (OptimizationResult.trips result).
Proof.
  unfold all_stops. rewrite post_game_trips.
  generalize (OptimizationResult.trips result) as ts. intros ts.
  induction ts as [| t ts IH]; [reflexivity |].
  cbn [List.map flat_map]. rewrite IH. f_equal.
  unfold lookahead.dispose_trip. simpl. rewrite List.map_map. reflexivity.
Qed.

Lemma no_warnings_when_not_rerouted result games year week :
  (forall t s, Disposition.action (disposition_of t games year week s)
               <> "reroute_to_next_venue") ->
  OptimizationResult.warnings
    (lookahead.determine_post_game_disposition result games year week)
  = OptimizationResult.warnings result.
Proof.
  intros Hno. unfold lookahead.determine_post_game_disposition. simpl.
  rewrite List.map_map.
  assert (Hnil : concat (List.map (fun t => snd (lookahead.dispose_trip games year week t))
                                  (OptimizationResult.trips result)) = []).
  { generalize (OptimizationResult.trips result) as ts. intros ts.
    induction ts as [| t ts IH]; [reflexivity |].
    cbn [List.map concat]. rewrite IH, app_nil_r.
    unfold lookahead.dispose_trip. cbn [snd]. rewrite List.map_map.
    generalize (Trip.stops t) as ss. intros ss.
    induction ss as [| s ss IHs]; [reflexivity |].
    cbn [List.map concat]. rewrite IHs, app_nil_r.
    specialize (Hno t s). unfold disposition_of in Hno.
    apply String.eqb_neq in Hno.
    unfold lookahead.dispose_stop. cbv zeta. cbn [snd]. rewrite Hno. reflexivity. }
  rewrite Hnil. apply app_nil_r.
Qed.

(** X16: in week 0 the lookahead leaves every stop on site (no hub return,
    no reason), from week 18 on it sends every stop back to the hub with the
    end-of-season reason, whatever next week's games are; in both cases it
    adds no warning. *)
Theorem post_game_disposition_at_season_bounds :
  forall (result : OptimizationResult.t) (next_week_games : list Game.t)
         (season_year week_number : Z),
    let result' := lookahead.determine_post_game_disposition result next_week_games
                     season_year week_number in
    (week_number = 0 ->
     Forall (fun s => TripStop.requires_hub_return s = false
                      /\ TripStop.hub_return_reason s = None) (all_stops result')
     /\ OptimizationResult.warnings result' = OptimizationResult.warnings result)
    /\ (18 <= week_number ->
        Forall (fun s => TripStop.requires_hub_return s = true
                         /\ TripStop.hub_return_reason s
                            = Some "End of season — all assets return to hub")
               (all_stops result')
        /\ OptimizationResult.warnings result' = OptimizationResult.warnings result).
Proof.
  intros result games year week result'. unfold result'. split.
  - intros ->. split.
    + rewrite post_game_stops. apply List.Forall_forall. intros s Hs.
      apply in_flat_map in Hs. destruct Hs as (t & _ & Hs).
      apply in_map_iff in Hs. destruct Hs as (s0 & <- & _).
      unfold lookahead.dispose_stop, lookahead.determine_disposition. simpl. auto.
    + apply no_warnings_when_not_rerouted. intros t s.
      unfold disposition_of, lookahead.dispose_stop, lookahead.determine_disposition.
      simpl. discriminate.
  - intros Hweek.
    assert (H0 : Z.eqb week 0 = false) by (apply Z.eqb_neq; lia).
    assert (H18 : Z.leb 18 week = true) by (apply Z.leb_le; lia).
    split.
    + rewrite post_game_stops. apply List.Forall_forall. intros s Hs.
      apply in_flat_map in Hs. destruct Hs as (t & _ & Hs).
      apply in_map_iff in Hs. destruct Hs as (s0 & <- & _).
      unfold lookahead.dispose_stop, lookahead.determine_disposition.
      rewrite H0, H18. simpl. auto.
    + apply no_warnings_when_not_rerouted. intros t s.
      unfold disposition_of, lookahead.determine_disposition.
      rewrite H0, H18. simpl. discriminate.
Qed.

(** ** The components of a trip's score *)

Lemma Qleb_spec (x y : Q) :
  if Py.Qleb x y then (x <= y)%Q else (y < x)%Q.
Proof.
  unfold Py.Qleb. destruct (Qle_bool x y) eqn:H.
  - apply Qle_bool_iff, H.
  - apply Qnot_le_lt. intros Hle. apply Qle_bool_iff in Hle. congruence.
Qed.

Lemma Qltb_spec (x y : Q) :
  if Py.Qltb x y then (x < y)%Q else (y <= x)%Q.
Proof.
  unfold Py.Qltb. pose proof (Qleb_spec y x) as H. unfold Py.Qleb in H.
  destruct (Qle_bool y x); exact H.
Qed.

Ltac split_Q_tests :=
  repeat match goal with
         | |- context [Py.Qleb ?a ?b] =>
             let H := fresh "Hle" in
             pose proof (Qleb_spec a b) as H; destruct (Py.Qleb a b); cbv iota in H
         | |- context [Py.Qltb ?a ?b] =>
             let H := fresh "Hlt" in
             pose proof (Qltb_spec a b) as H; destruct (Py.Qltb a b); cbv iota in H
         end.

Ltac Qinv_consts :=
  unfold Qdiv in *;
  repeat match goal with
         | |- context [Qinv ?c] =>
             let v := eval vm_compute in (Qred (Qinv c)) in
             setoid_replace (Qinv c) with v using relation Qeq
               by (vm_compute; reflexivity)
         | H : context [Qinv ?c] |- _ =>
             let v := eval vm_compute in (Qred (Qinv c)) in
             setoid_replace (Qinv c) with v using relation Qeq in H
               by (vm_compute; reflexivity)
         end.

Lemma capacity_score_between trip :
  (0 <= scoring._score_capacity_utilization trip <= 100)%Q.
Proof.
  unfold scoring._score_capacity_utilization.
  destruct (Trip.assets trip) as [| a rest]; [split; Lqa.lra |].
  cbv zeta.
  generalize (inject_Z (Py.Zsum (List.map (fun a => scoring.weight_estimate
                                             (TripAsset.asset_type a)) (a :: rest)))
              / inject_Z 10000)%Q as u.
  intros u. unfold Py.max.
  split_Q_tests; cbn [andb]; Qinv_consts; split; Lqa.lra.
Qed.

Lemma time_score_between trip :
  (0 <= scoring._score_time_efficiency trip <= 100)%Q.
Proof.
  unfold scoring._score_time_efficiency. cbv zeta.
  destruct (Py.Qleb (Trip.total_drive_hrs trip) 0); [split; Lqa.lra |].
  generalize (Trip.total_drive_hrs trip / 11)%Q as ratio. intros ratio.
  unfold Py.max.
  split_Q_tests; cbn [andb]; Qinv_consts; split; Lqa.lra.
Qed.

Lemma penalties_nonneg (relaxations : list Relaxation.t) :
  forall total, 0 <= total ->
    0 <= fold_left (fun total relaxation =>
                      total + scoring.penalty (Relaxation.action relaxation))
                   relaxations total.
Proof.
  induction relaxations as [| r rest IH]; intros total Ht; simpl; [exact Ht |].
  apply IH. unfold scoring.penalty.
  repeat match goal with |- context [String.eqb ?a ?b] => destruct (String.eqb a b) end;
    lia.
Qed.

Lemma constraint_score_between result :
  (0 <= scoring._score_constraint_satisfaction result <= 100)%Q.
Proof.
  unfold scoring._score_constraint_satisfaction.
  destruct (OptimizationResult.constraint_relaxations result) as [| r rest];
    [split; Lqa.lra |].
  cbv zeta.
  pose proof (penalties_nonneg (r :: rest) 0 ltac:(lia)) as Hp.
  set (p := fold_left _ (r :: rest) 0) in *.
  split.
  - change 0%Q with (inject_Z 0). rewrite <- Zle_Qle. lia.
  - change 100%Q with (inject_Z 100). rewrite <- Zle_Qle. lia.
Qed.

Lemma multi_stop_score_between trip :
  (50 <= scoring._score_multi_stop_bonus trip <= 100)%Q.
Proof.
  unfold scoring._score_multi_stop_bonus. cbv zeta.
  destruct (Nat.leb _ 1); [split; Lqa.lra |].
  destruct (Nat.eqb _ 2); [split; Lqa.lra |].
  destruct (Nat.eqb _ 3); split; Lqa.lra.
Qed.

Lemma distance_score_between trip dist_matrix :
  (0 <= scoring._score_distance_efficiency trip dist_matrix <= 100)%R.
Proof.
  unfold scoring._score_distance_efficiency.
  destruct (Py.Qleb _ 0); [lra |].
  destruct (List.find _ _); [| lra].
  cbv zeta. destruct (Py.Rleb _ 0); [lra |].
  apply Rclamp_between.
Qed.

Lemma Q2R_between (a b : Z) (x : Q) :
  (inject_Z a <= x <= inject_Z b)%Q -> (IZR a <= Q2R x <= IZR b)%R.
Proof.
  intros [Ha Hb]. apply Qreals.Qle_Rle in Ha, Hb.
  unfold Q2R in Ha at 1. unfold Q2R in Hb at 2. simpl in Ha, Hb.
  lra.
Qed.

Lemma Rclamp_id (t : R) : (0 <= t <= 100)%R -> Py.Rmax 0 (Py.Rmin 100 t) = t.
Proof.
  intros Ht. unfold Py.Rmin, Py.Rltb.
  destruct (Rlt_dec t 100); unfold Py.Rmax, Py.Rltb;
    match goal with |- context [Rlt_dec ?a ?b] => destruct (Rlt_dec a b) end; lra.
Qed.

(** X17: each of the five component scores of a trip lies between 0 and 100
    (the multi-stop bonus between 50 and 100), and their weighted total
    between 5 and 100: the clamp to [0,100] in [score_trip] leaves the total
    as it is. *)
Theorem score_trip_components_are_bounded :
  forall (trip : Trip.t) (dist_matrix : DistanceMatrix.t) (result : OptimizationResult.t),
    let total :=
      (scoring._score_distance_efficiency trip dist_matrix * scoring.WEIGHT_DISTANCE
       + Q2R (scoring._score_capacity_utilization trip) * scoring.WEIGHT_CAPACITY
       + Q2R (scoring._score_time_efficiency trip) * scoring.WEIGHT_TIME
       + Q2R (scoring._score_constraint_satisfaction result) * scoring.WEIGHT_CONSTRAINTS
       + Q2R (scoring._score_multi_stop_bonus trip) * scoring.WEIGHT_MULTI_STOP)%R in
    (0 <= scoring._score_distance_efficiency trip dist_matrix <= 100)%R
    /\ (0 <= scoring._score_capacity_utilization trip <= 100)%Q
    /\ (0 <= scoring._score_time_efficiency trip <= 100)%Q
    /\ (0 <= scoring._score_constraint_satisfaction result <= 100)%Q
    /\ (50 <= scoring._score_multi_stop_bonus trip <= 100)%Q
    /\ (5 <= total <= 100)%R
    /\ Py.Rmax 0 (Py.Rmin 100 total) = total.
Proof.
  intros trip dm result total.
  pose proof (distance_score_between trip dm) as Hd.
  pose proof (capacity_score_between trip) as Hc.
  pose proof (time_score_between trip) as Ht.
  pose proof (constraint_score_between result) as Hk.
  pose proof (multi_stop_score_between trip) as Hm.
  repeat (split; [assumption |]).
  assert (Htotal : (5 <= total <= 100)%R).
  { apply (Q2R_between 0 100) in Hc, Ht, Hk. apply (Q2R_between 50 100) in Hm.
    unfold total, scoring.WEIGHT_DISTANCE, scoring.WEIGHT_CAPACITY, scoring.WEIGHT_TIME,
      scoring.WEIGHT_CONSTRAINTS, scoring.WEIGHT_MULTI_STOP.
    lra. }
  split; [exact Htotal |].
  apply Rclamp_id. lra.
Qed.

(** ** The constraints of a week *)

Lemma build_demands_spec (E : Externals) week_data setup games :
  forall demands time_windows,
    let r := constraints.build_demands week_data setup games demands time_windows in
    exists added,
      fst r = demands ++ added
      /\ List.map Demand.game added
         = List.filter (asks_for_equipment week_data) games
      /\ Forall (fun d =>
                   Game.venue_id (Demand.game d) = Some (Demand.venue_id d)
                   /\ Demand.venue_id d <> ""
                   /\ Demand.customer_id d = Game.customer_id (Demand.game d)
                   /\ Demand.customer_name d = Game.customer_name (Demand.game d)
                   /\ Demand.items d = WeekData.demands_for_game week_data (Demand.game d)
                   /\ Demand.items d <> []
                   /\ Demand.total_quantity d
                      = Py.Zsum (List.map ContractItem.quantity (Demand.items d))
                   /\ Demand.time_window d
                      = constraints.game_time_window week_data setup (Demand.game d)
                   /\ Demand.total_weight_lbs d
                      = inject_Z (estimated_weight (Demand.items d)))
                added
      /\ (forall venue_id w,
            snd r !! venue_id = Some w ->
            time_windows !! venue_id = Some w
            \/ exists d, In d added /\ Demand.venue_id d = venue_id
                         /\ Demand.time_window d = Some w).
Proof.
  unfold asks_for_equipment.
  induction games as [| game games IH]; intros demands tws; simpl.
  - exists []. rewrite app_nil_r. repeat split; auto.
  - destruct (WeekData.demands_for_game week_data game) as [| item items] eqn:Hitems.
    + destruct (IH demands tws) as (added & H1 & H2 & H3 & H4).
      exists added. auto.
    + destruct (Game.venue_id game) as [venue_id |] eqn:Hvid.
      * destruct (String.eqb venue_id "") eqn:Hempty; simpl.
        -- destruct (IH demands tws) as (added & H1 & H2 & H3 & H4).
           exists added. auto.
        -- match goal with
           | |- context [constraints.build_demands _ _ _ (demands ++ [?d]) ?tws'] =>
               destruct (IH (demands ++ [d]) tws') as (added & H1 & H2 & H3 & H4);
               exists (d :: added)
           end.
           split; [rewrite H1, <- app_assoc; reflexivity |].
           split; [simpl; rewrite H2; reflexivity |].
           split.
           ++ constructor; [| exact H3]. simpl. rewrite Hitems.
              apply String.eqb_neq in Hempty.
              repeat split; auto; discriminate.
           ++ intros v w Hw. destruct (H4 v w Hw) as [Hold | (d & Hd & Hv & Htw)].
              ** destruct (constraints.game_time_window week_data setup game)
                   as [w0 |] eqn:Hgw; [| left; exact Hold].
                 destruct (decide (venue_id = v)) as [-> | Hne].
                 --- rewrite lookup_insert_eq in Hold. injection Hold as <-.
                     right. eexists. split; [left; reflexivity |]. simpl. auto.
                 --- rewrite lookup_insert_ne in Hold by exact Hne. left. exact Hold.
              ** right. exists d. split; [right; exact Hd | auto].
      * destruct (IH demands tws) as (added & H1 & H2 & H3 & H4).
        exists added. auto.
Qed.

Lemma build_constraints_fields (E : Externals) week_data :
  Constraints.demands (constraints.build_constraints week_data)
  = fst (constraints.build_demands week_data config.SETUP_BUFFER_HOURS
           (WeekData.games week_data) [] ∅)
  /\ Constraints.time_windows (constraints.build_constraints week_data)
     = snd (constraints.build_demands week_data config.SETUP_BUFFER_HOURS
              (WeekData.games week_data) [] ∅)
  /\ Constraints.blocked_asset_ids (constraints.build_constraints week_data)
     = constraints.blocked_of_tasks (WeekData.branding_tasks week_data) ∅
  /\ Constraints.hub_vehicle_counts (constraints.build_constraints week_data)
     = fst (constraints.hub_counts week_data)
  /\ Constraints.hub_personnel_counts (constraints.build_constraints week_data)
     = snd (constraints.hub_counts week_data).
Proof.
  unfold constraints.build_constraints. simpl.
  destruct (constraints.build_demands _ _ _ _ _) as [demands tws].
  destruct (constraints.hub_counts week_data) as [vc pc]. simpl. auto.
Qed.

Lemma asks_for_equipment_spec week_data game :
  asks_for_equipment week_data game = true <-> game_with_demand week_data game.
Proof.
  unfold asks_for_equipment, game_with_demand.
  destruct (WeekData.demands_for_game week_data game) as [| item items].
  - split; [discriminate | intros [H _]; contradiction].
  - destruct (Game.venue_id game) as [venue_id |].
    + rewrite negb_true_iff, String.eqb_neq. split.
      * intros Hne. split; [discriminate | exists venue_id; auto].
      * intros (_ & v & Hv & Hne). injection Hv as ->. exact Hne.
    + split; [discriminate | intros (_ & v & Hv & _); discriminate].
Qed.


(** X19: a time window that [build_constraints] records under a venue is
    the window of a demand at that venue; a demand's window, when it has
    one, opens 24 hours before the parsed game time, closes the setup buffer
    before it and allows 60 minutes of service; and in week 0 no demand has
    a window and no window is recorded. *)
Theorem build_constraints_time_windows :
  forall (E : Externals) (week_data : WeekData.t),
    let c := constraints.build_constraints week_data in
    (forall venue_id w,
       Constraints.time_windows c !! venue_id = Some w ->
       exists d, In d (Constraints.demands c) /\ Demand.venue_id d = venue_id
                 /\ Demand.time_window d = Some w)
    /\ Forall (fun d =>
                 forall w, Demand.time_window d = Some w ->
                   exists game_time game_dt,
                     Game.game_time (Demand.game d) = Some game_time
                     /\ constraints.parse_game_dt (Game.game_date (Demand.game d))
                                                  game_time = Some game_dt
                     /\ w = TimeWindow.mk (game_dt - 24)
                                          (game_dt - config.SETUP_BUFFER_HOURS) 60)
              (Constraints.demands c)
    /\ (WeekData.week_number week_data = 0 ->
        Constraints.time_windows c = ∅
        /\ Forall (fun d => Demand.time_window d = None) (Constraints.demands c)).
Proof.
  intros E wd c. unfold c.
  destruct (build_constraints_fields E wd) as (-> & -> & _).
  destruct (build_demands_spec E wd config.SETUP_BUFFER_HOURS (WeekData.games wd) [] ∅)
    as (added & H1 & _ & H3 & H4).
  rewrite H1. simpl.
  assert (Hwin : forall venue_id w,
            snd (constraints.build_demands wd config.SETUP_BUFFER_HOURS
                   (WeekData.games wd) [] ∅) !! venue_id = Some w ->
            exists d, In d added /\ Demand.venue_id d = venue_id
                      /\ Demand.time_window d = Some w).
  { intros v w Hw. destruct (H4 v w Hw) as [Hempty | Hd]; [| exact Hd].
    rewrite lookup_empty in Hempty. discriminate. }
  assert (Hzero : WeekData.week_number wd = 0 ->
                  Forall (fun d => Demand.time_window d = None) added).
  { intros Hweek. apply List.Forall_forall. intros d Hd.
    rewrite List.Forall_forall in H3.
    destruct (H3 d Hd) as (_ & _ & _ & _ & _ & _ & _ & -> & _).
    unfold constraints.game_time_window. rewrite Hweek. reflexivity. }
  split; [exact Hwin | split; [| intros Hweek; split; [| apply Hzero, Hweek]]].
  - apply List.Forall_forall. intros d Hd w Hw.
    rewrite List.Forall_forall in H3.
    destruct (H3 d Hd) as (_ & _ & _ & _ & _ & _ & _ & Htw & _).
    rewrite Htw in Hw. unfold constraints.game_time_window in Hw.
    destruct (_ && _); [| discriminate].
    destruct (Game.game_time (Demand.game d)) as [game_time |]; [| discriminate].
    destruct (constraints.parse_game_dt _ game_time) as [game_dt |] eqn:Hparse;
      [| discriminate].
    injection Hw as <-. exists game_time, game_dt. auto.
  - apply map_empty. intros v.
    destruct (_ !! v) as [w |] eqn:Hw; [| reflexivity].
    destruct (Hwin v w Hw) as (d & Hd & _ & Htw).
    specialize (Hzero Hweek). rewrite List.Forall_forall in Hzero.
    rewrite (Hzero d Hd) in Htw. discriminate.
Qed.

Lemma blocked_of_tasks_spec tasks :
  forall (acc : gset string) x,
    x ∈ constraints.blocked_of_tasks tasks acc
    <-> x ∈ acc
        \/ exists bt, In bt tasks
                      /\ (BrandingTask.status bt = "pending"
                          \/ BrandingTask.status bt = "in_progress")
                      /\ BrandingTask.asset_id bt = x.
Proof.
  unfold constraints.blocked_of_tasks.
  induction tasks as [| bt rest IH]; intros acc x; simpl.
  - split; [auto | intros [H | (bt & [] & _)]; exact H].
  - rewrite IH.
    destruct (String.eqb (BrandingTask.status bt) "pending") eqn:Hp;
      [| destruct (String.eqb (BrandingTask.status bt) "in_progress") eqn:Hi]; simpl.
    + apply String.eqb_eq in Hp. rewrite elem_of_union, elem_of_singleton. split.
      * intros [[-> | H] | (b & Hb & Hs & Hx)]; eauto 8.
      * intros [H | (b & [<- | Hb] & Hs & Hx)]; eauto 8.
    + apply String.eqb_eq in Hi. rewrite elem_of_union, elem_of_singleton. split.
      * intros [[-> | H] | (b & Hb & Hs & Hx)]; eauto 8.
      * intros [H | (b & [<- | Hb] & Hs & Hx)]; eauto 8.
    + apply String.eqb_neq in Hp, Hi. split.
      * intros [H | (b & Hb & Hs & Hx)]; eauto 8.
      * intros [H | (b & [<- | Hb] & Hs & Hx)]; eauto 8.
        destruct Hs; contradiction.
Qed.

Lemma hub_counts_lookup week_data (hubs : list Hub.t) :
  forall (acc : gmap string nat * gmap string nat) (id : string),
    let r := fold_left
               (fun acc hub =>
                  (<[Hub.id hub :=
                       length (WeekData.available_vehicles_at_hub week_data (Hub.id hub))]>
                     (fst acc),
                   <[Hub.id hub :=
                       length (WeekData.available_personnel_at_hub week_data (Hub.id hub))]>
                     (snd acc)))
               hubs acc in
    fst r !! id
    = (if existsb (fun h => String.eqb (Hub.id h) id) hubs
       then Some (length (WeekData.available_vehicles_at_hub week_data id))
       else fst acc !! id)
    /\ snd r !! id
       = (if existsb (fun h => String.eqb (Hub.id h) id) hubs
          then Some (length (WeekData.available_personnel_at_hub week_data id))
          else snd acc !! id).
Proof.
  induction hubs as [| h rest IH]; intros acc id; simpl; [auto |].
  match goal with
  | |- context [fold_left _ rest ?a] => destruct (IH a id) as [Hv Hp]
  end.
  rewrite Hv, Hp. simpl.
  destruct (String.eqb (Hub.id h) id) eqn:Heq; simpl.
  - apply String.eqb_eq in Heq. subst id. rewrite !lookup_insert_eq.
    destruct (existsb _ rest); auto.
  - apply String.eqb_neq in Heq. rewrite !lookup_insert_ne by exact Heq. auto.
Qed.

(** X20: the blocked set that [build_constraints] derives holds the asset
    ids of the pending and in-progress branding tasks and nothing else, and
    for every hub of the week the two count tables hold the number of its
    active vehicles and of its personnel. *)
Theorem build_constraints_blocked_and_counts :
  forall (E : Externals) (week_data : WeekData.t),
    let c := constraints.build_constraints week_data in
    (forall x, x ∈ Constraints.blocked_asset_ids c
               <-> exists bt, In bt (WeekData.branding_tasks week_data)
                              /\ (BrandingTask.status bt = "pending"
                                  \/ BrandingTask.status bt = "in_progress")
                              /\ BrandingTask.asset_id bt = x)
    /\ (forall hub, In hub (WeekData.hubs week_data) ->
          Constraints.hub_vehicle_counts c !! Hub.id hub
          = Some (length (WeekData.available_vehicles_at_hub week_data (Hub.id hub)))
          /\ Constraints.hub_personnel_counts c !! Hub.id hub
             = Some (length (WeekData.available_personnel_at_hub week_data
                                                                 (Hub.id hub)))).
Proof.
  intros E wd c. unfold c.
  destruct (build_constraints_fields E wd) as (_ & _ & -> & -> & ->).
  split.
  - intros x. rewrite blocked_of_tasks_spec. split.
    + intros [Hx | Hx]; [set_solver | exact Hx].
    + intros Hx. right. exact Hx.
  - intros hub Hin. unfold constraints.hub_counts.
    destruct (hub_counts_lookup wd (WeekData.hubs wd) (∅, ∅) (Hub.id hub)) as [Hv Hp].
    assert (Hex : existsb (fun h => String.eqb (Hub.id h) (Hub.id hub)) (WeekData.hubs wd)
                  = true).
    { apply existsb_exists. exists hub. split; [exact Hin | apply String.eqb_refl]. }
    rewrite Hex in Hv, Hp. auto.
Qed.

(** ** What the cascade writes *)

Lemma last_relaxation_snoc r entries entry :
  OptimizationResult.constraint_relaxations r = entries ++ [entry] ->
  last_relaxation r = Some entry.
Proof.
  intros H. unfold last_relaxation. rewrite H. apply last_snoc.
Qed.

Lemma cascade_unfold wd initial r1 r2 r3 r4 :
  infeasibility.cascade wd initial r1 r2 r3 r4
  = match OptimizationResult.unassigned_demands initial with
    | [] => initial
    | _ :: _ =>
        match run_blocks [(r1, infeasibility.annotate1); (r2, infeasibility.annotate2);
                          (r3, infeasibility.annotate3); (r4, infeasibility.annotate4)]
                         initial with
        | infeasibility.Return r => r
        | infeasibility.Continue b => infeasibility.finish b wd
        end
    end.
Proof.
  unfold infeasibility.cascade. simpl.
  destruct (OptimizationResult.unassigned_demands initial); [reflexivity |].
  repeat match goal with
         | |- context [infeasibility.adopt ?a ?b ?c] =>
             destruct (infeasibility.adopt a b c)
         end; reflexivity.
Qed.

Lemma first_feasible_logged steps r' :
  Forall (fun s => exists step action detail,
                     1 <= step <= 4
                     /\ forall r, last_relaxation (snd s r)
                                  = Some (Relaxation.mk step action detail)) steps ->
  first_feasible steps = Some r' ->
  exists step action detail,
    1 <= step <= 4 /\ last_relaxation r' = Some (Relaxation.mk step action detail).
Proof.
  induction 1 as [| [result annotate] rest Hann _ IH]; simpl; [discriminate |].
  destruct result as [r |]; [| exact IH].
  destruct (OptimizationResult.unassigned_demands r); [| exact IH].
  intros [= <-]. destruct Hann as (step & action & detail & Hstep & Hlast).
  exists step, action, detail. simpl in Hlast. auto.
Qed.

Lemma finish_partial b wd :
  (0 < unassigned_count b)%nat ->
  let final := infeasibility.finish b wd in
  OptimizationResult.unassigned_demands final
  = List.map (infeasibility.classify wd) (OptimizationResult.unassigned_demands b)
  /\ OptimizationResult.status final = "partial"
  /\ last_relaxation final
     = Some (Relaxation.mk 6 "partial_solution"
               (Py.f [Py.str_of_nat (unassigned_count b);
                      " demands could not be fulfilled"])).
Proof.
  intros Hpos. unfold infeasibility.finish.
  assert (Hhas : OptimizationResult.has_unassigned
                   (infeasibility._step5_classify_unassigned b wd) = true).
  { unfold OptimizationResult.has_unassigned, infeasibility._step5_classify_unassigned.
    simpl. rewrite List.length_map. apply Nat.ltb_lt, Hpos. }
  cbv zeta. rewrite Hhas.
  split; [reflexivity | split; [reflexivity |]].
  eapply last_relaxation_snoc. simpl. rewrite List.length_map. reflexivity.
Qed.

(** X21: what [handle_infeasibility] returns says how it ended.  An initial
    result without unassigned demands comes back as it is.  Otherwise, a
    result that still has unassigned demands has status partial, and its
    last log entry is step 6 with their number; a result without unassigned
    demands is the result of one of the steps 1 to 4, and its last log entry
    names that step. *)
Theorem handle_infeasibility_logs_how_it_ended :
  forall (E : Externals) (week_data : WeekData.t) (dist_matrix : DistanceMatrix.t)
         (initial_result : OptimizationResult.t),
    let final := infeasibility.handle_infeasibility week_data dist_matrix initial_result in
    (OptimizationResult.unassigned_demands initial_result = [] -> final = initial_result)
    /\ (OptimizationResult.unassigned_demands initial_result <> [] ->
        match OptimizationResult.unassigned_demands final with
        | [] =>
            exists step action detail,
              1 <= step <= 4
              /\ last_relaxation final = Some (Relaxation.mk step action detail)
        | _ :: _ =>
            OptimizationResult.status final = "partial"
            /\ last_relaxation final
               = Some (Relaxation.mk 6 "partial_solution"
                         (Py.f [Py.str_of_nat (unassigned_count final);
                                " demands could not be fulfilled"]))
        end).
Proof.
  intros E wd dm initial final. unfold final, infeasibility.handle_infeasibility.
  rewrite cascade_unfold.
  split.
  - intros ->. reflexivity.
  - intros Hne.
    destruct (OptimizationResult.unassigned_demands initial) as [| d0 ds0] eqn:Hinit;
      [contradiction |].
    set (steps := [(_, infeasibility.annotate1); (_, infeasibility.annotate2);
                   (_, infeasibility.annotate3); (_, infeasibility.annotate4)]).
    assert (Hpos : (0 < unassigned_count initial)%nat)
      by (unfold unassigned_count; rewrite Hinit; simpl; lia).
    assert (Hkeep : Forall (fun s => keeps_unassigned (snd s)) steps)
      by (repeat constructor).
    assert (Hlog : Forall (fun s => exists step action detail,
                     1 <= step <= 4
                     /\ forall r, last_relaxation (snd s r)
                                  = Some (Relaxation.mk step action detail)) steps).
    { repeat constructor; simpl.
      - exists 1. do 2 eexists. split; [lia |]. intros r.
        eapply last_relaxation_snoc. reflexivity.
      - exists 2. do 2 eexists. split; [lia |]. intros r.
        eapply last_relaxation_snoc. reflexivity.
      - exists 3. do 2 eexists. split; [lia |]. intros r.
        eapply last_relaxation_snoc. reflexivity.
      - exists 4. do 2 eexists. split; [lia |]. intros r.
        eapply last_relaxation_snoc. reflexivity. }
    pose proof (run_blocks_facts steps Hkeep initial Hpos) as Hrun.
    destruct (run_blocks steps initial) as [r' | b'].
    + destruct Hrun as (Hzero & Hff).
      unfold unassigned_count in Hzero.
      destruct (OptimizationResult.unassigned_demands r'); [| discriminate].
      apply (first_feasible_logged steps r' Hlog Hff).
    + destruct Hrun as (_ & Hpos' & _).
      destruct (finish_partial b' wd Hpos') as (Hun & Hstatus & Hlast).
      assert (Hcount : unassigned_count (infeasibility.finish b' wd) = unassigned_count b')
        by (unfold unassigned_count; rewrite Hun; apply List.length_map).
      rewrite Hcount, Hun.
      unfold unassigned_count in Hpos'.
      destruct (OptimizationResult.unassigned_demands b') as [| u us];
        [simpl in Hpos'; lia |].
      simpl List.map. cbv iota.
      split; [exact Hstatus | exact Hlast].
Qed.

Lemma classify_cases week_data demand :
  let demand' := infeasibility.classify week_data demand in
  same_but_reason demand demand'
  /\ (demand' = demand
      \/ In (UnassignedDemand.reason demand')
            (diagnoses (UnassignedDemand.asset_type demand)))
  /\ (Py.contains "available" (Py.lower (UnassignedDemand.reason demand)) = true ->
      demand' = demand).
Proof.
  unfold infeasibility.classify, same_but_reason, diagnoses. cbv zeta.
  destruct (Py.contains "available" (Py.lower (UnassignedDemand.reason demand)));
    [destruct demand; simpl; auto |].
  assert (Hfalse : false = true -> forall d, d = demand) by discriminate.
  destruct (List.filter _ (WeekData.assets week_data)) as [| a rest].
  { destruct demand; simpl. split; [reflexivity | split; [right | discriminate]]. auto. }
  destruct (forallb _ (a :: rest)).
  { destruct demand; simpl. split; [reflexivity | split; [right | discriminate]]. auto. }
  destruct (Nat.eqb (length (WeekData.vehicles week_data)) 0).
  { destruct demand; simpl. split; [reflexivity | split; [right | discriminate]]. auto. }
  destruct (Nat.eqb _ 0);
    destruct demand; simpl; (split; [reflexivity | split; [right | discriminate]]); auto 6.
Qed.

(** X22: step 5 of the cascade rewrites nothing but reasons: it keeps the
    unassigned demands one by one and in order, each with its customer,
    venue, asset type and quantity; a demand whose reason mentions
    available (in any case) stays as it is, and a rewritten reason is one of
    the five diagnoses of the step.  Trips, warnings, status and log of the
    result stay as they are. *)
Theorem classify_unassigned_rewrites_reasons_only :
  forall (result : OptimizationResult.t) (week_data : WeekData.t),
    let result' := infeasibility._step5_classify_unassigned result week_data in
    Forall2 (fun d d' =>
               same_but_reason d d'
               /\ (d' = d \/ In (UnassignedDemand.reason d')
                                (diagnoses (UnassignedDemand.asset_type d)))
               /\ (Py.contains "available" (Py.lower (UnassignedDemand.reason d)) = true ->
                   d' = d))
            (OptimizationResult.unassigned_demands result)
            (OptimizationResult.unassigned_demands result')
    /\ OptimizationResult.set_unassigned_demands result'
         (OptimizationResult.unassigned_demands result) = result.
Proof.
  intros result wd result'. unfold result', infeasibility._step5_classify_unassigned.
  split.
  - simpl. apply Forall2_map_self. intros d. apply classify_cases.
  - destruct result; reflexivity.
Qed.

(** ** The trips of the preseason run *)

Lemma optimize_week_well_built (E : Externals) week_data dist_matrix constraints clusters
    timeout_ms pre :
  Forall (well_built week_data constraints)
         (OptimizationResult.trips
            (optimizer.optimize_week week_data dist_matrix constraints clusters
                                     timeout_ms pre)).
Proof.
  pose proof (optimize_week_vehicles E week_data dist_matrix constraints clusters
                timeout_ms pre) as [_ Hv].
  pose proof (optimize_week_crews E week_data dist_matrix constraints clusters
                timeout_ms pre) as [_ Hc].
  pose proof (optimize_week_sources E week_data dist_matrix constraints clusters
                timeout_ms pre) as Ha.
  pose proof (optimize_week_stops E week_data dist_matrix constraints clusters
                timeout_ms pre) as Hs.
  cbv zeta in Ha, Hs.
  rewrite List.Forall_forall in Hv, Hc, Ha, Hs. apply List.Forall_forall. intros t Ht.
  destruct (Hs t Ht) as [Hne Hstops].
  unfold well_built. auto.
Qed.

Lemma well_built_more_demands week_data constraints remaining trip :
  incl remaining (Constraints.demands constraints) ->
  well_built week_data (week0.pass_constraints constraints remaining) trip ->
  well_built week_data constraints trip.
Proof.
  intros Hincl (Hv & Hc & Ha & Hne & Hs).
  split; [exact Hv | split; [exact Hc | split; [| split; [exact Hne |]]]].
  - apply List.Forall_forall. intros ta Hta. rewrite List.Forall_forall in Ha.
    destruct (Ha ta Hta) as (a & (Hin & Hwhere & d & item & Hd & Hitem & Hfit) & Hrec).
    exists a. split; [| exact Hrec].
    split; [exact Hin | split].
    + destruct Hwhere as [Hhub | (Hsite & d0 & Hd0 & Hvenue)]; [left; exact Hhub |].
      right. split; [exact Hsite |]. exists d0. split; [apply Hincl, Hd0 | exact Hvenue].
    + exists d, item. split; [apply Hincl, Hd | auto].
  - apply List.Forall_forall. intros s Hs'. rewrite List.Forall_forall in Hs.
    destruct (Hs s Hs') as (Hact & Hret & d & Hd & Hin & Hvenue).
    split; [exact Hact | split; [exact Hret |]].
    exists d. split; [exact Hd | split; [apply Hincl, Hin | exact Hvenue]].
Qed.

Lemma pass_well_built (E : Externals) week_data dist_matrix constraints timeout_ms
    pass_num st :
  Forall (well_built week_data constraints)
         (OptimizationResult.trips (week0.combined st)) ->
  Forall (well_built week_data constraints)
         (OptimizationResult.trips
            (week0.combined
               (outcome_state (week0.pass week_data dist_matrix constraints timeout_ms
                                          (Constraints.demands constraints) pass_num st)))).
Proof.
  intros Hst. unfold week0.pass.
  destruct (Z.leb _ _); [simpl; exact Hst |].
  destruct (week0.remaining_demands (Constraints.demands constraints) (week0.served_set st))
    as [| d ds] eqn:Hrem; [simpl; exact Hst |].
  assert (Hincl : incl (d :: ds) (Constraints.demands constraints)).
  { rewrite <- Hrem. unfold week0.remaining_demands. intros x Hx.
    apply filter_In in Hx. apply Hx. }
  unfold week0.run_pass.
  destruct (clustering.cluster_venues _ _ _ _ _) as [| c cs]; [simpl; exact Hst |].
  match goal with
  | |- context [optimizer.optimize_week ?w ?m ?pc ?cl ?t ?pre] =>
      pose proof (optimize_week_well_built E w m pc cl t pre) as Hrun;
      set (result := optimizer.optimize_week w m pc cl t pre) in *
  end.
  assert (Hboth : Forall (well_built week_data constraints)
                         (OptimizationResult.trips (week0.combined st)
                          ++ OptimizationResult.trips result)).
  { apply Forall_app. split; [exact Hst |].
    apply List.Forall_forall. intros t Ht. rewrite List.Forall_forall in Hrun.
    apply (well_built_more_demands week_data constraints (d :: ds) t Hincl), Hrun, Ht. }
  destruct (Nat.eqb (length (OptimizationResult.trips result)) 0); [simpl; exact Hst |].
  destruct (Nat.eqb _ 0); [simpl; exact Hboth |].
  destruct (negb (OptimizationResult.has_unassigned result)); simpl; exact Hboth.
Qed.

Lemma passes_well_built (E : Externals) week_data dist_matrix constraints timeout_ms
    pass_nums :
  forall st,
    Forall (well_built week_data constraints)
           (OptimizationResult.trips (week0.combined st)) ->
    Forall (well_built week_data constraints)
           (OptimizationResult.trips
              (week0.combined
                 (week0.passes week_data dist_matrix constraints timeout_ms
                               (Constraints.demands constraints) pass_nums st))).
Proof.
  induction pass_nums as [| k rest IH]; intros st Hst; simpl; [exact Hst |].
  pose proof (pass_well_built E week_data dist_matrix constraints timeout_ms k st Hst)
    as Hpass.
  destruct (week0.pass week_data dist_matrix constraints timeout_ms
                       (Constraints.demands constraints) k st) as [st' | st'];
    simpl in Hpass; [exact Hpass | apply IH, Hpass].
Qed.

(** X23: every trip of the preseason run, from whichever pass, is a trip as
    a planner run builds it: an active vehicle based at the hub it starts
    from, a crew of at most two persons of that hub with the driver first,
    assets of the inventory that stand at that hub or on site and fit an
    item of a demand, at least one stop, and every stop a delivery for a
    demand of the constraints at the stop's venue. *)
Theorem optimize_week0_trips_are_well_built :
  forall (E : Externals) (week_data : WeekData.t) (dist_matrix : DistanceMatrix.t)
         (constraints : Constraints.t) (clusters : list VenueCluster.t)
         (timeout_ms : Z),
    Forall (well_built week_data constraints)
           (OptimizationResult.trips
              (week0.optimize_week0 week_data dist_matrix constraints clusters
                                    timeout_ms)).
Proof.
  intros E wd dm c clusters timeout.
  unfold week0.optimize_week0.
  cbn [OptimizationResult.set_status OptimizationResult.set_solve_time_ms
       OptimizationResult.trips].
  apply passes_well_built. constructor.
Qed.

(** ** How many trips a run can have *)

Lemma process_cluster_one_more week_data dist_matrix constraints st cluster :
  (length (OptimizationResult.trips
             (fst (optimizer.process_cluster week_data dist_matrix constraints st cluster)))
   <= S (length (OptimizationResult.trips (fst st))))%nat.
Proof.
  unfold optimizer.process_cluster. destruct st as [result u].
  destruct (optimizer._build_trip_for_cluster cluster week_data dist_matrix constraints u)
    as [[[trip unassigned] warnings] u'].
  destruct trip as [t |]; simpl; [rewrite length_app; simpl; lia | lia].
Qed.

Lemma process_clusters_count week_data dist_matrix constraints clusters :
  forall st,
    (length (OptimizationResult.trips
               (fst (fold_left (optimizer.process_cluster week_data dist_matrix constraints)
                               clusters st)))
     <= length (OptimizationResult.trips (fst st)) + length clusters)%nat.
Proof.
  induction clusters as [| c rest IH]; intros st; simpl; [lia |].
  specialize (IH (optimizer.process_cluster week_data dist_matrix constraints st c)).
  pose proof (process_cluster_one_more week_data dist_matrix constraints st c). lia.
Qed.

(** X24: a planner run builds at most one trip per cluster, and never more
    trips than the week has active vehicles. *)
Theorem optimize_week_trip_count :
  forall (E : Externals) (week_data : WeekData.t) (dist_matrix : DistanceMatrix.t)
         (constraints : Constraints.t) (clusters : list VenueCluster.t)
         (timeout_ms : Z) (pre_used_asset_ids : gset string),
    let result :=
      optimizer.optimize_week week_data dist_matrix constraints clusters timeout_ms
                              pre_used_asset_ids in
    (length (OptimizationResult.trips result) <= length clusters)%nat
    /\ (length (OptimizationResult.trips result)
        <= length (List.filter (fun v => String.eqb (Vehicle.status v) "active")
                               (WeekData.vehicles week_data)))%nat.
Proof.
  intros E wd dm c clusters timeout pre result. unfold result. split.
  - rewrite optimize_week_trips, List.length_map.
    pose proof (process_clusters_count wd dm c (processing_order c clusters)
                  (OptimizationResult.empty, optimizer.mk_used ∅ pre ∅)) as H.
    simpl in H. fold (after_clusters wd dm c clusters pre) in H.
    unfold processing_order in H.
    rewrite (Permutation_length (sort_desc_perm _ _)), List.length_map in H. exact H.
  - destruct (optimize_week_vehicles E wd dm c clusters timeout pre) as [Hnd Hall].
    cbv zeta in Hnd, Hall.
    set (trips := OptimizationResult.trips _) in *.
    transitivity (length (vehicle_ids_of trips));
      [unfold vehicle_ids_of; rewrite List.length_map; lia |].
    rewrite <- (List.length_map Vehicle.id
                  (List.filter (fun v => String.eqb (Vehicle.status v) "active")
                               (WeekData.vehicles wd))).
    apply submseteq_length, NoDup_submseteq; [exact Hnd |].
    intros x Hx. apply list_elem_of_In in Hx. apply list_elem_of_In.
    unfold vehicle_ids_of in Hx. apply in_map_iff in Hx. destruct Hx as (t & <- & Ht).
    rewrite List.Forall_forall in Hall.
    destruct (Hall t Ht) as (v & Hv & Hid & Hact & _).
    apply in_map_iff. exists v. split; [exact Hid |].
    apply filter_In. split; [exact Hv | apply String.eqb_eq, Hact].
Qed.

(** ** The haversine distance *)

Lemma sin_half_sq_sym (u v : R) :
  (sin (Py.radians (u - v) / 2) ^ 2 = sin (Py.radians (v - u) / 2) ^ 2)%R.
Proof.
  replace (Py.radians (u - v) / 2)%R with (- (Py.radians (v - u) / 2))%R
    by (unfold Py.radians; lra).
  rewrite sin_neg. ring.
Qed.

Lemma haversine_miles_sym (a b : LatLng.t) :
  clustering._haversine_miles a b = clustering._haversine_miles b a.
Proof.
  unfold clustering._haversine_miles. cbv zeta.
  rewrite (sin_half_sq_sym (Q2R (LatLng.lat b)) (Q2R (LatLng.lat a))),
          (sin_half_sq_sym (Q2R (LatLng.lng b)) (Q2R (LatLng.lng a))).
  rewrite (Rmult_comm (cos (Py.radians (Q2R (LatLng.lat a))))).
  reflexivity.
Qed.

Lemma haversine_miles_same (a b : LatLng.t) :
  LatLng.lat a = LatLng.lat b -> LatLng.lng a = LatLng.lng b ->
  clustering._haversine_miles a b = 0%R.
Proof.
  intros Hlat Hlng. unfold clustering._haversine_miles. cbv zeta.
  rewrite Hlat, Hlng.
  replace (Py.radians (Q2R (LatLng.lat b) - Q2R (LatLng.lat b)) / 2)%R with 0%R
    by (unfold Py.radians; lra).
  replace (Py.radians (Q2R (LatLng.lng b) - Q2R (LatLng.lng b)) / 2)%R with 0%R
    by (unfold Py.radians; lra).
  rewrite sin_0.
  replace (0 ^ 2 + cos (Py.radians (Q2R (LatLng.lat b)))
                   * cos (Py.radians (Q2R (LatLng.lat b))) * 0 ^ 2)%R with 0%R by ring.
  rewrite sqrt_0, asin_0. ring.
Qed.

(** X25: the haversine distance is a symmetric, non-negative distance that
    is 0 between points with the same coordinates and never exceeds half the
    circumference of the Earth (3959 pi miles); the copies of the formula in
    the clustering, lookahead and scoring modules compute the same number,
    and the estimate of the distance matrix is symmetric too. *)
Theorem haversine_is_symmetric :
  forall (a b : LatLng.t),
    clustering._haversine_miles a b = clustering._haversine_miles b a
    /\ (0 <= clustering._haversine_miles a b <= 3959 * PI)%R
    /\ (LatLng.lat a = LatLng.lat b -> LatLng.lng a = LatLng.lng b ->
        clustering._haversine_miles a b = 0%R)
    /\ lookahead._haversine_miles a b = clustering._haversine_miles a b
    /\ scoring._haversine_miles (LatLng.lat a) (LatLng.lng a)
                                (LatLng.lat b) (LatLng.lng b)
       = clustering._haversine_miles a b
    /\ DistanceMatrix._haversine_estimate a b = DistanceMatrix._haversine_estimate b a.
Proof.
  intros a b.
  split; [apply haversine_miles_sym |].
  split.
  { split; [apply haversine_miles_nonneg |].
    unfold clustering._haversine_miles. cbv zeta.
    match goal with |- (2 * 3959 * asin ?x <= _)%R => pose proof (asin_bound x) end.
    lra. }
  split; [apply haversine_miles_same |].
  split; [reflexivity |].
  split; [reflexivity |].
  rewrite !haversine_estimate_eq. unfold road_miles.
  rewrite (haversine_miles_sym a b). reflexivity.
Qed.

(** X26: without cache rows and without provider the matrix that
    [get_distance_matrix] builds is symmetric, [get] at (i, j) and at (j, i)
    agree, out of range as well as in range, and its diagonal is zero miles
    and zero minutes. *)
Theorem fallback_matrix_is_symmetric :
  forall (locations : list LatLng.t) (i j : nat),
    let m := distance_matrix.get_distance_matrix no_cache no_provider locations in
    DistanceMatrix.get m i j = DistanceMatrix.get m j i
    /\ ((i < length locations)%nat ->
        DistanceMatrix.get m i i = Some (DistanceEntry.mk 0.0 0.0)).
Proof.
  intros locs i j m.
  pose proof (get_distance_matrix_fallback_shaped locs) as Hshape. fold m in Hshape.
  split.
  - destruct (locs !! i) as [a |] eqn:Ha; destruct (locs !! j) as [b |] eqn:Hb.
    + rewrite (get_fallback_shaped locs m i j a b Hshape Ha Hb),
              (get_fallback_shaped locs m j i b a Hshape Hb Ha).
      rewrite (Nat.eqb_sym j i).
      destruct (Nat.eqb i j); [reflexivity |].
      rewrite !haversine_estimate_eq. unfold road_miles.
      rewrite (haversine_miles_sym a b). reflexivity.
    + destruct Hshape as (Hloc & _). unfold DistanceMatrix.get.
      rewrite Hloc, Ha, Hb. reflexivity.
    + destruct Hshape as (Hloc & _). unfold DistanceMatrix.get.
      rewrite Hloc, Ha, Hb. reflexivity.
    + destruct Hshape as (Hloc & _). unfold DistanceMatrix.get.
      rewrite Hloc, Ha, Hb. reflexivity.
  - intros Hi. destruct (lookup_lt_is_Some_2 _ _ Hi) as [a Ha].
    rewrite (get_fallback_shaped locs m i i a a Hshape Ha Ha), Nat.eqb_refl.
    reflexivity.
Qed.

(** ** The nearest hub *)

Lemma min_by_key_spec {A : Type} (key : A -> Q) (l : list A) :
  match Py.min_by (fun a b => Py.Qltb (key a) (key b)) l with
  | None => l = []
  | Some x =>
      exists i, l !! i = Some x
                /\ (forall y, In y l -> (key x <= key y)%Q)
                /\ (forall j y, (j < i)%nat -> l !! j = Some y -> (key x < key y)%Q)
  end.
Proof.
  induction l as [| x l IH]; simpl; [reflexivity |].
  destruct (Py.min_by _ l) as [y |].
  - destruct IH as (i & Hi & Hmin & Hfirst).
    pose proof (Qltb_spec (key y) (key x)) as Hcmp.
    destruct (Py.Qltb (key y) (key x)).
    + exists (S i). split; [exact Hi | split].
      * intros z [<- | Hz]; [apply Qlt_le_weak, Hcmp | apply Hmin, Hz].
      * intros [| j] z Hj Hz; simpl in Hz.
        -- injection Hz as <-. exact Hcmp.
        -- apply (Hfirst j z); [lia | exact Hz].
    + exists 0%nat. split; [reflexivity | split].
      * intros z [<- | Hz]; [apply Qle_refl |].
        apply (Qle_trans _ (key y)); [exact Hcmp | apply Hmin, Hz].
      * intros j z Hj. lia.
  - subst l. exists 0%nat. split; [reflexivity | split].
    + intros z [<- | []]. apply Qle_refl.
    + intros j z Hj. lia.
Qed.

(** The keys are compared as the doubles that the code computes: from the
    origin the hub at latitude [1 + 2^-52] is farther than the one at
    latitude 1, but both keys round to 17.0, and [min] keeps the first. *)
Lemma nearest_hub_of_equal_doubles :
  WeekData.nearest_hub tie_week origin_venue = Some tie_hub_1
  /\ WeekData.hub_sqdist origin tie_hub_1 = 17%Q
  /\ WeekData.hub_sqdist origin tie_hub_2 = 17%Q.
Proof. repeat split; vm_compute; reflexivity. Qed.


(** ** The venues of a week *)

Lemma game_venues_loop_spec (games : list Game.t) :
  forall (seen : gset string),
    exists keys,
      Forall2 (fun venue key =>
                 key <> ""
                 /\ exists game, In game games /\ Game.venue game = Some venue
                                 /\ Game.venue_id game = Some key)
              (WeekData.game_venues_loop games seen) keys
      /\ NoDup keys
      /\ (forall key, In key keys -> key ∉ seen)
      /\ (forall game venue key,
            In game games -> Game.venue game = Some venue ->
            Game.venue_id game = Some key -> key <> "" ->
            key ∈ seen \/ In key keys).
Proof.
  induction games as [| game games IH]; intros seen; simpl.
  - exists []. split; [constructor | split; [apply NoDup_nil_2 | split]].
    + intros key [].
    + intros game venue key [].
  - assert (Hweaken : forall venues keys,
              Forall2 (fun venue key =>
                 key <> ""
                 /\ exists g, In g games /\ Game.venue g = Some venue
                              /\ Game.venue_id g = Some key) venues keys ->
              Forall2 (fun venue key =>
                 key <> ""
                 /\ exists g, (game = g \/ In g games) /\ Game.venue g = Some venue
                              /\ Game.venue_id g = Some key) venues keys).
    { intros venues keys H. induction H as [| v k vs ks (Hk & g & Hg & Hv & Hi) _ IHf];
        constructor; [| exact IHf].
      split; [exact Hk |]. exists g. auto. }
    assert (Hskip : forall seen',
              seen' = seen ->
              (forall venue key, Game.venue game = Some venue ->
                                 Game.venue_id game = Some key -> key <> "" ->
                                 key ∈ seen) ->
              exists keys,
                Forall2 (fun venue key =>
                   key <> ""
                   /\ exists g, (game = g \/ In g games) /\ Game.venue g = Some venue
                                /\ Game.venue_id g = Some key)
                  (WeekData.game_venues_loop games seen') keys
                /\ NoDup keys
                /\ (forall key, In key keys -> key ∉ seen)
                /\ (forall g venue key,
                      game = g \/ In g games -> Game.venue g = Some venue ->
                      Game.venue_id g = Some key -> key <> "" ->
                      key ∈ seen \/ In key keys)).
    { intros seen' -> Hthis. destruct (IH seen) as (keys & H1 & H2 & H3 & H4).
      exists keys. split; [apply Hweaken, H1 | split; [exact H2 | split; [exact H3 |]]].
      intros g venue key [<- | Hg] Hv Hk Hne;
        [left; apply (Hthis venue key Hv Hk Hne) | apply (H4 g venue key Hg Hv Hk Hne)]. }
    destruct (Game.venue game) as [venue |] eqn:Hvenue;
      [| apply Hskip; [reflexivity | discriminate]].
    destruct (Game.venue_id game) as [vid |] eqn:Hvid;
      [| apply Hskip; [reflexivity | discriminate]].
    destruct (String.eqb vid "") eqn:Hempty; simpl.
    { apply String.eqb_eq in Hempty. apply Hskip; [reflexivity |].
      intros v k _ [= <-] Hne. contradiction. }
    apply String.eqb_neq in Hempty.
    destruct (Py.mem vid seen) eqn:Hmem; simpl.
    { apply mem_true in Hmem. apply Hskip; [reflexivity |].
      intros v k _ [= <-] _. exact Hmem. }
    apply mem_false in Hmem.
    destruct (IH ({[vid]} ∪ seen)) as (keys & H1 & H2 & H3 & H4).
    exists (vid :: keys). split; [| split; [| split]].
    + constructor; [| apply Hweaken, H1].
      split; [exact Hempty |]. exists game. auto.
    + apply NoDup_cons_2; [| exact H2].
      intros Hin. apply list_elem_of_In in Hin. apply (H3 vid Hin). set_solver.
    + intros key [<- | Hkey]; [exact Hmem |].
      intros Hin. apply (H3 key Hkey). set_solver.
    + intros g v k [<- | Hg] Hv Hk Hne.
      * rewrite Hvid in Hk. injection Hk as <-. right. left. reflexivity.
      * destruct (H4 g v k Hg Hv Hk Hne) as [Hs | Hs]; [| right; right; exact Hs].
        apply elem_of_union in Hs. destruct Hs as [Hs | Hs]; [| left; exact Hs].
        apply elem_of_singleton in Hs. right. left. auto.
Qed.

(** X28: [game_venues] lists the venues of the week's games once per venue
    id: every venue of the list is the venue of a game played under a
    non-empty venue id, these ids are pairwise distinct, and every non-empty
    venue id under which a game with a venue is played is one of them. *)
Theorem game_venues_once_per_venue_id :
  forall (week_data : WeekData.t),
    exists keys,
      Forall2 (venue_of_game week_data) (WeekData.game_venues week_data) keys
      /\ NoDup keys
      /\ (forall game venue key,
            In game (WeekData.games week_data) -> Game.venue game = Some venue ->
            Game.venue_id game = Some key -> key <> "" -> In key keys).
Proof.
  intros wd. unfold WeekData.game_venues.
  destruct (game_venues_loop_spec (WeekData.games wd) ∅) as (keys & H1 & H2 & _ & H4).
  exists keys. split; [exact H1 | split; [exact H2 |]].
  intros game venue key Hg Hv Hk Hne.
  destruct (H4 game venue key Hg Hv Hk Hne) as [Hs | Hs]; [set_solver | exact Hs].
Qed.

(** ** The order in which the clusters get their vehicles *)

Lemma insert_desc_sorted {A : Type} (key : A -> Q) (x : A) (l : list A) :
  (forall i j a b, (i < j)%nat -> l !! i = Some a -> l !! j = Some b ->
                   (key b <= key a)%Q) ->
  forall i j a b,
    (i < j)%nat ->
    Py.insert_desc (fun a b => Py.Qltb (key a) (key b)) x l !! i = Some a ->
    Py.insert_desc (fun a b => Py.Qltb (key a) (key b)) x l !! j = Some b ->
    (key b <= key a)%Q.
Proof.
  induction l as [| y l IH]; intros Hsorted i j a b Hij Ha Hb; simpl in Ha, Hb.
  - destruct i; destruct j; try lia; simpl in Hb; rewrite lookup_nil in Hb; discriminate.
  - assert (Htail : forall i j a b, (i < j)%nat -> l !! i = Some a -> l !! j = Some b ->
                                    (key b <= key a)%Q).
    { intros i' j' a' b' Hij' Ha' Hb'.
      apply (Hsorted (S i') (S j') a' b'); [lia | exact Ha' | exact Hb']. }
    assert (Hhead : forall z, In z l -> (key z <= key y)%Q).
    { intros z Hz. apply list_elem_of_In, list_elem_of_lookup_1 in Hz.
      destruct Hz as [k Hk]. apply (Hsorted 0%nat (S k) y z); [lia | reflexivity | exact Hk]. }
    pose proof (Qltb_spec (key y) (key x)) as Hcmp.
    destruct (Py.Qltb (key y) (key x)).
    + destruct i as [| i]; simpl in Ha.
      * injection Ha as <-. destruct j as [| j]; [lia |]. simpl in Hb.
        destruct j as [| j]; simpl in Hb.
        -- injection Hb as <-. apply Qlt_le_weak, Hcmp.
        -- apply list_elem_of_lookup_2, list_elem_of_In in Hb.
           apply (Qle_trans _ (key y)); [apply Hhead, Hb | apply Qlt_le_weak, Hcmp].
      * destruct j as [| j]; [lia |]. simpl in Hb.
        apply (Hsorted i j a b); [lia | exact Ha | exact Hb].
    + destruct i as [| i]; simpl in Ha.
      * injection Ha as <-. destruct j as [| j]; [lia |]. simpl in Hb.
        apply list_elem_of_lookup_2, list_elem_of_In in Hb.
        apply (Permutation_in _ (insert_desc_perm _ x l)) in Hb.
        destruct Hb as [<- | Hb]; [exact Hcmp | apply Hhead, Hb].
      * destruct j as [| j]; [lia |]. simpl in Hb.
        apply (IH Htail i j a b); [lia | exact Ha | exact Hb].
Qed.

Lemma sort_desc_sorted {A : Type} (key : A -> Q) (l : list A) :
  forall i j a b,
    (i < j)%nat ->
    Py.sort_desc (fun a b => Py.Qltb (key a) (key b)) l !! i = Some a ->
    Py.sort_desc (fun a b => Py.Qltb (key a) (key b)) l !! j = Some b ->
    (key b <= key a)%Q.
Proof.
  unfold Py.sort_desc.
  assert (H : forall acc,
            (forall i j a b, (i < j)%nat -> acc !! i = Some a -> acc !! j = Some b ->
                             (key b <= key a)%Q) ->
            forall i j a b, (i < j)%nat ->
              fold_left (fun acc x => Py.insert_desc (fun a b => Py.Qltb (key a) (key b))
                                                     x acc) l acc !! i = Some a ->
              fold_left (fun acc x => Py.insert_desc (fun a b => Py.Qltb (key a) (key b))
                                                     x acc) l acc !! j = Some b ->
              (key b <= key a)%Q).
  { induction l as [| x l IH]; intros acc Hacc; simpl; [exact Hacc |].
    apply IH. apply insert_desc_sorted, Hacc. }
  apply H. intros i j a b _ Ha. rewrite lookup_nil in Ha. discriminate.
Qed.

Lemma fold_fadd_filter (demands : list Demand.t) (p : Demand.t -> bool) :
  forall total,
    fold_left (fun total demand =>
                 if p demand then Py.fadd total (Demand.total_weight_lbs demand) else total)
              demands total
    = fold_left Py.fadd (List.map Demand.total_weight_lbs (List.filter p demands)) total.
Proof.
  induction demands as [| d rest IH]; intros total; simpl; [reflexivity |].
  destruct (p d); simpl; apply IH.
Qed.

Lemma cluster_demand_weight_sum (constraints : Constraints.t) (cluster : VenueCluster.t) :
  optimizer.cluster_demand_weight constraints cluster
  = float_sum (demand_weights_at constraints cluster).
Proof.
  unfold optimizer.cluster_demand_weight, float_sum, demand_weights_at.
  generalize 0.0%Q as total.
  induction (VenueCluster.venues cluster) as [| venue rest IH]; intros total; simpl;
    [reflexivity |].
  rewrite fold_left_app, <- fold_fadd_filter. apply IH.
Qed.

(** X29: [optimize_week] hands out vehicles, assets and crews to the
    clusters heaviest first: the order in which it processes them is a
    permutation of the clusters in which no cluster comes before one with a
    greater total demand weight, and the weight that a cluster is sorted by
    is the floating-point sum of the weights of the demands at its venues. *)
Theorem optimize_week_processes_heaviest_first :
  forall (E : Externals) (week_data : WeekData.t) (dist_matrix : DistanceMatrix.t)
         (constraints : Constraints.t) (clusters : list VenueCluster.t)
         (timeout_ms : Z) (pre_used_asset_ids : gset string),
    let order := processing_order constraints clusters in
    OptimizationResult.trips
      (optimizer.optimize_week week_data dist_matrix constraints clusters timeout_ms
                               pre_used_asset_ids)
    = List.map (reorder_trip dist_matrix timeout_ms)
        (OptimizationResult.trips
           (fst (fold_left (optimizer.process_cluster week_data dist_matrix constraints)
                           order
                           (OptimizationResult.empty,
                            optimizer.mk_used ∅ pre_used_asset_ids ∅))))
    /\ Permutation (List.map VenueCluster.venues order)
                   (List.map VenueCluster.venues clusters)
    /\ heaviest_first order
    /\ Forall (fun cluster =>
                 VenueCluster.total_demand_weight cluster
                 = float_sum (demand_weights_at constraints cluster)) order.
Proof.
  intros E wd dm c clusters timeout pre order.
  split; [apply optimize_week_trips |].
  unfold order, processing_order.
  split; [| split].
  - rewrite (sort_desc_perm _ _), List.map_map. simpl. reflexivity.
  - unfold heaviest_first. apply (sort_desc_sorted VenueCluster.total_demand_weight).
  - apply List.Forall_forall. intros cluster Hin.
    apply (Permutation_in _ (sort_desc_perm _ _)) in Hin.
    apply in_map_iff in Hin. destruct Hin as (cl & <- & _).
    exact (cluster_demand_weight_sum c cl).
Qed.

(** ** Games nearby *)

Lemma Rltb_spec (x y : R) : if Py.Rltb x y then (x < y)%R else (y <= x)%R.
Proof. unfold Py.Rltb. destruct (Rlt_dec x y); lra. Qed.

Lemma nearby_scan_spec (miles_to : LatLng.t -> R) max_distance_miles games :
  forall prior best_game best_distance,
    first_nearest_within miles_to max_distance_miles prior best_game ->
    match best_game with
    | Some game => exists d, best_distance = Py.Fin d /\ game_miles miles_to game = Some d
    | None => best_distance = Py.Inf
    end ->
    first_nearest_within miles_to max_distance_miles (prior ++ games)
      (lookahead.nearby_scan miles_to max_distance_miles games best_game best_distance).
Proof.
  induction games as [| game rest IH]; intros prior best bd Hinv Hbd; simpl.
  - rewrite app_nil_r. exact Hinv.
  - replace (prior ++ game :: rest) with ((prior ++ [game]) ++ rest)
      by (rewrite <- app_assoc; reflexivity).
    assert (Hkeep : (forall d, game_miles miles_to game = Some d ->
                               match best with
                               | Some g0 => exists d0, game_miles miles_to g0 = Some d0
                                                       /\ (d0 <= d)%R
                               | None => (max_distance_miles <= d)%R
                               end) ->
                    first_nearest_within miles_to max_distance_miles (prior ++ [game]) best).
    { intros Hg. destruct best as [g0 |]; simpl in *.
      - destruct Hinv as (before & after & d0 & Hsplit & Hd0 & Hlt & Hbefore & Hafter).
        exists before, (after ++ [game]), d0.
        split; [rewrite Hsplit, <- app_assoc; reflexivity |].
        split; [exact Hd0 | split; [exact Hlt | split; [exact Hbefore |]]].
        intros g' d' Hg' Hd'. apply in_app_iff in Hg'.
        destruct Hg' as [Hg' | [<- | []]]; [apply (Hafter g' d' Hg' Hd') |].
        destruct (Hg d' Hd') as (d0' & Hd0' & Hle).
        assert (d0' = d0) by congruence. subst d0'. exact Hle.
      - intros g' d' Hg' Hd'. apply in_app_iff in Hg'.
        destruct Hg' as [Hg' | [<- | []]]; [apply (Hinv g' d' Hg' Hd') |].
        apply (Hg d' Hd'). }
    unfold game_miles in Hkeep at 1.
    destruct (Game.venue game) as [gv |] eqn:Hgv;
      [| apply IH; [apply Hkeep; discriminate | exact Hbd]].
    destruct (Venue.location gv) as [gloc |] eqn:Hgloc;
      [| apply IH; [apply Hkeep; discriminate | exact Hbd]].
    assert (Hdist : game_miles miles_to game = Some (miles_to gloc))
      by (unfold game_miles; rewrite Hgv, Hgloc; reflexivity).
    set (d := miles_to gloc) in *.
    pose proof (Rltb_spec d max_distance_miles) as Hmax.
    destruct (Py.Rltb d max_distance_miles); simpl.
    + destruct best as [g0 |].
      * destruct Hbd as (d0 & -> & Hd0). simpl.
        pose proof (Rltb_spec d d0) as Hcmp.
        destruct (Py.Rltb d d0).
        -- apply IH; [| exists d; auto].
           destruct Hinv as (before & after & d0' & Hsplit & Hd0' & Hlt & Hbefore & Hafter).
           assert (d0' = d0) by congruence. subst d0'.
           exists prior, [], d.
           split; [reflexivity | split; [exact Hdist | split; [exact Hmax | split]]].
           ++ intros g' d' Hg' Hd'. rewrite Hsplit in Hg'. apply in_app_iff in Hg'.
              destruct Hg' as [Hg' | [<- | Hg']].
              ** specialize (Hbefore g' d' Hg' Hd'). lra.
              ** assert (d' = d0) by congruence. lra.
              ** specialize (Hafter g' d' Hg' Hd'). lra.
           ++ intros g' d' [].
        -- apply IH; [| exists d0; auto].
           apply Hkeep. intros d' Hd'. exists d0. split; [exact Hd0 |].
           assert (d' = d) by congruence. lra.
      * subst bd. simpl. apply IH; [| exists d; auto].
        exists prior, [], d.
        split; [reflexivity | split; [exact Hdist | split; [exact Hmax | split]]].
        -- intros g' d' Hg' Hd'. specialize (Hinv g' d' Hg' Hd'). lra.
        -- intros g' d' [].
    + apply IH; [| exact Hbd].
      apply Hkeep. intros d' Hd'.
      assert (d' = d) by congruence. subst d'.
      destruct best as [g0 |]; [| exact Hmax].
      destruct Hbd as (d0 & _ & Hd0). exists d0. split; [exact Hd0 |].
      destruct Hinv as (before & after & d0' & _ & Hd0' & Hlt & _).
      assert (d0' = d0) by congruence. lra.
Qed.

(** X30: the search of [_find_nearby_game_next_week] returns the game of
    next week whose venue is the nearest and less than the maximal distance
    away, the first one of several that are equally near, and [None] when
    no game with a located venue is that near.  This holds for whatever
    miles the haversine formula returns ([miles_to]); the function itself
    runs the search with [_haversine_miles] from the venue's coordinates,
    and returns [None] for a venue without coordinates. *)
Theorem find_nearby_game_is_the_nearest :
  forall (venue : Venue.t) (next_week_games : list Game.t) (max_distance_miles : R),
    (forall miles_to : LatLng.t -> R,
       first_nearest_within miles_to max_distance_miles next_week_games
         (lookahead.nearby_scan miles_to max_distance_miles next_week_games None Py.Inf))
    /\ lookahead._find_nearby_game_next_week venue next_week_games max_distance_miles
       = match Venue.location venue with
         | Some loc =>
             lookahead.nearby_scan (lookahead._haversine_miles loc) max_distance_miles
                                   next_week_games None Py.Inf
         | None => None
         end.
Proof.
  intros venue games max. split; [| reflexivity].
  intros miles_to.
  apply (nearby_scan_spec miles_to max games [] None Py.Inf); [| reflexivity].
  intros g d [].
Qed.
